(** * DLite: a shallow embedding of the instance/metadata runtime

    The development follows the C sources file by file:
    - [Uuid]       : getuuid.c (getuuid, getuuidn),
    - [Url]        : dlite.c (dlite_join_metadata, dlite_split_metadata),
    - [Collection] : dlite-collection.c on top of a triple store,
    - [Entity]     : dlite-entity.c (instances, entities, reference counts),
    - [Datamodel]  : dlite-datamodel.c (dlite_copy_to_flat / _to_nested).

    Conventions.  A C string is the list of its bytes without the
    terminating NUL.  A pointer that may be NULL is an [option].  A call
    that reads or writes outside an object has no defined result and is
    modelled by [Undefined].  Each call of malloc/calloc/strdup asks an
    [oracle] whether it succeeds. *)

From Stdlib Require Import ZArith Ascii String List Lia Bool.
From stdpp Require Import base option list gmap.

Open Scope Z_scope.

(** ** Common definitions *)

Abbreviation cstr := (list ascii).

(** Literal C strings are written [cs "..."]. *)
Definition cs (s : string) : cstr := list_ascii_of_string s.

Definition NUL : ascii := Ascii.zero.
Definition slash : ascii := "/"%char.

(** Result of a C call: either it returns a value, or its behaviour is
    undefined (an access outside an object, a NULL dereference, a signed
    overflow). *)
Inductive outcome (A : Type) : Type :=
| Done (a : A)
| Undefined.
Arguments Done {A} a.
Arguments Undefined {A}.

#[global] Instance outcome_ret : MRet outcome := fun A a => Done a.
#[global] Instance outcome_bind : MBind outcome := fun A B f x =>
  match x with
  | Done a => f a
  | Undefined => Undefined
  end.

(** The allocator oracle: one boolean per allocation request, consumed in
    program order; [true] grants the request.  An exhausted oracle grants
    everything, so [[]] is the run in which no allocation fails. *)
Abbreviation oracle := (list bool).

Definition alloc_ok (o : oracle) : bool * oracle :=
  match o with
  | [] => (true, [])
  | b :: o' => (b, o')
  end.

Definition INT_MAX : Z := 2147483647.
Definition SIZE_MOD : Z := 2 ^ 64.

Definition Zlen {A} (l : list A) : Z := Z.of_nat (length l).

(** ** dlite.c: metadata urls *)
Module Url.

(** [strrchr s c] for a character [c] other than NUL: index of the last
    occurrence of [c], or [None] for the NULL result. *)
Fixpoint strrchr (s : cstr) (c : ascii) : option nat :=
  match s with
  | [] => None
  | x :: t =>
      match strrchr t c with
      | Some i => Some (S i)
      | None => if Ascii.eqb x c then Some O else None
      end
  end.

(** [char_at s q] is the byte read by [*q] when [q] points [q] bytes past
    the start of [s]; the terminating NUL is readable, nothing else outside
    the string is. *)
Definition char_at (s : cstr) (q : Z) : option ascii :=
  if q <? 0 then None
  else if q =? Zlen s then Some NUL
  else s !! Z.to_nat q.

(** The loop [while ( *q != '/' && q > metadata) q--;] of
    dlite_split_metadata.  [fuel] bounds the number of decrements. *)
Fixpoint scan_back (s : cstr) (fuel : nat) (q : Z) : outcome Z :=
  match char_at s q with
  | None => Undefined
  | Some c =>
      if negb (Ascii.eqb c slash) && (q >? 0) then
        match fuel with
        | O => Undefined
        | S fuel' => scan_back s fuel' (q - 1)
        end
      else Done q
  end.

(** [memcpy(dst, s + off, n)] seen from the source side. *)
Definition substr (s : cstr) (off n : Z) : cstr :=
  take (Z.to_nat n) (drop (Z.to_nat off) s).

(** dlite_join_metadata: [None] is the NULL returned when malloc fails. *)
Definition dlite_join_metadata (o : oracle) (name version namespace : cstr)
  : outcome (option cstr) :=
  let size := Zlen name + Zlen version + Zlen namespace + 3 in
  if size >? INT_MAX then Undefined
  else
    let '(ok, _) := alloc_ok o in
    if ok then Done (Some (namespace ++ slash :: version ++ slash :: name))
    else Done None.

(** What dlite_split_metadata stores through its three output pointers. *)
Record split_out := SplitOut {
  out_name : option cstr;
  out_version : option cstr;
  out_namespace : option cstr
}.

Definition no_out : split_out := SplitOut None None None.

(** dlite_split_metadata.  The booleans tell which of [name], [version]
    and [namespace] are non-NULL.  The result is the return value and the
    strings stored (nothing is stored on the [fail] path). *)
Definition dlite_split_metadata (o : oracle) (metadata : cstr)
    (name version namespace : bool) : outcome (Z * split_out) :=
  match strrchr metadata slash with
  | None => Done (1, no_out)
  | Some pn =>
      let p := Z.of_nat pn in
      q ← scan_back metadata (length metadata) (p - 1);
      if q =? 0 then Done (1, no_out)
      else
        let '(ok1, o1) := if name then alloc_ok o else (true, o) in
        if negb ok1 then Done (1, no_out)
        else
          let namep := if name then Some (drop (S pn) metadata) else None in
          let '(ok2, o2) := if version then alloc_ok o1 else (true, o1) in
          if negb ok2 then Done (1, no_out)
          else
            let versionp :=
              if version then Some (substr metadata (q + 1) (p - q - 1))
              else None in
            let '(ok3, _) := if namespace then alloc_ok o2 else (true, o2) in
            if negb ok3 then Done (1, no_out)
            else
              let namespacep :=
                if namespace then Some (substr metadata 0 (q + 1 - 1))
                else None in
              Done (0, SplitOut namep versionp namespacep)
  end.

End Url.

(** ** getuuid.c: identity *)
Module Uuid.

Definition UUID_LEN : nat := 36.

(** [tolower] of the C locale. *)
Definition tolower (c : ascii) : ascii :=
  let n := nat_of_ascii c in
  if ((65 <=? n) && (n <=? 90))%nat then ascii_of_nat (n + 32) else c.

Definition isxdigit (c : ascii) : bool :=
  let n := nat_of_ascii c in
  (((48 <=? n) && (n <=? 57)) || ((65 <=? n) && (n <=? 70))
   || ((97 <=? n) && (n <=? 102)))%nat.

Definition is_hyphen_pos (i : nat) : bool :=
  ((i =? 8) || (i =? 13) || (i =? 18) || (i =? 23))%nat.

(** Characters [i], [i+1], ... of a canonical UUID: hyphens at 8, 13, 18
    and 23, hexadecimal digits elsewhere. *)
Fixpoint uuid_chars (i : nat) (s : cstr) : bool :=
  match s with
  | [] => true
  | c :: t =>
      (if is_hyphen_pos i then Ascii.eqb c "-"%char else isxdigit c)
      && uuid_chars (S i) t
  end.

(** A canonical UUID string: 36 characters in the 8-4-4-4-12 layout. *)
Definition canonical_uuid (s : cstr) : bool :=
  (length s =? 36)%nat && uuid_chars 0 s.

(** Modelled from the spec: utils/uuid.c is not among the sources; the
    spec calls a string a valid UUID when it has "36 chars, correct
    hyphens/hex".  [uuid_from_string NULL s len] parses the first [len]
    bytes of [s] and returns zero exactly for such a string. *)
Definition uuid_from_string (s : cstr) (len : Z) : Z :=
  if canonical_uuid (take (Z.to_nat len) s) then 0 else 1.

(** The rest of utils/uuid.c and utils/uuid4.c is kept abstract:
    [uuid4_generate r] is the status returned and the 37 bytes left in
    [buff] when the random source is in state [r]; [uuid_as_string] prints
    the 36 characters of a uuid (followed in [buff] by NUL). *)
Class UuidLib := {
  rng : Type;
  uuid4_generate : rng -> Z * list ascii;
  uuid_s : Type;
  NameSpace_DNS : uuid_s;
  uuid_create_sha1_from_name : uuid_s -> cstr -> uuid_s;
  uuid_as_string : uuid_s -> cstr;
  uuid_as_string_length : forall u, length (uuid_as_string u) = 36%nat
}.

(** [strncpy(buff, id, n)]: [n] bytes, padded with NUL. *)
Definition strncpy (id : cstr) (n : nat) : list ascii :=
  take n id ++ replicate (n - length id) NUL.

(** The closing loop [for (i=0; i < UUID_LEN; i++) buff[i] = tolower(buff[i])]. *)
Definition lower_buff (buff : list ascii) : list ascii :=
  map tolower (take UUID_LEN buff) ++ drop UUID_LEN buff.

Section getuuid.
Context `{UuidLib}.

(** getuuidn, for [len <= strlen(id)].  [buff] is only written: the result
    is the version and the 37 bytes the call leaves in [buff]. *)
Definition getuuidn (r : rng) (id : option cstr) (len : Z) : Z * list ascii :=
  let id := if len =? 0 then None else id in
  let '(version, buff) :=
    match id with
    | None | Some [] =>
        let '(status, b) := uuid4_generate r in
        (if status =? 0 then 4 else -1, b)
    | Some s =>
        if negb (uuid_from_string s len =? 0) then
          let uuid :=
            uuid_create_sha1_from_name NameSpace_DNS (take (Z.to_nat len) s) in
          (5, uuid_as_string uuid ++ [NUL])
        else (0, strncpy s UUID_LEN ++ [NUL])
    end in
  (version, lower_buff buff).

Definition getuuid (r : rng) (id : option cstr) : Z * list ascii :=
  getuuidn r id (match id with Some s => Zlen s | None => 0 end).

(** dlite.c: dlite_get_uuid. *)
Definition dlite_get_uuid (r : rng) (id : option cstr) : Z * list ascii :=
  getuuid r id.

End getuuid.

(** A toy instance used to run the definitions: the random source is the
    string it will produce, and the "hash" prints a fixed uuid whose first
    character is taken from the name. *)
Definition toy_print (s : cstr) : cstr :=
  take 36 (take 1 s ++ cs "B1d4c6e8-0000-5000-8000-00000000AbCd00").

Lemma toy_print_length s : length (toy_print s) = 36%nat.
Proof.
  unfold toy_print. rewrite length_take, length_app.
  change (length (cs "B1d4c6e8-0000-5000-8000-00000000AbCd00")) with 38%nat.
  lia.
Qed.

Definition toy_lib : UuidLib := {|
  rng := Z * cstr;
  uuid4_generate := fun r => (fst r, snd r ++ [NUL]);
  uuid_s := cstr;
  NameSpace_DNS := [];
  uuid_create_sha1_from_name := fun ns name => ns ++ name;
  uuid_as_string := toy_print;
  uuid_as_string_length := toy_print_length
|}.

End Uuid.

(** ** The heap of the entity and instance runtime *)
Module Mem.

Abbreviation loc := positive.

(** A pointer: NULL or the address of a block. *)
Abbreviation ptr := (option loc).

Inductive DLiteType :=
| dliteBlob | dliteBool | dliteInt | dliteUInt | dliteFloat
| dliteFixString | dliteStringPtr.

Definition DLiteType_eqb (a b : DLiteType) : bool :=
  match a, b with
  | dliteBlob, dliteBlob | dliteBool, dliteBool | dliteInt, dliteInt
  | dliteUInt, dliteUInt | dliteFloat, dliteFloat
  | dliteFixString, dliteFixString | dliteStringPtr, dliteStringPtr => true
  | _, _ => false
  end.

(** struct DLiteDimension: two string pointers. *)
Record DLiteDimension := mkDim {
  d_name : ptr;
  d_description : ptr
}.

(** struct DLiteProperty (DLiteBaseProperty followed by [unit]). *)
Record DLiteProperty := mkProp {
  p_name : ptr;
  p_type : DLiteType;
  p_size : Z;
  p_ndims : Z;
  p_dims : ptr;
  p_description : ptr;
  p_unit : ptr
}.

(** One slot of an instance or one element of a property array:
    all-zero bytes (as calloc leaves them, also a NULL pointer), a
    pointer, or other data. *)
Inductive cell :=
| CZero
| CPtr (a : loc)
| CData (bs : list Z).

(** An instance block: the header, then the slots found through
    [dimoffset] and [propoffsets[i]].  The slots are kept as separate
    fields: the layout computed by dlite_meta_postinit makes them
    disjoint. *)
Record DLiteInstance := mkInst {
  i_uuid : list ascii;
  i_uri : ptr;
  i_meta : ptr;
  i_dimensions : list Z;
  i_properties : list cell
}.

(** DLiteMeta_HEAD, shared by DLiteMeta and DLiteEntity. *)
Record DLiteMeta := mkMeta {
  m_uuid : list ascii;
  m_uri : ptr;
  m_meta : ptr;
  m_description : ptr;
  m_size : Z;
  m_dimoffset : Z;
  m_propoffsets : ptr;
  m_reloffset : Z;
  m_refcount : Z;
  m_dimensions : ptr;
  m_properties : ptr;
  m_relations : ptr;
  m_ndimensions : Z;
  m_nproperties : Z;
  m_nrelations : Z
}.

(** Allocated objects. *)
Inductive block :=
| BString (s : cstr)                  (* char[] holding a string *)
| BInts (l : list Z)                  (* int[]: the dims[] of a property *)
| BSizes (l : list Z)                 (* size_t[]: propoffsets *)
| BDims (l : list DLiteDimension)     (* DLiteDimension[] *)
| BProps (l : list DLiteProperty)     (* DLiteProperty[], also a single one *)
| BPropPtrs (l : list ptr)            (* DLiteBaseProperty*[] *)
| BArray (size : Z) (cells : list cell) (* calloc(nmemb, size) *)
| BRelations
| BMeta (m : DLiteMeta)
| BInst (i : DLiteInstance).

Abbreviation heap := (gmap loc block).

Record state := State {
  st_oracle : oracle;
  st_heap : heap
}.

(** Result of a function body: a value, or a jump to its [fail] label. *)
Inductive res (A : Type) : Type :=
| Ok (a : A)
| Fail.
Arguments Ok {A} a.
Arguments Fail {A}.

(** Computations over the allocator oracle and the heap. *)
Definition M (A : Type) : Type := state -> outcome (res A * state).

#[global] Instance M_ret : MRet M := fun A a s => Done (Ok a, s).
#[global] Instance M_bind : MBind M := fun A B f x s =>
  match x s with
  | Done (Ok a, s') => f a s'
  | Done (Fail, s') => Done (Fail, s')
  | Undefined => Undefined
  end.

Definition FAIL {A} : M A := fun s => Done (Fail, s).
Definition undef {A} : M A := fun _ => Undefined.

(** [catch x handler]: the code after the [fail] label. *)
Definition catch {A} (x : M A) (handler : M A) : M A := fun s =>
  match x s with
  | Done (Fail, s') => handler s'
  | r => r
  end.

Definition load (l : loc) : M block := fun s =>
  match st_heap s !! l with
  | Some b => Done (Ok b, s)
  | None => Undefined
  end.

Definition store (l : loc) (b : block) : M unit := fun s =>
  match st_heap s !! l with
  | Some _ => Done (Ok tt, State (st_oracle s) (<[l:=b]> (st_heap s)))
  | None => Undefined
  end.

(** malloc/calloc/strdup of an object [b]: NULL when the oracle refuses. *)
Definition malloc (b : block) : M ptr := fun s =>
  let '(ok, o) := alloc_ok (st_oracle s) in
  if ok then
    let l := fresh (dom (st_heap s)) in
    Done (Ok (Some l), State o (<[l:=b]> (st_heap s)))
  else Done (Ok None, State o (st_heap s)).

(** free: no-op on NULL, undefined on an address that is not allocated. *)
Definition free (p : ptr) : M unit :=
  match p with
  | None => mret tt
  | Some l => fun s =>
      match st_heap s !! l with
      | Some _ => Done (Ok tt, State (st_oracle s) (delete l (st_heap s)))
      | None => Undefined
      end
  end.

Definition deref (p : ptr) : M block :=
  match p with
  | Some l => load l
  | None => undef
  end.

Definition load_meta (p : ptr) : M DLiteMeta :=
  b ← deref p; match b with BMeta m => mret m | _ => undef end.

Definition load_inst (p : ptr) : M DLiteInstance :=
  b ← deref p; match b with BInst i => mret i | _ => undef end.

Definition load_string (p : ptr) : M cstr :=
  b ← deref p; match b with BString s => mret s | _ => undef end.

Definition load_ints (p : ptr) : M (list Z) :=
  b ← deref p; match b with BInts l => mret l | _ => undef end.

Definition load_sizes (p : ptr) : M (list Z) :=
  b ← deref p; match b with BSizes l => mret l | _ => undef end.

Definition load_dims (p : ptr) : M (list DLiteDimension) :=
  b ← deref p; match b with BDims l => mret l | _ => undef end.

Definition load_props (p : ptr) : M (list DLiteProperty) :=
  b ← deref p; match b with BProps l => mret l | _ => undef end.

Definition load_propptrs (p : ptr) : M (list ptr) :=
  b ← deref p; match b with BPropPtrs l => mret l | _ => undef end.

Definition load_array (p : ptr) : M (Z * list cell) :=
  b ← deref p; match b with BArray sz l => mret (sz, l) | _ => undef end.

(** [a[i]] for an index of any sign. *)
Definition index {A} (l : list A) (i : Z) : M A :=
  if i <? 0 then undef
  else match l !! Z.to_nat i with
       | Some x => mret x
       | None => undef
       end.

(** Conversion to [int] (32 bits, two's complement). *)
Definition to_int (z : Z) : Z := (z + 2 ^ 31) mod 2 ^ 32 - 2 ^ 31.

(** [strdup s]. *)
Definition strdup (s : cstr) : M ptr := malloc (BString s).

(** [calloc(nmemb, size)] for a property array: NULL when the product
    does not fit [size_t]. *)
Definition calloc_array (nmemb size : Z) : M ptr :=
  if nmemb * size >=? SIZE_MOD then mret None
  else malloc (BArray size (replicate (Z.to_nat nmemb) CZero)).

(** A computation that only reads blocks of kind [K]: it returns in the
    state it was called in, never jumps to [fail], and gives the same
    result in every heap that holds the blocks of kind [K] of this one. *)
Definition reads (K : block -> Prop) {A} (x : M A) : Prop :=
  forall s r s', x s = Done (r, s') ->
    s' = s /\ (exists a, r = Ok a) /\
    forall s2,
      (forall l b, st_heap s !! l = Some b -> K b -> st_heap s2 !! l = Some b) ->
      x s2 = Done (r, s2).

(** The blocks that describe an entity: they are never written once the
    entity exists. *)
Definition static_block (b : block) : Prop :=
  match b with
  | BInts _ | BSizes _ | BDims _ | BProps _ | BPropPtrs _ => True
  | _ => False
  end.

(** The blocks a list of cells points to. *)
Definition cell_locs (cells : list cell) : list loc :=
  omap (fun c => match c with CPtr a => Some a | _ => None end) cells.

(** The heap [h0] is still part of the state. *)
Definition extends (h0 : heap) (s : state) : Prop :=
  forall l b, h0 !! l = Some b -> st_heap s !! l = Some b.

End Mem.

(** ** dlite-entity.c: instances and entities *)
Module Entity.
Import Uuid Mem.

(** Field updates. *)
Definition set_m_uuid v (x : DLiteMeta) : DLiteMeta :=
  mkMeta v (m_uri x) (m_meta x) (m_description x) (m_size x) (m_dimoffset x) (m_propoffsets x) (m_reloffset x) (m_refcount x) (m_dimensions x) (m_properties x) (m_relations x) (m_ndimensions x) (m_nproperties x) (m_nrelations x).
Definition set_m_uri v (x : DLiteMeta) : DLiteMeta :=
  mkMeta (m_uuid x) v (m_meta x) (m_description x) (m_size x) (m_dimoffset x) (m_propoffsets x) (m_reloffset x) (m_refcount x) (m_dimensions x) (m_properties x) (m_relations x) (m_ndimensions x) (m_nproperties x) (m_nrelations x).
Definition set_m_meta v (x : DLiteMeta) : DLiteMeta :=
  mkMeta (m_uuid x) (m_uri x) v (m_description x) (m_size x) (m_dimoffset x) (m_propoffsets x) (m_reloffset x) (m_refcount x) (m_dimensions x) (m_properties x) (m_relations x) (m_ndimensions x) (m_nproperties x) (m_nrelations x).
Definition set_m_description v (x : DLiteMeta) : DLiteMeta :=
  mkMeta (m_uuid x) (m_uri x) (m_meta x) v (m_size x) (m_dimoffset x) (m_propoffsets x) (m_reloffset x) (m_refcount x) (m_dimensions x) (m_properties x) (m_relations x) (m_ndimensions x) (m_nproperties x) (m_nrelations x).
Definition set_m_size v (x : DLiteMeta) : DLiteMeta :=
  mkMeta (m_uuid x) (m_uri x) (m_meta x) (m_description x) v (m_dimoffset x) (m_propoffsets x) (m_reloffset x) (m_refcount x) (m_dimensions x) (m_properties x) (m_relations x) (m_ndimensions x) (m_nproperties x) (m_nrelations x).
Definition set_m_dimoffset v (x : DLiteMeta) : DLiteMeta :=
  mkMeta (m_uuid x) (m_uri x) (m_meta x) (m_description x) (m_size x) v (m_propoffsets x) (m_reloffset x) (m_refcount x) (m_dimensions x) (m_properties x) (m_relations x) (m_ndimensions x) (m_nproperties x) (m_nrelations x).
Definition set_m_propoffsets v (x : DLiteMeta) : DLiteMeta :=
  mkMeta (m_uuid x) (m_uri x) (m_meta x) (m_description x) (m_size x) (m_dimoffset x) v (m_reloffset x) (m_refcount x) (m_dimensions x) (m_properties x) (m_relations x) (m_ndimensions x) (m_nproperties x) (m_nrelations x).
Definition set_m_reloffset v (x : DLiteMeta) : DLiteMeta :=
  mkMeta (m_uuid x) (m_uri x) (m_meta x) (m_description x) (m_size x) (m_dimoffset x) (m_propoffsets x) v (m_refcount x) (m_dimensions x) (m_properties x) (m_relations x) (m_ndimensions x) (m_nproperties x) (m_nrelations x).
Definition set_m_refcount v (x : DLiteMeta) : DLiteMeta :=
  mkMeta (m_uuid x) (m_uri x) (m_meta x) (m_description x) (m_size x) (m_dimoffset x) (m_propoffsets x) (m_reloffset x) v (m_dimensions x) (m_properties x) (m_relations x) (m_ndimensions x) (m_nproperties x) (m_nrelations x).
Definition set_m_dimensions v (x : DLiteMeta) : DLiteMeta :=
  mkMeta (m_uuid x) (m_uri x) (m_meta x) (m_description x) (m_size x) (m_dimoffset x) (m_propoffsets x) (m_reloffset x) (m_refcount x) v (m_properties x) (m_relations x) (m_ndimensions x) (m_nproperties x) (m_nrelations x).
Definition set_m_properties v (x : DLiteMeta) : DLiteMeta :=
  mkMeta (m_uuid x) (m_uri x) (m_meta x) (m_description x) (m_size x) (m_dimoffset x) (m_propoffsets x) (m_reloffset x) (m_refcount x) (m_dimensions x) v (m_relations x) (m_ndimensions x) (m_nproperties x) (m_nrelations x).
Definition set_m_relations v (x : DLiteMeta) : DLiteMeta :=
  mkMeta (m_uuid x) (m_uri x) (m_meta x) (m_description x) (m_size x) (m_dimoffset x) (m_propoffsets x) (m_reloffset x) (m_refcount x) (m_dimensions x) (m_properties x) v (m_ndimensions x) (m_nproperties x) (m_nrelations x).
Definition set_m_ndimensions v (x : DLiteMeta) : DLiteMeta :=
  mkMeta (m_uuid x) (m_uri x) (m_meta x) (m_description x) (m_size x) (m_dimoffset x) (m_propoffsets x) (m_reloffset x) (m_refcount x) (m_dimensions x) (m_properties x) (m_relations x) v (m_nproperties x) (m_nrelations x).
Definition set_m_nproperties v (x : DLiteMeta) : DLiteMeta :=
  mkMeta (m_uuid x) (m_uri x) (m_meta x) (m_description x) (m_size x) (m_dimoffset x) (m_propoffsets x) (m_reloffset x) (m_refcount x) (m_dimensions x) (m_properties x) (m_relations x) (m_ndimensions x) v (m_nrelations x).
Definition set_m_nrelations v (x : DLiteMeta) : DLiteMeta :=
  mkMeta (m_uuid x) (m_uri x) (m_meta x) (m_description x) (m_size x) (m_dimoffset x) (m_propoffsets x) (m_reloffset x) (m_refcount x) (m_dimensions x) (m_properties x) (m_relations x) (m_ndimensions x) (m_nproperties x) v.
Definition set_i_uuid v (x : DLiteInstance) : DLiteInstance :=
  mkInst v (i_uri x) (i_meta x) (i_dimensions x) (i_properties x).
Definition set_i_uri v (x : DLiteInstance) : DLiteInstance :=
  mkInst (i_uuid x) v (i_meta x) (i_dimensions x) (i_properties x).
Definition set_i_meta v (x : DLiteInstance) : DLiteInstance :=
  mkInst (i_uuid x) (i_uri x) v (i_dimensions x) (i_properties x).
Definition set_i_dimensions v (x : DLiteInstance) : DLiteInstance :=
  mkInst (i_uuid x) (i_uri x) (i_meta x) v (i_properties x).
Definition set_i_properties v (x : DLiteInstance) : DLiteInstance :=
  mkInst (i_uuid x) (i_uri x) (i_meta x) (i_dimensions x) v.
Definition set_p_name v (x : DLiteProperty) : DLiteProperty :=
  mkProp v (p_type x) (p_size x) (p_ndims x) (p_dims x) (p_description x) (p_unit x).
Definition set_p_dims v (x : DLiteProperty) : DLiteProperty :=
  mkProp (p_name x) (p_type x) (p_size x) (p_ndims x) v (p_description x) (p_unit x).
Definition set_p_description v (x : DLiteProperty) : DLiteProperty :=
  mkProp (p_name x) (p_type x) (p_size x) (p_ndims x) (p_dims x) v (p_unit x).
Definition set_p_unit v (x : DLiteProperty) : DLiteProperty :=
  mkProp (p_name x) (p_type x) (p_size x) (p_ndims x) (p_dims x) (p_description x) v.

Definition modify_meta (l : loc) (f : DLiteMeta -> DLiteMeta) : M unit :=
  m ← load_meta (Some l); store l (BMeta (f m)).

Definition modify_inst (l : loc) (f : DLiteInstance -> DLiteInstance) : M unit :=
  i ← load_inst (Some l); store l (BInst (f i)).

(** [meta->properties[i]], dereferenced. *)
Definition meta_property (m : DLiteMeta) (i : Z) : M DLiteProperty :=
  l ← load_propptrs (m_properties m);
  p ← index l i;
  ps ← load_props p;
  index ps 0.

(** [meta->propoffsets[i]]. *)
Definition meta_propoffset (m : DLiteMeta) (i : Z) : M Z :=
  l ← load_sizes (m_propoffsets m); index l i.

(** The test [p->ndims > 0 && p->dims]. *)
Definition is_array (p : DLiteProperty) : bool :=
  (0 <? p_ndims p) && bool_decide (is_Some (p_dims p)).

(** [for (j=0; j<p->ndims; j++) nmemb *= dims[p->dims[j]];] in [size_t]
    arithmetic; [k] counts the iterations left and [pdims] is [p->dims]. *)
Fixpoint nmemb_loop (dims : list Z) (pdims : ptr) (k : nat) (j nmemb : Z)
  : M Z :=
  match k with
  | O => mret nmemb
  | S k' =>
      pd ← load_ints pdims;
      d ← index pd j;
      x ← index dims d;
      nmemb_loop dims pdims k' (j + 1) ((nmemb * x) mod SIZE_MOD)
  end.

Definition count_members (dims : list Z) (p : DLiteProperty) : M Z :=
  nmemb_loop dims (p_dims p) (Z.to_nat (p_ndims p)) 0 1.

(** The runtime shape of a property whose [dims] array holds [pd], in an
    instance with dimension sizes [dims]; and the product of a shape. *)
Definition prop_shape (dims pd : list Z) (ndims : Z) : list Z :=
  map (fun d => default 0 (dims !! Z.to_nat d)) (take (Z.to_nat ndims) pd).

Definition product (l : list Z) : Z := foldr Z.mul 1 l.

(** A slot or array element read as a pointer. *)
Definition cell_ptr (c : cell) : M ptr :=
  match c with
  | CZero => mret None
  | CPtr a => mret (Some a)
  | CData _ => undef
  end.

(** [*ptr = a] for the slot of property [i]. *)
Definition set_slot (li : loc) (i : Z) (c : cell) : M unit :=
  inst ← load_inst (Some li);
  _ ← index (i_properties inst) i;
  store li (BInst (set_i_properties (<[Z.to_nat i:=c]> (i_properties inst)) inst)).

(** dlite_meta_incref. *)
Definition dlite_meta_incref (meta : ptr) : M unit :=
  match meta with
  | None => mret tt
  | Some l =>
      m ← load_meta meta;
      if m_refcount m >=? INT_MAX then undef
      else store l (BMeta (set_m_refcount (m_refcount m + 1) m))
  end.

(** dlite_entity_incref. *)
Definition dlite_entity_incref (entity : ptr) : M unit :=
  dlite_meta_incref entity.

Definition zero_meta : DLiteMeta :=
  mkMeta (replicate 37 NUL) None None None 0 0 None 0 0 None None None 0 0 0.

(** The loop of dlite_meta_clear over [meta->properties]. *)
Fixpoint clear_properties (l : list ptr) (k : nat) (i : Z) : M unit :=
  match k with
  | O => mret tt
  | S k' =>
      p ← index l i;
      (match p with
       | None => mret tt
       | Some _ =>
           ps ← load_props p;
           q ← index ps 0;
           _ ← free (p_name q);
           _ ← free (p_dims q);
           _ ← free (p_description q);
           free p
       end);;
      clear_properties l k' (i + 1)
  end.

(** dlite_meta_clear. *)
Definition dlite_meta_clear (meta : loc) : M unit :=
  m ← load_meta (Some meta);
  _ ← free (m_uri m);
  _ ← free (m_description m);
  _ ← free (m_propoffsets m);
  _ ← free (m_dimensions m);
  _ ← (match m_properties m with
       | None => mret tt
       | Some _ =>
           l ← load_propptrs (m_properties m);
           _ ← clear_properties l (Z.to_nat (m_nproperties m)) 0;
           free (m_properties m)
       end);
  _ ← free (m_relations m);
  store meta (BMeta zero_meta).

(** dlite_meta_decref; [fuel] bounds the depth of the recursion along
    [meta->meta]. *)
Fixpoint dlite_meta_decref_fuel (fuel : nat) (meta : ptr) : M unit :=
  match meta with
  | None => mret tt
  | Some l =>
      m ← load_meta meta;
      if m_refcount m <=? - INT_MAX - 1 then undef
      else
        _ ← store l (BMeta (set_m_refcount (m_refcount m - 1) m));
        if m_refcount m - 1 <=? 0 then
          match fuel with
          | O => undef
          | S fuel' =>
              _ ← dlite_meta_decref_fuel fuel' (m_meta m);
              _ ← dlite_meta_clear l;
              free meta
          end
        else mret tt
  end.

Definition dlite_meta_decref (meta : ptr) : M unit := fun s =>
  dlite_meta_decref_fuel (size (st_heap s)) meta s.

(** [for (n=0; n<nmemb; n++) free((ptr)[n]);] where [cells] are the
    elements [ptr] points to. *)
Definition free_strings (nmemb : Z) (cells : list cell) : M unit :=
  if Zlen cells <? nmemb then undef
  else
    foldr (fun c k => (a ← cell_ptr c; free a);; k) (mret tt)
          (take (Z.to_nat nmemb) cells).

(** The loop of dlite_instance_free over the properties. *)
Fixpoint free_properties (m : DLiteMeta) (inst : DLiteInstance)
    (k : nat) (i : Z) : M unit :=
  match k with
  | O => mret tt
  | S k' =>
      p ← meta_property m i;
      (if DLiteType_eqb (p_type p) dliteStringPtr then
         _ ← meta_propoffset m i;
         slot ← index (i_properties inst) i;
         cells ← (if is_array p then
                    a ← cell_ptr slot; b ← load_array a; mret (snd b)
                  else mret [slot]);
         nmemb ← (match p_dims p with
                  | Some _ => count_members (i_dimensions inst) p
                  | None => mret 1
                  end);
         _ ← free_strings nmemb cells;
         if is_array p then a ← cell_ptr slot; free a else mret tt
       else if is_array p then
         _ ← meta_propoffset m i;
         slot ← index (i_properties inst) i;
         a ← cell_ptr slot; free a
       else mret tt);;
      free_properties m inst k' (i + 1)
  end.

(** dlite_instance_free. *)
Definition dlite_instance_free (inst : ptr) : M unit :=
  i ← load_inst inst;
  m ← load_meta (i_meta i);
  let nprops := m_nproperties m in
  _ ← free (i_uri i);
  _ ← (match m_properties m with
       | Some _ => free_properties m i (Z.to_nat nprops) 0
       | None => mret tt
       end);
  _ ← free inst;
  dlite_meta_decref (i_meta i).

(** The block [calloc(1, meta->size)] returns: every slot zero. *)
Definition zero_inst (m : DLiteMeta) : DLiteInstance :=
  mkInst (replicate 37 NUL) None None
         (replicate (Z.to_nat (m_ndimensions m)) 0)
         (replicate (Z.to_nat (m_nproperties m)) CZero).

(** The loop of dlite_instance_create that allocates the arrays. *)
Fixpoint alloc_arrays (meta : ptr) (li : loc) (dims : list Z)
    (k : nat) (i : Z) : M unit :=
  match k with
  | O => mret tt
  | S k' =>
      m ← load_meta meta;
      p ← meta_property m i;
      _ ← meta_propoffset m i;
      (if is_array p then
         nmemb ← count_members dims p;
         a ← calloc_array nmemb (p_size p);
         match a with
         | None => FAIL
         | Some l => set_slot li i (CPtr l)
         end
       else mret tt);;
      alloc_arrays meta li dims k' (i + 1)
  end.

Section with_uuid.
Context `{UuidLib}.

(** dlite_instance_create.  [dims] is the caller's array, [id] the
    caller's string (NULL is [None]). *)
Definition dlite_instance_create (r : rng) (meta : ptr) (dims : list Z)
    (id : option cstr) : M ptr :=
  m ← load_meta meta;
  inst ← malloc (BInst (zero_inst m));
  match inst with
  | None => mret None
  | Some li =>
      catch
        (let '(uuid_version, uuid) := dlite_get_uuid r id in
         if uuid_version <? 0 then FAIL
         else
           _ ← modify_inst li (set_i_uuid uuid);
           _ ← (if uuid_version =? 5 then
                  match id with
                  | Some s => u ← strdup s; modify_inst li (set_i_uri u)
                  | None => undef
                  end
                else mret tt);
           _ ← modify_inst li (set_i_meta meta);
           _ ← (if m_ndimensions m =? 0 then mret tt
                else if Zlen dims <? m_ndimensions m then undef
                else modify_inst li
                       (set_i_dimensions
                          (take (Z.to_nat (m_ndimensions m)) dims)));
           _ ← alloc_arrays meta li dims (Z.to_nat (m_nproperties m)) 0;
           _ ← dlite_entity_incref meta;
           mret inst)
        (_ ← dlite_instance_free inst; mret None)
  end.

End with_uuid.

(** dlite_meta_get_dimension_index: the loop, then [err(-1, ...)]. *)
Fixpoint dimension_index_loop (m : DLiteMeta) (name : cstr)
    (k : nat) (i : Z) : M Z :=
  match k with
  | O => mret (-1)
  | S k' =>
      ds ← load_dims (m_dimensions m);
      p ← index ds i;
      s ← load_string (d_name p);
      if bool_decide (name = s) then mret (to_int i)
      else dimension_index_loop m name k' (i + 1)
  end.

Definition dlite_meta_get_dimension_index (meta : ptr) (name : cstr) : M Z :=
  m ← load_meta meta;
  dimension_index_loop m name (Z.to_nat (m_ndimensions m)) 0.

(** dlite_instance_get_dimension_size_by_index. *)
Definition dlite_instance_get_dimension_size_by_index (inst : ptr) (i : Z)
  : M Z :=
  x ← load_inst inst;
  m ← load_meta (i_meta x);
  if i >=? m_nproperties m then mret (-1)
  else d ← index (i_dimensions x) i; mret (to_int d).

(** dlite_instance_get_dimension_size. *)
Definition dlite_instance_get_dimension_size (inst : ptr) (name : cstr)
  : M Z :=
  x ← load_inst inst;
  m ← load_meta (i_meta x);
  i ← dlite_meta_get_dimension_index (i_meta x) name;
  if i <? 0 then mret (-1)
  else if i >=? to_int (m_nproperties m) then mret (-1)
  else d ← index (i_dimensions x) i; mret (to_int d).

(** dlite-type.c and the struct layouts are not among the sources; the
    layout sweep of dlite_meta_postinit takes them as parameters. *)
Class TypeLib := {
  dlite_type_get_alignment : DLiteType -> Z -> Z;
  dlite_type_get_member_offset : Z -> Z -> DLiteType -> Z -> Z;
  sizeof_DLiteMeta : Z;
  sizeof_DLiteEntity : Z;
  offsetof_DLiteMeta_dimensions : Z;
  offsetof_DLiteMeta_relations : Z;
  offsetof_DLiteEntity_dimensions : Z;
  offsetof_DLiteInstance_meta : Z
}.

(** The static [schema_entity] and the two string literals it points to
    live at fixed addresses. *)
Definition schema_entity_loc : loc := 1%positive.
Definition schema_uri_loc : loc := 2%positive.
Definition schema_description_loc : loc := 3%positive.

Section with_types.
Context `{TypeLib}.

Definition schema_entity : DLiteMeta :=
  mkMeta (cs "00000000-0000-0000-0000-000000000000" ++ [NUL])
         (Some schema_uri_loc) None (Some schema_description_loc)
         sizeof_DLiteEntity offsetof_DLiteEntity_dimensions None 0
         1 None None None 3 2 0.

Definition init_heap : heap :=
  <[schema_entity_loc := BMeta schema_entity]>
  (<[schema_uri_loc := BString (cs "http://meta.sintef.no/0.1/schema-entity")]>
  (<[schema_description_loc := BString (cs "Schema for Entities")]> ∅)).

(** The sweep over the dimensions in dlite_meta_postinit: the final
    [offset] and [size], and [dimoffset]. *)
Fixpoint sweep_dimensions (k : nat) (i offset size dimoffset : Z)
  : Z * Z * Z :=
  match k with
  | O => (offset, size, dimoffset)
  | S k' =>
      let offset' := dlite_type_get_member_offset offset size dliteInt 8 in
      sweep_dimensions k' (i + 1) offset' 4
                       (if i =? 0 then offset' else dimoffset)
  end.

(** The sweep over the properties: writes [propoffsets[i]]. *)
Fixpoint sweep_properties (meta po : loc) (k : nat)
    (i offset size maxalign : Z) : M (Z * Z * Z) :=
  match k with
  | O => mret (offset, size, maxalign)
  | S k' =>
      m ← load_meta (Some meta);
      p ← meta_property m i;
      let '(proptype, propsize) :=
        if is_array p then (dliteBlob, 8) else (p_type p, p_size p) in
      let offset' :=
        dlite_type_get_member_offset offset size proptype propsize in
      offs ← load_sizes (Some po);
      _ ← index offs i;
      _ ← store po (BSizes (<[Z.to_nat i:=offset']> offs));
      let align := dlite_type_get_alignment proptype propsize in
      sweep_properties meta po k' (i + 1) offset' propsize
                       (if align >? maxalign then align else maxalign)
  end.

Fixpoint sweep_relations (k : nat) (offset size : Z) : Z * Z :=
  match k with
  | O => (offset, size)
  | S k' =>
      sweep_relations k'
        (dlite_type_get_member_offset offset size dliteStringPtr 8) 8
  end.

(** dlite_meta_postinit; the result is its return value. *)
Definition dlite_meta_postinit (meta : loc) (ismeta : bool) : M Z :=
  m ← load_meta (Some meta);
  match m_meta m with
  | None => undef
  | Some _ =>
      if ismeta then
        mm ← load_meta (m_meta m);
        if m_ndimensions mm <? 3 then undef
        else
          _ ← modify_meta meta (fun x =>
                 set_m_reloffset offsetof_DLiteMeta_relations
                   (set_m_propoffsets None
                      (set_m_dimoffset offsetof_DLiteMeta_dimensions
                         (set_m_size
                            (sizeof_DLiteMeta + (m_ndimensions mm - 3) * 8)
                            x))));
          mret 0
      else
        po ← (if m_nproperties m * 8 >=? SIZE_MOD then mret None
              else malloc (BSizes (replicate (Z.to_nat (m_nproperties m)) 0)));
        _ ← modify_meta meta (set_m_propoffsets po);
        match po with
        | None => mret 1
        | Some pl =>
            let maxalign := dlite_type_get_alignment dliteStringPtr 8 in
            if maxalign =? 0 then mret 1
            else
              let '(offset, size, dimoffset) :=
                sweep_dimensions (Z.to_nat (m_ndimensions m)) 0
                  offsetof_DLiteInstance_meta 8 (m_dimoffset m) in
              _ ← modify_meta meta (set_m_dimoffset dimoffset);
              let align := dlite_type_get_alignment dliteUInt 8 in
              let maxalign :=
                if negb (m_ndimensions m =? 0) && (align >? maxalign)
                then align else maxalign in
              '(offset, size, maxalign) ←
                sweep_properties meta pl (Z.to_nat (m_nproperties m)) 0
                  offset size maxalign;
              let '(offset, size) :=
                sweep_relations (Z.to_nat (m_nrelations m)) offset size in
              _ ← modify_meta meta (set_m_reloffset offset);
              let offset := (offset + size) mod SIZE_MOD in
              let padding :=
                Z.land ((maxalign - Z.land offset (maxalign - 1)) mod SIZE_MOD)
                       (maxalign - 1) in
              _ ← modify_meta meta
                    (set_m_size ((offset + padding) mod SIZE_MOD));
              mret 0
        end
  end.

End with_types.

(** The loop of dlite_entity_clear: frees and resets each [unit]. *)
Fixpoint clear_units (entity : loc) (k : nat) (i : Z) : M unit :=
  match k with
  | O => mret tt
  | S k' =>
      m ← load_meta (Some entity);
      l ← load_propptrs (m_properties m);
      p ← index l i;
      ps ← load_props p;
      q ← index ps 0;
      _ ← (match p, p_unit q with
           | Some lp, Some _ =>
               _ ← free (p_unit q);
               store lp (BProps (<[O:=set_p_unit None q]> ps))
           | _, _ => mret tt
           end);
      clear_units entity k' (i + 1)
  end.

(** dlite_entity_clear. *)
Definition dlite_entity_clear (entity : loc) : M unit :=
  m ← load_meta (Some entity);
  _ ← clear_units entity (Z.to_nat (m_nproperties m)) 0;
  dlite_meta_clear entity.

(** dlite_entity_decref. *)
Definition dlite_entity_decref (entity : ptr) : M unit :=
  match entity with
  | None => mret tt
  | Some l =>
      m ← load_meta entity;
      if m_refcount m <=? - INT_MAX - 1 then undef
      else
        _ ← store l (BMeta (set_m_refcount (m_refcount m - 1) m));
        if m_refcount m - 1 <=? 0 then
          _ ← dlite_meta_decref (m_meta m);
          _ ← dlite_entity_clear l;
          free entity
        else mret tt
  end.

Definition zero_prop : DLiteProperty :=
  mkProp None dliteBlob 0 0 None None None.

(** [malloc(p->ndims*sizeof(int))]: a negative [ndims] converts to a size
    no allocator can serve. *)
Definition malloc_dims (ndims : Z) : M ptr :=
  if ndims <? 0 then mret None
  else malloc (BInts (replicate (Z.to_nat ndims) 0)).

(** Writes field [f] of the single property stored at [lp]. *)
Definition modify_prop (lp : loc) (f : DLiteProperty -> DLiteProperty)
  : M unit :=
  ps ← load_props (Some lp);
  q ← index ps 0;
  store lp (BProps (<[O:=f q]> ps)).

(** The loop of dlite_entity_create that copies the properties. *)
Fixpoint copy_properties (properties : ptr) (pp : loc) (k : nat) (i : Z)
  : M unit :=
  match k with
  | O => mret tt
  | S k' =>
      p ← malloc (BProps [zero_prop]);
      match p with
      | None => FAIL
      | Some lp =>
          qs ← load_props properties;
          q ← index qs i;
          _ ← store lp (BProps [q]);
          nm ← load_string (p_name q);
          n ← strdup nm;
          _ ← modify_prop lp (set_p_name n);
          if negb (bool_decide (is_Some n)) then FAIL
          else
            _ ← (if negb (p_ndims q =? 0) then
                   d ← malloc_dims (p_ndims q);
                   _ ← modify_prop lp (set_p_dims d);
                   match d with
                   | None => FAIL
                   | Some ld =>
                       src ← load_ints (p_dims q);
                       if Zlen src <? p_ndims q then undef
                       else store ld
                              (BInts (take (Z.to_nat (p_ndims q)) src))
                   end
                 else modify_prop lp (set_p_dims None));
            _ ← (match p_description q with
                 | Some _ =>
                     s ← load_string (p_description q);
                     c ← strdup s;
                     _ ← modify_prop lp (set_p_description c);
                     if bool_decide (is_Some c) then mret tt else FAIL
                 | None => mret tt
                 end);
            _ ← (match p_unit q with
                 | Some _ =>
                     s ← load_string (p_unit q);
                     c ← strdup s;
                     _ ← modify_prop lp (set_p_unit c);
                     if bool_decide (is_Some c) then mret tt else FAIL
                 | None => mret tt
                 end);
            l ← load_propptrs (Some pp);
            _ ← index l i;
            _ ← store pp (BPropPtrs (<[Z.to_nat i:=p]> l));
            copy_properties properties pp k' (i + 1)
      end
  end.

Section entity_create.
Context `{UuidLib} `{TypeLib}.

(** dlite_entity_create.  [uri] and [description] are the caller's
    strings, [dimensions] and [properties] point to the caller's arrays. *)
Definition dlite_entity_create (r : rng) (uri description : option cstr)
    (ndimensions : Z) (dimensions : ptr)
    (nproperties : Z) (properties : ptr) : M ptr :=
  entity ← malloc (BMeta zero_meta);
  match entity with
  | None => mret None
  | Some le =>
      catch
        (let '(uuid_version, uuid) := dlite_get_uuid r uri in
         if uuid_version <? 0 then FAIL
         else
           _ ← modify_meta le (set_m_uuid uuid);
           _ ← (if uuid_version =? 5 then
                  match uri with
                  | Some s => u ← strdup s; modify_meta le (set_m_uri u)
                  | None => undef
                  end
                else mret tt);
           _ ← modify_meta le (set_m_meta (Some schema_entity_loc));
           _ ← (match description with
                | Some d => u ← strdup d; modify_meta le (set_m_description u)
                | None => mret tt
                end);
           _ ← (if ndimensions =? 0 then mret tt
                else
                  d ← (if ndimensions * 16 >=? SIZE_MOD then mret None
                       else malloc (BDims (replicate (Z.to_nat ndimensions)
                                                     (mkDim None None))));
                  _ ← modify_meta le (set_m_dimensions d);
                  match d with
                  | None => FAIL
                  | Some ld =>
                      ds ← load_dims dimensions;
                      if Zlen ds <? ndimensions then undef
                      else store ld (BDims (take (Z.to_nat ndimensions) ds))
                  end);
           _ ← (if nproperties =? 0 then mret tt
                else if nproperties * 8 >=? SIZE_MOD then undef
                else
                  pp ← malloc (BPropPtrs
                                 (replicate (Z.to_nat nproperties) None));
                  _ ← modify_meta le (set_m_properties pp);
                  match pp with
                  | None => FAIL
                  | Some lp =>
                      copy_properties properties lp (Z.to_nat nproperties) 0
                  end);
           _ ← modify_meta le (set_m_ndimensions ndimensions);
           _ ← modify_meta le (set_m_nproperties nproperties);
           st ← dlite_meta_postinit le false;
           if negb (st =? 0) then FAIL
           else
             _ ← modify_meta le (set_m_refcount 1);
             m ← load_meta entity;
             _ ← dlite_meta_incref (m_meta m);
             mret entity)
        (_ ← dlite_entity_clear le; _ ← free entity; mret None)
  end.

End entity_create.

(** What dlite_instance_create leaves in the slot of property [p], for an
    instance with dimension sizes [dims]: for an array property, a pointer
    to a block of zeroed elements, as many as the product of its shape
    (in [size_t] arithmetic); otherwise the zero bytes of calloc. *)
Definition slot_spec (h : heap) (dims : list Z) (p : DLiteProperty)
    (c : cell) : Prop :=
  if is_array p then
    exists a ld pd,
      c = CPtr a /\ p_dims p = Some ld /\ h !! ld = Some (BInts pd) /\
      h !! a
      = Some (BArray (p_size p)
                (replicate
                   (Z.to_nat (product (prop_shape dims pd (p_ndims p))
                              mod SIZE_MOD))
                   CZero))
  else c = CZero.

(** What the free loop needs to know about the slot of property [j]. *)
Definition slot_ready (m : DLiteMeta) (dims : list Z) (s : state) (j : Z)
    (c : cell) : Prop :=
  exists p off,
    meta_property m j s = Done (Ok p, s) /\
    meta_propoffset m j s = Done (Ok off, s) /\
    (is_array p = true -> exists n, count_members dims p s = Done (Ok n, s)) /\
    slot_spec (st_heap s) dims p c.

(** [dst] is an owned copy of the caller's string [src]: NULL for NULL,
    otherwise the address of a block that is not part of the caller's
    memory [h0] and holds, in [h'], what the caller's string held. *)
Definition copied_string (h0 h' : heap) (src dst : ptr) : Prop :=
  match src with
  | None => dst = None
  | Some lq =>
      exists ld str,
        dst = Some ld /\ h0 !! ld = None /\ h' !! ld = Some (BString str) /\
        forall str0, h0 !! lq = Some (BString str0) -> str = str0
  end.

(** Property [p'] of the entity is an owned copy of the caller's [q]:
    the same type, size and rank, and own copies of the name, of [dims]
    (NULL in rank zero), of the description and of the unit. *)
Definition owned_copy (h0 h' : heap) (q p' : DLiteProperty) : Prop :=
  p_type p' = p_type q /\ p_size p' = p_size q /\ p_ndims p' = p_ndims q /\
  (is_Some (p_name q) /\ copied_string h0 h' (p_name q) (p_name p')) /\
  (if p_ndims q =? 0 then p_dims p' = None
   else exists ld src,
       p_dims p' = Some ld /\ h0 !! ld = None /\ h' !! ld = Some (BInts src) /\
       forall lq src0,
         p_dims q = Some lq -> h0 !! lq = Some (BInts src0) ->
         src = take (Z.to_nat (p_ndims q)) src0) /\
  copied_string h0 h' (p_description q) (p_description p') /\
  copied_string h0 h' (p_unit q) (p_unit p').

End Entity.

(** ** dlite-entity.c: loading an entity through a storage driver *)
Module Storage.
Import Uuid Mem.

(** The part of struct _DLitePlugin used here: the driver name and the
    optional [getEntity] and [setEntity] entries (NULL is [None]). *)
Record DLitePlugin := mkPlugin {
  api_name : cstr;
  getEntity : option (cstr -> M ptr);
  setEntity : option (ptr -> M Z)
}.

(** struct _DLiteStorage (DLiteStorage_HEAD). *)
Record DLiteStorage := mkStorage {
  api : DLitePlugin;
  s_uri : cstr;
  s_options : cstr;
  writable : Z
}.

(** A C string held in a [char] buffer: the bytes before the first NUL. *)
Fixpoint c_str (buf : list ascii) : cstr :=
  match buf with
  | [] => []
  | c :: t => if Ascii.eqb c NUL then [] else c :: c_str t
  end.

(** Result of a call that may report through [errx]: the value returned
    and the message reported, if any. *)
Record reported (A : Type) := Reported {
  value : A;
  diagnostic : option cstr
}.
Arguments Reported {A} value diagnostic.
Arguments value {A} r.
Arguments diagnostic {A} r.

Definition msg_no_getEntity (driver : cstr) : cstr :=
  cs "driver '" ++ driver ++ cs "' does not support getEntity()".

Definition msg_no_setEntity (driver : cstr) : cstr :=
  cs "driver '" ++ driver ++ cs "' does not support setEntity()".

Definition msg_bad_id (id : option cstr) : cstr :=
  cs "id '" ++ default (cs "(null)") id
     ++ cs "' is not an UUID or a string that we can generate an uuid from".

Section entity_load.
Context `{UuidLib}.

(** dlite_entity_load. *)
Definition dlite_entity_load (r : rng) (s : DLiteStorage) (id : option cstr)
  : M (reported ptr) :=
  match getEntity (api s) with
  | None => mret (Reported None (Some (msg_no_getEntity (api_name (api s)))))
  | Some get =>
      let '(uuidver, uuid) := dlite_get_uuid r id in
      if negb (uuidver =? 0) || negb (uuidver =? 5) then
        mret (Reported None (Some (msg_bad_id id)))
      else
        e ← get (c_str uuid);
        mret (Reported e None)
  end.

End entity_load.

(** dlite_entity_save. *)
Definition dlite_entity_save (s : DLiteStorage) (e : ptr) : M (reported Z) :=
  match setEntity (api s) with
  | None => mret (Reported 1 (Some (msg_no_setEntity (api_name (api s)))))
  | Some set => x ← set e; mret (Reported x None)
  end.

End Storage.

(** ** dlite-collection.c *)
Module Collection.
Import Mem Storage.

(** DLiteTriplet: subject, predicate, object and the id of the triple. *)
Record DLiteTriplet := mkTriplet {
  t_s : cstr;
  t_p : cstr;
  t_o : cstr;
  t_id : cstr
}.

(** The triple store assigns every triple an id; how is left open. *)
Class TripletId := triplet_get_id : cstr -> cstr -> cstr -> cstr.

(** Modelled from the spec: the triple store (triplestore.c) is not among
    the sources.  The spec gives its interface: [add(s,p,o)],
    [remove(s,p,o)] returning the count removed, [remove_by_id],
    [find_first(s,p,o)], [init_state], [find(state, s,p,o)], an iterator
    where any of [s], [p], [o] may be a wildcard (NULL).  The store is the
    sequence of its triples in insertion order; an iteration state is the
    position at which the search resumes. *)
Abbreviation TripleStore := (list DLiteTriplet).
Abbreviation TripleState := nat.

Definition pat_ok (pat : option cstr) (x : cstr) : bool :=
  match pat with
  | None => true
  | Some y => bool_decide (y = x)
  end.

Definition matches (s p o : option cstr) (t : DLiteTriplet) : bool :=
  pat_ok s (t_s t) && pat_ok p (t_p t) && pat_ok o (t_o t).

Definition triplestore_create : TripleStore := [].

Definition triplestore_add `{TripletId} (ts : TripleStore) (s p o : cstr)
  : TripleStore :=
  ts ++ [mkTriplet s p o (triplet_get_id s p o)].

Definition triplestore_remove (ts : TripleStore) (s p o : option cstr)
  : Z * TripleStore :=
  (Zlen (filter (fun t => matches s p o t = true) ts),
   filter (fun t => matches s p o t = false) ts).

Definition triplestore_remove_by_id (ts : TripleStore) (id : cstr)
  : TripleStore :=
  filter (fun t => t_id t <> id) ts.

Definition triplestore_init_state (ts : TripleStore) : TripleState := O.

(** [find_from s p o l pos]: first match in [l], whose elements sit at
    positions [pos], [pos+1], ...; with the position after it. *)
Fixpoint find_from (s p o : option cstr) (l : list DLiteTriplet) (pos : nat)
  : option DLiteTriplet * TripleState :=
  match l with
  | [] => (None, pos)
  | t :: l' =>
      if matches s p o t then (Some t, S pos) else find_from s p o l' (S pos)
  end.

Definition triplestore_find (ts : TripleStore) (state : TripleState)
    (s p o : option cstr) : option DLiteTriplet * TripleState :=
  find_from s p o (drop state ts) state.

Definition triplestore_find_first (ts : TripleStore) (s p o : option cstr)
  : option DLiteTriplet :=
  fst (triplestore_find ts O s p o).

(** struct _DLiteCollection, without its dimension bookkeeping.
    [triplets] mirrors [store->triplets]. *)
Record DLiteCollection := mkColl {
  c_uuid : list ascii;
  c_uri : option cstr;
  c_meta : ptr;
  store : TripleStore;
  triplets : list DLiteTriplet
}.

Definition set_store (ts : TripleStore) (c : DLiteCollection) :=
  mkColl (c_uuid c) (c_uri c) (c_meta c) ts (triplets c).

Definition set_triplets (l : list DLiteTriplet) (c : DLiteCollection) :=
  mkColl (c_uuid c) (c_uri c) (c_meta c) (store c) l.

Section collection.
Context `{TripletId}.

(** dlite_collection_add_relation. *)
Definition dlite_collection_add_relation (coll : DLiteCollection)
    (s p o : cstr) : Z * DLiteCollection :=
  let coll := set_store (triplestore_add (store coll) s p o) coll in
  (0, set_triplets (store coll) coll).

(** dlite_collection_remove_relations. *)
Definition dlite_collection_remove_relations (coll : DLiteCollection)
    (s p o : option cstr) : Z * DLiteCollection :=
  let '(retval, ts) := triplestore_remove (store coll) s p o in
  let coll := set_store ts coll in
  (retval, set_triplets (store coll) coll).

(** dlite_collection_add, reading the instance and its metadata from the
    heap [h].  A NULL [inst->meta->uri] is handed to the triple store as
    an object, which the interface does not define. *)
Definition dlite_collection_add (h : heap) (coll : DLiteCollection)
    (label : cstr) (inst : ptr) : outcome (Z * DLiteCollection) :=
  match load_inst inst (State [] h) with
  | Done (Ok i, _) =>
      match i_meta i with
      | None => Done (1, coll)
      | Some _ =>
          match (m ← load_meta (i_meta i); load_string (m_uri m)) (State [] h) with
          | Done (Ok uri, _) =>
              let coll :=
                snd (dlite_collection_add_relation coll label
                       (cs "_is-a") (cs "Instance")) in
              let coll :=
                snd (dlite_collection_add_relation coll label
                       (cs "_has-uuid") (c_str (i_uuid i))) in
              let coll :=
                snd (dlite_collection_add_relation coll label
                       (cs "_has-meta") uri) in
              Done (0, coll)
          | _ => Undefined
          end
      end
  | _ => Undefined
  end.

(** dlite_collection_init_state. *)
Definition dlite_collection_init_state (coll : DLiteCollection)
  : TripleState :=
  triplestore_init_state (store coll).

(** dlite_collection_find; [state = None] is the NULL state. *)
Definition dlite_collection_find (coll : DLiteCollection)
    (state : option TripleState) (s p o : option cstr)
  : option DLiteTriplet * option TripleState :=
  match state with
  | Some st =>
      let '(t, st') := triplestore_find (store coll) st s p o in
      (t, Some st')
  | None => (triplestore_find_first (store coll) s p o, None)
  end.

(** The loop of dlite_collection_remove over the [_has-dimmap] triples;
    [None] when [fuel] iterations do not reach its end. *)
Fixpoint remove_dimmaps (fuel : nat) (coll : DLiteCollection)
    (state : TripleState) (label : cstr) : option DLiteCollection :=
  match dlite_collection_find coll (Some state)
          (Some label) (Some (cs "_has-dimmap")) None with
  | (Some t, Some state') =>
      match fuel with
      | O => None
      | S fuel' =>
          remove_dimmaps fuel'
            (set_store (triplestore_remove_by_id (store coll) (t_o t)) coll)
            state' label
      end
  | _ => Some coll
  end.

(** dlite_collection_remove. *)
Definition dlite_collection_remove (coll : DLiteCollection) (label : cstr)
  : option (Z * DLiteCollection) :=
  let '(n, coll) :=
    dlite_collection_remove_relations coll (Some label)
      (Some (cs "_is-a")) (Some (cs "Instance")) in
  if n >? 0 then
    let state := dlite_collection_init_state coll in
    coll ← remove_dimmaps (length (store coll)) coll state label;
    let coll :=
      snd (dlite_collection_remove_relations coll (Some label)
             (Some (cs "_has-uuid")) None) in
    let coll :=
      snd (dlite_collection_remove_relations coll (Some label)
             (Some (cs "_has-meta")) None) in
    let coll :=
      snd (dlite_collection_remove_relations coll (Some label)
             (Some (cs "_has-dimmap")) None) in
    Some (0, coll)
  else Some (1, coll).

(** The triples of [member_triples], with their ids. *)
Definition member_triplets (label uuid uri : cstr) : list DLiteTriplet :=
  [mkTriplet label (cs "_is-a") (cs "Instance")
     (triplet_get_id label (cs "_is-a") (cs "Instance"));
   mkTriplet label (cs "_has-uuid") uuid
     (triplet_get_id label (cs "_has-uuid") uuid);
   mkTriplet label (cs "_has-meta") uri
     (triplet_get_id label (cs "_has-meta") uri)].

End collection.

(** Subject, predicate and object of a stored triple. *)
Definition spo (t : DLiteTriplet) : cstr * cstr * cstr :=
  (t_s t, t_p t, t_o t).

(** The three triples dlite_collection_add records for [label]. *)
Definition member_triples (label uuid uri : cstr) : list (cstr * cstr * cstr) :=
  [(label, cs "_is-a", cs "Instance");
   (label, cs "_has-uuid", uuid);
   (label, cs "_has-meta", uri)].

End Collection.

(** ** dlite-datamodel.c: flat and nested arrays *)
Module Datamodel.

Abbreviation loc := positive.

(** A [void *]: NULL, or a block and a position in it (an element index
    in an array of pointers, a byte offset in a buffer). *)
Abbreviation vptr := (option (loc * Z)).

(** The memory the copy helpers work on: arrays of pointers and byte
    buffers. *)
Inductive dblock :=
| DPtrs (l : list vptr)
| DBytes (l : list Z).

Abbreviation mem := (gmap loc dblock).

(** [p[i]] for [void **p]: undefined unless [p] points into an array of
    pointers and the element exists. *)
Definition read_ptr (m : mem) (p : vptr) (i : Z) : outcome vptr :=
  match p with
  | None => Undefined
  | Some (l, off) =>
      match m !! l with
      | Some (DPtrs ps) =>
          if off + i <? 0 then Undefined
          else match ps !! Z.to_nat (off + i) with
               | Some v => Done v
               | None => Undefined
               end
      | _ => Undefined
      end
  end.

(** The [size] bytes [memcpy] reads at [p]. *)
Definition read_bytes (m : mem) (p : vptr) (size : Z) : outcome (list Z) :=
  match p with
  | None => Undefined
  | Some (l, off) =>
      match m !! l with
      | Some (DBytes bs) =>
          if (off <? 0) || (Zlen bs <? off + size) then Undefined
          else Done (take (Z.to_nat size) (drop (Z.to_nat off) bs))
      | _ => Undefined
      end
  end.

(** The [size] bytes [memcpy] writes at [p]. *)
Definition write_bytes (m : mem) (p : vptr) (data : list Z) : outcome mem :=
  match p with
  | None => Undefined
  | Some (l, off) =>
      match m !! l with
      | Some (DBytes bs) =>
          if (off <? 0) || (Zlen bs <? off + Zlen data) then Undefined
          else Done (<[l := DBytes (take (Z.to_nat off) bs ++ data
                            ++ drop (Z.to_nat off + length data) bs)]> m)
      | _ => Undefined
      end
  end.

Definition padd (p : vptr) (n : Z) : vptr :=
  match p with
  | Some (l, off) => Some (l, off + n)
  | None => None
  end.

(** [a[i]] for an [int] array and an index of any sign. *)
Definition at_index (l : list Z) (i : Z) : outcome Z :=
  if i <? 0 then Undefined
  else match l !! Z.to_nat i with
       | Some x => Done x
       | None => Undefined
       end.

(** [(dims) ? dims[i] : d]. *)
Definition dim_or (dims : option (list Z)) (i d : Z) : outcome Z :=
  match dims with
  | Some l => at_index l i
  | None => Done d
  end.

(** [for (i=0; i<ndims-1; i++) p = p[ind[i]];] with [k] iterations left. *)
Fixpoint descend (m : mem) (ind : list Z) (k : nat) (i : Z) (p : vptr)
  : outcome vptr :=
  match k with
  | O => Done p
  | S k' =>
      x ← at_index ind i;
      p' ← read_ptr m p x;
      descend m ind k' (i + 1) p'
  end.

(** [for (i=0; i<ndims; i++) ntot *= (dims) ? dims[i] : 1;] in [int]
    arithmetic. *)
Fixpoint total (dims : option (list Z)) (k : nat) (i ntot : Z) : outcome Z :=
  match k with
  | O => Done ntot
  | S k' =>
      d ← dim_or dims i 1;
      let ntot' := ntot * d in
      if (ntot' >? INT_MAX) || (ntot' <? - INT_MAX - 1) then Undefined
      else total dims k' (i + 1) ntot'
  end.

(** The carry loop [for (i=ndims-2; i>=0; i--)]; [k] is [i+1]. *)
Fixpoint carry (dims : option (list Z)) (k : nat) (ind : list Z)
  : outcome (list Z) :=
  match k with
  | O => Done ind
  | S i =>
      x ← at_index ind (Z.of_nat i);
      d ← dim_or dims (Z.of_nat i) (Z.of_nat i);
      if x + 1 <? d then Done (<[i:=x + 1]> ind)
      else carry dims i (<[i:=0]> ind)
  end.

(** The index bookkeeping at the end of one iteration of the copy loop:
    the new [ind] and the new [p].  [base] is the pointer the descent
    restarts from. *)
Definition advance (m : mem) (base : vptr) (ndims : Z)
    (dims : option (list Z)) (ind : list Z) (p : vptr)
  : outcome (list Z * vptr) :=
  x ← at_index ind (ndims - 1);
  d ← dim_or dims (ndims - 1) 1;
  if x + 1 >=? d then
    let ind := <[Z.to_nat (ndims - 1):=0]> ind in
    ind ← carry dims (Z.to_nat (ndims - 1)) ind;
    p' ← descend m ind (Z.to_nat (ndims - 1)) 0 base;
    Done (ind, p')
  else Done (<[Z.to_nat (ndims - 1):=x + 1]> ind, p).

(** The loop [while (n++ < ntot)] of dlite_copy_to_flat. *)
Fixpoint flat_loop (src : vptr) (size ndims : Z) (dims : option (list Z))
    (k : nat) (m : mem) (ind : list Z) (p q : vptr) : outcome mem :=
  match k with
  | O => Done m
  | S k' =>
      e ← read_ptr m p 0;
      data ← read_bytes m e size;
      m ← write_bytes m q data;
      let p := padd p 1 in
      let q := padd q size in
      '(ind, p) ← advance m src ndims dims ind p;
      flat_loop src size ndims dims k' m ind p q
  end.

(** dlite_copy_to_flat: the return value and the memory it leaves.  [ok]
    tells whether [calloc] serves the index array. *)
Definition dlite_copy_to_flat (ok : bool) (m : mem) (dst src : vptr)
    (size ndims : Z) (dims : option (list Z)) : outcome (Z * mem) :=
  if negb ok || (ndims <? 0) then Done (1, m)
  else
    let ind := replicate (Z.to_nat ndims) 0 in
    p ← descend m ind (Z.to_nat (ndims - 1)) 0 src;
    ntot ← total dims (Z.to_nat ndims) 0 1;
    m ← flat_loop src size ndims dims (Z.to_nat ntot) m ind p dst;
    Done (0, m).

(** The loop of dlite_copy_to_nested.  After the last index wraps, the
    descent restarts from [src], the flat buffer. *)
Fixpoint nested_loop (src : vptr) (size ndims : Z) (dims : option (list Z))
    (k : nat) (m : mem) (ind : list Z) (p q : vptr) : outcome mem :=
  match k with
  | O => Done m
  | S k' =>
      e ← read_ptr m p 0;
      data ← read_bytes m q size;
      m ← write_bytes m e data;
      let p := padd p 1 in
      let q := padd q size in
      '(ind, p) ← advance m src ndims dims ind p;
      nested_loop src size ndims dims k' m ind p q
  end.

(** dlite_copy_to_nested. *)
Definition dlite_copy_to_nested (ok : bool) (m : mem) (dst src : vptr)
    (size ndims : Z) (dims : option (list Z)) : outcome (Z * mem) :=
  if negb ok || (ndims <? 0) then Done (1, m)
  else
    let ind := replicate (Z.to_nat ndims) 0 in
    p ← descend m ind (Z.to_nat (ndims - 1)) 0 dst;
    ntot ← total dims (Z.to_nat ndims) 0 1;
    m ← nested_loop src size ndims dims (Z.to_nat ntot) m ind p src;
    Done (0, m).

End Datamodel.


(** ** Concrete states used to run the definitions *)
Module Examples.
Import Uuid Mem Entity Storage Collection Datamodel.

(** An entity with two dimensions [n] and [m] and one property [x], a
    two-dimensional array of string pointers over [n] and [m]. *)
Definition ex_entity : DLiteMeta :=
  mkMeta (cs "0a1b2c3d-0000-5000-8000-000000000001" ++ [NUL])
         (Some 19%positive) (Some schema_entity_loc) None 64 48
         (Some 11%positive) 64 1
         (Some 12%positive) (Some 13%positive) None 2 1 0.

Definition ex_heap : heap :=
  <[10%positive := BMeta ex_entity]>
  (<[11%positive := BSizes [64]]>
  (<[12%positive := BDims [mkDim (Some 20%positive) None;
                           mkDim (Some 21%positive) None]]>
  (<[13%positive := BPropPtrs [Some 14%positive]]>
  (<[14%positive := BProps [mkProp (Some 22%positive) dliteStringPtr 8 2
                                   (Some 15%positive) None None]]>
  (<[15%positive := BInts [0; 1]]>
  (<[19%positive := BString (cs "http://example.org/0.1/Grid")]>
  (<[20%positive := BString (cs "n")]>
  (<[21%positive := BString (cs "m")]>
  (<[22%positive := BString (cs "x")]> ∅))))))))).

Definition ex_rng : @rng toy_lib :=
  (0, cs "6CB8E707-0FC5-4f55-9afd-06bf82d1a8a7").

(** The state after [dlite_instance_create(entity, {3, 2}, "myinst")]. *)
Definition ex_created : outcome (res ptr * state) :=
  @dlite_instance_create toy_lib ex_rng (Some 10%positive) [3; 2]
    (Some (cs "myinst")) (State [] ex_heap).

Definition ex_state : state :=
  match ex_created with
  | Done (_, s) => s
  | Undefined => State [] ex_heap
  end.

Definition ex_inst : ptr :=
  match ex_created with
  | Done (Ok p, _) => p
  | _ => None
  end.

(** A driver that supports [getEntity] and answers every uuid with the
    entity at address 10. *)
Definition ex_plugin : DLitePlugin :=
  mkPlugin (cs "json") (Some (fun _ => mret (Some 10%positive))) None.

Definition ex_storage : DLiteStorage :=
  mkStorage ex_plugin (cs "Chemistry-0.1.json") (cs "r") 0.

(** Two instances of the entity at address 10, for the collection. *)
Definition ex_inst1 : DLiteInstance :=
  mkInst (cs "11111111-aaaa-4bbb-8ccc-000000000001" ++ [NUL]) None
         (Some 10%positive) [3; 2] [CZero].

Definition ex_inst2 : DLiteInstance :=
  mkInst (cs "22222222-aaaa-4bbb-8ccc-000000000002" ++ [NUL]) None
         (Some 10%positive) [1; 1] [CZero].

Definition ex_coll_heap : heap :=
  <[30%positive := BInst ex_inst1]> (<[31%positive := BInst ex_inst2]> ex_heap).

(** A toy id for triples: the concatenation of the three strings. *)
Definition toy_id : TripletId := fun s p o => s ++ p ++ o.

Definition ex_coll : DLiteCollection :=
  mkColl (cs "33333333-aaaa-4bbb-8ccc-000000000003" ++ [NUL]) None None
         triplestore_create triplestore_create.

(** The collection after [dlite_collection_add(coll, "a", inst1)]. *)
Definition ex_coll_a : DLiteCollection :=
  match @dlite_collection_add toy_id ex_coll_heap ex_coll (cs "a")
          (Some 30%positive) with
  | Done (_, c) => c
  | Undefined => ex_coll
  end.

(** A 2 x 3 nested array of one-byte elements (rows at 2 and 3, elements
    in the buffers 4 and 5) and a flat buffer of six bytes at 6. *)
Definition ex_mem (row0 row1 flat : list Z) : mem :=
  <[1%positive := DPtrs [Some (2%positive, 0); Some (3%positive, 0)]]>
  (<[2%positive := DPtrs [Some (4%positive, 0); Some (4%positive, 1);
                          Some (4%positive, 2)]]>
  (<[3%positive := DPtrs [Some (5%positive, 0); Some (5%positive, 1);
                          Some (5%positive, 2)]]>
  (<[4%positive := DBytes row0]>
  (<[5%positive := DBytes row1]>
  (<[6%positive := DBytes flat]> ∅))))).

Definition ex_nested : vptr := Some (1%positive, 0).
Definition ex_flat : vptr := Some (6%positive, 0).

(** The entity of [ex_heap] with a property that declares one dimension
    but has no [dims] array. *)
Definition ex_heap_nodims : heap :=
  <[14%positive := BProps [mkProp (Some 22%positive) dliteFloat 8 1
                                  None None None]]> ex_heap.

(** A toy layout: every member is aligned on 8 bytes. *)
Definition toy_types : TypeLib := {|
  dlite_type_get_alignment := fun _ _ => 8;
  dlite_type_get_member_offset := fun off size _ _ =>
    (off + size + 7) / 8 * 8;
  sizeof_DLiteMeta := 152;
  sizeof_DLiteEntity := 152;
  offsetof_DLiteMeta_dimensions := 128;
  offsetof_DLiteMeta_relations := 144;
  offsetof_DLiteEntity_dimensions := 128;
  offsetof_DLiteInstance_meta := 48
|}.

(** The caller's memory before [dlite_entity_create]: an array with one
    dimension [n] at 40 and an array with one property [x] at 43, with
    the strings and the [dims] array they point to. *)
Definition ex_caller_heap : heap :=
  <[40%positive := BDims [mkDim (Some 41%positive) (Some 42%positive)]]>
  (<[41%positive := BString (cs "n")]>
  (<[42%positive := BString (cs "number of points")]>
  (<[43%positive := BProps [mkProp (Some 44%positive) dliteFloat 8 1
                              (Some 45%positive) (Some 46%positive)
                              (Some 47%positive)]]>
  (<[44%positive := BString (cs "x")]>
  (<[45%positive := BInts [0]]>
  (<[46%positive := BString (cs "coordinates")]>
  (<[47%positive := BString (cs "m")]>
   (@init_heap toy_types)))))))).

(** The state after
    [dlite_entity_create("http://example.org/0.1/Line", NULL, 1, dims, 1, props)]. *)
Definition ex_entity_created : outcome (res ptr * state) :=
  @dlite_entity_create toy_lib toy_types ex_rng
    (Some (cs "http://example.org/0.1/Line")) None
    1 (Some 40%positive) 1 (Some 43%positive) (State [] ex_caller_heap).

Definition ex_entity_state : state :=
  match ex_entity_created with
  | Done (_, s) => s
  | Undefined => State [] ex_caller_heap
  end.

End Examples.

(** ** dlite.c: vocabulary for the statements about urls *)
Module UrlMore.

(** How many of its three outputs a call of dlite_split_metadata
    requests, that is, how many allocations it makes when none fails. *)
Definition requests (name version namespace : bool) : nat :=
  ((if name then 1 else 0) + (if version then 1 else 0)
   + (if namespace then 1 else 0))%nat.

(** The number of separators in a url. *)
Definition separators (s : cstr) : nat :=
  length (filter (fun c => c = slash) s).

End UrlMore.

(** ** dlite.c: type names *)
Module Typename.

(** The table [types] of dlite_get_typename. *)
Definition types : list cstr :=
  [cs "blob"; cs "boolean"; cs "integer"; cs "unsigned_integer";
   cs "float"; cs "string"; cs "string_pointer"].

(** dlite_get_typename, on the number of the type; [None] is the NULL
    returned after the error is reported. *)
Definition dlite_get_typename (type : Z) : option cstr :=
  if (type <? 0) || (type >=? Zlen types) then None
  else types !! Z.to_nat type.

End Typename.

(** ** dlite-entity.c: lookup by name and the property accessors *)
Module Lookup.
Import Mem Entity.

(** dlite_meta_get_property_index: the loop, then [err(-1, ...)]. *)
Fixpoint property_index_loop (m : DLiteMeta) (name : cstr)
    (k : nat) (i : Z) : M Z :=
  match k with
  | O => mret (-1)
  | S k' =>
      p ← meta_property m i;
      s ← load_string (p_name p);
      if bool_decide (name = s) then mret (to_int i)
      else property_index_loop m name k' (i + 1)
  end.

Definition dlite_meta_get_property_index (meta : ptr) (name : cstr) : M Z :=
  m ← load_meta meta;
  property_index_loop m name (Z.to_nat (m_nproperties m)) 0.

(** dlite_meta_get_property: [meta->properties[i]], or NULL. *)
Definition dlite_meta_get_property (meta : ptr) (name : cstr) : M ptr :=
  i ← dlite_meta_get_property_index meta name;
  if i <? 0 then mret None
  else
    m ← load_meta meta;
    l ← load_propptrs (m_properties m);
    index l i.

(** dlite_entity_get_property_by_index.  The error message is built from
    [entity->meta->uri]. *)
Definition dlite_entity_get_property_by_index (entity : ptr) (i : Z)
  : M ptr :=
  e ← load_meta entity;
  if i >=? m_nproperties e then
    _ ← load_meta (m_meta e);
    mret None
  else
    l ← load_propptrs (m_properties e);
    index l i.

(** dlite_entity_get_property. *)
Definition dlite_entity_get_property (entity : ptr) (name : cstr) : M ptr :=
  i ← dlite_meta_get_property_index entity name;
  if i <? 0 then mret None
  else
    e ← load_meta entity;
    l ← load_propptrs (m_properties e);
    index l i.

(** dlite_instance_get_property_by_index: the address
    [(char * )inst + propoffsets[i]] as the instance and the offset in
    it, or NULL. *)
Definition dlite_instance_get_property_by_index (inst : ptr) (i : Z)
  : M (option (loc * Z)) :=
  x ← load_inst inst;
  m ← load_meta (i_meta x);
  if i >=? m_nproperties m then mret None
  else
    off ← meta_propoffset m i;
    match inst with
    | Some li => mret (Some (li, off))
    | None => undef
    end.

(** dlite_instance_get_property. *)
Definition dlite_instance_get_property (inst : ptr) (name : cstr)
  : M (option (loc * Z)) :=
  x ← load_inst inst;
  i ← dlite_meta_get_property_index (i_meta x) name;
  if i <? 0 then mret None
  else
    m ← load_meta (i_meta x);
    off ← meta_propoffset m i;
    match inst with
    | Some li => mret (Some (li, off))
    | None => undef
    end.

(** [p->ndims] of the property a non-NULL [p] points to. *)
Definition property_ndims (p : ptr) : M Z :=
  ps ← load_props p; q ← index ps 0; mret (p_ndims q).

(** dlite_instance_get_property_ndims_by_index. *)
Definition dlite_instance_get_property_ndims_by_index (inst : ptr) (i : Z)
  : M Z :=
  x ← load_inst inst;
  p ← dlite_entity_get_property_by_index (i_meta x) i;
  match p with
  | None => mret (-1)
  | Some _ => property_ndims p
  end.

(** dlite_instance_get_property_dimsize_by_index.  [j] is compared with
    [(size_t)p->ndims]. *)
Definition dlite_instance_get_property_dimsize_by_index (inst : ptr)
    (i j : Z) : M Z :=
  x ← load_inst inst;
  _ ← load_meta (i_meta x);
  p ← dlite_entity_get_property_by_index (i_meta x) i;
  match p with
  | None => mret (-1)
  | Some _ =>
      ps ← load_props p;
      q ← index ps 0;
      if j >=? p_ndims q mod SIZE_MOD then mret (-1)
      else
        pd ← load_ints (p_dims q);
        d ← index pd j;
        v ← index (i_dimensions x) d;
        mret (to_int v)
  end.

(** dlite_instance_get_property_ndims. *)
Definition dlite_instance_get_property_ndims (inst : ptr) (name : cstr)
  : M Z :=
  x ← load_inst inst;
  p ← dlite_entity_get_property (i_meta x) name;
  match p with
  | None => mret (-1)
  | Some _ => property_ndims p
  end.

(** dlite_instance_get_property_dimssize: the result is a [size_t]. *)
Definition dlite_instance_get_property_dimssize (inst : ptr) (name : cstr)
    (j : Z) : M Z :=
  x ← load_inst inst;
  i ← dlite_meta_get_property_index (i_meta x) name;
  if i <? 0 then mret ((-1) mod SIZE_MOD)
  else
    r ← dlite_instance_get_property_dimsize_by_index inst i j;
    mret (r mod SIZE_MOD).

(** The string a pointer of the heap [h] points to. *)
Definition string_at (h : heap) (p : ptr) : option cstr :=
  match p ≫= (h !!.) with
  | Some (BString s) => Some s
  | _ => None
  end.

(** The names of the dimensions of [m], when [m->dimensions] holds
    [ndimensions] entries whose names are strings of the heap. *)
Definition dimension_names (h : heap) (m : DLiteMeta) : option (list cstr) :=
  if m_ndimensions m <=? 0 then Some []
  else
    match m_dimensions m ≫= (h !!.) with
    | Some (BDims ds) =>
        if Zlen ds <? m_ndimensions m then None
        else mapM (fun d => string_at h (d_name d))
                  (take (Z.to_nat (m_ndimensions m)) ds)
    | _ => None
    end.

(** The property a pointer of [meta->properties] points to. *)
Definition property_at (h : heap) (p : ptr) : option DLiteProperty :=
  match p ≫= (h !!.) with
  | Some (BProps ps) => ps !! O
  | _ => None
  end.

(** The properties of [m], when [m->properties] holds [nproperties]
    pointers to properties of the heap. *)
Definition properties_of (h : heap) (m : DLiteMeta)
  : option (list DLiteProperty) :=
  if m_nproperties m <=? 0 then Some []
  else
    match m_properties m ≫= (h !!.) with
    | Some (BPropPtrs l) =>
        if Zlen l <? m_nproperties m then None
        else mapM (property_at h) (take (Z.to_nat (m_nproperties m)) l)
    | _ => None
    end.

(** The names of the properties of [m]. *)
Definition property_names (h : heap) (m : DLiteMeta) : option (list cstr) :=
  ps ← properties_of h m; mapM (fun p => string_at h (p_name p)) ps.

(** The index of the first string of [names] equal to [name], as the
    lookups return it: -1 when there is none. *)
Definition first_index (name : cstr) (names : list cstr) : Z :=
  match list_find (fun s => name = s) names with
  | Some (i, _) => Z.of_nat i
  | None => -1
  end.

End Lookup.

(** ** dlite-datamodel.c: vocabulary for nested arrays *)
Module Arrays.
Import Datamodel.

Definition product (l : list Z) : Z := foldr Z.mul 1 l.

(** The index vector of the element at position [t] of an array of
    extents [ds] stored in C order (the last index runs fastest):
    [i_k = (t / (d_(k+1) * ... * d_(n-1))) mod d_k]. *)
Fixpoint unrank (ds : list Z) (t : Z) : list Z :=
  match ds with
  | [] => []
  | d :: ds' => (t / product ds') mod d :: unrank ds' t
  end.

(** [p[i0][i1]...]: the pointer reached from [p] through the indices. *)
Fixpoint follow (m : mem) (idx : list Z) (p : vptr) : outcome vptr :=
  match idx with
  | [] => Done p
  | i :: idx' => q ← read_ptr m p i; follow m idx' q
  end.

(** The element of index [idx] of the nested array [src]: the block it
    lives in and its [size] bytes. *)
Definition element (m : mem) (size : Z) (src : vptr) (idx : list Z)
  : option (loc * list Z) :=
  match follow m idx src with
  | Done (Some (l, o)) =>
      match read_bytes m (Some (l, o)) size with
      | Done b => Some (l, b)
      | Undefined => None
      end
  | _ => None
  end.

(** The elements of a nested array of extents [ds] in C order; [None]
    unless every one of them can be reached and read. *)
Definition elements (m : mem) (size : Z) (ds : list Z) (src : vptr)
  : option (list (loc * list Z)) :=
  mapM (fun t => element m size src (unrank ds (Z.of_nat t)))
       (seq 0 (Z.to_nat (product ds))).


(** The pointers [p[0]], ..., [p[n-1]] of an array of [n] pointers;
    [None] if one of them is NULL or cannot be read. *)
Definition slots (m : mem) (p : vptr) (n : Z) : option (list (loc * Z)) :=
  mapM (fun t => match read_ptr m p (Z.of_nat t) with
                 | Done (Some lo) => Some lo
                 | _ => None
                 end)
       (seq 0 (Z.to_nat n)).

(** The [size] bytes at [lo] lie inside a byte buffer. *)
Definition in_buffer (m : mem) (size : Z) (lo : loc * Z) : bool :=
  match m !! lo.1 with
  | Some (DBytes b) => (0 <=? lo.2) && (lo.2 + size <=? Zlen b)
  | _ => false
  end.

(** Two regions of [size] bytes do not overlap. *)
Definition apart (size : Z) (a b : loc * Z) : bool :=
  negb (bool_decide (a.1 = b.1))
  || (a.2 + size <=? b.2) || (b.2 + size <=? a.2).

Fixpoint all_apart (size : Z) (l : list (loc * Z)) : bool :=
  match l with
  | [] => true
  | a :: l' => forallb (apart size a) l' && all_apart size l'
  end.

(** The [t]-th stretch of [size] bytes of a buffer, counted from the
    offset [off]. *)
Definition chunk (bs : list Z) (off size : Z) (t : nat) : list Z :=
  take (Z.to_nat size) (drop (Z.to_nat (off + Z.of_nat t * size)) bs).

End Arrays.

(** ** A run of dlite_instance_create in which an allocation fails *)
Module FailureExample.
Import Uuid Mem Entity Examples.

(** The entity of [ex_heap], now with two references and with [x] an
    array of floats. *)
Definition ex_shared_entity : DLiteMeta := set_m_refcount 2 ex_entity.

Definition ex_heap_float : heap :=
  <[10%positive := BMeta ex_shared_entity]>
  (<[14%positive := BProps [mkProp (Some 22%positive) dliteFloat 8 2
                                   (Some 15%positive) None None]]> ex_heap).

(** [dlite_instance_create(entity, {3, 2}, "myinst")] when the instance
    and the copy of the id are allocated and the array is refused. *)
Definition ex_failed : outcome (res ptr * state) :=
  @dlite_instance_create toy_lib ex_rng (Some 10%positive) [3; 2]
    (Some (cs "myinst")) (State [true; true; false] ex_heap_float).

Definition ex_failed_state : state :=
  match ex_failed with
  | Done (_, s) => s
  | Undefined => State [] ex_heap_float
  end.

End FailureExample.

(** ** What an entity owns *)
Module Ownership.
Import Mem Entity.

Definition ptr_locs (l : list ptr) : list loc := omap id l.

(** The blocks dlite_meta_clear and dlite_entity_clear release for the
    property struct [p] points to: its name, its [dims], its description
    and the struct itself, and its unit. *)
Definition struct_blocks (p : ptr) (q : DLiteProperty) : list loc :=
  ptr_locs [p_name q; p_dims q; p_description q; p].

Definition property_blocks (h : heap) (p : ptr) : option (list loc) :=
  match p ≫= (h !!.) with
  | Some (BProps [q]) => Some (ptr_locs [p_unit q] ++ struct_blocks p q)
  | _ => None
  end.

(** The blocks released for the properties of [m]; [None] unless
    [m->properties] holds [nproperties] pointers to property structs. *)
Definition properties_blocks (h : heap) (m : DLiteMeta)
  : option (list loc) :=
  match m_properties m with
  | None => if m_nproperties m <=? 0 then Some [] else None
  | Some lpp =>
      match h !! lpp with
      | Some (BPropPtrs l) =>
          if Zlen l <? m_nproperties m then None
          else bls ← mapM (property_blocks h)
                          (take (Z.to_nat (m_nproperties m)) l);
               Some (concat bls)
      | _ => None
      end
  end.

(** The blocks dlite_meta_clear releases for one entry of
    [meta->properties]: nothing for a NULL entry, and no unit. *)
Definition struct_of (h : heap) (p : ptr) : option (list loc) :=
  match p with
  | None => Some []
  | Some lp =>
      match h !! lp with
      | Some (BProps [q]) => Some (struct_blocks p q)
      | _ => None
      end
  end.

Definition meta_properties_blocks (h : heap) (m : DLiteMeta)
  : option (list loc) :=
  match m_properties m with
  | None => Some []
  | Some lpp =>
      match h !! lpp with
      | Some (BPropPtrs l) =>
          if Zlen l <? m_nproperties m then None
          else bls ← mapM (struct_of h)
                          (take (Z.to_nat (m_nproperties m)) l);
               Some (concat bls)
      | _ => None
      end
  end.

(** The blocks dlite_meta_clear releases for the metadata [m], in the
    order it releases them. *)
Definition meta_blocks (h : heap) (m : DLiteMeta) : option (list loc) :=
  props ← meta_properties_blocks h m;
  Some (ptr_locs [m_uri m; m_description m; m_propoffsets m; m_dimensions m]
        ++ props ++ ptr_locs [m_properties m; m_relations m]).

(** The blocks released when the entity [m] is destroyed, the entity
    itself apart.  The names and descriptions of the dimensions are not
    among them. *)
Definition entity_blocks (h : heap) (m : DLiteMeta) : option (list loc) :=
  props ← properties_blocks h m;
  Some (ptr_locs [m_uri m; m_description m; m_propoffsets m; m_dimensions m]
        ++ props ++ ptr_locs [m_properties m; m_relations m]).

End Ownership.

(** ** The entity of [ex_entity_state] and its schema *)
Module DestroyExample.
Import Mem Entity Examples.

Definition meta_at (s : state) (l : loc) : DLiteMeta :=
  match st_heap s !! l with
  | Some (BMeta m) => m
  | _ => zero_meta
  end.

(** The entity [dlite_entity_create] returned, at address 48. *)
Definition ex_line : DLiteMeta := meta_at ex_entity_state 48%positive.

(** [schema_entity], which now counts the reference of [ex_line]. *)
Definition ex_schema : DLiteMeta := meta_at ex_entity_state schema_entity_loc.

End DestroyExample.

(** * Properties *)

(** ** Metadata urls *)
Section url_facts.
Import Url.

Lemma eqb_slash c : Ascii.eqb c slash = bool_decide (c = slash).
Proof.
  destruct (Ascii.eqb_spec c slash) as [->|Hne].
  - by rewrite bool_decide_eq_true_2.
  - by rewrite bool_decide_eq_false_2.
Qed.

Lemma strrchr_none s : slash ∉ s -> strrchr s slash = None.
Proof.
  induction s as [|x t IH]; [done|]. intros Hn.
  apply not_elem_of_cons in Hn as [Hx Ht]. simpl.
  rewrite (IH Ht), eqb_slash, bool_decide_eq_false_2; [done|congruence].
Qed.

Lemma strrchr_last a b :
  slash ∉ b -> strrchr (a ++ slash :: b) slash = Some (length a).
Proof.
  intros Hb. induction a as [|x a IH]; simpl.
  - rewrite (strrchr_none b Hb). done.
  - by rewrite IH.
Qed.

Lemma char_at_app_r a b (q : Z) :
  Zlen a <= q < Zlen a + Zlen b -> char_at (a ++ b) q = b !! Z.to_nat (q - Zlen a).
Proof.
  unfold char_at, Zlen. intros Hq. rewrite length_app.
  destruct (Z.ltb_spec q 0); [lia|].
  destruct (Z.eqb_spec q (Z.of_nat (length a + length b))); [lia|].
  rewrite lookup_app_r by lia. f_equal. lia.
Qed.

Lemma char_at_app_l a b (q : Z) :
  0 <= q < Zlen a -> char_at (a ++ b) q = a !! Z.to_nat q.
Proof.
  unfold char_at, Zlen. intros Hq. rewrite length_app.
  destruct (Z.ltb_spec q 0); [lia|].
  destruct (Z.eqb_spec q (Z.of_nat (length a + length b))); [lia|].
  rewrite lookup_app_l by lia. done.
Qed.

(** Scanning back over [k] characters that are not separators. *)
Lemma scan_back_skip s (k : nat) : forall fuel q,
  (k <= fuel)%nat ->
  Z.of_nat k <= q ->
  (forall j, q - Z.of_nat k < j <= q ->
             exists c, char_at s j = Some c /\ c <> slash) ->
  scan_back s fuel q = scan_back s (fuel - k) (q - Z.of_nat k).
Proof.
  induction k as [|k IH]; intros fuel q Hf Hq Hc.
  - f_equal; lia.
  - destruct fuel as [|fuel]; [lia|].
    destruct (Hc q) as (c & Hcq & Hne); [lia|].
    simpl. rewrite Hcq, eqb_slash, bool_decide_eq_false_2 by done.
    destruct (Z.gtb_spec q 0); [|lia]. simpl.
    rewrite IH; [f_equal; lia|lia|lia|].
    intros j Hj. apply Hc. lia.
Qed.

Lemma scan_back_stop_slash s fuel q :
  char_at s q = Some slash -> scan_back s fuel q = Done q.
Proof.
  intros Hq. destruct fuel; simpl; by rewrite Hq.
Qed.

Lemma scan_back_stop_zero s fuel c :
  char_at s 0 = Some c -> scan_back s fuel 0 = Done 0.
Proof.
  intros Hq. destruct fuel; simpl; rewrite Hq;
    by rewrite andb_false_r.
Qed.

Lemma scan_back_before s fuel q : q < 0 -> scan_back s fuel q = Undefined.
Proof.
  intros Hq. assert (char_at s q = None) as E.
  { unfold char_at. by destruct (Z.ltb_spec q 0); [|lia]. }
  destruct fuel; simpl; by rewrite E.
Qed.

Lemma lookup_not_slash (v : cstr) (i : nat) :
  slash ∉ v -> (i < length v)%nat ->
  exists c, v !! i = Some c /\ c <> slash.
Proof.
  intros Hv Hi. destruct (lookup_lt_is_Some_2 v i Hi) as [c Hc].
  exists c. split; [done|]. intros ->.
  apply Hv. by eapply list_elem_of_lookup_2.
Qed.

(** A url [ns/v/n] splits into its three parts, as long as [n] and [v]
    hold no separator and [ns] is not empty. *)
Lemma split_three_parts (n v ns : cstr) :
  slash ∉ n -> slash ∉ v -> ns <> [] ->
  dlite_split_metadata [] (ns ++ slash :: v ++ slash :: n) true true true
  = Done (0, SplitOut (Some n) (Some v) (Some ns)).
Proof.
  intros Hn Hv Hns. unfold dlite_split_metadata.
  replace (ns ++ slash :: v ++ slash :: n)
    with ((ns ++ slash :: v) ++ slash :: n) by by rewrite <- app_assoc.
  rewrite strrchr_last by done.
  set (s := (ns ++ slash :: v) ++ slash :: n).
  assert (length ns <> 0%nat) by by destruct ns.
  assert (scan_back s (length s) (Z.of_nat (length (ns ++ slash :: v)) - 1)
          = Done (Zlen ns)) as ->.
  { rewrite (scan_back_skip s (length v)).
    - replace (Z.of_nat (length (ns ++ slash :: v)) - 1 - Z.of_nat (length v))
        with (Zlen ns) by (unfold Zlen; rewrite length_app; simpl; lia).
      apply scan_back_stop_slash. unfold s.
      rewrite <- app_assoc.
      rewrite char_at_app_r by (unfold Zlen; simpl; lia).
      by replace (Z.to_nat _) with O by lia.
    - unfold s. rewrite !length_app. simpl. lia.
    - rewrite length_app. simpl. lia.
    - intros j Hj. rewrite length_app in Hj. simpl in Hj. unfold s.
      rewrite <- !app_assoc. simpl.
      rewrite char_at_app_r
        by (unfold Zlen; simpl; rewrite length_app; simpl; lia).
      unfold Zlen.
      replace (Z.to_nat (j - Z.of_nat (length ns)))
        with (S (Z.to_nat (j - Z.of_nat (length ns) - 1))) by lia.
      simpl. rewrite lookup_app_l by lia.
      apply lookup_not_slash; [done|lia]. }
  simpl. destruct (Z.eqb_spec (Zlen ns) 0) as [E|_]; [unfold Zlen in E; lia|].
  simpl. f_equal. f_equal. unfold s, substr, Zlen. f_equal.
  - f_equal.
    replace (S (length (ns ++ slash :: v)))
      with (length ((ns ++ slash :: v) ++ [slash]))
      by (rewrite !length_app; simpl; lia).
    rewrite (cons_middle slash (ns ++ slash :: v) n), app_assoc.
    by rewrite drop_app_length.
  - f_equal.
    replace (Z.to_nat _) with (length v)
      by (rewrite length_app; simpl; lia).
    assert ((ns ++ slash :: v) ++ slash :: n
            = (ns ++ [slash]) ++ v ++ slash :: n) as ->
      by (by rewrite <- !app_assoc).
    replace (Z.to_nat (Z.of_nat (length ns) + 1))
      with (length (ns ++ [slash])) by (rewrite length_app; simpl; lia).
    rewrite drop_app_length. by rewrite take_app_length.
  - f_equal.
    replace (Z.to_nat (Z.of_nat (length ns) + 1 - 1)) with (length ns) by lia.
    change (Z.to_nat 0) with O. rewrite drop_0, <- app_assoc.
    by rewrite take_app_length.
Qed.

(** The join of three short enough strings is [namespace/version/name]. *)
Lemma join_value (n v ns : cstr) :
  Zlen n + Zlen v + Zlen ns + 3 <= INT_MAX ->
  dlite_join_metadata [] n v ns = Done (Some (ns ++ slash :: v ++ slash :: n)).
Proof.
  intros Hs. unfold dlite_join_metadata.
  destruct (Z.gtb_spec (Zlen n + Zlen v + Zlen ns + 3) INT_MAX); [lia|done].
Qed.

(** Url round trip: splitting the join of non-empty, separator-free
    [n], [v], [ns] succeeds and gives them back. *)
Lemma split_join_roundtrip (n v ns : cstr) :
  n <> [] -> v <> [] -> ns <> [] ->
  slash ∉ n -> slash ∉ v -> slash ∉ ns ->
  Zlen n + Zlen v + Zlen ns + 3 <= INT_MAX ->
  exists url,
    dlite_join_metadata [] n v ns = Done (Some url) /\
    dlite_split_metadata [] url true true true
    = Done (0, SplitOut (Some n) (Some v) (Some ns)).
Proof.
  intros _ _ Hns Hn Hv _ Hs. eexists. split; [by apply join_value|].
  by apply split_three_parts.
Qed.

(** A uri without any separator is rejected. *)
Lemma split_no_separator (o : oracle) (s : cstr) (f1 f2 f3 : bool) :
  slash ∉ s -> dlite_split_metadata o s f1 f2 f3 = Done (1, no_out).
Proof.
  intros Hs. unfold dlite_split_metadata. by rewrite strrchr_none.
Qed.

(** A uri whose only separator is not its first character is rejected. *)
Lemma split_one_inner_separator (o : oracle) (a b : cstr) (f1 f2 f3 : bool) :
  a <> [] -> slash ∉ a -> slash ∉ b ->
  dlite_split_metadata o (a ++ slash :: b) f1 f2 f3 = Done (1, no_out).
Proof.
  intros Ha Hna Hnb. unfold dlite_split_metadata.
  rewrite strrchr_last by done.
  assert (length a <> 0%nat) by by destruct a.
  rewrite (scan_back_skip _ (length a - 1)).
  - replace (Z.of_nat (length a) - 1 - Z.of_nat (length a - 1)) with 0 by lia.
    destruct (lookup_not_slash a O Hna) as (c & Hc & _); [lia|].
    rewrite (scan_back_stop_zero _ _ c); [done|].
    rewrite char_at_app_l by (unfold Zlen; lia). done.
  - rewrite length_app. simpl. lia.
  - lia.
  - intros j Hj. rewrite char_at_app_l by (unfold Zlen; lia).
    apply lookup_not_slash; [done|lia].
Qed.

(** C5 (the defect).  On a uri whose only separator is its first
    character, dlite_split_metadata does not take its error exit: [p] is
    [metadata], so [q = p - 1] points before the string, the loop reads
    [*q] there, and [q == metadata] does not hold afterwards.  The call
    has no defined result, whichever outputs are requested. *)
Theorem split_leading_separator_undefined (o : oracle) (b : cstr)
    (f1 f2 f3 : bool) :
  slash ∉ b ->
  dlite_split_metadata o (slash :: b) f1 f2 f3 = Undefined.
Proof.
  intros Hb. unfold dlite_split_metadata.
  change (slash :: b) with ([] ++ slash :: b).
  rewrite (strrchr_last [] b Hb).
  by rewrite scan_back_before.
Qed.

Lemma split_leading_separator_undefined_witness :
  (slash ∉ cs "abc") /\
  dlite_split_metadata [] (cs "/abc") true true true = Undefined.
Proof.
  assert (slash ∉ cs "abc") as Hb.
  { rewrite list_elem_of_In. simpl. unfold slash. intuition congruence. }
  split; [exact Hb|].
  exact (split_leading_separator_undefined [] (cs "abc") true true true Hb).
Defined.

End url_facts.

(** ** Identity *)
Section uuid_facts.
Import Uuid.
Context `{UuidLib}.

Lemma tolower_idem c : tolower (tolower c) = tolower c.
Proof. destruct c as [[] [] [] [] [] [] [] []]; reflexivity. Qed.

Lemma map_tolower_idem (l : list ascii) :
  map tolower (map tolower l) = map tolower l.
Proof.
  rewrite map_map. apply map_ext. intros c. apply tolower_idem.
Qed.

Lemma tolower_NUL : tolower NUL = NUL.
Proof. reflexivity. Qed.

(** The first 36 bytes of a lowercased buffer are lowercase. *)
Lemma lower_buff_lower (b : list ascii) :
  map tolower (take 36 (lower_buff b)) = take 36 (lower_buff b).
Proof.
  unfold lower_buff, UUID_LEN.
  destruct (decide (36 <= length b)%nat) as [Hb|Hb].
  - rewrite take_app_le by (rewrite length_map, length_take; lia).
    rewrite firstn_map, take_idemp.
    apply map_tolower_idem.
  - rewrite (drop_ge b 36) by lia. rewrite app_nil_r.
    rewrite (take_ge b 36) by lia.
    rewrite take_ge by (rewrite length_map; lia).
    apply map_tolower_idem.
Qed.

(** Lowercasing a buffer that holds a 36-character string and its NUL. *)
Lemma lower_buff_string (u : cstr) :
  length u = 36%nat -> lower_buff (u ++ [NUL]) = map tolower u ++ [NUL].
Proof.
  intros Hu. unfold lower_buff, UUID_LEN.
  rewrite <- Hu, take_app_length, drop_app_length. done.
Qed.

Lemma canonical_uuid_length (u : cstr) :
  canonical_uuid u = true -> length u = 36%nat.
Proof.
  unfold canonical_uuid. intros Hu. apply andb_prop in Hu as [Hl _].
  by apply Nat.eqb_eq in Hl.
Qed.

Lemma strncpy_full (u : cstr) : length u = 36%nat -> strncpy u 36 = u.
Proof.
  intros Hu. unfold strncpy. rewrite <- Hu, firstn_all, Nat.sub_diag.
  apply app_nil_r.
Qed.

Lemma getuuid_nonempty (r : rng) (s : cstr) :
  s <> [] -> getuuid r (Some s) = getuuidn r (Some s) (Zlen s) /\ Zlen s <> 0.
Proof.
  intros Hs. split; [done|]. unfold Zlen. destruct s; [done|simpl; lia].
Qed.

Lemma take_Zlen {A} (l : list A) : take (Z.to_nat (Zlen l)) l = l.
Proof. unfold Zlen. rewrite Nat2Z.id. apply firstn_all. Qed.

(** The three branches of getuuid. *)
Lemma getuuid_v4 (r : rng) (id : option cstr) :
  id = None \/ id = Some [] ->
  getuuid r id
  = (if fst (uuid4_generate r) =? 0 then 4 else -1,
     lower_buff (snd (uuid4_generate r))).
Proof.
  intros [-> | ->]; unfold getuuid, getuuidn; simpl;
    by destruct (uuid4_generate r).
Qed.

Lemma getuuid_copy (r : rng) (u : cstr) :
  canonical_uuid u = true -> getuuid r (Some u) = (0, map tolower u ++ [NUL]).
Proof.
  intros Hu. pose proof (canonical_uuid_length u Hu) as Hl.
  assert (u <> []) as Hne by (intros ->; done).
  destruct (getuuid_nonempty r u Hne) as [-> Hz].
  unfold getuuidn. apply Z.eqb_neq in Hz. rewrite Hz.
  destruct u as [|c u]; [done|].
  unfold uuid_from_string. rewrite take_Zlen, Hu. simpl negb. cbv iota.
  unfold UUID_LEN. rewrite strncpy_full by done.
  by rewrite lower_buff_string.
Qed.

Lemma getuuid_v5 (r : rng) (s : cstr) :
  s <> [] -> canonical_uuid s = false ->
  getuuid r (Some s)
  = (5, map tolower
          (uuid_as_string (uuid_create_sha1_from_name NameSpace_DNS s))
        ++ [NUL]).
Proof.
  intros Hne Hs. destruct (getuuid_nonempty r s Hne) as [-> Hz].
  unfold getuuidn. apply Z.eqb_neq in Hz. rewrite Hz.
  destruct s as [|c s]; [done|].
  unfold uuid_from_string. rewrite take_Zlen, Hs. simpl negb. cbv iota.
  by rewrite lower_buff_string by apply uuid_as_string_length.
Qed.

(** C1.  get_uuid on a NULL or empty id returns 4 and leaves the
    generated random uuid, provided the generator succeeds; on a canonical
    uuid string [U] it returns 0 and leaves [lower(U)]; on any other id it
    returns 5 and leaves the uuid printed from the SHA-1 of the id under
    the DNS namespace, the same in every call; and whatever it returns,
    the 36 characters it leaves are lowercase. *)
Theorem getuuid_spec (r : rng) (id : option cstr) :
  (id = None \/ id = Some [] ->
   fst (uuid4_generate r) = 0 ->
   getuuid r id = (4, lower_buff (snd (uuid4_generate r)))) /\
  (forall U, id = Some U -> canonical_uuid U = true ->
   getuuid r id = (0, map tolower U ++ [NUL])) /\
  (forall s, id = Some s -> s <> [] -> canonical_uuid s = false ->
   getuuid r id
   = (5, map tolower
           (uuid_as_string (uuid_create_sha1_from_name NameSpace_DNS s))
         ++ [NUL]) /\
   forall r', getuuid r' id = getuuid r id) /\
  (forall v b, getuuid r id = (v, b) ->
   map tolower (take 36 b) = take 36 b).
Proof.
  repeat split.
  - intros Hid Hok. rewrite getuuid_v4 by done. by rewrite Hok.
  - intros U -> HU. by apply getuuid_copy.
  - subst id. by apply getuuid_v5.
  - intros r'. subst id. by rewrite !getuuid_v5.
  - intros v b Hvb.
    assert (b = lower_buff
                  (match (if Zlen (default [] id) =? 0 then None else id) with
                   | None | Some [] => snd (uuid4_generate r)
                   | Some s =>
                       if negb (uuid_from_string s (Zlen (default [] id)) =? 0)
                       then uuid_as_string
                              (uuid_create_sha1_from_name NameSpace_DNS
                                 (take (Z.to_nat (Zlen (default [] id))) s))
                            ++ [NUL]
                       else strncpy s UUID_LEN ++ [NUL]
                   end)) as ->.
    { revert Hvb. unfold getuuid, getuuidn.
      destruct id as [s|]; simpl.
      - destruct (Zlen s =? 0); [|destruct s as [|c s]];
          try (destruct (uuid4_generate r); simpl; congruence).
        destruct (negb _); simpl; congruence.
      - destruct (uuid4_generate r); simpl; congruence. }
    apply lower_buff_lower.
Qed.

End uuid_facts.

Lemma getuuid_spec_witness :
  let r : @Uuid.rng Uuid.toy_lib :=
    (0, cs "6CB8E707-0FC5-4f55-9afd-06bf82d1a8a7") in
  @Uuid.getuuid Uuid.toy_lib r None
  = (4, cs "6cb8e707-0fc5-4f55-9afd-06bf82d1a8a7" ++ [NUL]) /\
  @Uuid.getuuid Uuid.toy_lib r
    (Some (cs "6CB8E707-0FC5-4f55-9afd-06bf82d1a8a7"))
  = (0, cs "6cb8e707-0fc5-4f55-9afd-06bf82d1a8a7" ++ [NUL]) /\
  @Uuid.getuuid Uuid.toy_lib r (Some (cs "myinst"))
  = (5, cs "mb1d4c6e8-0000-5000-8000-00000000abc" ++ [NUL]).
Proof.
  intros r. split; [|split].
  - apply (@getuuid_spec Uuid.toy_lib r None); [by left|reflexivity].
  - exact (eq_trans
             (proj1 (proj2 (@getuuid_spec Uuid.toy_lib r
                              (Some (cs "6CB8E707-0FC5-4f55-9afd-06bf82d1a8a7"))))
                    (cs "6CB8E707-0FC5-4f55-9afd-06bf82d1a8a7")
                    eq_refl eq_refl)
             eq_refl).
  - refine (eq_trans
              (proj1 (proj1 (proj2 (proj2 (@getuuid_spec Uuid.toy_lib r
                                             (Some (cs "myinst")))))
                        (cs "myinst") eq_refl _ eq_refl))
              eq_refl).
    discriminate.
Defined.

(** ** Loading entities *)
Section load_facts.
Import Uuid Mem Storage.
Context `{UuidLib}.

(** A driver without [getEntity]: NULL is returned and the message
    reported names the driver. *)
Lemma entity_load_no_capability (r : rng) (s : DLiteStorage)
    (id : option cstr) (st : state) :
  getEntity (api s) = None ->
  dlite_entity_load r s id st
  = Done (Ok (Reported None (Some (msg_no_getEntity (api_name (api s))))), st)
  /\ exists a b, msg_no_getEntity (api_name (api s))
                 = a ++ api_name (api s) ++ b.
Proof.
  intros Hg. unfold dlite_entity_load. rewrite Hg. split; [done|].
  by eexists _, _.
Qed.

(** C4 (the defect).  When the driver supports [getEntity], the test
    [(uuidver = dlite_get_uuid(uuid, id)) != 0 || uuidver != 5] holds for
    every version, so dlite_entity_load reports the id as unusable and
    returns NULL without calling the driver, whatever the id. *)
Theorem entity_load_never_dispatches (r : rng) (s : DLiteStorage)
    (id : option cstr) (get : cstr -> M ptr) (st : state) :
  getEntity (api s) = Some get ->
  dlite_entity_load r s id st
  = Done (Ok (Reported None (Some (msg_bad_id id))), st).
Proof.
  intros Hg. unfold dlite_entity_load. rewrite Hg.
  destruct (dlite_get_uuid r id) as [v u].
  destruct (Z.eqb_spec v 0), (Z.eqb_spec v 5); try done; lia.
Qed.

End load_facts.

Lemma entity_load_never_dispatches_witness :
  Storage.getEntity (Storage.api Examples.ex_storage)
  = Some (fun _ => mret (Some 10%positive)) /\
  @Storage.dlite_entity_load Uuid.toy_lib Examples.ex_rng Examples.ex_storage
    (Some (cs "http://www.sintef.no/calm/0.1/Chemistry"))
    (Mem.State [] Examples.ex_heap)
  = Done (Mem.Ok (Storage.Reported None
            (Some (Storage.msg_bad_id
                     (Some (cs "http://www.sintef.no/calm/0.1/Chemistry"))))),
          Mem.State [] Examples.ex_heap).
Proof.
  split; [reflexivity|].
  exact (@entity_load_never_dispatches Uuid.toy_lib Examples.ex_rng
           Examples.ex_storage _ _ (Mem.State [] Examples.ex_heap) eq_refl).
Defined.

(** ** Reasoning about heap computations *)
Section monad_facts.
Import Mem.

Lemma bind_Ok {A B} (x : M A) (f : A -> M B) (s s' : state) (a : A) :
  x s = Done (Ok a, s') -> (x ≫= f) s = f a s'.
Proof. unfold mbind, M_bind. by intros ->. Qed.

Lemma bind_Fail {A B} (x : M A) (f : A -> M B) (s s' : state) :
  x s = Done (Fail, s') -> (x ≫= f) s = Done (Fail, s').
Proof. unfold mbind, M_bind. by intros ->. Qed.

Lemma bind_Undefined {A B} (x : M A) (f : A -> M B) (s : state) :
  x s = Undefined -> (x ≫= f) s = Undefined.
Proof. unfold mbind, M_bind. by intros ->. Qed.

(** A bind that returns went through a returning first half. *)
Lemma bind_inv {A B} (x : M A) (f : A -> M B) (s s2 : state) (b : B) :
  (x ≫= f) s = Done (Ok b, s2) ->
  exists a s1, x s = Done (Ok a, s1) /\ f a s1 = Done (Ok b, s2).
Proof.
  unfold mbind, M_bind. destruct (x s) as [[[a|] s1]|]; try done.
  intros Hf. by exists a, s1.
Qed.

Lemma mret_inv {A} (a b : A) (s s' : state) :
  (mret a : M A) s = Done (Ok b, s') -> a = b /\ s = s'.
Proof. unfold mret, M_ret. by intros [= -> ->]. Qed.

Lemma deref_inv (p : ptr) (s s' : state) (r : res block) :
  deref p s = Done (r, s') ->
  s' = s /\ exists l b, p = Some l /\ r = Ok b /\ st_heap s !! l = Some b.
Proof.
  destruct p as [l|]; [|done]. unfold deref, load.
  destruct (st_heap s !! l) as [b|] eqn:E; [|done].
  intros [= <- <-]. split; [done|]. by exists l, b.
Qed.

Lemma deref_ok (l : loc) (s : state) (b : block) :
  st_heap s !! l = Some b -> deref (Some l) s = Done (Ok b, s).
Proof. unfold deref, load. by intros ->. Qed.

Ltac load_inv_tac H :=
  let b := fresh "b" in let s1 := fresh "s" in let E := fresh "E" in
  unfold mbind, M_bind in H;
  match type of H with
  | context [deref ?p ?s] =>
      destruct (deref p s) as [[[b|] s1]|] eqn:E; try done;
      apply deref_inv in E as (-> & ? & ? & -> & [= <-] & E);
      destruct b; try done;
      apply mret_inv in H as [<- <-];
      split; [done|]; eexists; split; [done|]; done
  end.

Lemma load_meta_inv (p : ptr) (s s' : state) (m : DLiteMeta) :
  load_meta p s = Done (Ok m, s') ->
  s' = s /\ exists l, p = Some l /\ st_heap s !! l = Some (BMeta m).
Proof. unfold load_meta. intros Hl. load_inv_tac Hl. Qed.

Lemma load_meta_ok (l : loc) (s : state) (m : DLiteMeta) :
  st_heap s !! l = Some (BMeta m) -> load_meta (Some l) s = Done (Ok m, s).
Proof.
  intros Hl. unfold load_meta. by rewrite (bind_Ok _ _ _ _ _ (deref_ok _ _ _ Hl)).
Qed.

Lemma load_inst_inv (p : ptr) (s s' : state) (m : DLiteInstance) :
  load_inst p s = Done (Ok m, s') ->
  s' = s /\ exists l, p = Some l /\ st_heap s !! l = Some (BInst m).
Proof. unfold load_inst. intros Hl. load_inv_tac Hl. Qed.

Lemma load_inst_ok (l : loc) (s : state) (m : DLiteInstance) :
  st_heap s !! l = Some (BInst m) -> load_inst (Some l) s = Done (Ok m, s).
Proof.
  intros Hl. unfold load_inst. by rewrite (bind_Ok _ _ _ _ _ (deref_ok _ _ _ Hl)).
Qed.

Lemma load_string_inv (p : ptr) (s s' : state) (m : cstr) :
  load_string p s = Done (Ok m, s') ->
  s' = s /\ exists l, p = Some l /\ st_heap s !! l = Some (BString m).
Proof. unfold load_string. intros Hl. load_inv_tac Hl. Qed.

Lemma load_string_ok (l : loc) (s : state) (m : cstr) :
  st_heap s !! l = Some (BString m) -> load_string (Some l) s = Done (Ok m, s).
Proof.
  intros Hl. unfold load_string. by rewrite (bind_Ok _ _ _ _ _ (deref_ok _ _ _ Hl)).
Qed.

Lemma load_ints_inv (p : ptr) (s s' : state) (m : list Z) :
  load_ints p s = Done (Ok m, s') ->
  s' = s /\ exists l, p = Some l /\ st_heap s !! l = Some (BInts m).
Proof. unfold load_ints. intros Hl. load_inv_tac Hl. Qed.

Lemma load_ints_ok (l : loc) (s : state) (m : list Z) :
  st_heap s !! l = Some (BInts m) -> load_ints (Some l) s = Done (Ok m, s).
Proof.
  intros Hl. unfold load_ints. by rewrite (bind_Ok _ _ _ _ _ (deref_ok _ _ _ Hl)).
Qed.

Lemma load_sizes_inv (p : ptr) (s s' : state) (m : list Z) :
  load_sizes p s = Done (Ok m, s') ->
  s' = s /\ exists l, p = Some l /\ st_heap s !! l = Some (BSizes m).
Proof. unfold load_sizes. intros Hl. load_inv_tac Hl. Qed.

Lemma load_sizes_ok (l : loc) (s : state) (m : list Z) :
  st_heap s !! l = Some (BSizes m) -> load_sizes (Some l) s = Done (Ok m, s).
Proof.
  intros Hl. unfold load_sizes. by rewrite (bind_Ok _ _ _ _ _ (deref_ok _ _ _ Hl)).
Qed.

Lemma load_dims_inv (p : ptr) (s s' : state) (m : list DLiteDimension) :
  load_dims p s = Done (Ok m, s') ->
  s' = s /\ exists l, p = Some l /\ st_heap s !! l = Some (BDims m).
Proof. unfold load_dims. intros Hl. load_inv_tac Hl. Qed.

Lemma load_dims_ok (l : loc) (s : state) (m : list DLiteDimension) :
  st_heap s !! l = Some (BDims m) -> load_dims (Some l) s = Done (Ok m, s).
Proof.
  intros Hl. unfold load_dims. by rewrite (bind_Ok _ _ _ _ _ (deref_ok _ _ _ Hl)).
Qed.

Lemma load_props_inv (p : ptr) (s s' : state) (m : list DLiteProperty) :
  load_props p s = Done (Ok m, s') ->
  s' = s /\ exists l, p = Some l /\ st_heap s !! l = Some (BProps m).
Proof. unfold load_props. intros Hl. load_inv_tac Hl. Qed.

Lemma load_props_ok (l : loc) (s : state) (m : list DLiteProperty) :
  st_heap s !! l = Some (BProps m) -> load_props (Some l) s = Done (Ok m, s).
Proof.
  intros Hl. unfold load_props. by rewrite (bind_Ok _ _ _ _ _ (deref_ok _ _ _ Hl)).
Qed.

Lemma load_propptrs_inv (p : ptr) (s s' : state) (m : list ptr) :
  load_propptrs p s = Done (Ok m, s') ->
  s' = s /\ exists l, p = Some l /\ st_heap s !! l = Some (BPropPtrs m).
Proof. unfold load_propptrs. intros Hl. load_inv_tac Hl. Qed.

Lemma load_propptrs_ok (l : loc) (s : state) (m : list ptr) :
  st_heap s !! l = Some (BPropPtrs m) -> load_propptrs (Some l) s = Done (Ok m, s).
Proof.
  intros Hl. unfold load_propptrs. by rewrite (bind_Ok _ _ _ _ _ (deref_ok _ _ _ Hl)).
Qed.

Lemma load_array_ok (l : loc) (s : state) (sz : Z) (cells : list cell) :
  st_heap s !! l = Some (BArray sz cells) ->
  load_array (Some l) s = Done (Ok (sz, cells), s).
Proof.
  intros Hl. unfold load_array.
  by rewrite (bind_Ok _ _ _ _ _ (deref_ok _ _ _ Hl)).
Qed.

End monad_facts.

(** ** Dimension sizes *)
Section dimension_facts.
Import Mem Entity.

(** C7 (the defect).  Both accessors compare the dimension index with
    [nproperties], not [ndimensions]: for an index at or beyond the number
    of properties they report an error and return -1, also when the index
    is that of a declared dimension. *)
Theorem dimension_size_rejects_index (inst : ptr) (x : DLiteInstance)
    (m : DLiteMeta) (st : state) :
  load_inst inst st = Done (Ok x, st) ->
  load_meta (i_meta x) st = Done (Ok m, st) ->
  (forall i, m_nproperties m <= i ->
     dlite_instance_get_dimension_size_by_index inst i st
     = Done (Ok (-1), st)) /\
  (forall name k,
     dlite_meta_get_dimension_index (i_meta x) name st = Done (Ok k, st) ->
     0 <= k -> to_int (m_nproperties m) <= k ->
     dlite_instance_get_dimension_size inst name st = Done (Ok (-1), st)).
Proof.
  intros Hx Hm. split.
  - intros i Hi. unfold dlite_instance_get_dimension_size_by_index.
    rewrite (bind_Ok _ _ _ _ _ Hx), (bind_Ok _ _ _ _ _ Hm).
    destruct (Z.geb_spec i (m_nproperties m)); [done|lia].
  - intros name k Hk Hk0 Hkn. unfold dlite_instance_get_dimension_size.
    rewrite (bind_Ok _ _ _ _ _ Hx), (bind_Ok _ _ _ _ _ Hm),
      (bind_Ok _ _ _ _ _ Hk).
    destruct (Z.ltb_spec k 0); [lia|].
    destruct (Z.geb_spec k (to_int (m_nproperties m))); [done|lia].
Qed.

End dimension_facts.

Lemma dimension_size_rejects_index_witness :
  exists x m,
    Mem.load_inst Examples.ex_inst Examples.ex_state
    = Done (Mem.Ok x, Examples.ex_state) /\
    Mem.load_meta (Mem.i_meta x) Examples.ex_state
    = Done (Mem.Ok m, Examples.ex_state) /\
    Mem.m_ndimensions m = 2 /\
    Mem.i_dimensions x = [3; 2] /\
    Entity.dlite_instance_get_dimension_size_by_index Examples.ex_inst 1
      Examples.ex_state
    = Done (Mem.Ok (-1), Examples.ex_state) /\
    Entity.dlite_instance_get_dimension_size Examples.ex_inst (cs "m")
      Examples.ex_state
    = Done (Mem.Ok (-1), Examples.ex_state).
Proof.
  eexists _, _.
  split; [vm_compute; reflexivity|].
  split; [vm_compute; reflexivity|].
  split; [reflexivity|]. split; [reflexivity|].
  assert (Mem.load_inst Examples.ex_inst Examples.ex_state
          = Done (Mem.Ok _, Examples.ex_state)) as Hx
    by (vm_compute; reflexivity).
  assert (Mem.load_meta (Some 10%positive) Examples.ex_state
          = Done (Mem.Ok _, Examples.ex_state)) as Hm
    by (vm_compute; reflexivity).
  split.
  - apply (proj1 (dimension_size_rejects_index _ _ _ _ Hx Hm)).
    vm_compute. discriminate.
  - apply (proj2 (dimension_size_rejects_index _ _ _ _ Hx Hm) _ 1).
    + vm_compute. reflexivity.
    + lia.
    + vm_compute. discriminate.
Defined.

(** ** Collections *)
Section collection_facts.
Import Mem Storage Collection.
Context `{TripletId}.

Lemma pat_ok_Some (y x : cstr) : pat_ok (Some y) x = true <-> y = x.
Proof. unfold pat_ok. apply bool_decide_eq_true. Qed.

Lemma matches_spec (s p o : option cstr) (t : DLiteTriplet) :
  matches s p o t = true <->
  pat_ok s (t_s t) = true /\ pat_ok p (t_p t) = true /\ pat_ok o (t_o t) = true.
Proof.
  unfold matches. rewrite !andb_true_iff. tauto.
Qed.

Lemma filter_none {A} (P : A -> Prop) `{forall x, Decision (P x)} (l : list A) :
  (forall x, x ∈ l -> ~ P x) -> filter P l = [].
Proof.
  induction l as [|a l IH]; intros Hl; [done|].
  rewrite filter_cons_False by (apply Hl; left).
  apply IH. intros x Hx. apply Hl. by right.
Qed.

Lemma filter_all {A} (P : A -> Prop) `{forall x, Decision (P x)} (l : list A) :
  (forall x, x ∈ l -> P x) -> filter P l = l.
Proof.
  induction l as [|a l IH]; intros Hl; [done|].
  rewrite filter_cons_True by (apply Hl; left).
  f_equal. apply IH. intros x Hx. apply Hl. by right.
Qed.

Lemma triplestore_remove_none (ts : TripleStore) (s p o : option cstr) :
  (forall t, t ∈ ts -> matches s p o t = false) ->
  triplestore_remove ts s p o = (0, ts).
Proof.
  intros Hn. unfold triplestore_remove. f_equal.
  - rewrite filter_none; [done|]. intros t Ht. rewrite (Hn t Ht). done.
  - by apply filter_all.
Qed.

Lemma triplestore_remove_elem (ts : TripleStore) (s p o : option cstr) t :
  t ∈ snd (triplestore_remove ts s p o) <-> t ∈ ts /\ matches s p o t = false.
Proof. simpl. rewrite list_elem_of_filter. tauto. Qed.

Lemma triplestore_remove_count (ts : TripleStore) (s p o : option cstr) t :
  t ∈ ts -> matches s p o t = true -> fst (triplestore_remove ts s p o) > 0.
Proof.
  intros Ht Hm. simpl. unfold Zlen.
  assert (t ∈ filter (fun t => matches s p o t = true) ts) as Hin
    by by apply list_elem_of_filter.
  destruct (filter _ ts); [by apply elem_of_nil in Hin|simpl; lia].
Qed.

(** C10.  Removing a label that has no [(label, _is-a, Instance)] triple
    returns 1 and leaves the triple store as it was. *)
Theorem collection_remove_absent (coll : DLiteCollection) (label : cstr) :
  (forall t, t ∈ store coll ->
     ~ (t_s t = label /\ t_p t = cs "_is-a" /\ t_o t = cs "Instance")) ->
  exists coll',
    dlite_collection_remove coll label = Some (1, coll') /\
    store coll' = store coll.
Proof.
  intros Hn. unfold dlite_collection_remove, dlite_collection_remove_relations.
  rewrite triplestore_remove_none.
  - simpl. by eexists.
  - intros t Ht. apply not_true_is_false. rewrite matches_spec, !pat_ok_Some.
    intros (? & ? & ?). by apply (Hn t Ht).
Qed.

Lemma find_from_pos (s p o : option cstr) (l : list DLiteTriplet) :
  forall pos t pos',
    find_from s p o l pos = (Some t, pos') ->
    (pos < pos' <= pos + length l)%nat.
Proof.
  induction l as [|a l IH]; intros pos t pos'; simpl; [done|].
  destruct (matches s p o a).
  - intros [= _ <-]. lia.
  - intros Hf. apply IH in Hf. lia.
Qed.

Lemma triplestore_find_pos (ts : TripleStore) st (s p o : option cstr) t st' :
  triplestore_find ts st s p o = (Some t, st') ->
  (st < st' <= length ts)%nat.
Proof.
  unfold triplestore_find. intros Hf. apply find_from_pos in Hf.
  rewrite length_drop in Hf. lia.
Qed.

Lemma triplestore_remove_by_id_length (ts : TripleStore) id :
  (length (triplestore_remove_by_id ts id) <= length ts)%nat.
Proof. apply length_filter. Qed.

(** The dimmap loop ends within the fuel dlite_collection_remove gives
    it, and only removes triples. *)
Lemma remove_dimmaps_total (label : cstr) (fuel : nat) :
  forall coll st,
    (length (store coll) - st <= fuel)%nat ->
    exists c, remove_dimmaps fuel coll st label = Some c /\
              forall t, t ∈ store c -> t ∈ store coll.
Proof.
  induction fuel as [|fuel IH]; intros coll st Hf.
  - simpl. unfold dlite_collection_find.
    destruct (triplestore_find _ _ _ _ _) as [[t|] st'] eqn:E.
    + apply triplestore_find_pos in E. lia.
    + by eexists.
  - simpl. unfold dlite_collection_find.
    destruct (triplestore_find _ _ _ _ _) as [[t|] st'] eqn:E.
    + apply triplestore_find_pos in E.
      destruct (IH (set_store (triplestore_remove_by_id (store coll) (t_o t))
                      coll) st') as (c & Hc & Hsub).
      { simpl. pose proof (triplestore_remove_by_id_length (store coll) (t_o t)).
        lia. }
      exists c. split; [done|]. intros u Hu. apply Hsub in Hu. simpl in Hu.
      unfold triplestore_remove_by_id in Hu.
      by apply list_elem_of_filter in Hu as [_ Hu].
    + by eexists.
Qed.

Lemma add_relation_store (coll : DLiteCollection) (s p o : cstr) :
  store (snd (dlite_collection_add_relation coll s p o))
  = store coll ++ [mkTriplet s p o (triplet_get_id s p o)].
Proof. done. Qed.

(** What a successful dlite_collection_add leaves. *)
Lemma collection_add_ok (h : heap) (coll : DLiteCollection) (label : cstr)
    (inst : ptr) (x : DLiteInstance) (m : DLiteMeta) (uri : cstr) :
  load_inst inst (State [] h) = Done (Ok x, State [] h) ->
  is_Some (i_meta x) ->
  load_meta (i_meta x) (State [] h) = Done (Ok m, State [] h) ->
  load_string (m_uri m) (State [] h) = Done (Ok uri, State [] h) ->
  exists c,
    dlite_collection_add h coll label inst = Done (0, c) /\
    store c = store coll ++ member_triplets label (c_str (i_uuid x)) uri.
Proof.
  intros Hx [lm Hlm] Hm Hu. unfold dlite_collection_add.
  rewrite Hx. cbn beta iota. rewrite Hlm. rewrite Hlm in Hm.
  rewrite (bind_Ok _ _ _ _ _ Hm), Hu.
  eexists. split; [done|].
  rewrite !add_relation_store, <- !app_assoc. done.
Qed.

(** Removing a label that is a member: the call returns 0 and no
    membership triple of the label is left. *)
Lemma collection_remove_present (coll : DLiteCollection) (label : cstr) t0 :
  t0 ∈ store coll ->
  matches (Some label) (Some (cs "_is-a")) (Some (cs "Instance")) t0 = true ->
  exists c,
    dlite_collection_remove coll label = Some (0, c) /\
    forall t, t ∈ store c ->
      t ∈ store coll /\
      matches (Some label) (Some (cs "_is-a")) (Some (cs "Instance")) t = false /\
      matches (Some label) (Some (cs "_has-uuid")) None t = false /\
      matches (Some label) (Some (cs "_has-meta")) None t = false.
Proof.
  intros Ht0 Hm0. unfold dlite_collection_remove.
  destruct (dlite_collection_remove_relations coll (Some label)
              (Some (cs "_is-a")) (Some (cs "Instance"))) as [n c1] eqn:E.
  unfold dlite_collection_remove_relations in E.
  destruct (triplestore_remove (store coll) (Some label)
              (Some (cs "_is-a")) (Some (cs "Instance"))) as [n' ts] eqn:E'.
  injection E as -> <-.
  assert (n > 0) as Hn.
  { change n with (fst (n, ts)). rewrite <- E'.
    by eapply triplestore_remove_count. }
  assert (forall t, t ∈ ts ->
            t ∈ store coll /\
            matches (Some label) (Some (cs "_is-a")) (Some (cs "Instance")) t
            = false) as Hts.
  { intros t Ht. apply triplestore_remove_elem. by rewrite E'. }
  destruct (Z.gtb_spec n 0); [|lia].
  set (c1 := set_triplets _ _).
  destruct (remove_dimmaps_total label (length (store c1)) c1
              (dlite_collection_init_state c1)) as (c2 & Hc2 & Hsub); [lia|].
  rewrite Hc2. simpl. eexists. split; [done|].
  intros t Ht. simpl in Ht.
  apply list_elem_of_filter in Ht as [_ Ht].
  apply list_elem_of_filter in Ht as [Hmeta Ht].
  apply list_elem_of_filter in Ht as [Huuid Ht].
  apply Hsub in Ht. simpl in Ht. destruct (Hts t Ht) as [? ?]. done.
Qed.

(** C6, amended.  dlite_collection_add returns non-zero exactly when the
    instance has no meta.  A successful add appends the three triples
    [(L, _is-a, Instance)], [(L, _has-uuid, inst.uuid)] and
    [(L, _has-meta, inst.meta.uri)] and nothing else; when no triple of
    the collection had subject [L] before, these are exactly the triples
    with subject [L] afterwards; and after a following
    dlite_collection_remove of [L], which returns 0, none of them is
    left. *)
Theorem collection_add_remove (h : heap) (coll : DLiteCollection)
    (label : cstr) (inst : ptr) (x : DLiteInstance) :
  load_inst inst (State [] h) = Done (Ok x, State [] h) ->
  (i_meta x = None -> dlite_collection_add h coll label inst = Done (1, coll))
  /\
  (forall r c,
     dlite_collection_add h coll label inst = Done (r, c) ->
     (r <> 0 <-> i_meta x = None) /\
     (r = 0 ->
      exists m uri,
        load_meta (i_meta x) (State [] h) = Done (Ok m, State [] h) /\
        load_string (m_uri m) (State [] h) = Done (Ok uri, State [] h) /\
        map spo (store c)
        = map spo (store coll)
          ++ member_triples label (c_str (i_uuid x)) uri /\
        ((forall t, t ∈ store coll -> t_s t <> label) ->
         map spo (filter (fun t => t_s t = label) (store c))
         = member_triples label (c_str (i_uuid x)) uri) /\
        exists c',
          dlite_collection_remove c label = Some (0, c') /\
          forall t, t ∈ store c' ->
            spo t ∉ member_triples label (c_str (i_uuid x)) uri)).
Proof.
  intros Hx. split.
  { intros Hm. unfold dlite_collection_add. rewrite Hx. cbn beta iota.
    by rewrite Hm. }
  intros r c Hadd.
  destruct (i_meta x) as [lm|] eqn:Hlm.
  2:{ unfold dlite_collection_add in Hadd. rewrite Hx in Hadd.
    cbn beta iota in Hadd. rewrite Hlm in Hadd.
      injection Hadd as <- <-. split; [done|]. done. }
  assert (exists m uri,
            load_meta (Some lm) (State [] h) = Done (Ok m, State [] h) /\
            load_string (m_uri m) (State [] h) = Done (Ok uri, State [] h))
    as (m & uri & Hm & Hu).
  { unfold dlite_collection_add in Hadd. rewrite Hx in Hadd.
    cbn beta iota in Hadd. rewrite Hlm in Hadd.
    destruct ((load_meta (Some lm) ≫= _) (State [] h))
      as [[[uri|] s1]|] eqn:E; try done.
    apply bind_inv in E as (m & s2 & Hm & Hu).
    pose proof (load_meta_inv _ _ _ _ Hm) as [-> _].
    pose proof (load_string_inv _ _ _ _ Hu) as [-> _].
    by exists m, uri. }
  destruct (collection_add_ok h coll label inst x m uri Hx) as (c0 & Hc0 & Hc);
    [by rewrite Hlm|by rewrite Hlm|done|].
  rewrite Hadd in Hc0. injection Hc0 as -> <-.
  split; [split; [done|discriminate]|].
  intros _. exists m, uri. split; [done|]. split; [done|].
  split; [by rewrite Hc, map_app|].
  split.
  { intros Hfresh. rewrite Hc, filter_app.
    rewrite (filter_none _ (store coll)) by done.
    rewrite filter_all; [done|].
    intros t Ht. simpl in Ht.
    repeat (apply elem_of_cons in Ht as [->|Ht]; [done|]).
    by apply elem_of_nil in Ht. }
  destruct (collection_remove_present c label
              (mkTriplet label (cs "_is-a") (cs "Instance")
                 (triplet_get_id label (cs "_is-a") (cs "Instance"))))
    as (c' & Hc' & Hleft).
  { rewrite Hc. apply elem_of_app. right. left. }
  { apply matches_spec. rewrite !pat_ok_Some. done. }
  exists c'. split; [done|].
  intros t Ht Hin. destruct (Hleft t Ht) as (_ & H1 & H2 & H3).
  unfold member_triples, spo in Hin.
  apply elem_of_cons in Hin as [[= Hs Hp Ho]|Hin].
  { apply not_true_iff_false in H1. apply H1.
    apply matches_spec. rewrite !pat_ok_Some. done. }
  apply elem_of_cons in Hin as [[= Hs Hp Ho]|Hin].
  { apply not_true_iff_false in H2. apply H2.
    apply matches_spec. rewrite !pat_ok_Some. done. }
  apply elem_of_cons in Hin as [[= Hs Hp Ho]|Hin].
  { apply not_true_iff_false in H3. apply H3.
    apply matches_spec. rewrite !pat_ok_Some. done. }
  by apply elem_of_nil in Hin.
Qed.

End collection_facts.

Lemma collection_remove_absent_witness :
  (forall t, t ∈ Collection.store Examples.ex_coll_a ->
     ~ (Collection.t_s t = cs "b" /\ Collection.t_p t = cs "_is-a"
        /\ Collection.t_o t = cs "Instance")) /\
  exists coll',
    Collection.dlite_collection_remove Examples.ex_coll_a (cs "b")
    = Some (1, coll') /\
    Collection.store coll' = Collection.store Examples.ex_coll_a.
Proof.
  assert (forall t, t ∈ Collection.store Examples.ex_coll_a ->
     ~ (Collection.t_s t = cs "b" /\ Collection.t_p t = cs "_is-a"
        /\ Collection.t_o t = cs "Instance")) as Hn.
  { intros t Ht [Hs _]. vm_compute in Ht.
    repeat (apply elem_of_cons in Ht as [->|Ht]; [discriminate Hs|]).
    by apply elem_of_nil in Ht. }
  split; [exact Hn|].
  exact (collection_remove_absent Examples.ex_coll_a (cs "b") Hn).
Defined.

(** The claim C6 as stated fails when the label already is the subject of
    triples: after adding a second instance under the label ["a"], the
    triples with subject ["a"] are not just the three of that instance. *)
Lemma collection_add_not_exact :
  exists c,
    @Collection.dlite_collection_add Examples.toy_id Examples.ex_coll_heap
      Examples.ex_coll_a (cs "a") (Some 31%positive) = Done (0, c) /\
    ~ (forall t, t ∈ Collection.store c -> Collection.t_s t = cs "a" ->
         Collection.spo t
         ∈ Collection.member_triples (cs "a")
             (Storage.c_str (Mem.i_uuid Examples.ex_inst2))
             (cs "http://example.org/0.1/Grid")).
Proof.
  eexists. split; [vm_compute; reflexivity|].
  intros Hall.
  specialize (Hall (Collection.mkTriplet (cs "a") (cs "_has-uuid")
                      (cs "11111111-aaaa-4bbb-8ccc-000000000001")
                      (cs "a" ++ cs "_has-uuid"
                       ++ cs "11111111-aaaa-4bbb-8ccc-000000000001"))).
  assert (Hin : Collection.spo
                  (Collection.mkTriplet (cs "a") (cs "_has-uuid")
                     (cs "11111111-aaaa-4bbb-8ccc-000000000001")
                     (cs "a" ++ cs "_has-uuid"
                      ++ cs "11111111-aaaa-4bbb-8ccc-000000000001"))
                ∈ Collection.member_triples (cs "a")
                    (Storage.c_str (Mem.i_uuid Examples.ex_inst2))
                    (cs "http://example.org/0.1/Grid")).
  { apply Hall; [|reflexivity]. right. left. }
  vm_compute in Hin.
  repeat (apply elem_of_cons in Hin as [Hin|Hin]; [discriminate Hin|]).
  by apply elem_of_nil in Hin.
Qed.

Lemma collection_add_remove_witness :
  Mem.load_inst (Some 30%positive) (Mem.State [] Examples.ex_coll_heap)
  = Done (Mem.Ok Examples.ex_inst1, Mem.State [] Examples.ex_coll_heap) /\
  exists c uri,
    @Collection.dlite_collection_add Examples.toy_id Examples.ex_coll_heap
      Examples.ex_coll (cs "a") (Some 30%positive) = Done (0, c) /\
    exists c',
      Collection.dlite_collection_remove c (cs "a") = Some (0, c') /\
      forall t, t ∈ Collection.store c' ->
        Collection.spo t
        ∉ Collection.member_triples (cs "a")
            (Storage.c_str (Mem.i_uuid Examples.ex_inst1)) uri.
Proof.
  assert (Mem.load_inst (Some 30%positive)
            (Mem.State [] Examples.ex_coll_heap)
          = Done (Mem.Ok Examples.ex_inst1,
                  Mem.State [] Examples.ex_coll_heap)) as Hx
    by (vm_compute; reflexivity).
  split; [exact Hx|].
  assert (@Collection.dlite_collection_add Examples.toy_id
            Examples.ex_coll_heap Examples.ex_coll (cs "a") (Some 30%positive)
          = Done (0, Examples.ex_coll_a)) as Hadd
    by (vm_compute; reflexivity).
  destruct (proj2 (@collection_add_remove Examples.toy_id
                     Examples.ex_coll_heap Examples.ex_coll (cs "a")
                     (Some 30%positive) Examples.ex_inst1 Hx)
                  0 Examples.ex_coll_a Hadd) as [_ Hok].
  destruct (Hok eq_refl) as (m & uri & _ & _ & _ & _ & c' & Hrem & Hnone).
  exists Examples.ex_coll_a, uri. split; [exact Hadd|].
  exists c'. split; [exact Hrem|exact Hnone].
Defined.

(** ** Flat and nested arrays *)
Section copy_facts.
Import Datamodel.

Lemma write_bytes_kind (m m' : mem) (p : vptr) (data : list Z) (l : loc)
    (bs : list Z) :
  write_bytes m p data = Done m' ->
  m !! l = Some (DBytes bs) ->
  exists bs', m' !! l = Some (DBytes bs').
Proof.
  unfold write_bytes. destruct p as [[l' off]|]; [|done].
  destruct (m !! l') as [[|bs0]|] eqn:E; try done.
  destruct (_ || _); [done|]. intros [= <-] Hl.
  destruct (decide (l' = l)) as [->|Hne].
  - rewrite lookup_insert_eq. by eexists.
  - rewrite lookup_insert_ne by done. by eexists.
Qed.

(** Restarting the descent from a byte buffer: when the last index wraps
    in an array of rank two or more, the pointer is re-read from the flat
    buffer as if it were an array of pointers. *)
Lemma advance_from_flat (m : mem) (l : loc) (off : Z) (bs : list Z)
    (ndims : Z) (dims : option (list Z)) (ind : list Z) (p : vptr) (x d : Z) :
  m !! l = Some (DBytes bs) ->
  2 <= ndims ->
  at_index ind (ndims - 1) = Done x ->
  dim_or dims (ndims - 1) 1 = Done d ->
  d <= x + 1 ->
  advance m (Some (l, off)) ndims dims ind p = Undefined.
Proof.
  intros Hl Hn Hx Hd Hw. unfold advance. rewrite Hx. simpl. rewrite Hd.
  simpl. destruct (Z.geb_spec (x + 1) d); [|lia].
  destruct (carry dims _ _) as [ind'|]; [|done]. simpl.
  destruct (Z.to_nat (ndims - 1)) as [|k] eqn:E; [lia|]. simpl.
  destruct (at_index ind' 0) as [y|]; [|done]. simpl.
  by rewrite Hl.
Qed.

Lemma at_index_insert (ind : list Z) (i x y : Z) :
  at_index ind i = Done x ->
  at_index (<[Z.to_nat i:=y]> ind) i = Done y.
Proof.
  unfold at_index. destruct (Z.ltb_spec i 0); [done|].
  destruct (ind !! Z.to_nat i) as [z|] eqn:E; [|done]. intros _.
  rewrite list_lookup_insert_eq; [done|].
  by eapply lookup_lt_Some.
Qed.

(** From any point of the loop of dlite_copy_to_nested at which the
    remaining iterations reach the end of the current row, the loop has
    no defined result. *)
Lemma nested_loop_undefined (l : loc) (off size ndims : Z)
    (dims : option (list Z)) (d : Z) (n : nat) :
  2 <= ndims ->
  dim_or dims (ndims - 1) 1 = Done d ->
  forall (k : nat) (m : mem) (ind : list Z) (p q : vptr) (x : Z) bs,
    m !! l = Some (DBytes bs) ->
    at_index ind (ndims - 1) = Done x ->
    x < d ->
    Z.to_nat (d - x) = S n ->
    (S n <= k)%nat ->
    nested_loop (Some (l, off)) size ndims dims k m ind p q = Undefined.
Proof.
  intros Hn Hd. induction n as [|n IH]; intros k m ind p q x bs Hl Hx Hlt Hdx Hk.
  - destruct k as [|k]; [lia|]. simpl.
    destruct (read_ptr m p 0) as [e|]; [|done]. simpl.
    destruct (read_bytes m q size) as [data|]; [|done]. simpl.
    destruct (write_bytes m e data) as [m'|] eqn:Ew; [|done]. simpl.
    destruct (write_bytes_kind _ _ _ _ _ _ Ew Hl) as [bs' Hl'].
    rewrite (advance_from_flat m' l off bs' ndims dims ind _ x d); try done.
    lia.
  - destruct k as [|k]; [lia|]. simpl.
    destruct (read_ptr m p 0) as [e|]; [|done]. simpl.
    destruct (read_bytes m q size) as [data|]; [|done]. simpl.
    destruct (write_bytes m e data) as [m'|] eqn:Ew; [|done]. simpl.
    destruct (write_bytes_kind _ _ _ _ _ _ Ew Hl) as [bs' Hl'].
    unfold advance at 1. rewrite Hx. simpl. rewrite Hd. simpl.
    destruct (Z.geb_spec (x + 1) d); [lia|]. simpl.
    eapply (IH k m' _ _ _ (x + 1) bs'); try done;
      [by eapply at_index_insert|lia..].
Qed.

Lemma at_index_pos (ds : list Z) (i x : Z) :
  (forall (j : nat) y, ds !! j = Some y -> 1 <= y) ->
  at_index ds i = Done x -> 1 <= x.
Proof.
  intros Hpos. unfold at_index. destruct (i <? 0); [done|].
  destruct (ds !! Z.to_nat i) as [z|] eqn:E; [|done].
  intros [= <-]. by eapply Hpos.
Qed.

(** [total] only grows its accumulator when the extents are positive. *)
Lemma total_mono (ds : list Z) :
  (forall (j : nat) y, ds !! j = Some y -> 1 <= y) ->
  forall (k : nat) (i a r : Z),
    total (Some ds) k i a = Done r -> 1 <= a -> a <= r.
Proof.
  intros Hpos. induction k as [|k IH]; intros i a r Ht Ha; simpl in Ht.
  - injection Ht as <-. lia.
  - destruct (at_index ds i) as [di|] eqn:Ei; [|done]. simpl in Ht.
    destruct (_ || _); [done|].
    pose proof (at_index_pos _ _ _ Hpos Ei).
    apply IH in Ht; nia.
Qed.

(** The total is at least each extent it multiplies. *)
Lemma total_ge (ds : list Z) :
  (forall (j : nat) y, ds !! j = Some y -> 1 <= y) ->
  forall (k : nat) (i ntot r : Z),
    total (Some ds) k i ntot = Done r ->
    1 <= ntot ->
    forall j x, i <= j < i + Z.of_nat k -> at_index ds j = Done x -> x <= r.
Proof.
  intros Hpos. induction k as [|k IH]; intros i ntot r Ht Hnt j x Hj Hjx; [lia|].
  simpl in Ht. destruct (at_index ds i) as [di|] eqn:Ei; [|done].
  simpl in Ht. destruct (_ || _); [done|].
  pose proof (at_index_pos _ _ _ Hpos Ei) as Hdi.
  destruct (decide (j = i)) as [->|Hne].
  - rewrite Ei in Hjx. injection Hjx as <-.
    apply (total_mono ds Hpos) in Ht; nia.
  - eapply (IH (i + 1) (ntot * di) r Ht); [nia| |done]. lia.
Qed.

(** C8 (the defect).  For every array of rank two or more with positive
    extents, dlite_copy_to_nested has no defined result when its source
    is a byte buffer: at the end of the first row it restarts the descent
    from [src], the flat buffer, instead of [dst]. *)
Theorem copy_to_nested_undefined (m : mem) (dst : vptr) (l : loc) (off : Z)
    (bs : list Z) (size ndims : Z) (ds : list Z) :
  m !! l = Some (DBytes bs) ->
  2 <= ndims ->
  Zlen ds = ndims ->
  (forall j x, ds !! j = Some x -> 1 <= x) ->
  dlite_copy_to_nested true m dst (Some (l, off)) size ndims (Some ds)
  = Undefined.
Proof.
  intros Hl Hn Hlen Hpos. unfold dlite_copy_to_nested. simpl.
  destruct (Z.ltb_spec ndims 0); [lia|]. simpl.
  destruct (descend m _ _ 0 dst) as [p|]; [|done]. simpl.
  destruct (total (Some ds) (Z.to_nat ndims) 0 1) as [ntot|] eqn:Et; [|done].
  simpl.
  assert (exists d, at_index ds (ndims - 1) = Done d /\ 1 <= d) as (d & Hd & Hd1).
  { unfold at_index. destruct (Z.ltb_spec (ndims - 1) 0); [lia|].
    destruct (ds !! Z.to_nat (ndims - 1)) as [d|] eqn:E.
    - exists d. split; [done|]. by eapply Hpos.
    - apply lookup_ge_None in E. unfold Zlen in Hlen. lia. }
  assert (d <= ntot) as Hle.
  { eapply (total_ge ds Hpos _ 0 1 ntot Et); [lia| |exact Hd]. lia. }
  rewrite (nested_loop_undefined l off size ndims (Some ds) d
             (Z.to_nat (d - 0) - 1) Hn Hd _ m _ _ _ 0 bs); try done; try lia.
  unfold at_index. destruct (Z.ltb_spec (ndims - 1) 0); [lia|].
  rewrite lookup_replicate_2; [done|lia].
Qed.

(** On the example, dlite_copy_to_flat fills the flat buffer in C order. *)
Lemma copy_to_flat_example :
  dlite_copy_to_flat true
    (Examples.ex_mem [11; 12; 13] [21; 22; 23] [0; 0; 0; 0; 0; 0])
    Examples.ex_flat Examples.ex_nested 1 2 (Some [2; 3])
  = Done (0, Examples.ex_mem [11; 12; 13] [21; 22; 23]
               [11; 12; 13; 21; 22; 23]).
Proof. vm_compute. reflexivity. Qed.

(** In rank one the two helpers do invert each other on the example. *)
Lemma copy_rank1_example :
  dlite_copy_to_nested true
    (Examples.ex_mem [0; 0; 0] [0; 0; 0] [7; 8; 9; 0; 0; 0])
    (Some (2%positive, 0)) Examples.ex_flat 1 1 (Some [3])
  = Done (0, Examples.ex_mem [7; 8; 9] [0; 0; 0] [7; 8; 9; 0; 0; 0]) /\
  dlite_copy_to_flat true
    (Examples.ex_mem [7; 8; 9] [0; 0; 0] [0; 0; 0; 0; 0; 0])
    Examples.ex_flat (Some (2%positive, 0)) 1 1 (Some [3])
  = Done (0, Examples.ex_mem [7; 8; 9] [0; 0; 0] [7; 8; 9; 0; 0; 0]).
Proof. split; vm_compute; reflexivity. Qed.

End copy_facts.

Lemma copy_to_nested_undefined_witness :
  Examples.ex_mem [0; 0; 0] [0; 0; 0] [1; 2; 3; 4; 5; 6] !! 6%positive
  = Some (Datamodel.DBytes [1; 2; 3; 4; 5; 6]) /\
  2 <= 2 /\
  Zlen [2; 3] = 2 /\
  (forall (j : nat) (x : Z), [2; 3] !! j = Some x -> 1 <= x) /\
  Datamodel.dlite_copy_to_nested true
    (Examples.ex_mem [0; 0; 0] [0; 0; 0] [1; 2; 3; 4; 5; 6])
    Examples.ex_nested Examples.ex_flat 1 2 (Some [2; 3])
  = Undefined.
Proof.
  assert (forall (j : nat) (x : Z), [2; 3] !! j = Some x -> 1 <= x) as Hpos.
  { intros [|[|j]] x; simpl; intros [= <-]; lia. }
  split; [reflexivity|]. split; [lia|]. split; [reflexivity|].
  split; [exact Hpos|].
  apply (copy_to_nested_undefined _ _ 6%positive 0 [1; 2; 3; 4; 5; 6]);
    [reflexivity|lia|reflexivity|exact Hpos].
Defined.

(** ** Reading the heap *)
Section reader_facts.
Import Mem Entity.
Context (K : block -> Prop).

Lemma reads_ret {A} (a : A) : reads K (mret a).
Proof.
  intros s r s' [= <- <-]. split; [done|]. split; [by eexists|done].
Qed.

Lemma reads_undef {A} : reads K (@undef A).
Proof. by intros s r s'. Qed.

Lemma reads_bind {A B} (x : M A) (f : A -> M B) :
  reads K x -> (forall a, reads K (f a)) -> reads K (x ≫= f).
Proof.
  intros Hx Hf s r s' Hr. unfold mbind, M_bind in *.
  destruct (x s) as [[[a|] s1]|] eqn:E; try done.
  - destruct (Hx _ _ _ E) as (-> & _ & Hmono).
    destruct (Hf a _ _ _ Hr) as (-> & Hok & Hmono').
    split; [done|]. split; [done|]. intros s2 Hs2.
    rewrite (Hmono s2 Hs2). by apply Hmono'.
  - by destruct (Hx _ _ _ E) as (_ & [a [=]] & _).
Qed.

Lemma reads_index {A} (l : list A) (i : Z) : reads K (index l i).
Proof.
  unfold index. destruct (i <? 0); [apply reads_undef|].
  destruct (l !! Z.to_nat i); [apply reads_ret|apply reads_undef].
Qed.

Lemma reads_cell_ptr (c : cell) : reads K (cell_ptr c).
Proof. destruct c; simpl; auto using reads_ret, @reads_undef. Qed.

End reader_facts.

Section reader_instances.
Import Mem Entity.
Context (K : block -> Prop).

(** A typed load reads one block, of the kind it expects. *)
Ltac solve_reads_load HK :=
  let s := fresh "s" in let r := fresh "r" in let s' := fresh "s'" in
  let Hr := fresh "Hr" in let E := fresh "E" in let Hl := fresh "Hl" in
  let b := fresh "b" in let s1 := fresh "s1" in let l := fresh "l" in
  let s2 := fresh "s2" in let Hs2 := fresh "Hs2" in
  intros s r s' Hr; unfold mbind, M_bind in *;
  destruct (deref _ s) as [[[b|] s1]|] eqn:E; try done;
  [apply deref_inv in E as (-> & l & ? & -> & [= <-] & Hl);
   destruct b; try done; injection Hr as <- <-;
   split; [done|]; split; [by eexists|]; intros s2 Hs2;
   by rewrite (deref_ok l s2 _ (Hs2 _ _ Hl (HK _)))
  |by apply deref_inv in E as (_ & ? & ? & _ & [=] & _)].

Lemma reads_load_meta p : (forall x, K (BMeta x)) -> reads K (load_meta p).
Proof. intros HK. unfold load_meta. solve_reads_load HK. Qed.

Lemma reads_load_inst p : (forall x, K (BInst x)) -> reads K (load_inst p).
Proof. intros HK. unfold load_inst. solve_reads_load HK. Qed.

Lemma reads_load_string p : (forall x, K (BString x)) -> reads K (load_string p).
Proof. intros HK. unfold load_string. solve_reads_load HK. Qed.

Lemma reads_load_ints p : (forall x, K (BInts x)) -> reads K (load_ints p).
Proof. intros HK. unfold load_ints. solve_reads_load HK. Qed.

Lemma reads_load_sizes p : (forall x, K (BSizes x)) -> reads K (load_sizes p).
Proof. intros HK. unfold load_sizes. solve_reads_load HK. Qed.

Lemma reads_load_dims p : (forall x, K (BDims x)) -> reads K (load_dims p).
Proof. intros HK. unfold load_dims. solve_reads_load HK. Qed.

Lemma reads_load_props p : (forall x, K (BProps x)) -> reads K (load_props p).
Proof. intros HK. unfold load_props. solve_reads_load HK. Qed.

Lemma reads_load_propptrs p : (forall x, K (BPropPtrs x)) -> reads K (load_propptrs p).
Proof. intros HK. unfold load_propptrs. solve_reads_load HK. Qed.

Lemma reads_load_array p :
  (forall sz l, K (BArray sz l)) -> reads K (load_array p).
Proof.
  intros HK s r s' Hr. unfold load_array, mbind, M_bind in *.
  destruct (deref _ s) as [[[b|] s1]|] eqn:E; try done.
  - apply deref_inv in E as (-> & l & ? & -> & [= <-] & Hl).
    destruct b; try done. injection Hr as <- <-.
    split; [done|]. split; [by eexists|]. intros s2 Hs2.
    by rewrite (deref_ok l s2 _ (Hs2 _ _ Hl (HK _ _))).
  - by apply deref_inv in E as (_ & ? & ? & _ & [=] & _).
Qed.

Lemma reads_meta_property m i :
  (forall b, static_block b -> K b) -> reads K (meta_property m i).
Proof.
  intros HK. unfold meta_property.
  apply reads_bind; [apply reads_load_propptrs; intros; by apply HK|intros l].
  apply reads_bind; [apply reads_index|intros p].
  apply reads_bind; [apply reads_load_props; intros; by apply HK|intros ps].
  apply reads_index.
Qed.

Lemma reads_meta_propoffset m i :
  (forall b, static_block b -> K b) -> reads K (meta_propoffset m i).
Proof.
  intros HK. unfold meta_propoffset.
  apply reads_bind; [apply reads_load_sizes; intros; by apply HK|].
  intros ?; apply reads_index.
Qed.

Lemma reads_nmemb_loop dims pdims k :
  (forall b, static_block b -> K b) ->
  forall j nmemb, reads K (nmemb_loop dims pdims k j nmemb).
Proof.
  intros HK. induction k as [|k IH]; intros j nmemb; simpl;
    [apply reads_ret|].
  apply reads_bind; [apply reads_load_ints; intros; by apply HK|intros pd].
  apply reads_bind; [apply reads_index|intros d].
  apply reads_bind; [apply reads_index|intros x].
  apply IH.
Qed.

Lemma reads_count_members dims p :
  (forall b, static_block b -> K b) -> reads K (count_members dims p).
Proof. intros HK. by apply reads_nmemb_loop. Qed.

(** What a read returned, it returns again wherever the blocks of its
    kind are still there. *)
Lemma reads_mono {A} (x : M A) (s s2 : state) (a : A) :
  reads K x -> x s = Done (Ok a, s) ->
  (forall l b, st_heap s !! l = Some b -> K b -> st_heap s2 !! l = Some b) ->
  x s2 = Done (Ok a, s2).
Proof. intros Hr Hx Hs. by apply (Hr _ _ _ Hx). Qed.

Lemma reads_inv {A} (x : M A) (s s' : state) (r : res A) :
  reads K x -> x s = Done (r, s') -> s' = s /\ exists a, r = Ok a.
Proof. intros Hr Hx. destruct (Hr _ _ _ Hx) as (? & ? & _). done. Qed.

End reader_instances.

(** ** Writing the heap *)
Section heap_facts.
Import Mem Entity.

Lemma index_inv {A} (l : list A) (i : Z) (s s' : state) (x : A) :
  index l i s = Done (Ok x, s') ->
  s' = s /\ 0 <= i /\ l !! Z.to_nat i = Some x.
Proof.
  unfold index. destruct (Z.ltb_spec i 0); [done|].
  destruct (l !! Z.to_nat i) as [y|]; [|done].
  by intros [= <- <-].
Qed.

Lemma index_ok {A} (l : list A) (i : Z) (s : state) (x : A) :
  0 <= i -> l !! Z.to_nat i = Some x -> index l i s = Done (Ok x, s).
Proof.
  intros Hi Hx. unfold index. destruct (Z.ltb_spec i 0); [lia|].
  by rewrite Hx.
Qed.

Lemma malloc_inv (b : block) (s s' : state) (r : res ptr) :
  malloc b s = Done (r, s') ->
  (r = Ok None /\ st_heap s' = st_heap s) \/
  (exists l, r = Ok (Some l) /\ st_heap s !! l = None /\
             st_heap s' = <[l:=b]> (st_heap s)).
Proof.
  unfold malloc. destruct (alloc_ok (st_oracle s)) as [[] o].
  - intros [= <- <-]. right. eexists. split; [done|]. split; [|done].
    apply not_elem_of_dom. apply is_fresh.
  - intros [= <- <-]. by left.
Qed.

Lemma store_inv (l : loc) (b : block) (s s' : state) (r : res unit) :
  store l b s = Done (r, s') ->
  r = Ok tt /\ is_Some (st_heap s !! l) /\
  s' = State (st_oracle s) (<[l:=b]> (st_heap s)).
Proof.
  unfold store. destruct (st_heap s !! l) as [b0|] eqn:E; [|done].
  intros [= <- <-]. by split; [|split; [eexists|]].
Qed.

Lemma free_inv (p : ptr) (s s' : state) (r : res unit) :
  free p s = Done (r, s') ->
  r = Ok tt /\
  match p with
  | None => s' = s
  | Some l => is_Some (st_heap s !! l) /\
              s' = State (st_oracle s) (delete l (st_heap s))
  end.
Proof.
  destruct p as [l|]; simpl.
  - destruct (st_heap s !! l) as [b0|] eqn:E; [|done].
    intros [= <- <-]. by split; [|split; [eexists|]].
  - by intros [= <- <-].
Qed.

Lemma free_ok (l : loc) (s : state) (b : block) :
  st_heap s !! l = Some b ->
  free (Some l) s = Done (Ok tt, State (st_oracle s) (delete l (st_heap s))).
Proof. simpl. by intros ->. Qed.

Lemma modify_inst_inv (l : loc) (f : DLiteInstance -> DLiteInstance)
    (s s' : state) (r : res unit) :
  modify_inst l f s = Done (r, s') ->
  exists x, r = Ok tt /\ st_heap s !! l = Some (BInst x) /\
            s' = State (st_oracle s) (<[l:=BInst (f x)]> (st_heap s)).
Proof.
  unfold modify_inst. intros Hm. unfold mbind, M_bind in Hm.
  destruct (load_inst (Some l) s) as [[[x|] s1]|] eqn:E; try done.
  - apply load_inst_inv in E as (-> & l' & [= <-] & Hl).
    apply store_inv in Hm as (-> & _ & ->). by exists x.
  - by destruct (reads_inv (fun _ => True) _ _ _ _ (reads_load_inst _ _ (fun _ => I)) E)
      as (_ & ? & [=]).
Qed.

Lemma set_slot_inv (l : loc) (i : Z) (c : cell) (s s' : state)
    (r : res unit) :
  set_slot l i c s = Done (r, s') ->
  exists x, r = Ok tt /\ st_heap s !! l = Some (BInst x) /\
            0 <= i /\ (Z.to_nat i < length (i_properties x))%nat /\
            s' = State (st_oracle s)
                   (<[l:=BInst (set_i_properties
                                  (<[Z.to_nat i:=c]> (i_properties x)) x)]>
                      (st_heap s)).
Proof.
  unfold set_slot. intros Hm. unfold mbind, M_bind in Hm.
  destruct (load_inst (Some l) s) as [[[x|] s1]|] eqn:E; try done.
  - apply load_inst_inv in E as (-> & l' & [= <-] & Hl).
    destruct (index (i_properties x) i s) as [[[c0|] s1]|] eqn:Ei; try done.
    + apply index_inv in Ei as (-> & Hi & Hc0).
      apply store_inv in Hm as (-> & _ & ->). exists x.
      repeat split; try done. by eapply lookup_lt_Some.
    + by destruct (reads_inv (fun _ => True) _ _ _ _ (reads_index _ _ _) Ei)
        as (_ & ? & [=]).
  - by destruct (reads_inv (fun _ => True) _ _ _ _ (reads_load_inst _ _ (fun _ => I)) E)
      as (_ & ? & [=]).
Qed.

(** [catch] only matters when the body jumps to [fail]. *)
Lemma catch_inv {A} (x hdl : M A) (s s' : state) (r : res A) :
  catch x hdl s = Done (r, s') ->
  x s = Done (r, s') \/
  exists s1, x s = Done (Fail, s1) /\ hdl s1 = Done (r, s').
Proof.
  unfold catch. destruct (x s) as [[[a|] s1]|]; try done.
  - by left.
  - right. by eexists.
Qed.

(** The value [nmemb_loop] computes: the product of the runtime shape,
    modulo the range of [size_t]. *)
Lemma nmemb_loop_value (dims : list Z) (ld : loc) (pd : list Z) (k : nat) :
  forall (j acc : Z) (s s' : state) (r : Z),
    st_heap s !! ld = Some (BInts pd) ->
    0 <= j -> 0 <= acc < SIZE_MOD ->
    nmemb_loop dims (Some ld) k j acc s = Done (Ok r, s') ->
    r = (acc * product
                 (map (fun d => default 0 (dims !! Z.to_nat d))
                      (take k (drop (Z.to_nat j) pd)))) mod SIZE_MOD.
Proof.
  induction k as [|k IH]; intros j acc s s' r Hld Hj Hacc Hr.
  - simpl in Hr. injection Hr as <- <-. simpl.
    rewrite Z.mul_1_r, Z.mod_small; done.
  - simpl in Hr.
    apply bind_inv in Hr as (pd' & s1 & Hpd & Hr).
    apply load_ints_inv in Hpd as (-> & l' & [= <-] & Hl').
    rewrite Hld in Hl'. injection Hl' as <-.
    apply bind_inv in Hr as (d & s1 & Hd & Hr).
    apply index_inv in Hd as (-> & _ & Hd).
    apply bind_inv in Hr as (x & s1 & Hx & Hr).
    apply index_inv in Hx as (-> & _ & Hx).
    apply IH in Hr; [|done|lia|].
    2:{ apply Z.mod_pos_bound. done. }
    rewrite Hr. rewrite (drop_S _ _ _ Hd). simpl.
    rewrite Hx. simpl.
    replace (Z.to_nat (j + 1)) with (S (Z.to_nat j)) by lia.
    rewrite Z.mul_mod_idemp_l by done. f_equal. lia.
Qed.

Lemma count_members_value (dims : list Z) (p : DLiteProperty) (ld : loc)
    (pd : list Z) (s s' : state) (r : Z) :
  p_dims p = Some ld ->
  st_heap s !! ld = Some (BInts pd) ->
  count_members dims p s = Done (Ok r, s') ->
  r = product (prop_shape dims pd (p_ndims p)) mod SIZE_MOD.
Proof.
  intros Hp Hld Hr. unfold count_members in Hr. rewrite Hp in Hr.
  apply (nmemb_loop_value _ _ pd) in Hr; [|done|lia|done].
  rewrite Hr, Z.mul_1_l. done.
Qed.

End heap_facts.

(** ** Creating and freeing instances *)
Section instance_facts.
Import Uuid Mem Entity.

Lemma static_K : forall b, static_block b -> static_block b.
Proof. done. Qed.

Lemma set_i_properties_id (x : DLiteInstance) :
  set_i_properties (i_properties x) x = x.
Proof. by destruct x. Qed.

Lemma set_i_properties_twice (l l' : list cell) (x : DLiteInstance) :
  set_i_properties l (set_i_properties l' x) = set_i_properties l x.
Proof. done. Qed.

Lemma is_array_dims (p : DLiteProperty) :
  is_array p = true -> 0 < p_ndims p /\ exists ld, p_dims p = Some ld.
Proof.
  unfold is_array. intros Ha. apply andb_prop in Ha as [Hn Hd].
  apply Z.ltb_lt in Hn. apply bool_decide_eq_true in Hd as [ld Hd].
  split; [done|]. by exists ld.
Qed.

Lemma cell_locs_cons_ptr a cells :
  cell_locs (CPtr a :: cells) = a :: cell_locs cells.
Proof. done. Qed.

Lemma cell_locs_cons_zero cells :
  cell_locs (CZero :: cells) = cell_locs cells.
Proof. done. Qed.

(** The array loop of dlite_instance_create, started at property [i] with
    [k] properties to go. *)
Lemma alloc_arrays_post (lm li : loc) (m : DLiteMeta) (dims : list Z)
    (k : nat) :
  forall (i : Z) (s s' : state) (x : DLiteInstance) (pre : list cell),
    alloc_arrays (Some lm) li dims k i s = Done (Ok tt, s') ->
    0 <= i ->
    st_heap s !! lm = Some (BMeta m) ->
    st_heap s !! li = Some (BInst x) ->
    length pre = Z.to_nat i ->
    i_properties x = pre ++ replicate k CZero ->
    exists cells,
      length cells = k /\
      st_heap s' !! li = Some (BInst (set_i_properties (pre ++ cells) x)) /\
      (forall l b, st_heap s !! l = Some b -> l <> li ->
                   st_heap s' !! l = Some b) /\
      (forall (j : nat) c, cells !! j = Some c ->
         exists p off,
           meta_property m (i + Z.of_nat j) s' = Done (Ok p, s') /\
           meta_propoffset m (i + Z.of_nat j) s' = Done (Ok off, s') /\
           (is_array p = true ->
            exists n, count_members dims p s' = Done (Ok n, s')) /\
           slot_spec (st_heap s') dims p c) /\
      NoDup (cell_locs cells) /\
      (forall a, a ∈ cell_locs cells -> st_heap s !! a = None).
Proof.
  induction k as [|k IH]; intros i s s' x pre Hrun Hi Hlm Hli Hpre Hprops.
  - simpl in Hrun. injection Hrun as <-. exists [].
    split; [done|]. split.
    { rewrite app_nil_r. simpl in Hprops. rewrite app_nil_r in Hprops.
      by rewrite <- Hprops, set_i_properties_id. }
    split; [done|]. split; [by intros j c|]. split; [constructor|].
    intros a Ha. by apply elem_of_nil in Ha.
  - simpl in Hrun.
    apply bind_inv in Hrun as (m' & s1 & Hm' & Hrun).
    apply load_meta_inv in Hm' as (-> & l' & [= <-] & Hm').
    rewrite Hlm in Hm'. injection Hm' as <-.
    apply bind_inv in Hrun as (p & s1 & Hp & Hrun).
    destruct (reads_inv _ _ _ _ _ (reads_meta_property _ m i static_K) Hp)
      as [-> _].
    apply bind_inv in Hrun as (off & s1 & Hoff & Hrun).
    destruct (reads_inv _ _ _ _ _ (reads_meta_propoffset _ m i static_K) Hoff)
      as [-> _].
    apply bind_inv in Hrun as ([] & s1 & Hbody & Hrun).
    assert (lm <> li) as Hne by (intros ->; congruence).
    (* the state after the body of this iteration *)
    assert (exists c n,
              st_heap s1 !! li
              = Some (BInst (set_i_properties
                               ((pre ++ [c]) ++ replicate k CZero) x)) /\
              (forall l b, st_heap s !! l = Some b -> l <> li ->
                           st_heap s1 !! l = Some b) /\
              (is_array p = true -> count_members dims p s = Done (Ok n, s)) /\
              slot_spec (st_heap s1) dims p c /\
              (forall a, a ∈ cell_locs [c] ->
                 st_heap s !! a = None /\ is_Some (st_heap s1 !! a)) /\
              (forall a, st_heap s1 !! a = None -> st_heap s !! a = None))
      as (c & n & Hli1 & Hframe1 & Hcount & Hslot & Hnew & Hdom).
    { unfold slot_spec. destruct (is_array p) eqn:Harr.
      - apply bind_inv in Hbody as (n & s2 & Hn & Hbody).
        destruct (reads_inv _ _ _ _ _ (reads_count_members _ dims p static_K) Hn)
          as [-> _].
        apply bind_inv in Hbody as (a & s2 & Ha & Hbody).
        destruct a as [a|]; [|done].
        unfold calloc_array in Ha.
        destruct (n * p_size p >=? SIZE_MOD); [done|].
        apply malloc_inv in Ha as [[[=] _]|(a' & [= <-] & Hfresh & Hs2)].
        apply set_slot_inv in Hbody as (x2 & _ & Hx2 & _ & Hlen & ->).
        rewrite Hs2, lookup_insert_ne in Hx2 by congruence.
        rewrite Hli in Hx2. injection Hx2 as <-.
        destruct (is_array_dims p Harr) as (_ & ld & Hld).
        assert (exists pd, st_heap s !! ld = Some (BInts pd)) as [pd Hpd].
        { unfold count_members in Hn. rewrite Hld in Hn.
          destruct (Z.to_nat (p_ndims p)) as [|k'] eqn:Ek.
          { apply is_array_dims in Harr. lia. }
          simpl in Hn. apply bind_inv in Hn as (pd & s3 & Hpd & _).
          apply load_ints_inv in Hpd as (_ & ? & [= <-] & Hpd). by exists pd. }
        exists (CPtr a), n. simpl. rewrite Hs2.
        split.
        { rewrite lookup_insert_eq. do 2 f_equal. rewrite Hprops.
          rewrite <- app_assoc. simpl. rewrite <- Hpre.
          by rewrite insert_app_r_alt, Nat.sub_diag by lia. }
        split.
        { intros l b Hl Hlne. rewrite !lookup_insert_ne; try done.
          intros ->. congruence. }
        split; [done|]. split.
        { exists a, ld, pd. split; [done|]. split; [done|].
          assert (ld <> li) by (intros ->; congruence).
          assert (ld <> a) by (intros ->; congruence).
          assert (a <> li) by (intros ->; congruence).
          rewrite !lookup_insert_ne by done. split; [done|].
          rewrite lookup_insert_eq.
          by rewrite (count_members_value dims p ld pd _ _ _ Hld Hpd Hn). }
        split.
        { intros a0 Ha0. apply list_elem_of_singleton in Ha0 as ->.
          split; [done|].
          assert (a <> li) by (intros ->; congruence).
          rewrite lookup_insert_ne, lookup_insert_eq by done. by eexists. }
        intros a0 Ha0.
        apply lookup_insert_None in Ha0 as [Ha0 _].
        by apply lookup_insert_None in Ha0 as [Ha0 _].
      - apply mret_inv in Hbody as [_ <-]. exists CZero, 0.
        split.
        { rewrite Hli. do 2 f_equal. rewrite <- app_assoc. simpl.
          change (CZero :: replicate k CZero) with (replicate (S k) CZero).
          by rewrite <- Hprops, set_i_properties_id. }
        split; [done|]. split; [done|]. split; [done|].
        split; [|done]. intros a Ha. by apply elem_of_nil in Ha. }
    destruct (IH (i + 1) s1 s'
                (set_i_properties ((pre ++ [c]) ++ replicate k CZero) x)
                (pre ++ [c]) Hrun) as (cells & Hlen & Hli' & Hframe & Hslots
                                      & Hnd & Hfresh); try done.
    { lia. }
    { by apply Hframe1. }
    { rewrite length_app. simpl. lia. }
    exists (c :: cells).
    split; [simpl; by rewrite Hlen|].
    split.
    { rewrite Hli'. do 2 f_equal. rewrite <- app_assoc. done. }
    assert (forall l b, st_heap s !! l = Some b -> l <> li ->
                        st_heap s' !! l = Some b) as Hframe'.
    { intros l b Hl Hlne. apply Hframe; [|done]. by apply Hframe1. }
    assert (forall l b, st_heap s !! l = Some b -> static_block b ->
                        st_heap s' !! l = Some b) as Hstat.
    { intros l b Hl Hb. apply Hframe'; [done|]. intros ->.
      rewrite Hli in Hl. by injection Hl as <-. }
    assert (forall l b, st_heap s1 !! l = Some b -> static_block b ->
                        st_heap s' !! l = Some b) as Hstat1.
    { intros l b Hl Hb. apply Hframe; [done|]. intros ->.
      rewrite Hli1 in Hl. by injection Hl as <-. }
    split; [done|]. split.
    { intros [|j] c0 Hc0.
      - injection Hc0 as <-. exists p, off.
        rewrite Z.add_0_r.
        split; [by eapply reads_mono;
                  [apply (reads_meta_property static_block)| |]|].
        split; [by eapply reads_mono;
                  [apply (reads_meta_propoffset static_block)| |]|].
        split.
        { intros Harr. exists n. eapply reads_mono;
            [by apply (reads_count_members static_block)|by apply Hcount|done]. }
        unfold slot_spec in *. destruct (is_array p); [|done].
        destruct Hslot as (a & ld & pd & -> & Hld & Hpd & Ha).
        exists a, ld, pd. split; [done|]. split; [done|].
        split; [by apply Hstat1|].
        apply Hframe; [done|]. intros ->. congruence.
      - simpl in Hc0. destruct (Hslots j c0 Hc0) as (p' & off' & ? & ? & ? & ?).
        exists p', off'.
        by replace (i + Z.of_nat (S j)) with (i + 1 + Z.of_nat j) by lia. }
    split.
    { destruct c as [|a|]; [exact Hnd| |exact Hnd].
      rewrite cell_locs_cons_ptr. apply NoDup_cons. split; [|done].
      intros Hin. apply Hfresh in Hin.
      destruct (Hnew a) as [_ [? ?]]; [by left|]. congruence. }
    intros a Ha. destruct c as [|a'|].
    + apply Hdom. by apply Hfresh.
    + rewrite cell_locs_cons_ptr in Ha. apply elem_of_cons in Ha as [->|Ha].
      * by apply Hnew; left.
      * apply Hdom. by apply Hfresh.
    + apply Hdom. by apply Hfresh.
Qed.

Lemma modify_inst_step (li : loc) (f : DLiteInstance -> DLiteInstance)
    (s s' : state) (x : DLiteInstance) (r : res unit) :
  st_heap s !! li = Some (BInst x) ->
  modify_inst li f s = Done (r, s') ->
  r = Ok tt /\
  st_heap s' !! li = Some (BInst (f x)) /\
  (forall l, l <> li -> st_heap s' !! l = st_heap s !! l).
Proof.
  intros Hx Hm. apply modify_inst_inv in Hm as (x' & -> & Hx' & ->).
  rewrite Hx in Hx'. injection Hx' as <-. simpl.
  split; [done|]. split; [by rewrite lookup_insert_eq|].
  intros l Hl. by rewrite lookup_insert_ne.
Qed.

Lemma malloc_step (b : block) (s s' : state) (l : loc) :
  malloc b s = Done (Ok (Some l), s') ->
  st_heap s !! l = None /\
  st_heap s' !! l = Some b /\
  (forall l', l' <> l -> st_heap s' !! l' = st_heap s !! l').
Proof.
  intros Hm. apply malloc_inv in Hm as [[[=] _]|(l' & [= <-] & Hf & ->)].
  split; [done|]. split; [by rewrite lookup_insert_eq|].
  intros l' Hl'. by rewrite lookup_insert_ne.
Qed.

Lemma malloc_null (b : block) (s s' : state) :
  malloc b s = Done (Ok None, s') -> st_heap s' = st_heap s.
Proof.
  intros Hm. by apply malloc_inv in Hm as [[_ ?]|(l' & [=] & _)].
Qed.

Lemma dlite_meta_incref_inv (lm : loc) (s s' : state) (r : res unit) :
  dlite_meta_incref (Some lm) s = Done (r, s') ->
  exists m, r = Ok tt /\ st_heap s !! lm = Some (BMeta m) /\
            m_refcount m < INT_MAX /\
            s' = State (st_oracle s)
                   (<[lm:=BMeta (set_m_refcount (m_refcount m + 1) m)]>
                      (st_heap s)).
Proof.
  unfold dlite_meta_incref. intros Hm. unfold mbind, M_bind in Hm.
  destruct (load_meta (Some lm) s) as [[[m|] s1]|] eqn:E; try done.
  - apply load_meta_inv in E as (-> & l' & [= <-] & Hl).
    destruct (Z.geb_spec (m_refcount m) INT_MAX); [done|].
    apply store_inv in Hm as (-> & _ & ->). by exists m.
  - by destruct (reads_inv (fun _ => True) _ _ _ _
                   (reads_load_meta _ _ (fun _ => I)) E) as (_ & ? & [=]).
Qed.

Section create.
Context `{UuidLib}.

(** Everything a successful dlite_instance_create establishes. *)
Lemma create_post (r : rng) (meta : ptr) (dims : list Z) (id : option cstr)
    (s s' : state) (li : loc) :
  dlite_instance_create r meta dims id s = Done (Ok (Some li), s') ->
  exists lm m cells u,
    meta = Some lm /\
    st_heap s !! lm = Some (BMeta m) /\
    st_heap s !! li = None /\
    length cells = Z.to_nat (m_nproperties m) /\
    st_heap s' !! li
    = Some (BInst (mkInst (snd (dlite_get_uuid r id)) u (Some lm)
                     (take (Z.to_nat (m_ndimensions m)) dims) cells)) /\
    st_heap s' !! lm = Some (BMeta (set_m_refcount (m_refcount m + 1) m)) /\
    (forall l b, st_heap s !! l = Some b -> l <> lm ->
                 st_heap s' !! l = Some b) /\
    (fst (dlite_get_uuid r id) <> 5 -> u = None) /\
    (forall lu, u = Some lu ->
       exists sid, id = Some sid /\ st_heap s !! lu = None /\
                   st_heap s' !! lu = Some (BString sid)) /\
    (forall (j : nat) c, cells !! j = Some c ->
       exists p off,
         meta_property m (Z.of_nat j) s' = Done (Ok p, s') /\
         meta_propoffset m (Z.of_nat j) s' = Done (Ok off, s') /\
         (is_array p = true ->
          exists n, count_members dims p s' = Done (Ok n, s')) /\
         slot_spec (st_heap s') dims p c) /\
    NoDup (cell_locs cells) /\
    (forall a, a ∈ cell_locs cells -> st_heap s !! a = None).
Proof.
  unfold dlite_instance_create. intros Hrun.
  apply bind_inv in Hrun as (m & s1 & Hm & Hrun).
  apply load_meta_inv in Hm as (-> & lm & -> & Hlm).
  apply bind_inv in Hrun as (inst & s1 & Hinst & Hrun).
  destruct inst as [l0|]; [|by apply mret_inv in Hrun as [[=] _]].
  apply malloc_step in Hinst as (Hfresh & Hl0 & Hframe1).
  apply catch_inv in Hrun as [Hrun|(s2 & _ & Hrun)].
  2:{ apply bind_inv in Hrun as (? & ? & _ & Hrun).
      by apply mret_inv in Hrun as [[=] _]. }
  destruct (dlite_get_uuid r id) as [ver uuid] eqn:Euuid.
  destruct (ver <? 0); [done|].
  apply bind_inv in Hrun as ([] & s2 & Hst & Hrun).
  destruct (modify_inst_step _ _ _ _ _ _ Hl0 Hst) as (_ & Hl2 & Hframe2).
  clear Hst.
  apply bind_inv in Hrun as ([] & s3 & Hst & Hrun).
  assert (exists u,
            st_heap s3 !! l0
            = Some (BInst (set_i_uri u (set_i_uuid uuid (zero_inst m)))) /\
            (forall l b, st_heap s !! l = Some b -> st_heap s3 !! l = Some b) /\
            (ver <> 5 -> u = None) /\
            (forall lu, u = Some lu ->
               exists sid, id = Some sid /\ st_heap s !! lu = None /\
                           st_heap s3 !! lu = Some (BString sid)))
    as (u & Hl3 & Hframe3 & Hu5 & Hu).
  { assert (forall l b, st_heap s !! l = Some b -> st_heap s2 !! l = Some b)
      as Hf2.
    { intros l b Hl. assert (l <> l0) by (intros ->; congruence).
      by rewrite Hframe2, Hframe1. }
    destruct (Z.eqb_spec ver 5) as [->|Hne].
    - destruct id as [sid|]; [|done].
      apply bind_inv in Hst as (u & s4 & Hdup & Hst).
      destruct u as [lu|].
      + apply malloc_step in Hdup as (Hfu & Hlu & Hframeu).
        assert (lu <> l0) by (intros ->; congruence).
        assert (st_heap s4 !! l0
                = Some (BInst (set_i_uuid uuid (zero_inst m)))) as Hl4
          by by rewrite Hframeu.
        destruct (modify_inst_step _ _ _ _ _ _ Hl4 Hst) as (_ & Hl3 & Hframe3).
        exists (Some lu). split; [done|]. split.
        { intros l b Hl. assert (l <> l0) by (intros ->; congruence).
          assert (l <> lu).
          { intros ->. apply Hf2 in Hl. congruence. }
          rewrite Hframe3, Hframeu by done. by apply Hf2. }
        split; [done|]. intros ? [= <-]. exists sid. split; [done|].
        split.
        { destruct (st_heap s !! lu) eqn:E; [|done].
          apply Hf2 in E. congruence. }
        by rewrite Hframe3.
      + apply malloc_null in Hdup.
        assert (st_heap s4 !! l0
                = Some (BInst (set_i_uuid uuid (zero_inst m)))) as Hl4
          by by rewrite Hdup.
        destruct (modify_inst_step _ _ _ _ _ _ Hl4 Hst) as (_ & Hl3 & Hframe3).
        exists None. split; [done|]. split.
        { intros l b Hl. assert (l <> l0) by (intros ->; congruence).
          rewrite Hframe3, Hdup by done. by apply Hf2. }
        split; [done|]. by intros ? [=].
    - apply mret_inv in Hst as [_ <-]. exists None.
      split; [rewrite Hl2; reflexivity|]. split; [done|].
      split; [done|]. by intros ? [=]. }
  clear Hst.
  apply bind_inv in Hrun as ([] & s4 & Hst & Hrun).
  destruct (modify_inst_step _ _ _ _ _ _ Hl3 Hst) as (_ & Hl4 & Hframe4).
  clear Hst.
  apply bind_inv in Hrun as ([] & s5 & Hst & Hrun).
  assert (st_heap s5 !! l0
          = Some (BInst (mkInst uuid u (Some lm)
                           (take (Z.to_nat (m_ndimensions m)) dims)
                           (replicate (Z.to_nat (m_nproperties m)) CZero))) /\
          (forall l, l <> l0 -> st_heap s5 !! l = st_heap s4 !! l))
    as [Hl5 Hframe5].
  { destruct (Z.eqb_spec (m_ndimensions m) 0) as [E|_].
    - apply mret_inv in Hst as [_ <-]. split; [|done].
      rewrite Hl4. unfold zero_inst. simpl. by rewrite E.
    - destruct (Zlen dims <? m_ndimensions m); [done|].
      destruct (modify_inst_step _ _ _ _ _ _ Hl4 Hst) as (_ & Hl5 & Hframe5).
      done. }
  clear Hst.
  apply bind_inv in Hrun as ([] & s6 & Hloop & Hrun).
  assert (lm <> l0) as Hne by (intros ->; congruence).
  assert (forall l b, st_heap s !! l = Some b -> st_heap s5 !! l = Some b)
    as Hf5.
  { intros l b Hl. assert (l <> l0) by (intros ->; congruence).
    rewrite Hframe5, Hframe4 by done. by apply Hframe3. }
  destruct (alloc_arrays_post lm l0 m dims _ 0 s5 s6
              (mkInst uuid u (Some lm)
                 (take (Z.to_nat (m_ndimensions m)) dims)
                 (replicate (Z.to_nat (m_nproperties m)) CZero)) [] Hloop)
    as (cells & Hlen & Hl6 & Hframe6 & Hslots & Hnd & Hnew); try done.
  { by apply Hf5. }
  apply bind_inv in Hrun as ([] & s7 & Hinc & Hrun).
  apply mret_inv in Hrun as [[= ->] ->].
  apply dlite_meta_incref_inv in Hinc as (m' & _ & Hm' & Hlt & ->).
  rewrite (Hframe6 lm (BMeta m)) in Hm' by (by eauto).
  injection Hm' as <-. simpl.
  assert (forall l b, st_heap s6 !! l = Some b -> static_block b ->
            <[lm:=BMeta (set_m_refcount (m_refcount m + 1) m)]> (st_heap s6) !! l
            = Some b) as Hstat.
  { intros l b Hl Hb. rewrite lookup_insert_ne; [done|].
    intros E. subst l. rewrite (Hframe6 lm (BMeta m)) in Hl by (by eauto).
    by injection Hl as <-. }
  exists lm, m, cells, u.
  split; [done|]. split; [done|]. split; [done|]. split; [done|].
  split; [by rewrite lookup_insert_ne|].
  split; [by rewrite lookup_insert_eq|].
  split.
  { intros l b Hl Hlne. rewrite lookup_insert_ne by done.
    apply Hframe6; [by apply Hf5|]. intros ->. congruence. }
  split; [done|]. split.
  { intros lu Hlu. destruct (Hu lu Hlu) as (sid & ? & ? & Hs3).
    exists sid. split; [done|]. split; [done|].
    assert (lu <> li) by (intros ->; congruence).
    assert (lu <> lm) by (intros ->; congruence).
    rewrite lookup_insert_ne by done. apply Hframe6; [|done].
    by rewrite Hframe5, Hframe4. }
  split.
  { intros j c Hc. destruct (Hslots j c Hc) as (p & off & Hp & Hoff & Hcnt & Hsl).
    rewrite Z.add_0_l in Hp, Hoff. exists p, off.
    split; [by eapply reads_mono;
              [apply (reads_meta_property static_block)| |]|].
    split; [by eapply reads_mono;
              [apply (reads_meta_propoffset static_block)| |]|].
    split.
    { intros Harr. destruct (Hcnt Harr) as [n Hn]. exists n.
      by eapply reads_mono; [apply (reads_count_members static_block)| |]. }
    unfold slot_spec in *. destruct (is_array p); [|done].
    destruct Hsl as (a & ld & pd & -> & Hld & Hpd & Ha).
    exists a, ld, pd. split; [done|]. split; [done|].
    split; [by apply Hstat|].
    rewrite lookup_insert_ne; [done|]. intros E. subst a.
    rewrite (Hframe6 lm (BMeta m)) in Ha by (by eauto). done. }
  split; [done|].
  intros a Ha. apply Hnew in Ha.
  destruct (st_heap s !! a) eqn:E; [|done]. apply Hf5 in E. congruence.
Qed.

End create.

Lemma elem_of_cell_locs (cells : list cell) (a : loc) :
  a ∈ cell_locs cells <-> exists j, cells !! j = Some (CPtr a).
Proof.
  unfold cell_locs. rewrite list_elem_of_omap. split.
  - intros (c & Hc & Ha). destruct c; try done. injection Ha as ->.
    by apply list_elem_of_lookup in Hc.
  - intros [j Hj]. exists (CPtr a). split; [|done].
    by eapply list_elem_of_lookup_2.
Qed.

Lemma free_strings_zero (n : Z) (s : state) :
  0 <= n ->
  free_strings n (replicate (Z.to_nat n) CZero) s = Done (Ok tt, s).
Proof.
  intros Hn. unfold free_strings, Zlen. rewrite length_replicate.
  destruct (Z.ltb_spec (Z.of_nat (Z.to_nat n)) n); [lia|].
  rewrite take_replicate.
  generalize (Z.to_nat n `min` Z.to_nat n)%nat. intros k.
  induction k as [|k IH]; [done|]. simpl.
  unfold mbind at 1. unfold M_bind. simpl. exact IH.
Qed.

Lemma free_strings_scalar (s : state) :
  free_strings 1 [CZero] s = Done (Ok tt, s).
Proof. exact (free_strings_zero 1 s ltac:(lia)). Qed.

Lemma not_array_count (dims : list Z) (p : DLiteProperty) (ld : loc)
    (s : state) :
  is_array p = false -> p_dims p = Some ld ->
  count_members dims p s = Done (Ok 1, s).
Proof.
  unfold is_array, count_members. intros Ha Hd. rewrite Hd in Ha.
  rewrite bool_decide_eq_true_2 in Ha by by eexists.
  rewrite andb_true_r in Ha. apply Z.ltb_ge in Ha.
  by replace (Z.to_nat (p_ndims p)) with O by lia.
Qed.

Lemma slot_ready_mono (m : DLiteMeta) (dims : list Z) (s s2 : state) (j : Z)
    (c : cell) :
  slot_ready m dims s j c ->
  (forall l b, st_heap s !! l = Some b -> static_block b ->
               st_heap s2 !! l = Some b) ->
  (forall a b, c = CPtr a -> st_heap s !! a = Some b ->
               st_heap s2 !! a = Some b) ->
  slot_ready m dims s2 j c.
Proof.
  intros (p & off & Hp & Hoff & Hcnt & Hsl) Hstat Harr. exists p, off.
  split; [by eapply reads_mono;
            [apply (reads_meta_property static_block)| |]|].
  split; [by eapply reads_mono;
            [apply (reads_meta_propoffset static_block)| |]|].
  split.
  { intros Ha. destruct (Hcnt Ha) as [n Hn]. exists n.
    by eapply reads_mono; [apply (reads_count_members static_block)| |]. }
  unfold slot_spec in *. destruct (is_array p); [|done].
  destruct Hsl as (a & ld & pd & -> & Hld & Hpd & Ha).
  exists a, ld, pd. split; [done|]. split; [done|].
  split; [by apply Hstat|]. by eapply Harr.
Qed.

(** The free loop succeeds on the slots dlite_instance_create left, and
    deletes nothing but the arrays they point to. *)
Lemma free_properties_ok (m : DLiteMeta) (x : DLiteInstance) (k : nat) :
  forall (i : Z) (s : state) (pre cells : list cell),
    0 <= i ->
    i_properties x = pre ++ cells ->
    length pre = Z.to_nat i ->
    length cells = k ->
    (forall (j : nat) c, cells !! j = Some c ->
       slot_ready m (i_dimensions x) s (i + Z.of_nat j) c) ->
    NoDup (cell_locs cells) ->
    exists s',
      free_properties m x k i s = Done (Ok tt, s') /\
      (forall l b, st_heap s !! l = Some b -> l ∉ cell_locs cells ->
                   st_heap s' !! l = Some b).
Proof.
  induction k as [|k IH]; intros i s pre cells Hi Hprops Hpre Hlen Hready Hnd.
  { exists s. split; [done|]. done. }
  destruct cells as [|c cells]; [done|].
  destruct (Hready O c eq_refl) as (p & off & Hp & Hoff & Hcnt & Hsl).
  rewrite Z.add_0_r in Hp, Hoff.
  assert (index (i_properties x) i s = Done (Ok c, s)) as Hslot.
  { apply index_ok; [done|]. rewrite Hprops, lookup_app_r by lia.
    by replace (Z.to_nat i - length pre)%nat with O by lia. }
  (* the body of this iteration *)
  assert (exists s1,
            (if DLiteType_eqb (p_type p) dliteStringPtr then
               _ ← meta_propoffset m i;
               slot ← index (i_properties x) i;
               cells ← (if is_array p then
                          a ← cell_ptr slot; b ← load_array a; mret (snd b)
                        else mret [slot]);
               nmemb ← (match p_dims p with
                        | Some _ => count_members (i_dimensions x) p
                        | None => mret 1
                        end);
               _ ← free_strings nmemb cells;
               if is_array p then a ← cell_ptr slot; free a else mret tt
             else if is_array p then
               _ ← meta_propoffset m i;
               slot ← index (i_properties x) i;
               a ← cell_ptr slot; free a
             else mret tt) s = Done (Ok tt, s1) /\
            (forall l b, st_heap s !! l = Some b -> l ∉ cell_locs [c] ->
                         st_heap s1 !! l = Some b))
    as (s1 & Hbody & Hframe1).
  { unfold slot_spec in Hsl. destruct (is_array p) eqn:Harr.
    - destruct Hsl as (a & ld & pd & -> & Hld & Hpd & Ha).
      destruct (Hcnt eq_refl) as [n Hn].
      pose proof (count_members_value _ _ _ _ _ _ _ Hld Hpd Hn) as Hnv.
      assert (0 <= n) as Hn0.
      { rewrite Hnv. apply Z.mod_pos_bound. done. }
      assert ((a0 ← cell_ptr (CPtr a); b ← load_array a0; mret b.2) s
              = Done (Ok (replicate
                            (Z.to_nat (product (prop_shape (i_dimensions x)
                                                  pd (p_ndims p))
                                       mod SIZE_MOD)) CZero), s)) as Hcells.
      { rewrite (bind_Ok _ _ s s (Some a)) by done.
        by rewrite (bind_Ok _ _ _ _ _ (load_array_ok _ _ _ _ Ha)). }
      assert ((a0 ← cell_ptr (CPtr a); free a0) s
              = Done (Ok tt, State (st_oracle s) (delete a (st_heap s))))
        as Hfree.
      { rewrite (bind_Ok _ _ s s (Some a)) by done.
        by apply (free_ok _ _ _ Ha). }
      exists (State (st_oracle s) (delete a (st_heap s))).
      split.
      + destruct (DLiteType_eqb (p_type p) dliteStringPtr).
        * rewrite (bind_Ok _ _ _ _ _ Hoff), (bind_Ok _ _ _ _ _ Hslot).
          rewrite (bind_Ok _ _ _ _ _ Hcells).
          rewrite Hld, (bind_Ok _ _ _ _ _ Hn).
          rewrite <- Hnv.
          rewrite (bind_Ok _ _ _ _ _ (free_strings_zero n s Hn0)).
          exact Hfree.
        * rewrite (bind_Ok _ _ _ _ _ Hoff), (bind_Ok _ _ _ _ _ Hslot).
          exact Hfree.
      + intros l b Hl Hnin. simpl. rewrite lookup_delete_ne; [done|].
        intros ->. apply Hnin. rewrite cell_locs_cons_ptr. by left.
    - subst c. exists s. split; [|done].
      destruct (DLiteType_eqb (p_type p) dliteStringPtr); [|done].
      rewrite (bind_Ok _ _ _ _ _ Hoff), (bind_Ok _ _ _ _ _ Hslot).
      unfold mbind at 1. unfold M_bind. simpl.
      destruct (p_dims p) as [ld|] eqn:Hld.
      + rewrite (bind_Ok _ _ _ _ _ (not_array_count _ _ _ s Harr Hld)).
        by rewrite (bind_Ok _ _ _ _ _ (free_strings_scalar s)).
      + unfold mbind at 1. unfold M_bind. simpl.
        by rewrite (bind_Ok _ _ _ _ _ (free_strings_scalar s)). }
  assert (NoDup (cell_locs cells) /\
          forall a, c = CPtr a -> a ∉ cell_locs cells) as [Hnd' Hca].
  { destruct c as [|a|]; try (split; [exact Hnd|done]).
    rewrite cell_locs_cons_ptr in Hnd. apply NoDup_cons in Hnd as [? ?].
    split; [done|]. by intros ? [= <-]. }
  destruct (IH (i + 1) s1 (pre ++ [c]) cells) as (s' & Hrest & Hframe);
    try done.
  { lia. }
  { by rewrite <- app_assoc. }
  { rewrite length_app. simpl. lia. }
  { simpl in Hlen. lia. }
  { intros j c' Hc'.
    replace (i + 1 + Z.of_nat j) with (i + Z.of_nat (S j)) by lia.
    eapply slot_ready_mono; [by apply (Hready (S j))| |].
    - intros l b Hl Hb. apply Hframe1; [done|].
      destruct c as [|a|]; try apply not_elem_of_nil.
      rewrite cell_locs_cons_ptr. intros Hin.
      apply list_elem_of_singleton in Hin as ->.
      unfold slot_spec in Hsl. destruct (is_array p); [|done].
      destruct Hsl as (a' & ld & pd & [= <-] & _ & _ & Ha').
      rewrite Ha' in Hl. by injection Hl as <-.
    - intros a b -> Ha. apply Hframe1; [done|].
      destruct c as [|a'|]; try apply not_elem_of_nil.
      rewrite cell_locs_cons_ptr. intros Hin.
      apply list_elem_of_singleton in Hin as ->.
      apply (Hca a' eq_refl). apply elem_of_cell_locs. by exists j. }
  exists s'. split.
  { simpl. rewrite (bind_Ok _ _ _ _ _ Hp).
    by rewrite (bind_Ok _ _ _ _ _ Hbody). }
  intros l b Hl Hnin. apply Hframe.
  - apply Hframe1; [done|]. intros Hin. apply Hnin.
    destruct c as [|a|]; try by apply elem_of_nil in Hin.
    rewrite cell_locs_cons_ptr in *.
    apply list_elem_of_singleton in Hin as ->. by left.
  - intros Hin. apply Hnin. destruct c as [|a|]; try done.
    rewrite cell_locs_cons_ptr. by right.
Qed.

Lemma set_m_refcount_back (m : DLiteMeta) :
  set_m_refcount (m_refcount m + 1 - 1) (set_m_refcount (m_refcount m + 1) m)
  = m.
Proof. destruct m. unfold set_m_refcount. simpl. f_equal. lia. Qed.

(** Dropping one of several references only decrements the count. *)
Lemma decref_live (lm : loc) (m : DLiteMeta) (s : state) :
  st_heap s !! lm = Some (BMeta m) ->
  2 <= m_refcount m ->
  dlite_meta_decref (Some lm) s
  = Done (Ok tt,
          State (st_oracle s)
            (<[lm:=BMeta (set_m_refcount (m_refcount m - 1) m)]> (st_heap s))).
Proof.
  intros Hlm Hr. unfold dlite_meta_decref.
  destruct (size (st_heap s)) as [|fuel]; simpl;
    rewrite (bind_Ok _ _ _ _ _ (load_meta_ok _ _ _ Hlm));
    (destruct (Z.leb_spec (m_refcount m) (- INT_MAX - 1));
     [unfold INT_MAX in *; lia|]);
    unfold mbind, M_bind, store; rewrite Hlm;
    (destruct (Z.leb_spec (m_refcount m - 1) 0); [lia|done]).
Qed.

Section create_free.
Context `{UuidLib}.



End create_free.

End instance_facts.




(** ** Creating entities *)
Section entity_facts.
Import Uuid Mem Entity.

Lemma store_step (l : loc) (b : block) (s s' : state) (r : res unit) :
  store l b s = Done (r, s') ->
  r = Ok tt /\ is_Some (st_heap s !! l) /\
  st_heap s' !! l = Some b /\
  (forall l', l' <> l -> st_heap s' !! l' = st_heap s !! l').
Proof.
  intros Hs. apply store_inv in Hs as (-> & Hl & ->). simpl.
  split; [done|]. split; [done|]. split; [by rewrite lookup_insert_eq|].
  intros l' Hl'. by rewrite lookup_insert_ne.
Qed.

Lemma modify_prop_step (lp : loc) (f : DLiteProperty -> DLiteProperty)
    (s s' : state) (r : res unit) (q : DLiteProperty) :
  st_heap s !! lp = Some (BProps [q]) ->
  modify_prop lp f s = Done (r, s') ->
  r = Ok tt /\
  st_heap s' !! lp = Some (BProps [f q]) /\
  (forall l', l' <> lp -> st_heap s' !! l' = st_heap s !! l').
Proof.
  intros Hq Hm. unfold modify_prop in Hm.
  rewrite (bind_Ok _ _ _ _ _ (load_props_ok _ _ _ Hq)) in Hm.
  rewrite (bind_Ok _ _ s s q) in Hm by done.
  apply store_step in Hm as (-> & _ & Hl & Hf). done.
Qed.

Lemma modify_meta_step (l : loc) (f : DLiteMeta -> DLiteMeta)
    (s s' : state) (r : res unit) (m : DLiteMeta) :
  st_heap s !! l = Some (BMeta m) ->
  modify_meta l f s = Done (r, s') ->
  r = Ok tt /\
  st_heap s' !! l = Some (BMeta (f m)) /\
  (forall l', l' <> l -> st_heap s' !! l' = st_heap s !! l').
Proof.
  intros Hq Hm. unfold modify_meta in Hm.
  rewrite (bind_Ok _ _ _ _ _ (load_meta_ok _ _ _ Hq)) in Hm.
  apply store_step in Hm as (-> & _ & Hl & Hf). done.
Qed.

Lemma extends_fresh (h0 : heap) (s : state) (l : loc) :
  extends h0 s -> st_heap s !! l = None -> h0 !! l = None.
Proof.
  intros He Hl. destruct (h0 !! l) eqn:E; [|done].
  apply He in E. congruence.
Qed.

Lemma extends_step (h0 : heap) (s s' : state) (l : loc) :
  extends h0 s -> h0 !! l = None ->
  (forall l', l' <> l -> st_heap s' !! l' = st_heap s !! l') ->
  extends h0 s'.
Proof.
  intros He Hl Hf l' b Hb. rewrite Hf; [by apply He|].
  intros ->. congruence.
Qed.

(** Copying an optional string of the caller into field [f] of the
    property at [lp], as dlite_entity_create does for the description and
    the unit. *)
Lemma copy_string_step (h0 : heap) (lp : loc) (src : ptr)
    (setf : ptr -> DLiteProperty -> DLiteProperty) (q : DLiteProperty)
    (s s' : state) :
  extends h0 s ->
  h0 !! lp = None ->
  st_heap s !! lp = Some (BProps [q]) ->
  match src with
  | Some _ =>
      str ← load_string src;
      c ← strdup str;
      _ ← modify_prop lp (setf c);
      if bool_decide (is_Some c) then mret tt else FAIL
  | None => mret tt
  end s = Done (Ok tt, s') ->
  exists dst,
    extends h0 s' /\
    st_heap s' !! lp = Some (BProps [match src with
                                     | Some _ => setf dst q
                                     | None => q
                                     end]) /\
    (forall l b, st_heap s !! l = Some b -> l <> lp ->
                 st_heap s' !! l = Some b) /\
    copied_string h0 (st_heap s') src dst /\
    (forall ld, dst = Some ld -> st_heap s !! ld = None) /\
    (forall l, st_heap s' !! l = None -> st_heap s !! l = None).
Proof.
  intros Hext Hlp0 Hlp Hrun. destruct src as [lq|].
  - apply bind_inv in Hrun as (str & s1 & Hstr & Hrun).
    apply load_string_inv in Hstr as (-> & l' & [= <-] & Hlq).
    apply bind_inv in Hrun as (c & s1 & Hc & Hrun).
    destruct c as [ld|].
    + apply malloc_step in Hc as (Hfresh & Hld & Hf1).
      assert (ld <> lp) by (intros ->; congruence).
      assert (st_heap s1 !! lp = Some (BProps [q])) as Hlp1
        by by rewrite Hf1.
      apply bind_inv in Hrun as ([] & s2 & Hmod & Hrun).
      destruct (modify_prop_step _ _ _ _ _ _ Hlp1 Hmod) as (_ & Hlp2 & Hf2).
      rewrite bool_decide_eq_true_2 in Hrun by by eexists.
      apply mret_inv in Hrun as [_ <-].
      exists (Some ld). split.
      { eapply extends_step; [|exact Hlp0|exact Hf2].
        eapply extends_step; [exact Hext| |exact Hf1].
        exact (extends_fresh _ _ _ Hext Hfresh). }
      split; [done|]. split.
      { intros l b Hl Hne. rewrite Hf2, Hf1; try done.
        intros ->. congruence. }
      split.
      { exists ld, str. split; [done|].
        split; [exact (extends_fresh _ _ _ Hext Hfresh)|].
        split; [by rewrite Hf2|].
        intros str0 Hstr0. apply Hext in Hstr0. congruence. }
      split; [by intros ? [= <-]|].
      intros l Hl. destruct (decide (l = lp)) as [->|Hne1]; [congruence|].
      rewrite Hf2 in Hl by done.
      destruct (decide (l = ld)) as [->|Hne2]; [congruence|].
      by rewrite Hf1 in Hl.
    + apply malloc_null in Hc.
      assert (st_heap s1 !! lp = Some (BProps [q])) as Hlp1
        by by rewrite Hc.
      apply bind_inv in Hrun as ([] & s2 & Hmod & Hrun).
      by rewrite bool_decide_eq_false_2 in Hrun
        by (intros [? [=]]).
  - apply mret_inv in Hrun as [_ <-]. exists None.
    split; [done|]. split; [done|]. split; [done|]. split; [done|].
    split; [by intros ? [=]|done].
Qed.

(** Copying the [dims] array of the caller's property [q0] into the
    property at [lp]. *)
Lemma copy_dims_step (h0 : heap) (lp : loc) (q0 q : DLiteProperty)
    (s s' : state) :
  extends h0 s ->
  h0 !! lp = None ->
  st_heap s !! lp = Some (BProps [q]) ->
  (if negb (p_ndims q0 =? 0) then
     d ← malloc_dims (p_ndims q0);
     _ ← modify_prop lp (set_p_dims d);
     match d with
     | None => FAIL
     | Some ld =>
         src ← load_ints (p_dims q0);
         if Zlen src <? p_ndims q0 then undef
         else store ld (BInts (take (Z.to_nat (p_ndims q0)) src))
     end
   else modify_prop lp (set_p_dims None)) s = Done (Ok tt, s') ->
  exists d,
    extends h0 s' /\
    st_heap s' !! lp = Some (BProps [set_p_dims d q]) /\
    (forall l b, st_heap s !! l = Some b -> l <> lp ->
                 st_heap s' !! l = Some b) /\
    (if p_ndims q0 =? 0 then d = None
     else exists ld src,
         d = Some ld /\ h0 !! ld = None /\ st_heap s !! ld = None /\
         st_heap s' !! ld = Some (BInts src) /\
         forall lq src0,
           p_dims q0 = Some lq -> h0 !! lq = Some (BInts src0) ->
           src = take (Z.to_nat (p_ndims q0)) src0) /\
    (forall l, st_heap s' !! l = None -> st_heap s !! l = None).
Proof.
  intros Hext Hlp0 Hlp Hrun.
  destruct (Z.eqb_spec (p_ndims q0) 0) as [Hz|Hnz]; simpl in Hrun.
  - destruct (modify_prop_step _ _ _ _ _ _ Hlp Hrun) as (_ & Hlp' & Hf).
    exists None. split; [by eapply extends_step|]. split; [done|].
    split; [by intros l b Hl Hne; rewrite Hf|]. split; [done|].
    intros l Hl. destruct (decide (l = lp)) as [->|Hne]; [congruence|].
    by rewrite Hf in Hl.
  - apply bind_inv in Hrun as (d & s1 & Hd & Hrun).
    unfold malloc_dims in Hd.
    destruct d as [ld|].
    2:{ apply bind_inv in Hrun as ([] & s2 & _ & Hrun). done. }
    destruct (p_ndims q0 <? 0); [by apply mret_inv in Hd as [[=] _]|].
    apply malloc_step in Hd as (Hfresh & Hld & Hf1).
    assert (ld <> lp) as Hne by (intros ->; congruence).
    assert (st_heap s1 !! lp = Some (BProps [q])) as Hlp1 by by rewrite Hf1.
    apply bind_inv in Hrun as ([] & s2 & Hmod & Hrun).
    destruct (modify_prop_step _ _ _ _ _ _ Hlp1 Hmod) as (_ & Hlp2 & Hf2).
    apply bind_inv in Hrun as (src & s3 & Hsrc & Hrun).
    apply load_ints_inv in Hsrc as (-> & lq & Hlq & Hsrc).
    destruct (Zlen src <? p_ndims q0); [done|].
    apply store_step in Hrun as (_ & _ & Hld3 & Hf3).
    assert (extends h0 s1) as Hext1.
    { eapply extends_step; [exact Hext| |exact Hf1].
      exact (extends_fresh _ _ _ Hext Hfresh). }
    assert (extends h0 s2) as Hext2 by by eapply extends_step.
    exists (Some ld). split.
    { eapply extends_step; [exact Hext2| |exact Hf3].
      exact (extends_fresh _ _ _ Hext Hfresh). }
    split; [by rewrite Hf3|]. split.
    { intros l b Hl Hne'. assert (l <> ld) by (intros ->; congruence).
      by rewrite Hf3, Hf2, Hf1. }
    split.
    { exists ld, (take (Z.to_nat (p_ndims q0)) src).
      split; [done|]. split; [exact (extends_fresh _ _ _ Hext Hfresh)|].
      split; [done|].
      split; [done|]. intros lq' src0 Hlq' Hsrc0.
      rewrite Hlq in Hlq'. injection Hlq' as <-.
      apply Hext2 in Hsrc0. congruence. }
    intros l Hl. destruct (decide (l = ld)) as [->|Hne1]; [congruence|].
    rewrite Hf3 in Hl by done.
    destruct (decide (l = lp)) as [->|Hne2]; [congruence|].
    by rewrite Hf2, Hf1 in Hl.
Qed.

Lemma copied_string_mono (h0 h1 h2 : heap) (src dst : ptr) :
  copied_string h0 h1 src dst ->
  (forall l str, h1 !! l = Some (BString str) -> h2 !! l = Some (BString str)) ->
  copied_string h0 h2 src dst.
Proof.
  unfold copied_string. destruct src as [lq|]; [|done].
  intros (ld & str & ? & ? & ? & ?) Hm. exists ld, str. eauto.
Qed.

Lemma owned_copy_mono (h0 h1 h2 : heap) (q p' : DLiteProperty) :
  owned_copy h0 h1 q p' ->
  (forall l str, h1 !! l = Some (BString str) -> h2 !! l = Some (BString str)) ->
  (forall l src, h1 !! l = Some (BInts src) -> h2 !! l = Some (BInts src)) ->
  owned_copy h0 h2 q p'.
Proof.
  intros (? & ? & ? & [? Hn] & Hd & Hde & Hu) Hs Hi.
  repeat split; try done; try by eapply copied_string_mono.
  destruct (p_ndims q =? 0); [done|].
  destruct Hd as (ld & src & ? & ? & ? & ?). exists ld, src. eauto.
Qed.

(** The property loop of dlite_entity_create, started at property [i]
    with [k] properties to go: every property struct it stores is a new
    block that holds an owned copy of the caller's property. *)
Lemma copy_properties_post (h0 : heap) (lq0 : loc) (qs : list DLiteProperty)
    (pp : loc) (k : nat) :
  h0 !! lq0 = Some (BProps qs) ->
  h0 !! pp = None ->
  forall (i : Z) (s s' : state) (ptrs : list ptr),
    copy_properties (Some lq0) pp k i s = Done (Ok tt, s') ->
    0 <= i ->
    extends h0 s ->
    st_heap s !! pp = Some (BPropPtrs ptrs) ->
    exists ptrs',
      extends h0 s' /\
      st_heap s' !! pp = Some (BPropPtrs ptrs') /\
      length ptrs' = length ptrs /\
      (forall j, (j < Z.to_nat i)%nat -> ptrs' !! j = ptrs !! j) /\
      (forall l b, st_heap s !! l = Some b -> l <> pp ->
                   st_heap s' !! l = Some b) /\
      (forall j : nat, (Z.to_nat i <= j < Z.to_nat i + k)%nat ->
         exists lp p' q,
           ptrs' !! j = Some (Some lp) /\
           st_heap s !! lp = None /\
           st_heap s' !! lp = Some (BProps [p']) /\
           qs !! j = Some q /\
           owned_copy h0 (st_heap s') q p').
Proof.
  intros Hqs Hpp0. induction k as [|k IH]; intros i s s' ptrs Hrun Hi Hext Hpp.
  { apply mret_inv in Hrun as [_ <-]. exists ptrs.
    repeat split; try done. intros j Hj. lia. }
  simpl in Hrun.
  apply bind_inv in Hrun as (p & s1 & Hp & Hrun).
  destruct p as [lp|]; [|done].
  apply malloc_step in Hp as (Hfresh & Hlp1 & Hf1).
  assert (h0 !! lp = None) as Hlp0 by exact (extends_fresh _ _ _ Hext Hfresh).
  assert (extends h0 s1) as Hext1
    by exact (extends_step _ _ _ _ Hext Hlp0 Hf1).
  assert (lp <> pp) as Hnepp by (intros ->; congruence).
  apply bind_inv in Hrun as (qs' & s2 & Hqs' & Hrun).
  apply load_props_inv in Hqs' as (-> & ? & [= <-] & Hqs').
  rewrite (Hext1 _ _ Hqs) in Hqs'. injection Hqs' as <-.
  apply bind_inv in Hrun as (q & s2 & Hq & Hrun).
  apply index_inv in Hq as (-> & _ & Hq).
  apply bind_inv in Hrun as ([] & s2 & Hst & Hrun).
  apply store_step in Hst as (_ & _ & Hlp2 & Hf2).
  assert (extends h0 s2) as Hext2
    by exact (extends_step _ _ _ _ Hext1 Hlp0 Hf2).
  apply bind_inv in Hrun as (nm & s3 & Hnm & Hrun).
  apply load_string_inv in Hnm as (-> & lqn & Hlqn & Hnm).
  apply bind_inv in Hrun as (n & s3 & Hn & Hrun).
  apply bind_inv in Hrun as ([] & s4 & Hmod & Hrun).
  destruct n as [ln|]; [|done].
  apply malloc_step in Hn as (Hfreshn & Hln3 & Hf3).
  assert (ln <> lp) as Hnln by (intros ->; congruence).
  assert (h0 !! ln = None) as Hln0
    by exact (extends_fresh _ _ _ Hext2 Hfreshn).
  assert (extends h0 s3) as Hext3
    by exact (extends_step _ _ _ _ Hext2 Hln0 Hf3).
  assert (st_heap s3 !! lp = Some (BProps [q])) as Hlp3 by by rewrite Hf3.
  destruct (modify_prop_step _ _ _ _ _ _ Hlp3 Hmod) as (_ & Hlp4 & Hf4).
  assert (extends h0 s4) as Hext4
    by exact (extends_step _ _ _ _ Hext3 Hlp0 Hf4).
  rewrite bool_decide_eq_true_2 in Hrun by by eexists.
  simpl negb in Hrun. cbv iota in Hrun.
  apply bind_inv in Hrun as ([] & s5 & Hdims & Hrun).
  destruct (copy_dims_step h0 lp q _ s4 s5 Hext4 Hlp0 Hlp4 Hdims)
    as (d & Hext5 & Hlp5 & Hf5 & Hd & Hdom5).
  apply bind_inv in Hrun as ([] & s6 & Hdescr & Hrun).
  destruct (copy_string_step h0 lp (p_description q) set_p_description _
              s5 s6 Hext5 Hlp0 Hlp5 Hdescr)
    as (dd & Hext6 & Hlp6 & Hf6 & Hdd & Hdd5 & Hdom6).
  apply bind_inv in Hrun as ([] & s7 & Hunit & Hrun).
  destruct (copy_string_step h0 lp (p_unit q) set_p_unit _
              s6 s7 Hext6 Hlp0 Hlp6 Hunit)
    as (du & Hext7 & Hlp7 & Hf7 & Hdu & Hdu6 & Hdom7).
  apply bind_inv in Hrun as (l & s8 & Hl & Hrun).
  apply load_propptrs_inv in Hl as (-> & ? & [= <-] & Hl).
  apply bind_inv in Hrun as (pi & s8 & Hpi & Hrun).
  apply index_inv in Hpi as (-> & _ & Hpi).
  apply bind_inv in Hrun as ([] & s8 & Hst & Hrun).
  apply store_step in Hst as (_ & _ & Hpp8 & Hf8).
  assert (extends h0 s8) as Hext8
    by exact (extends_step _ _ _ _ Hext7 Hpp0 Hf8).
  (* blocks of [s] other than [pp] are still there before the store *)
  assert (forall l0 b, st_heap s !! l0 = Some b -> st_heap s7 !! l0 = Some b)
    as Hf07.
  { intros l0 b Hl0. assert (l0 <> lp) by (intros ->; congruence).
    apply Hf7; [|done]. apply Hf6; [|done]. apply Hf5; [|done].
    rewrite Hf4, Hf3, Hf2, Hf1; try done. intros ->.
    rewrite Hf2, Hf1 in Hfreshn by done. congruence. }
  pose proof (Hf07 _ _ Hpp) as Hpp7.
  rewrite Hpp7 in Hl. injection Hl as <-.
  destruct (IH (i + 1) s8 s' (<[Z.to_nat i:=Some lp]> ptrs) Hrun)
    as (ptrs' & Hext' & Hpp' & Hlen' & Hpre' & Hf' & Hrest); try done.
  { lia. }
  exists ptrs'. split; [done|]. split; [done|].
  split; [by rewrite Hlen', length_insert|].
  split.
  { intros j Hj. rewrite Hpre' by lia. apply list_lookup_insert_ne. lia. }
  assert (forall l0 b, st_heap s !! l0 = Some b -> l0 <> pp ->
                       st_heap s8 !! l0 = Some b) as Hf08.
  { intros l0 b Hl0 Hne. rewrite Hf8 by done. by apply Hf07. }
  split; [intros l0 b Hl0 Hne; apply Hf'; [by apply Hf08|done]|].
  assert (forall l0 str, st_heap s8 !! l0 = Some (BString str) ->
                         st_heap s' !! l0 = Some (BString str)) as Hstr.
  { intros l0 str Hl0. apply Hf'; [done|]. intros ->. congruence. }
  assert (forall l0 src, st_heap s8 !! l0 = Some (BInts src) ->
                         st_heap s' !! l0 = Some (BInts src)) as Hints.
  { intros l0 src Hl0. apply Hf'; [done|]. intros ->. congruence. }
  intros j Hj. destruct (decide (j = Z.to_nat i)) as [->|Hne].
  - exists lp. eexists. exists q.
    split.
    { rewrite Hpre' by lia. apply list_lookup_insert_eq.
      by eapply lookup_lt_Some. }
    split; [done|].
    split; [apply Hf'; [rewrite Hf8 by done; exact Hlp7|done]|].
    split; [done|].
    eapply owned_copy_mono; [|exact Hstr|exact Hints].
    assert (forall l0 str, st_heap s7 !! l0 = Some (BString str) ->
                           st_heap s8 !! l0 = Some (BString str)) as Hstr8.
    { intros l0 str Hl0. rewrite Hf8; [done|]. intros ->. congruence. }
    assert (forall l0 b, st_heap s5 !! l0 = Some b -> l0 <> lp ->
                         (forall x, b <> BPropPtrs x) ->
                         st_heap s8 !! l0 = Some b) as Hf58.
    { intros l0 b Hl0 Hne Hb. rewrite Hf8.
      - apply Hf7; [|done]. by apply Hf6.
      - intros ->. apply Hf6 in Hl0; [|done]. apply Hf7 in Hl0; [|done].
        apply (Hb ptrs). congruence. }
    split; [by destruct (p_description q), (p_unit q)|].
    split; [by destruct (p_description q), (p_unit q)|].
    split; [by destruct (p_description q), (p_unit q)|].
    split.
    { split; [by eexists|]. rewrite Hlqn. exists ln, nm.
      split; [by destruct (p_description q), (p_unit q)|].
      split; [done|]. split.
      - apply Hf58; [|done..]. apply Hf5; [|done]. by rewrite Hf4.
      - intros str0 Hstr0. apply Hext2 in Hstr0. congruence. }
    split.
    { destruct (p_ndims q =? 0).
      - subst d. by destruct (p_description q), (p_unit q).
      - destruct Hd as (ld & src & -> & Hld0 & Hld4 & Hld5 & Hsrc).
        exists ld, src.
        split; [by destruct (p_description q), (p_unit q)|].
        split; [done|]. split; [|done].
        apply Hf58; [done| |done]. intros ->. congruence. }
    split.
    { apply (copied_string_mono h0 (st_heap s6)).
      - destruct (p_description q) eqn:E1, (p_unit q) eqn:E2; simpl;
          rewrite ?E1; try exact Hdd; done.
      - intros l0 str Hl0. apply Hstr8.
        apply Hf7; [done|]. intros ->. congruence. }
    apply (copied_string_mono h0 (st_heap s7)).
    + destruct (p_description q) eqn:E1, (p_unit q) eqn:E2; simpl;
        rewrite ?E2; try exact Hdu; done.
    + exact Hstr8.
  - destruct (Hrest j) as (lp' & p' & q' & H1 & H2 & H3 & H4 & H5); [lia|].
    exists lp', p', q'. split; [done|]. split; [|done].
    destruct (st_heap s !! lp') as [b|] eqn:E; [|done].
    destruct (decide (lp' = pp)) as [->|Hne']; [congruence|].
    apply Hf08 in E; [|done]. congruence.
Qed.

(** The property sweep of dlite_meta_postinit writes [propoffsets] only. *)
Lemma sweep_properties_frame `{TypeLib} (le po : loc) (k : nat) :
  forall (i offset size maxalign : Z) (s s' : state) (r : Z * Z * Z),
    sweep_properties le po k i offset size maxalign s = Done (Ok r, s') ->
    forall l, l <> po -> st_heap s' !! l = st_heap s !! l.
Proof.
  induction k as [|k IH]; intros i offset size maxalign s s' r Hrun l Hl.
  { apply mret_inv in Hrun as [_ <-]. done. }
  simpl in Hrun.
  apply bind_inv in Hrun as (m & s1 & Hm & Hrun).
  apply load_meta_inv in Hm as (-> & _).
  apply bind_inv in Hrun as (p & s1 & Hp & Hrun).
  apply (reads_inv (fun _ => True)) in Hp as (-> & _);
    [|by apply reads_meta_property].
  destruct (is_array p).
  - apply bind_inv in Hrun as (offs & s1 & Ho & Hrun).
    apply load_sizes_inv in Ho as (-> & _).
    apply bind_inv in Hrun as (? & s1 & Hi & Hrun).
    apply index_inv in Hi as (-> & _).
    apply bind_inv in Hrun as ([] & s1 & Hst & Hrun).
    apply store_step in Hst as (_ & _ & _ & Hf).
    rewrite (IH _ _ _ _ _ _ _ Hrun l Hl). by apply Hf.
  - apply bind_inv in Hrun as (offs & s1 & Ho & Hrun).
    apply load_sizes_inv in Ho as (-> & _).
    apply bind_inv in Hrun as (? & s1 & Hi & Hrun).
    apply index_inv in Hi as (-> & _).
    apply bind_inv in Hrun as ([] & s1 & Hst & Hrun).
    apply store_step in Hst as (_ & _ & _ & Hf).
    rewrite (IH _ _ _ _ _ _ _ Hrun l Hl). by apply Hf.
Qed.

(** dlite_meta_postinit on an entity writes the layout fields of the
    entity and a new [propoffsets] array, nothing else. *)
Lemma postinit_step `{TypeLib} (le : loc) (s s' : state) (st : Z)
    (m : DLiteMeta) :
  st_heap s !! le = Some (BMeta m) ->
  dlite_meta_postinit le false s = Done (Ok st, s') ->
  exists m',
    st_heap s' !! le = Some (BMeta m') /\
    m_meta m' = m_meta m /\ m_dimensions m' = m_dimensions m /\
    m_properties m' = m_properties m /\
    m_ndimensions m' = m_ndimensions m /\
    m_nproperties m' = m_nproperties m /\
    (forall l b, st_heap s !! l = Some b -> l <> le ->
                 st_heap s' !! l = Some b).
Proof.
  intros Hle Hrun. unfold dlite_meta_postinit in Hrun.
  rewrite (bind_Ok _ _ _ _ _ (load_meta_ok _ _ _ Hle)) in Hrun.
  destruct (m_meta m) as [lmm|] eqn:Emm; [|done].
  apply bind_inv in Hrun as (po & s1 & Hpo & Hrun).
  assert (st_heap s1 !! le = Some (BMeta m) /\
          (forall l b, st_heap s !! l = Some b -> st_heap s1 !! l = Some b) /\
          forall pl, po = Some pl -> st_heap s !! pl = None)
    as (Hle1 & Hf1 & Hpl).
  { destruct (m_nproperties m * 8 >=? SIZE_MOD).
    - apply mret_inv in Hpo as [<- <-]. done.
    - destruct po as [pl|].
      + apply malloc_step in Hpo as (Hfresh & _ & Hf).
        split; [rewrite Hf; [done|intros ->; congruence]|].
        split; [|by intros ? [= <-]].
        intros l b Hl. rewrite Hf; [done|intros ->; congruence].
      + apply malloc_null in Hpo. rewrite Hpo. done. }
  apply bind_inv in Hrun as ([] & s2 & Hmod & Hrun).
  destruct (modify_meta_step _ _ _ _ _ _ Hle1 Hmod) as (_ & Hle2 & Hf2).
  destruct po as [pl|].
  2:{ apply mret_inv in Hrun as [_ <-]. eexists. split; [exact Hle2|].
      repeat split; try done. intros l b Hl Hne. rewrite Hf2 by done. auto. }
  destruct (dlite_type_get_alignment dliteStringPtr 8 =? 0).
  { apply mret_inv in Hrun as [_ <-]. eexists. split; [exact Hle2|].
    repeat split; try done. intros l b Hl Hne. rewrite Hf2 by done. auto. }
  destruct (sweep_dimensions _ _ _ _ _) as [[offset size] dimoffset].
  apply bind_inv in Hrun as ([] & s3 & Hmod3 & Hrun).
  destruct (modify_meta_step _ _ _ _ _ _ Hle2 Hmod3) as (_ & Hle3 & Hf3).
  apply bind_inv in Hrun as ([[offset' size'] maxalign'] & s4 & Hsw & Hrun).
  pose proof (sweep_properties_frame _ _ _ _ _ _ _ _ _ _ Hsw) as Hf4.
  assert (le <> pl) as Hne by (intros ->; specialize (Hpl _ eq_refl); congruence).
  assert (st_heap s4 !! le = Some (BMeta (set_m_dimoffset dimoffset
            (set_m_propoffsets (Some pl) m)))) as Hle4
    by by rewrite Hf4.
  destruct (sweep_relations _ _ _) as [offset'' size''].
  apply bind_inv in Hrun as ([] & s5 & Hmod5 & Hrun).
  destruct (modify_meta_step _ _ _ _ _ _ Hle4 Hmod5) as (_ & Hle5 & Hf5).
  apply bind_inv in Hrun as ([] & s6 & Hmod6 & Hrun).
  destruct (modify_meta_step _ _ _ _ _ _ Hle5 Hmod6) as (_ & Hle6 & Hf6).
  apply mret_inv in Hrun as [_ <-]. eexists. split; [exact Hle6|].
  repeat split; try done.
  intros l b Hl Hnl. rewrite Hf6, Hf5, Hf4, Hf3, Hf2; try done; [by auto|].
  intros ->. specialize (Hpl _ eq_refl). congruence.
Qed.

Lemma malloc_any (b : block) (s s' : state) (p : ptr) :
  malloc b s = Done (Ok p, s') ->
  (forall l b0, st_heap s !! l = Some b0 -> st_heap s' !! l = Some b0) /\
  forall l, p = Some l -> st_heap s !! l = None /\ st_heap s' !! l = Some b.
Proof.
  intros Hm. destruct p as [l|].
  - apply malloc_step in Hm as (Hfresh & Hl & Hf). split.
    + intros l0 b0 Hl0. rewrite Hf; [done|intros ->; congruence].
    + by intros ? [= <-].
  - apply malloc_null in Hm. rewrite Hm. done.
Qed.

Lemma extends_keep (h0 : heap) (s s' : state) :
  extends h0 s ->
  (forall l b, st_heap s !! l = Some b -> st_heap s' !! l = Some b) ->
  extends h0 s'.
Proof. intros He Hf l b Hl. by apply Hf, He. Qed.

(** [strdup] of a string of the caller into a field of the entity, as
    dlite_entity_create does for the uri and the description: the result
    of [strdup] is not checked. *)
Lemma strdup_modify_step (h0 : heap) (le : loc) (str : cstr)
    (f : ptr -> DLiteMeta -> DLiteMeta) (s s' : state) (m : DLiteMeta) :
  extends h0 s -> h0 !! le = None ->
  st_heap s !! le = Some (BMeta m) ->
  (u ← strdup str; modify_meta le (f u)) s = Done (Ok tt, s') ->
  exists u, extends h0 s' /\ st_heap s' !! le = Some (BMeta (f u m)).
Proof.
  intros Hext Hle0 Hle Hrun.
  apply bind_inv in Hrun as (u & s1 & Hu & Hrun).
  apply malloc_any in Hu as (Hf1 & _).
  destruct (modify_meta_step _ _ _ _ _ _ (Hf1 _ _ Hle) Hrun)
    as (_ & Hle2 & Hf2).
  exists u. split; [|done].
  eapply extends_step; [|exact Hle0|exact Hf2]. by eapply extends_keep.
Qed.

(** The dimension part of dlite_entity_create: the entity gets an array
    of its own that holds the caller's entries as they are. *)
Lemma copy_dimensions_step (h0 : heap) (le : loc) (nd : Z) (dimensions : ptr)
    (ld0 : loc) (ds : list DLiteDimension) (s s' : state) (m : DLiteMeta) :
  extends h0 s -> h0 !! le = None ->
  st_heap s !! le = Some (BMeta m) ->
  (nd <> 0 -> dimensions = Some ld0 /\ h0 !! ld0 = Some (BDims ds)) ->
  (if nd =? 0 then mret tt
   else
     d ← (if nd * 16 >=? SIZE_MOD then mret None
          else malloc (BDims (replicate (Z.to_nat nd) (mkDim None None))));
     _ ← modify_meta le (set_m_dimensions d);
     match d with
     | None => FAIL
     | Some ld =>
         ds ← load_dims dimensions;
         if Zlen ds <? nd then undef
         else store ld (BDims (take (Z.to_nat nd) ds))
     end) s = Done (Ok tt, s') ->
  exists m',
    extends h0 s' /\ st_heap s' !! le = Some (BMeta m') /\
    m_meta m' = m_meta m /\
    (nd <> 0 ->
     exists ld, m_dimensions m' = Some ld /\ h0 !! ld = None /\
                st_heap s' !! ld = Some (BDims (take (Z.to_nat nd) ds))).
Proof.
  intros Hext Hle0 Hle Hdims Hrun.
  destruct (Z.eqb_spec nd 0) as [->|Hnd].
  { apply mret_inv in Hrun as [_ <-]. exists m. done. }
  destruct (Hdims Hnd) as [-> Hld0].
  apply bind_inv in Hrun as (d & s1 & Hd & Hrun).
  assert ((forall l b, st_heap s !! l = Some b -> st_heap s1 !! l = Some b) /\
          forall l, d = Some l ->
                    st_heap s !! l = None /\ is_Some (st_heap s1 !! l))
    as (Hf1 & Hd1).
  { destruct (nd * 16 >=? SIZE_MOD).
    - apply mret_inv in Hd as [<- <-]. done.
    - apply malloc_any in Hd as (Hf & Hl). split; [done|].
      intros l Hl'. destruct (Hl l Hl'). split; [done|by eexists]. }
  apply bind_inv in Hrun as ([] & s2 & Hmod & Hrun).
  destruct (modify_meta_step _ _ _ _ _ _ (Hf1 _ _ Hle) Hmod)
    as (_ & Hle2 & Hf2).
  destruct d as [ld|]; [|done].
  destruct (Hd1 ld eq_refl) as (Hfresh & Hld1).
  assert (ld <> le) as Hne by (intros ->; congruence).
  assert (extends h0 s2) as Hext2.
  { eapply extends_step; [|exact Hle0|exact Hf2]. by eapply extends_keep. }
  apply bind_inv in Hrun as (ds' & s3 & Hds & Hrun).
  apply load_dims_inv in Hds as (-> & ? & [= <-] & Hds).
  rewrite (Hext2 _ _ Hld0) in Hds. injection Hds as <-.
  destruct (Zlen ds <? nd); [done|].
  apply store_step in Hrun as (_ & _ & Hld3 & Hf3).
  assert (h0 !! ld = None) as Hldh by exact (extends_fresh _ _ _ Hext Hfresh).
  eexists. split; [exact (extends_step _ _ _ _ Hext2 Hldh Hf3)|].
  split; [by rewrite Hf3|]. split; [done|].
  intros _. by exists ld.
Qed.

(** The property part of dlite_entity_create. *)
Lemma copy_properties_step (h0 : heap) (le : loc) (np : Z) (properties : ptr)
    (lq0 : loc) (qs : list DLiteProperty) (s s' : state) (m : DLiteMeta) :
  extends h0 s -> h0 !! le = None ->
  st_heap s !! le = Some (BMeta m) ->
  (np <> 0 -> properties = Some lq0 /\ h0 !! lq0 = Some (BProps qs)) ->
  (if np =? 0 then mret tt
   else if np * 8 >=? SIZE_MOD then undef
   else
     pp ← malloc (BPropPtrs (replicate (Z.to_nat np) None));
     _ ← modify_meta le (set_m_properties pp);
     match pp with
     | None => FAIL
     | Some lp => copy_properties properties lp (Z.to_nat np) 0
     end) s = Done (Ok tt, s') ->
  exists m',
    extends h0 s' /\ st_heap s' !! le = Some (BMeta m') /\
    m_meta m' = m_meta m /\ m_dimensions m' = m_dimensions m /\
    (forall l b, st_heap s !! l = Some b -> l <> le ->
                 st_heap s' !! l = Some b) /\
    (np <> 0 ->
     exists pp ptrs,
       m_properties m' = Some pp /\ h0 !! pp = None /\
       st_heap s' !! pp = Some (BPropPtrs ptrs) /\
       length ptrs = Z.to_nat np /\
       forall j : nat, (j < Z.to_nat np)%nat ->
         exists lp p' q,
           ptrs !! j = Some (Some lp) /\ h0 !! lp = None /\
           st_heap s' !! lp = Some (BProps [p']) /\
           qs !! j = Some q /\ owned_copy h0 (st_heap s') q p').
Proof.
  intros Hext Hle0 Hle Hprops Hrun.
  destruct (Z.eqb_spec np 0) as [->|Hnp].
  { apply mret_inv in Hrun as [_ <-]. exists m. done. }
  destruct (Hprops Hnp) as [-> Hlq0].
  destruct (np * 8 >=? SIZE_MOD); [done|].
  apply bind_inv in Hrun as (pp & s1 & Hpp & Hrun).
  apply malloc_any in Hpp as (Hf1 & Hpp1).
  apply bind_inv in Hrun as ([] & s2 & Hmod & Hrun).
  destruct (modify_meta_step _ _ _ _ _ _ (Hf1 _ _ Hle) Hmod)
    as (_ & Hle2 & Hf2).
  destruct pp as [pp|]; [|done].
  destruct (Hpp1 pp eq_refl) as (Hfresh & Hpp1').
  assert (pp <> le) as Hne by (intros ->; congruence).
  assert (h0 !! pp = None) as Hpp0 by exact (extends_fresh _ _ _ Hext Hfresh).
  assert (extends h0 s2) as Hext2.
  { eapply extends_step; [|exact Hle0|exact Hf2]. by eapply extends_keep. }
  assert (st_heap s2 !! pp
          = Some (BPropPtrs (replicate (Z.to_nat np) None))) as Hpp2
    by by rewrite Hf2.
  destruct (copy_properties_post h0 lq0 qs pp (Z.to_nat np) Hlq0 Hpp0
              0 s2 s' _ Hrun ltac:(lia) Hext2 Hpp2)
    as (ptrs & Hext' & Hpp' & Hlen & _ & Hf' & Hcp).
  eexists. split; [done|].
  split; [by apply Hf'|]. split; [done|]. split; [done|].
  split.
  { intros l b Hl Hnl. apply Hf'.
    - rewrite Hf2 by done. by apply Hf1.
    - intros ->. congruence. }
  intros _. exists pp, ptrs. split; [done|]. split; [done|].
  split; [done|]. split; [by rewrite Hlen, length_replicate|].
  intros j Hj.
  destruct (Hcp j) as (lp & p' & q & H1 & H2 & H3 & H4 & H5);
    [change (Z.to_nat 0) with O; lia|].
  exists lp, p', q. split; [done|].
  split; [exact (extends_fresh _ _ _ Hext2 H2)|]. done.
Qed.

(** C9, amended: after a successful dlite_entity_create the caller's
    memory is as it was (but for the reference count of the static
    [schema_entity]), and the entity, its dimension array, its array of
    property pointers, every property struct and every property name,
    description, unit and [dims] array are blocks that were not part of
    the caller's memory and hold copies of the caller's values.  The
    dimension array holds the caller's entries as they are: the name and
    description of a dimension stay the caller's strings. *)
Theorem entity_create_owned_copies `{UuidLib} `{TypeLib}
    (r : rng) (uri description : option cstr)
    (nd : Z) (dimensions : ptr) (np : Z) (properties : ptr)
    (ld0 : loc) (ds : list DLiteDimension)
    (lq0 : loc) (qs : list DLiteProperty) (s s' : state) (le : loc) :
  dlite_entity_create r uri description nd dimensions np properties s
  = Done (Ok (Some le), s') ->
  (nd <> 0 -> dimensions = Some ld0 /\ st_heap s !! ld0 = Some (BDims ds)) ->
  (np <> 0 -> properties = Some lq0 /\ st_heap s !! lq0 = Some (BProps qs)) ->
  st_heap s !! le = None /\
  (forall l b, st_heap s !! l = Some b -> l <> schema_entity_loc ->
               st_heap s' !! l = Some b) /\
  exists m,
    st_heap s' !! le = Some (BMeta m) /\
    m_ndimensions m = nd /\ m_nproperties m = np /\
    (nd <> 0 ->
     exists ld, m_dimensions m = Some ld /\ st_heap s !! ld = None /\
                st_heap s' !! ld = Some (BDims (take (Z.to_nat nd) ds))) /\
    (np <> 0 ->
     exists pp ptrs,
       m_properties m = Some pp /\ st_heap s !! pp = None /\
       st_heap s' !! pp = Some (BPropPtrs ptrs) /\
       length ptrs = Z.to_nat np /\
       forall j : nat, (j < Z.to_nat np)%nat ->
         exists lp p' q,
           ptrs !! j = Some (Some lp) /\ st_heap s !! lp = None /\
           st_heap s' !! lp = Some (BProps [p']) /\
           qs !! j = Some q /\ owned_copy (st_heap s) (st_heap s') q p').
Proof.
  intros Hrun Hdims Hprops. set (h0 := st_heap s) in *.
  assert (extends h0 s) as Hext0 by by intros l b Hl.
  unfold dlite_entity_create in Hrun.
  apply bind_inv in Hrun as (e & s1 & He & Hrun).
  destruct e as [le'|]; [|by apply mret_inv in Hrun as [[=] _]].
  apply malloc_step in He as (Hfresh & Hle1 & Hf1).
  apply catch_inv in Hrun as [Hrun|(sx & _ & Hh)].
  2:{ apply bind_inv in Hh as ([] & ? & _ & Hh).
      apply bind_inv in Hh as ([] & ? & _ & Hh).
      by apply mret_inv in Hh as [[=] _]. }
  destruct (dlite_get_uuid r uri) as [uv uuid].
  destruct (uv <? 0); [done|].
  assert (extends h0 s1) as Hext1
    by exact (extends_step _ _ _ _ Hext0 Hfresh Hf1).
  apply bind_inv in Hrun as ([] & s2 & Hmod & Hrun).
  destruct (modify_meta_step _ _ _ _ _ _ Hle1 Hmod) as (_ & Hle2 & Hf2).
  assert (extends h0 s2) as Hext2
    by exact (extends_step _ _ _ _ Hext1 Hfresh Hf2).
  apply bind_inv in Hrun as ([] & s3 & Huri & Hrun).
  assert (exists m3, extends h0 s3 /\ st_heap s3 !! le' = Some (BMeta m3))
    as (m3 & Hext3 & Hle3).
  { destruct (uv =? 5).
    - destruct uri as [str|]; [|done].
      destruct (strdup_modify_step h0 le' str set_m_uri _ _ _
                  Hext2 Hfresh Hle2 Huri) as (u & ? & ?). eauto.
    - apply mret_inv in Huri as [_ <-]. eauto. }
  apply bind_inv in Hrun as ([] & s4 & Hmod4 & Hrun).
  destruct (modify_meta_step _ _ _ _ _ _ Hle3 Hmod4) as (_ & Hle4 & Hf4).
  assert (extends h0 s4) as Hext4
    by exact (extends_step _ _ _ _ Hext3 Hfresh Hf4).
  apply bind_inv in Hrun as ([] & s5 & Hdescr & Hrun).
  assert (exists m5, extends h0 s5 /\ st_heap s5 !! le' = Some (BMeta m5) /\
                     m_meta m5 = Some schema_entity_loc)
    as (m5 & Hext5 & Hle5 & Hmeta5).
  { destruct description as [str|].
    - destruct (strdup_modify_step h0 le' str set_m_description _ _ _
                  Hext4 Hfresh Hle4 Hdescr) as (u & ? & ?). eauto.
    - apply mret_inv in Hdescr as [_ <-]. eauto. }
  apply bind_inv in Hrun as ([] & s6 & Hd & Hrun).
  destruct (copy_dimensions_step h0 le' nd dimensions ld0 ds s5 s6 m5
              Hext5 Hfresh Hle5 Hdims Hd)
    as (m6 & Hext6 & Hle6 & Hmeta6 & Hd6).
  apply bind_inv in Hrun as ([] & s7 & Hp & Hrun).
  destruct (copy_properties_step h0 le' np properties lq0 qs s6 s7 m6
              Hext6 Hfresh Hle6 Hprops Hp)
    as (m7 & Hext7 & Hle7 & Hmeta7 & Hdim7 & Hf7 & Hp7).
  apply bind_inv in Hrun as ([] & s8 & Hmod8 & Hrun).
  destruct (modify_meta_step _ _ _ _ _ _ Hle7 Hmod8) as (_ & Hle8 & Hf8).
  apply bind_inv in Hrun as ([] & s9 & Hmod9 & Hrun).
  destruct (modify_meta_step _ _ _ _ _ _ Hle8 Hmod9) as (_ & Hle9 & Hf9).
  apply bind_inv in Hrun as (st & s10 & Hpost & Hrun).
  destruct (postinit_step _ _ _ _ _ Hle9 Hpost)
    as (m10 & Hle10 & Hmeta10 & Hdim10 & Hprop10 & Hnd10 & Hnp10 & Hf10).
  simpl in Hmeta10, Hdim10, Hprop10, Hnd10, Hnp10.
  destruct (negb (st =? 0)); [done|].
  apply bind_inv in Hrun as ([] & s11 & Hmod11 & Hrun).
  destruct (modify_meta_step _ _ _ _ _ _ Hle10 Hmod11) as (_ & Hle11 & Hf11).
  rewrite (bind_Ok _ _ _ _ _ (load_meta_ok _ _ _ Hle11)) in Hrun.
  apply bind_inv in Hrun as ([] & s12 & Hinc & Hrun).
  apply mret_inv in Hrun as [[= ->] ->].
  simpl in Hinc. rewrite Hmeta10, Hmeta7, Hmeta6, Hmeta5 in Hinc.
  apply dlite_meta_incref_inv in Hinc as (m0 & _ & Hschema & _ & ->).
  simpl. subst h0.
  (* what the steps after the property loop leave in place *)
  assert (forall l b, st_heap s7 !! l = Some b -> l <> le ->
                      st_heap s11 !! l = Some b) as Hf711.
  { intros l b Hl Hne. rewrite Hf11 by done. apply Hf10; [|done].
    by rewrite Hf9, Hf8. }
  assert (forall l b, st_heap s7 !! l = Some b -> (forall x, b <> BMeta x) ->
            <[schema_entity_loc:=BMeta (set_m_refcount (m_refcount m0 + 1) m0)]>
              (st_heap s11) !! l = Some b) as Hkeep.
  { intros l b Hl Hb.
    assert (l <> le) as Hne by (intros ->; apply (Hb m7); congruence).
    apply Hf711 in Hl; [|done]. rewrite lookup_insert_ne; [done|].
    intros <-. apply (Hb m0). congruence. }
  split; [done|]. split.
  { intros l b Hl Hne. rewrite lookup_insert_ne by done.
    apply Hf711; [by apply Hext7|]. intros ->. congruence. }
  assert (exists m,
    <[schema_entity_loc:=BMeta (set_m_refcount (m_refcount m0 + 1) m0)]>
      (st_heap s11) !! le = Some (BMeta m) /\
    m_ndimensions m = nd /\ m_nproperties m = np /\
    m_dimensions m = m_dimensions m6 /\ m_properties m = m_properties m7)
    as (m & Hm & Hmnd & Hmnp & Hmd & Hmp).
  { destruct (decide (le = schema_entity_loc)) as [E|E].
    - rewrite E, lookup_insert_eq. rewrite E, Hschema in Hle11.
      injection Hle11 as ->. eexists. split; [done|]. simpl.
      rewrite Hdim10, Hdim7. done.
    - rewrite lookup_insert_ne by done. eexists. split; [exact Hle11|].
      simpl. rewrite Hdim10, Hdim7. done. }
  exists m. split; [done|]. split; [done|]. split; [done|]. split.
  - intros Hnd. destruct (Hd6 Hnd) as (ld & Hld & Hld0 & Hld6).
    exists ld. split; [by rewrite Hmd|]. split; [done|].
    apply Hkeep; [|done]. apply Hf7; [done|]. intros ->. congruence.
  - intros Hnp. destruct (Hp7 Hnp) as (pp & ptrs & Hpp & Hpp0 & Hpp7 & Hlen & Hj).
    exists pp, ptrs. split; [by rewrite Hmp|]. split; [done|].
    split; [by apply Hkeep|]. split; [done|].
    intros j Hlt. destruct (Hj j Hlt) as (lp & p' & q & H1 & H2 & H3 & H4 & H5).
    exists lp, p', q. split; [done|]. split; [done|].
    split; [by apply Hkeep|]. split; [done|].
    eapply owned_copy_mono; [exact H5| |]; intros; by apply Hkeep.
Qed.

End entity_facts.

Lemma entity_create_owned_copies_witness :
  Examples.ex_entity_created
  = Done (Mem.Ok (Some 48%positive), Examples.ex_entity_state) /\
  Examples.ex_caller_heap !! 48%positive = None /\
  exists m,
    Mem.st_heap Examples.ex_entity_state !! 48%positive = Some (Mem.BMeta m) /\
    Mem.m_ndimensions m = 1 /\ Mem.m_nproperties m = 1.
Proof.
  assert (Examples.ex_entity_created
          = Done (Mem.Ok (Some 48%positive), Examples.ex_entity_state))
    as Hrun by (vm_compute; reflexivity).
  split; [exact Hrun|].
  destruct (@entity_create_owned_copies Uuid.toy_lib Examples.toy_types
              Examples.ex_rng (Some (cs "http://example.org/0.1/Line")) None
              1 (Some 40%positive) 1 (Some 43%positive)
              40%positive
              [Mem.mkDim (Some 41%positive) (Some 42%positive)]
              43%positive
              [Mem.mkProp (Some 44%positive) Mem.dliteFloat 8 1
                 (Some 45%positive) (Some 46%positive) (Some 47%positive)]
              (Mem.State [] Examples.ex_caller_heap)
              Examples.ex_entity_state 48%positive Hrun
              (fun _ => conj eq_refl eq_refl)
              (fun _ => conj eq_refl eq_refl))
    as (H1 & _ & m & H2 & H3 & H4 & _).
  split; [exact H1|]. exists m. split; [exact H2|]. split; [exact H3|exact H4].
Defined.

(** The claim C9 as stated fails for the strings of the dimensions: the
    entity created from the caller's arrays finds its dimension [n] at
    index 0 through the caller's own string (block 41), and no longer
    finds it once the caller has overwritten that string. *)
Lemma entity_create_shares_dimension_names :
  Examples.ex_entity_created
  = Done (Mem.Ok (Some 48%positive), Examples.ex_entity_state) /\
  Examples.ex_caller_heap !! 41%positive = Some (Mem.BString (cs "n")) /\
  Entity.dlite_meta_get_dimension_index (Some 48%positive) (cs "n")
    Examples.ex_entity_state
  = Done (Mem.Ok 0, Examples.ex_entity_state) /\
  exists s',
    Mem.store 41%positive (Mem.BString (cs "zz")) Examples.ex_entity_state
    = Done (Mem.Ok tt, s') /\
    Entity.dlite_meta_get_dimension_index (Some 48%positive) (cs "n") s'
    = Done (Mem.Ok (-1), s').
Proof.
  split; [vm_compute; reflexivity|].
  split; [vm_compute; reflexivity|].
  split; [vm_compute; reflexivity|].
  exists (Mem.State (Mem.st_oracle Examples.ex_entity_state)
            (<[41%positive:=Mem.BString (cs "zz")]>
               (Mem.st_heap Examples.ex_entity_state))).
  split; vm_compute; reflexivity.
Qed.

(** ** Metadata urls: the general behaviour of the split *)
Section url_split.
Import Url UrlMore.

(** The two scans of dlite_split_metadata on a url [ns/v/n]: [p] stops at
    the last separator and [q] at the one before it. *)
Lemma split_scans (n v ns : cstr) :
  slash ∉ n -> slash ∉ v -> ns <> [] ->
  let s := ns ++ slash :: v ++ slash :: n in
  strrchr s slash = Some (length (ns ++ slash :: v)) /\
  scan_back s (length s) (Z.of_nat (length (ns ++ slash :: v)) - 1)
  = Done (Zlen ns).
Proof.
  intros Hn Hv Hns s. unfold s.
  assert (length ns <> 0%nat) by by destruct ns.
  split.
  { replace (ns ++ slash :: v ++ slash :: n)
      with ((ns ++ slash :: v) ++ slash :: n) by by rewrite <- app_assoc.
    by apply strrchr_last. }
  rewrite (scan_back_skip _ (length v)).
  - replace (Z.of_nat (length (ns ++ slash :: v)) - 1 - Z.of_nat (length v))
      with (Zlen ns) by (unfold Zlen; rewrite length_app; simpl; lia).
    apply scan_back_stop_slash.
    rewrite char_at_app_r by (unfold Zlen; simpl; lia).
    by replace (Z.to_nat _) with O by lia.
  - rewrite !length_app. simpl. rewrite length_app. simpl. lia.
  - rewrite length_app. simpl. lia.
  - intros j Hj. rewrite length_app in Hj. simpl in Hj.
    rewrite char_at_app_r
      by (unfold Zlen; simpl; rewrite length_app; simpl; lia).
    unfold Zlen.
    replace (Z.to_nat (j - Z.of_nat (length ns)))
      with (S (Z.to_nat (j - Z.of_nat (length ns) - 1))) by lia.
    simpl. rewrite lookup_app_l by lia.
    apply lookup_not_slash; [done|lia].
Qed.

(** The three pieces the split copies out of a url [ns/v/n]. *)
Lemma split_pieces (n v ns : cstr) :
  let s := ns ++ slash :: v ++ slash :: n in
  let p := Z.of_nat (length (ns ++ slash :: v)) in
  let q := Zlen ns in
  drop (S (length (ns ++ slash :: v))) s = n /\
  substr s (q + 1) (p - q - 1) = v /\
  substr s 0 (q + 1 - 1) = ns.
Proof.
  intros s p q. unfold s, p, q, substr, Zlen. split; [|split].
  - replace (S (length (ns ++ slash :: v)))
      with (length ((ns ++ slash :: v) ++ [slash]))
      by (rewrite !length_app; simpl; lia).
    replace (ns ++ slash :: v ++ slash :: n)
      with (((ns ++ slash :: v) ++ [slash]) ++ n)
      by (by rewrite <- !app_assoc).
    by rewrite drop_app_length.
  - replace (Z.to_nat _) with (length v)
      by (rewrite length_app; simpl; lia).
    replace (ns ++ slash :: v ++ slash :: n)
      with ((ns ++ [slash]) ++ v ++ slash :: n)
      by (by rewrite <- !app_assoc).
    replace (Z.to_nat (Z.of_nat (length ns) + 1))
      with (length (ns ++ [slash])) by (rewrite length_app; simpl; lia).
    rewrite drop_app_length. by rewrite take_app_length.
  - replace (Z.to_nat (Z.of_nat (length ns) + 1 - 1)) with (length ns) by lia.
    change (Z.to_nat 0) with O. rewrite drop_0.
    by rewrite take_app_length.
Qed.


Lemma strrchr_None_inv (s : cstr) : strrchr s slash = None -> slash ∉ s.
Proof.
  induction s as [|x t IH]; [intros _; apply not_elem_of_nil|].
  simpl. destruct (strrchr t slash); [done|].
  rewrite eqb_slash. destruct (bool_decide_reflect (x = slash)); [done|].
  intros _. apply not_elem_of_cons. split; [congruence|by apply IH].
Qed.

Lemma strrchr_Some_split (s : cstr) (i : nat) :
  strrchr s slash = Some i ->
  exists a b, s = a ++ slash :: b /\ length a = i /\ slash ∉ b.
Proof.
  revert i. induction s as [|x t IH]; intros i; [done|]. simpl.
  destruct (strrchr t slash) as [j|] eqn:E.
  - intros [= <-]. destruct (IH j eq_refl) as (a & b & -> & <- & Hb).
    by exists (x :: a), b.
  - rewrite eqb_slash. destruct (bool_decide_reflect (x = slash)) as [->|]; [|done].
    intros [= <-]. exists [], t. split; [done|]. split; [done|].
    by apply strrchr_None_inv.
Qed.

(** Where the backward scan stops: at a separator or at the start of the
    string, having passed no separator. *)
Lemma scan_back_inv (s : cstr) (fuel : nat) : forall q0 q,
  scan_back s fuel q0 = Done q ->
  0 <= q <= q0 /\
  (q = 0 \/ char_at s q = Some slash) /\
  forall j, q < j <= q0 -> exists c, char_at s j = Some c /\ c <> slash.
Proof.
  induction fuel as [|fuel IH]; intros q0 q; simpl;
    destruct (char_at s q0) as [c|] eqn:Ec; try done;
    (assert (0 <= q0) by (unfold char_at in Ec;
                          destruct (Z.ltb_spec q0 0); [done|lia]));
    rewrite eqb_slash;
    destruct (bool_decide_reflect (c = slash)) as [->|Hc]; simpl.
  - intros [= <-]. split; [lia|]. split; [by right|]. intros j Hj. lia.
  - destruct (Z.gtb_spec q0 0); [done|]. intros [= <-].
    split; [lia|]. split; [left; lia|]. intros j Hj. lia.
  - intros [= <-]. split; [lia|]. split; [by right|]. intros j Hj. lia.
  - destruct (Z.gtb_spec q0 0).
    + intros Hq. destruct (IH _ _ Hq) as (Hr & Hstop & Hskip).
      split; [lia|]. split; [done|]. intros j Hj.
      destruct (decide (j = q0)) as [->|]; [by exists c|].
      apply Hskip. lia.
    + intros [= <-]. split; [lia|]. split; [left; lia|]. intros j Hj. lia.
Qed.

(** A split that returns 0 was given a url of the form [ns/v/n]. *)
Lemma split_defined_shape (o : oracle) (m : cstr) (f1 f2 f3 : bool)
    (out : split_out) :
  dlite_split_metadata o m f1 f2 f3 = Done (0, out) ->
  exists n v ns,
    m = ns ++ slash :: v ++ slash :: n /\
    (slash ∉ n) /\ (slash ∉ v) /\ ns <> [].
Proof.
  unfold dlite_split_metadata.
  destruct (strrchr m slash) as [pn|] eqn:Ep; [|done].
  destruct (strrchr_Some_split _ _ Ep) as (a & n & -> & <- & Hn).
  destruct (scan_back _ _ _) as [q|] eqn:Eq; [|done].
  cbn [mbind outcome_bind].
  destruct (Z.eqb_spec q 0) as [|Hq0]; [done|]. intros _.
  destruct (scan_back_inv _ _ _ _ Eq) as (Hq & [?|Hstop] & Hskip); [done|].
  rewrite char_at_app_l in Hstop by (unfold Zlen; lia).
  exists n, (drop (S (Z.to_nat q)) a), (take (Z.to_nat q) a).
  assert (a = take (Z.to_nat q) a ++ slash :: drop (S (Z.to_nat q)) a) as Ha
    by (by rewrite take_drop_middle).
  split; [rewrite Ha at 1; by rewrite <- app_assoc|].
  split; [done|]. split.
  - intros Hin. apply list_elem_of_lookup in Hin as [i Hi].
    rewrite lookup_drop in Hi.
    assert (S (Z.to_nat q) + i < length a)%nat by by eapply lookup_lt_Some.
    destruct (Hskip (Z.of_nat (S (Z.to_nat q) + i))) as (c & Hc & Hne); [lia|].
    rewrite char_at_app_l in Hc by (unfold Zlen; lia).
    rewrite Nat2Z.id in Hc. congruence.
  - intros E. apply (f_equal length) in E. rewrite length_take in E.
    simpl in E. lia.
Qed.


(** A url with fewer than two separators that does not start with one is
    rejected: the call returns 1 and stores nothing, whatever outputs are
    requested and whatever the allocator would answer. *)
Theorem split_needs_two_separators (o : oracle) (s : cstr)
    (f1 f2 f3 : bool) :
  (separators s < 2)%nat ->
  head s <> Some slash ->
  dlite_split_metadata o s f1 f2 f3 = Done (1, no_out).
Proof.
  intros Hsep Hhead.
  destruct (strrchr s slash) as [i|] eqn:Ep.
  2:{ apply split_no_separator. by apply strrchr_None_inv. }
  destruct (strrchr_Some_split _ _ Ep) as (a & b & -> & _ & Hb).
  unfold separators in Hsep. rewrite filter_app, filter_cons_True in Hsep by done.
  rewrite length_app in Hsep. simpl in Hsep.
  assert (filter (fun c => c = slash) a = []) as Ha
    by (apply length_zero_iff_nil; lia).
  apply split_one_inner_separator; [by destruct a| |done].
  intros Hin. by apply (filter_nil_not_elem_of _ _ slash Ha).
Qed.

End url_split.



Lemma split_needs_two_separators_witness :
  (UrlMore.separators (cs "meta.sintef.no/Chemistry") < 2)%nat /\
  head (cs "meta.sintef.no/Chemistry") <> Some slash /\
  Url.dlite_split_metadata [] (cs "meta.sintef.no/Chemistry") true true true
  = Done (1, Url.no_out).
Proof.
  assert (UrlMore.separators (cs "meta.sintef.no/Chemistry") < 2)%nat as Hs
    by (vm_compute; lia).
  assert (head (cs "meta.sintef.no/Chemistry") <> Some slash) as Hh
    by (vm_compute; congruence).
  split; [exact Hs|]. split; [exact Hh|].
  exact (split_needs_two_separators [] _ true true true Hs Hh).
Defined.

(** ** Metadata urls: encoding then decoding *)
Section url_roundtrip.
Import Url.

(** Encoding then decoding: the join of a name and a version without
    separator and of a non-empty namespace (which may hold separators, as
    in [http://meta.sintef.no]) is split back into the three of them. *)
Theorem join_then_split (n v ns : cstr) :
  slash ∉ n -> slash ∉ v -> ns <> [] ->
  Zlen n + Zlen v + Zlen ns + 3 <= INT_MAX ->
  exists url,
    dlite_join_metadata [] n v ns = Done (Some url) /\
    dlite_split_metadata [] url true true true
    = Done (0, SplitOut (Some n) (Some v) (Some ns)).
Proof.
  intros Hn Hv Hns Hsize. eexists. split; [by apply join_value|].
  by apply split_three_parts.
Qed.

End url_roundtrip.

Lemma join_then_split_witness :
  (slash ∉ cs "Chemistry") /\ (slash ∉ cs "0.1") /\
  cs "http://www.sintef.no/calm" <> [] /\
  exists url,
    Url.dlite_join_metadata [] (cs "Chemistry") (cs "0.1")
      (cs "http://www.sintef.no/calm") = Done (Some url) /\
    Url.dlite_split_metadata [] url true true true
    = Done (0, Url.SplitOut (Some (cs "Chemistry")) (Some (cs "0.1"))
                 (Some (cs "http://www.sintef.no/calm"))).
Proof.
  assert (slash ∉ cs "Chemistry") as Hn
    by (rewrite list_elem_of_In; vm_compute; intuition congruence).
  assert (slash ∉ cs "0.1") as Hv
    by (rewrite list_elem_of_In; vm_compute; intuition congruence).
  assert (cs "http://www.sintef.no/calm" <> []) as Hns by done.
  split; [exact Hn|]. split; [exact Hv|]. split; [exact Hns|].
  apply (join_then_split _ _ _ Hn Hv Hns). vm_compute. discriminate.
Defined.

(** ** Type names *)
Section typename_facts.
Import Typename.

(** dlite_get_typename names exactly the type numbers 0 to 6 (it returns
    NULL for every other number), and no two types share a name. *)
Theorem typename_defined_injective :
  (forall t, is_Some (dlite_get_typename t) <-> 0 <= t < 7) /\
  (forall t1 t2 s,
     dlite_get_typename t1 = Some s -> dlite_get_typename t2 = Some s ->
     t1 = t2).
Proof.
  assert (forall t, is_Some (dlite_get_typename t) <-> 0 <= t < 7) as Hdef.
  { intros t. unfold dlite_get_typename.
    change (Zlen types) with 7.
    destruct (Z.ltb_spec t 0); simpl.
    - split; [by intros [? [=]]|lia].
    - destruct (Z.geb_spec t 7).
      + split; [by intros [? [=]]|lia].
      + split; [lia|]. intros _. apply lookup_lt_is_Some.
        change (length types) with 7%nat. lia. }
  split; [done|]. intros t1 t2 s H1 H2.
  assert (0 <= t1 < 7) as R1 by (apply Hdef; by eexists).
  assert (0 <= t2 < 7) as R2 by (apply Hdef; by eexists).
  assert (t1 = 0 \/ t1 = 1 \/ t1 = 2 \/ t1 = 3 \/ t1 = 4 \/ t1 = 5 \/ t1 = 6)
    as C1 by lia.
  assert (t2 = 0 \/ t2 = 1 \/ t2 = 2 \/ t2 = 3 \/ t2 = 4 \/ t2 = 5 \/ t2 = 6)
    as C2 by lia.
  destruct C1 as [->|[->|[->|[->|[->|[->| ->]]]]]];
    destruct C2 as [->|[->|[->|[->|[->|[->| ->]]]]]];
    try reflexivity; vm_compute in H1, H2; congruence.
Qed.

End typename_facts.

(** ** Collections: what a removal leaves alone *)
Section collection_frame.
Import Mem Storage Collection.
Context `{TripletId}.

Lemma filter_length_pos {A} (P : A -> Prop) `{forall x, Decision (P x)}
    (l : list A) :
  (0 < length (filter P l))%nat <-> exists x, x ∈ l /\ P x.
Proof.
  split.
  - destruct (filter P l) as [|x l'] eqn:E; [simpl; lia|]. intros _.
    exists x. apply and_comm, (list_elem_of_filter P l). rewrite E. left.
  - intros (x & Hx & HP).
    assert (x ∈ filter P l) as Hin by (by apply list_elem_of_filter).
    destruct (filter P l); [by apply elem_of_nil in Hin|simpl; lia].
Qed.

Lemma find_from_elem (s p o : option cstr) (l : list DLiteTriplet) :
  forall pos t pos',
    find_from s p o l pos = (Some t, pos') ->
    t ∈ l /\ matches s p o t = true.
Proof.
  induction l as [|a l IH]; intros pos t pos'; simpl; [done|].
  destruct (matches s p o a) eqn:E.
  - intros [= <- _]. split; [left|done].
  - intros Hf. apply IH in Hf as [? ?]. split; [by right|done].
Qed.

Lemma triplestore_find_elem (ts : TripleStore) st (s p o : option cstr) t st' :
  triplestore_find ts st s p o = (Some t, st') ->
  t ∈ ts /\ matches s p o t = true.
Proof.
  unfold triplestore_find. intros Hf. apply find_from_elem in Hf as [Hin ?].
  split; [|done]. eapply elem_of_sublist; [exact Hin|apply sublist_drop].
Qed.

(** The dimmap loop of dlite_collection_remove only takes triples out,
    and only triples whose id is the object of a dimmap triple of the
    label. *)
Lemma remove_dimmaps_frame (label : cstr) (fuel : nat) :
  forall coll st c,
    remove_dimmaps fuel coll st label = Some c ->
    store c `sublist_of` store coll /\
    triplets c = triplets coll /\
    forall t, t ∈ store coll ->
      (forall d, d ∈ store coll ->
         matches (Some label) (Some (cs "_has-dimmap")) None d = true ->
         t_id t <> t_o d) ->
      t ∈ store c.
Proof.
  induction fuel as [|fuel IH]; intros coll st c; simpl;
    unfold dlite_collection_find;
    destruct (triplestore_find _ _ _ _ _) as [[d|] st'] eqn:E; try done;
    try (by intros [= <-]).
  intros Hc. apply triplestore_find_elem in E as [Hd Hm].
  apply IH in Hc as (Hsub & Htr & Hkeep). simpl in Hsub, Htr, Hkeep.
  split; [etrans; [exact Hsub|apply sublist_filter]|].
  split; [done|]. intros t Ht Hid. apply Hkeep.
  - apply list_elem_of_filter. split; [by apply Hid|done].
  - intros d' Hd' Hm'. apply Hid; [|done].
    by apply list_elem_of_filter in Hd' as [_ ?].
Qed.

Lemma remove_relations_post (coll : DLiteCollection) (s p o : option cstr) :
  let r := dlite_collection_remove_relations coll s p o in
  fst r = Zlen (filter (fun t => matches s p o t = true) (store coll)) /\
  store (snd r) = filter (fun t => matches s p o t = false) (store coll) /\
  triplets (snd r) = store (snd r).
Proof. done. Qed.

Lemma matches_other_subject (label : cstr) (p o : option cstr) t :
  t_s t <> label -> matches (Some label) p o t = false.
Proof.
  intros Hne. apply not_true_is_false. rewrite matches_spec, pat_ok_Some.
  intros (? & _). congruence.
Qed.

(** What dlite_collection_remove does, in every case. *)
Lemma collection_remove_post (coll : DLiteCollection) (label : cstr) :
  exists r c,
    dlite_collection_remove coll label = Some (r, c) /\
    (r = 0 \/ r = 1) /\
    (r = 0 <->
     exists t, t ∈ store coll /\
       matches (Some label) (Some (cs "_is-a")) (Some (cs "Instance")) t
       = true) /\
    store c `sublist_of` store coll /\
    triplets c = store c /\
    forall t, t ∈ store coll -> t_s t <> label ->
      (forall d, d ∈ store coll ->
         matches (Some label) (Some (cs "_has-dimmap")) None d = true ->
         t_id t <> t_o d) ->
      t ∈ store c.
Proof.
  unfold dlite_collection_remove.
  destruct (remove_relations_post coll (Some label) (Some (cs "_is-a"))
              (Some (cs "Instance"))) as (Hn & Hs1 & Ht1).
  destruct (dlite_collection_remove_relations coll _ _ _) as [n c1].
  cbn [fst snd] in Hn, Hs1, Ht1.
  assert (forall t, t ∈ store coll -> t_s t <> label -> t ∈ store c1) as Hk1.
  { intros t Ht Hne. rewrite Hs1. apply list_elem_of_filter.
    split; [by apply matches_other_subject|done]. }
  assert (store c1 `sublist_of` store coll) as Hsub1
    by (rewrite Hs1; apply sublist_filter).
  assert (0 < n <->
          exists t, t ∈ store coll /\
            matches (Some label) (Some (cs "_is-a")) (Some (cs "Instance")) t
            = true) as Hpos.
  { rewrite Hn. unfold Zlen.
    pose proof (filter_length_pos
                  (fun t => matches (Some label) (Some (cs "_is-a"))
                              (Some (cs "Instance")) t = true) (store coll))
      as Hf.
    rewrite <- Hf. lia. }
  destruct (Z.gtb_spec n 0) as [Hgt|Hle].
  - destruct (remove_dimmaps_total label (length (store c1)) c1
                (dlite_collection_init_state c1)) as (c2 & Hc2 & _); [lia|].
    rewrite Hc2. cbn [mbind option_bind].
    destruct (remove_dimmaps_frame _ _ _ _ _ Hc2) as (Hsub2 & _ & Hk2).
    eexists 0, _. split; [reflexivity|]. split; [by left|].
    split; [split; [intros _; apply Hpos; lia|done]|].
    split.
    { cbn. etrans; [apply sublist_filter|]. etrans; [apply sublist_filter|].
      etrans; [apply sublist_filter|]. by etrans. }
    split; [done|].
    intros t Ht Hne Hid. cbn.
    repeat (apply list_elem_of_filter;
            split; [by apply matches_other_subject|]).
    apply Hk2; [by apply Hk1|].
    intros d Hd Hm. apply Hid; [|done].
    eapply elem_of_sublist; [exact Hd|done].
  - exists 1, c1. split; [done|]. split; [by right|].
    split; [split; [done|intros Hex; apply Hpos in Hex; lia]|].
    split; [done|]. split; [done|]. intros t Ht Hne _. by apply Hk1.
Qed.



End collection_frame.


(** ** Lookup by name *)
Section lookup_facts.
Import Mem Entity Lookup.

Lemma to_int_small (z : Z) : - 2 ^ 31 <= z < 2 ^ 31 -> to_int z = z.
Proof. intros Hz. unfold to_int. rewrite Z.mod_small; lia. Qed.

Lemma string_at_Some (h : heap) (p : ptr) (str : cstr) :
  string_at h p = Some str ->
  exists l, p = Some l /\ h !! l = Some (BString str).
Proof.
  unfold string_at. destruct p as [l|]; [|done]. simpl.
  destruct (h !! l) as [[]|] eqn:E; try done. intros [= <-]. by exists l.
Qed.

Lemma load_string_at (s : state) (p : ptr) (str : cstr) :
  string_at (st_heap s) p = Some str -> load_string p s = Done (Ok str, s).
Proof.
  intros (l & -> & Hl)%string_at_Some. by apply load_string_ok.
Qed.

(** What [first_index] returns: -1 when the name is not in the list,
    otherwise the position of its first occurrence. *)
Lemma first_index_spec (name : cstr) (names : list cstr) :
  (first_index name names = -1 /\ name ∉ names) \/
  (exists i : nat,
     first_index name names = Z.of_nat i /\ names !! i = Some name /\
     forall j, (j < i)%nat -> names !! j <> Some name).
Proof.
  unfold first_index.
  destruct (list_find (fun s => name = s) names) as [[i x]|] eqn:E.
  - right. apply list_find_Some in E as (Hi & <- & Hfirst).
    exists i. split; [done|]. split; [done|].
    intros j Hj Hn. by apply (Hfirst j name).
  - left. split; [done|]. apply list_find_None in E.
    intros Hin. rewrite Forall_forall in E. by apply (E name).
Qed.

Lemma first_index_cons (name nm : cstr) (names : list cstr) :
  first_index name (nm :: names)
  = if bool_decide (name = nm) then 0
    else if first_index name names =? -1 then -1
         else first_index name names + 1.
Proof.
  unfold first_index. simpl. case_decide as Hd.
  - by rewrite bool_decide_eq_true_2.
  - rewrite bool_decide_eq_false_2 by done.
    destruct (list_find _ names) as [[i x]|]; simpl; [|done].
    destruct (Z.eqb_spec (Z.of_nat i) (-1)); lia.
Qed.

Lemma dimension_index_loop_spec (m : DLiteMeta) (name : cstr) (s : state)
    (ld : loc) (ds : list DLiteDimension) :
  m_dimensions m = Some ld ->
  st_heap s !! ld = Some (BDims ds) ->
  forall (rest : list DLiteDimension) (names : list cstr),
    Forall2 (fun d nm => string_at (st_heap s) (d_name d) = Some nm)
            rest names ->
    forall i : nat,
      (forall j d, rest !! j = Some d -> ds !! (i + j)%nat = Some d) ->
      Z.of_nat (i + length rest) <= INT_MAX ->
      dimension_index_loop m name (length rest) (Z.of_nat i) s
      = Done (Ok (if first_index name names =? -1 then -1
                  else Z.of_nat i + first_index name names), s).
Proof.
  intros Hld Hds rest names HF.
  induction HF as [|d nm rest names Hnm HF IH]; intros i Hrest Hmax; [done|].
  cbn [length dimension_index_loop].
  rewrite Hld, (bind_Ok _ _ _ _ _ (load_dims_ok _ _ _ Hds)).
  rewrite (bind_Ok _ _ s s d).
  2:{ apply index_ok; [lia|]. rewrite Nat2Z.id.
      rewrite <- (Hrest O d eq_refl). f_equal. lia. }
  rewrite (bind_Ok _ _ _ _ _ (load_string_at _ _ _ Hnm)).
  rewrite first_index_cons.
  destruct (bool_decide (name = nm)).
  - simpl. rewrite to_int_small; [|unfold INT_MAX in Hmax; simpl in Hmax; lia].
    by rewrite Z.add_0_r.
  - replace (Z.of_nat i + 1) with (Z.of_nat (S i)) by lia.
    rewrite IH.
    + destruct (first_index_spec name names) as [[-> _]|(k & -> & _)];
        [done|].
      destruct (Z.eqb_spec (Z.of_nat k) (-1)); [lia|].
      destruct (Z.eqb_spec (Z.of_nat k + 1) (-1)); [lia|].
      do 3 f_equal. lia.
    + intros j d' Hj. rewrite <- (Hrest (S j) d' Hj). f_equal. lia.
    + simpl in Hmax. lia.
Qed.

(** dlite_meta_get_dimension_index on a meta whose dimensions all have
    names: it returns, without writing anything, the index of the first
    dimension with that name, and -1 when no dimension has it. *)
Theorem dimension_index_first (lm : loc) (m : DLiteMeta) (names : list cstr)
    (name : cstr) (s : state) :
  st_heap s !! lm = Some (BMeta m) ->
  dimension_names (st_heap s) m = Some names ->
  m_ndimensions m <= INT_MAX ->
  exists r,
    dlite_meta_get_dimension_index (Some lm) name s = Done (Ok r, s) /\
    ((r = -1 /\ name ∉ names) \/
     (exists i : nat, r = Z.of_nat i /\ names !! i = Some name /\
        forall j, (j < i)%nat -> names !! j <> Some name)).
Proof.
  intros Hlm Hnames Hmax. exists (first_index name names).
  split; [|apply first_index_spec].
  unfold dlite_meta_get_dimension_index.
  rewrite (bind_Ok _ _ _ _ _ (load_meta_ok _ _ _ Hlm)).
  unfold dimension_names in Hnames.
  destruct (Z.leb_spec (m_ndimensions m) 0) as [Hz|Hpos].
  { injection Hnames as <-. by replace (Z.to_nat (m_ndimensions m)) with O by lia. }
  destruct (m_dimensions m) as [ld|] eqn:Eld; [|done]. simpl in Hnames.
  destruct (st_heap s !! ld) as [[| | |ds| | | | | |]|] eqn:Eds; try done.
  destruct (Z.ltb_spec (Zlen ds) (m_ndimensions m)) as [|Hlen]; [done|].
  apply mapM_Some in Hnames. unfold Zlen in Hlen.
  pose proof (dimension_index_loop_spec m name s ld ds Eld Eds _ _ Hnames O)
    as Hloop.
  rewrite length_take, Nat.min_l in Hloop by lia.
  change (Z.of_nat 0) with 0 in Hloop. rewrite Hloop.
  - by destruct (Z.eqb_spec (first_index name names) (-1)) as [->|].
  - intros j d Hj. simpl. apply lookup_take_Some in Hj as [? _]. done.
  - lia.
Qed.

Lemma property_at_Some (h : heap) (p : ptr) (q : DLiteProperty) :
  property_at h p = Some q ->
  exists lp ps, p = Some lp /\ h !! lp = Some (BProps ps) /\ ps !! O = Some q.
Proof.
  unfold property_at. destruct p as [lp|]; [|done]. simpl.
  destruct (h !! lp) as [[]|] eqn:E; try done. intros Hq. by exists lp, l.
Qed.

Lemma meta_property_at (m : DLiteMeta) (s : state) (lpp : loc) (l : list ptr)
    (i : nat) (p : ptr) (q : DLiteProperty) :
  m_properties m = Some lpp ->
  st_heap s !! lpp = Some (BPropPtrs l) ->
  l !! i = Some p ->
  property_at (st_heap s) p = Some q ->
  meta_property m (Z.of_nat i) s = Done (Ok q, s).
Proof.
  intros Hpp Hl Hi (lp & ps & -> & Hlp & Hq)%property_at_Some.
  unfold meta_property.
  rewrite Hpp, (bind_Ok _ _ _ _ _ (load_propptrs_ok _ _ _ Hl)).
  rewrite (bind_Ok _ _ s s (Some lp))
    by (apply index_ok; [lia|by rewrite Nat2Z.id]).
  rewrite (bind_Ok _ _ _ _ _ (load_props_ok _ _ _ Hlp)).
  by apply index_ok.
Qed.

Lemma property_index_loop_spec (m : DLiteMeta) (name : cstr) (s : state)
    (lpp : loc) (l : list ptr) :
  m_properties m = Some lpp ->
  st_heap s !! lpp = Some (BPropPtrs l) ->
  forall (rest : list ptr) (qs : list DLiteProperty),
    Forall2 (fun p q => property_at (st_heap s) p = Some q) rest qs ->
    forall (names : list cstr),
      Forall2 (fun q nm => string_at (st_heap s) (p_name q) = Some nm)
              qs names ->
      forall i : nat,
        (forall j p, rest !! j = Some p -> l !! (i + j)%nat = Some p) ->
        Z.of_nat (i + length rest) <= INT_MAX ->
        property_index_loop m name (length rest) (Z.of_nat i) s
        = Done (Ok (if first_index name names =? -1 then -1
                    else Z.of_nat i + first_index name names), s).
Proof.
  intros Hpp Hl rest qs HF.
  induction HF as [|p q rest qs Hq HF IH]; intros names HN i Hrest Hmax.
  { by inversion HN. }
  inversion HN as [|? nm ? names' Hnm HN']; subst.
  cbn [length property_index_loop].
  rewrite (bind_Ok _ _ s s q).
  2:{ eapply meta_property_at; [done..| |done].
      rewrite <- (Hrest O p eq_refl). f_equal. lia. }
  rewrite (bind_Ok _ _ _ _ _ (load_string_at _ _ _ Hnm)).
  rewrite first_index_cons.
  destruct (bool_decide (name = nm)).
  - simpl. rewrite to_int_small; [|unfold INT_MAX in Hmax; simpl in Hmax; lia].
    by rewrite Z.add_0_r.
  - replace (Z.of_nat i + 1) with (Z.of_nat (S i)) by lia.
    rewrite (IH names' HN').
    + destruct (first_index_spec name names') as [[-> _]|(k & -> & _)];
        [done|].
      destruct (Z.eqb_spec (Z.of_nat k) (-1)); [lia|].
      destruct (Z.eqb_spec (Z.of_nat k + 1) (-1)); [lia|].
      do 3 f_equal. lia.
    + intros j p' Hj. rewrite <- (Hrest (S j) p' Hj). f_equal. lia.
    + simpl in Hmax. lia.
Qed.

(** The run of dlite_meta_get_property_index on a meta whose properties
    all have names. *)
Lemma property_index_run (lm : loc) (m : DLiteMeta) (names : list cstr)
    (name : cstr) (s : state) :
  st_heap s !! lm = Some (BMeta m) ->
  property_names (st_heap s) m = Some names ->
  m_nproperties m <= INT_MAX ->
  dlite_meta_get_property_index (Some lm) name s
  = Done (Ok (first_index name names), s).
Proof.
  intros Hlm Hnames Hmax.
  unfold dlite_meta_get_property_index.
  rewrite (bind_Ok _ _ _ _ _ (load_meta_ok _ _ _ Hlm)).
  unfold property_names in Hnames.
  destruct (properties_of (st_heap s) m) as [qs|] eqn:Eqs; [|done].
  simpl in Hnames. apply mapM_Some in Hnames.
  unfold properties_of in Eqs.
  destruct (Z.leb_spec (m_nproperties m) 0) as [Hz|Hpos].
  { injection Eqs as <-. inversion Hnames; subst.
    by replace (Z.to_nat (m_nproperties m)) with O by lia. }
  destruct (m_properties m) as [lpp|] eqn:Epp; [|done]. simpl in Eqs.
  destruct (st_heap s !! lpp) as [[| | | | |l| | | |]|] eqn:El; try done.
  destruct (Z.ltb_spec (Zlen l) (m_nproperties m)) as [|Hlen]; [done|].
  apply mapM_Some in Eqs. unfold Zlen in Hlen.
  pose proof (property_index_loop_spec m name s lpp l Epp El _ _ Eqs _
                Hnames O) as Hloop.
  rewrite length_take, Nat.min_l in Hloop by lia.
  change (Z.of_nat 0) with 0 in Hloop. rewrite Hloop.
  - by destruct (Z.eqb_spec (first_index name names) (-1)) as [->|].
  - intros j d Hj. simpl. apply lookup_take_Some in Hj as [? _]. done.
  - lia.
Qed.

(** dlite_meta_get_property_index on a meta whose properties all have
    names: it returns, without writing anything, the index of the first
    property with that name, and -1 when no property has it. *)
Theorem property_index_first (lm : loc) (m : DLiteMeta) (names : list cstr)
    (name : cstr) (s : state) :
  st_heap s !! lm = Some (BMeta m) ->
  property_names (st_heap s) m = Some names ->
  m_nproperties m <= INT_MAX ->
  exists r,
    dlite_meta_get_property_index (Some lm) name s = Done (Ok r, s) /\
    ((r = -1 /\ name ∉ names) \/
     (exists i : nat, r = Z.of_nat i /\ names !! i = Some name /\
        forall j, (j < i)%nat -> names !! j <> Some name)).
Proof.
  intros Hlm Hnames Hmax. exists (first_index name names).
  split; [by apply (property_index_run lm m)|apply first_index_spec].
Qed.

Lemma properties_of_inv (h : heap) (m : DLiteMeta) (qs : list DLiteProperty) :
  properties_of h m = Some qs ->
  length qs = Z.to_nat (m_nproperties m) /\
  (0 < m_nproperties m ->
   exists lpp l,
     m_properties m = Some lpp /\ h !! lpp = Some (BPropPtrs l) /\
     forall (i : nat) q, qs !! i = Some q ->
       exists p, l !! i = Some p /\ property_at h p = Some q).
Proof.
  unfold properties_of.
  destruct (Z.leb_spec (m_nproperties m) 0) as [Hz|Hpos].
  { intros [= <-]. split; [simpl; lia|lia]. }
  destruct (m_properties m) as [lpp|] eqn:Epp; [|done]. simpl.
  destruct (h !! lpp) as [[| | | | |l| | | |]|] eqn:El; try done.
  destruct (Z.ltb_spec (Zlen l) (m_nproperties m)) as [|Hlen]; [done|].
  intros HF%mapM_Some. unfold Zlen in Hlen. split.
  - apply Forall2_length in HF. rewrite length_take in HF. lia.
  - intros _. exists lpp, l. split; [done|]. split; [done|].
    intros i q Hq.
    destruct (Forall2_lookup_r _ _ _ _ _ HF Hq) as (p & Hp & Hpq).
    apply lookup_take_Some in Hp as [Hp _]. by exists p.
Qed.

(** dlite_entity_get_property on an entity whose properties all have
    names: it returns NULL exactly when no property has the name, and
    otherwise the pointer to the first property with that name, which is
    also what dlite_entity_get_property_by_index returns for its index. *)
Theorem entity_get_property_first (lm : loc) (m : DLiteMeta)
    (qs : list DLiteProperty) (names : list cstr) (name : cstr) (s : state) :
  st_heap s !! lm = Some (BMeta m) ->
  properties_of (st_heap s) m = Some qs ->
  property_names (st_heap s) m = Some names ->
  m_nproperties m <= INT_MAX ->
  exists p,
    dlite_entity_get_property (Some lm) name s = Done (Ok p, s) /\
    ((p = None /\ name ∉ names) \/
     (exists (i : nat) q,
        names !! i = Some name /\
        (forall j, (j < i)%nat -> names !! j <> Some name) /\
        qs !! i = Some q /\ property_at (st_heap s) p = Some q /\
        dlite_entity_get_property_by_index (Some lm) (Z.of_nat i) s
        = Done (Ok p, s))).
Proof.
  intros Hlm Hqs Hnames Hmax.
  unfold dlite_entity_get_property.
  rewrite (bind_Ok _ _ _ _ _ (property_index_run lm m names name s
                                Hlm Hnames Hmax)).
  destruct (first_index_spec name names) as [[-> Hno]|(i & -> & Hi & Hfirst)].
  { exists None. split; [done|]. by left. }
  destruct (Z.ltb_spec (Z.of_nat i) 0); [lia|].
  unfold property_names in Hnames. rewrite Hqs in Hnames. simpl in Hnames.
  apply mapM_Some in Hnames.
  destruct (Forall2_lookup_r _ _ _ _ _ Hnames Hi) as (q & Hq & _).
  destruct (properties_of_inv _ _ _ Hqs) as (Hlen & Hinv).
  assert (i < length qs)%nat as Hlt by by eapply lookup_lt_Some.
  destruct Hinv as (lpp & l & Hpp & Hl & Hptrs); [lia|].
  destruct (Hptrs i q Hq) as (p & Hp & Hpq).
  exists p.
  assert ((l0 ← load_propptrs (m_properties m); index l0 (Z.of_nat i)) s
          = Done (Ok p, s)) as Hread.
  { rewrite Hpp, (bind_Ok _ _ _ _ _ (load_propptrs_ok _ _ _ Hl)).
    apply index_ok; [lia|by rewrite Nat2Z.id]. }
  split.
  { by rewrite (bind_Ok _ _ _ _ _ (load_meta_ok _ _ _ Hlm)). }
  right. exists i, q. split; [done|]. split; [done|]. split; [done|].
  split; [done|].
  unfold dlite_entity_get_property_by_index.
  rewrite (bind_Ok _ _ _ _ _ (load_meta_ok _ _ _ Hlm)).
  destruct (Z.geb_spec (Z.of_nat i) (m_nproperties m)); [lia|done].
Qed.

End lookup_facts.

(** ** The accessors of a created instance *)
Section accessor_facts.
Import Uuid Mem Entity Lookup.
Context `{UuidLib}.

(** A run of [nmemb_loop] that returns found every index it used. *)
Lemma nmemb_loop_indices (dims : list Z) (ld : loc) (pd : list Z) (k : nat) :
  forall (j acc : Z) (s s' : state) (r : Z),
    st_heap s !! ld = Some (BInts pd) ->
    0 <= j ->
    nmemb_loop dims (Some ld) k j acc s = Done (Ok r, s') ->
    forall t : nat, (t < k)%nat ->
      exists d x,
        pd !! (Z.to_nat j + t)%nat = Some d /\ 0 <= d /\
        dims !! Z.to_nat d = Some x.
Proof.
  induction k as [|k IH]; intros j acc s s' r Hld Hj Hr t Ht; [lia|].
  simpl in Hr.
  apply bind_inv in Hr as (pd' & s1 & Hpd & Hr).
  apply load_ints_inv in Hpd as (-> & l' & [= <-] & Hl').
  rewrite Hld in Hl'. injection Hl' as <-.
  apply bind_inv in Hr as (d & s1 & Hd & Hr).
  apply index_inv in Hd as (-> & _ & Hd).
  apply bind_inv in Hr as (x & s1 & Hx & Hr).
  apply index_inv in Hx as (-> & Hd0 & Hx).
  destruct t as [|t].
  - exists d, x. by rewrite Nat.add_0_r.
  - assert (0 <= j + 1) as Hj1 by lia.
    assert (t < k)%nat as Ht1 by lia.
    destruct (IH _ _ _ _ _ Hld Hj1 Hr t Ht1) as (d' & x' & Hd' & ? & ?).
    exists d', x'. split; [|done]. rewrite <- Hd'. f_equal. lia.
Qed.

Lemma meta_property_inv (m : DLiteMeta) (i : Z) (s s' : state)
    (p : DLiteProperty) :
  meta_property m i s = Done (Ok p, s') ->
  s' = s /\ 0 <= i /\
  exists lpp l lp ps,
    m_properties m = Some lpp /\ st_heap s !! lpp = Some (BPropPtrs l) /\
    l !! Z.to_nat i = Some (Some lp) /\
    st_heap s !! lp = Some (BProps ps) /\ ps !! O = Some p.
Proof.
  unfold meta_property. intros Hrun.
  apply bind_inv in Hrun as (l & s1 & Hl & Hrun).
  apply load_propptrs_inv in Hl as (-> & lpp & Hpp & Hl).
  apply bind_inv in Hrun as (ptr & s1 & Hptr & Hrun).
  apply index_inv in Hptr as (-> & Hi & Hptr).
  apply bind_inv in Hrun as (ps & s1 & Hps & Hrun).
  apply load_props_inv in Hps as (-> & lp & -> & Hps).
  apply index_inv in Hrun as (-> & _ & Hp).
  split; [done|]. split; [done|]. by exists lpp, l, lp, ps.
Qed.


End accessor_facts.

Lemma dimension_index_first_witness :
  Examples.ex_heap !! 10%positive = Some (Mem.BMeta Examples.ex_entity) /\
  Lookup.dimension_names Examples.ex_heap Examples.ex_entity
  = Some [cs "n"; cs "m"] /\
  exists r,
    Entity.dlite_meta_get_dimension_index (Some 10%positive) (cs "m")
      (Mem.State [] Examples.ex_heap)
    = Done (Mem.Ok r, Mem.State [] Examples.ex_heap) /\
    ((r = -1 /\ cs "m" ∉ [cs "n"; cs "m"]) \/
     (exists i : nat, r = Z.of_nat i /\
        [cs "n"; cs "m"] !! i = Some (cs "m") /\
        forall j, (j < i)%nat -> [cs "n"; cs "m"] !! j <> Some (cs "m"))).
Proof.
  assert (Examples.ex_heap !! 10%positive
          = Some (Mem.BMeta Examples.ex_entity)) as Hlm by reflexivity.
  assert (Lookup.dimension_names Examples.ex_heap Examples.ex_entity
          = Some [cs "n"; cs "m"]) as Hnames by (vm_compute; reflexivity).
  split; [exact Hlm|]. split; [exact Hnames|].
  apply (dimension_index_first 10%positive Examples.ex_entity
           [cs "n"; cs "m"] (cs "m") (Mem.State [] Examples.ex_heap)
           Hlm Hnames).
  vm_compute. discriminate.
Defined.

Lemma property_index_first_witness :
  Examples.ex_heap !! 10%positive = Some (Mem.BMeta Examples.ex_entity) /\
  Lookup.property_names Examples.ex_heap Examples.ex_entity
  = Some [cs "x"] /\
  exists r,
    Lookup.dlite_meta_get_property_index (Some 10%positive) (cs "y")
      (Mem.State [] Examples.ex_heap)
    = Done (Mem.Ok r, Mem.State [] Examples.ex_heap) /\
    ((r = -1 /\ cs "y" ∉ [cs "x"]) \/
     (exists i : nat, r = Z.of_nat i /\ [cs "x"] !! i = Some (cs "y") /\
        forall j, (j < i)%nat -> [cs "x"] !! j <> Some (cs "y"))).
Proof.
  assert (Examples.ex_heap !! 10%positive
          = Some (Mem.BMeta Examples.ex_entity)) as Hlm by reflexivity.
  assert (Lookup.property_names Examples.ex_heap Examples.ex_entity
          = Some [cs "x"]) as Hnames by (vm_compute; reflexivity).
  split; [exact Hlm|]. split; [exact Hnames|].
  apply (property_index_first 10%positive Examples.ex_entity
           [cs "x"] (cs "y") (Mem.State [] Examples.ex_heap) Hlm Hnames).
  vm_compute. discriminate.
Defined.

Lemma entity_get_property_first_witness :
  Examples.ex_heap !! 10%positive = Some (Mem.BMeta Examples.ex_entity) /\
  Lookup.property_names Examples.ex_heap Examples.ex_entity
  = Some [cs "x"] /\
  exists p,
    Lookup.dlite_entity_get_property (Some 10%positive) (cs "x")
      (Mem.State [] Examples.ex_heap)
    = Done (Mem.Ok p, Mem.State [] Examples.ex_heap) /\
    p = Some 14%positive.
Proof.
  assert (Examples.ex_heap !! 10%positive
          = Some (Mem.BMeta Examples.ex_entity)) as Hlm by reflexivity.
  assert (Lookup.properties_of Examples.ex_heap Examples.ex_entity
          = Some [Mem.mkProp (Some 22%positive) Mem.dliteStringPtr 8 2
                    (Some 15%positive) None None]) as Hqs
    by (vm_compute; reflexivity).
  assert (Lookup.property_names Examples.ex_heap Examples.ex_entity
          = Some [cs "x"]) as Hnames by (vm_compute; reflexivity).
  assert (Mem.m_nproperties Examples.ex_entity <= INT_MAX) as Hmax
    by (vm_compute; discriminate).
  split; [exact Hlm|]. split; [exact Hnames|].
  destruct (entity_get_property_first 10%positive Examples.ex_entity _
              [cs "x"] (cs "x") (Mem.State [] Examples.ex_heap)
              Hlm Hqs Hnames Hmax) as (p & Hrun & _).
  exists p. split; [exact Hrun|].
  change (Done (Mem.Ok (Some 14%positive), Mem.State [] Examples.ex_heap)
          = Done (Mem.Ok p, Mem.State [] Examples.ex_heap)) in Hrun.
  congruence.
Defined.


(** ** Reference counts *)
Section refcount_facts.
Import Mem Entity.

(** Taking a reference and dropping it again: for a live meta or entity
    (count at least 1, below [INT_MAX]) dlite_meta_incref stores the count
    plus one, and a following dlite_meta_decref, or dlite_entity_decref,
    returns in exactly the state before the incref: nothing is freed. *)
Theorem incref_decref_restores (l : loc) (m : DLiteMeta) (s : state) :
  st_heap s !! l = Some (BMeta m) ->
  1 <= m_refcount m < INT_MAX ->
  exists s1,
    dlite_meta_incref (Some l) s = Done (Ok tt, s1) /\
    dlite_entity_incref (Some l) s = Done (Ok tt, s1) /\
    st_heap s1 !! l = Some (BMeta (set_m_refcount (m_refcount m + 1) m)) /\
    dlite_meta_decref (Some l) s1 = Done (Ok tt, s) /\
    dlite_entity_decref (Some l) s1 = Done (Ok tt, s).
Proof.
  intros Hl Hr.
  set (m1 := set_m_refcount (m_refcount m + 1) m).
  set (s1 := State (st_oracle s) (<[l:=BMeta m1]> (st_heap s))).
  assert (dlite_meta_incref (Some l) s = Done (Ok tt, s1)) as Hinc.
  { unfold dlite_meta_incref.
    rewrite (bind_Ok _ _ _ _ _ (load_meta_ok _ _ _ Hl)).
    destruct (Z.geb_spec (m_refcount m) INT_MAX); [lia|].
    unfold store. by rewrite Hl. }
  assert (st_heap s1 !! l = Some (BMeta m1)) as Hl1
    by apply lookup_insert_eq.
  assert (State (st_oracle s1)
            (<[l:=BMeta (set_m_refcount (m_refcount m1 - 1) m1)]> (st_heap s1))
          = s) as Hback.
  { unfold s1, m1. simpl. rewrite set_m_refcount_back, insert_insert_eq.
    rewrite insert_id by done. by destruct s. }
  exists s1. split; [done|]. split; [done|]. split; [done|]. split.
  - rewrite (decref_live l m1 s1 Hl1) by (simpl; lia). by rewrite Hback.
  - unfold dlite_entity_decref.
    rewrite (bind_Ok _ _ _ _ _ (load_meta_ok _ _ _ Hl1)).
    destruct (Z.leb_spec (m_refcount m1) (- INT_MAX - 1));
      [simpl in *; unfold INT_MAX in *; lia|].
    assert (store l (BMeta (set_m_refcount (m_refcount m1 - 1) m1)) s1
            = Done (Ok tt, s)) as Hst
      by (unfold store; rewrite Hl1; by rewrite Hback).
    rewrite (bind_Ok _ _ _ _ _ Hst).
    destruct (Z.leb_spec (m_refcount m1 - 1) 0); [simpl in *; lia|done].
Qed.

End refcount_facts.

Lemma incref_decref_restores_witness :
  Examples.ex_heap !! 10%positive = Some (Mem.BMeta Examples.ex_entity) /\
  exists s1,
    Entity.dlite_meta_incref (Some 10%positive) (Mem.State [] Examples.ex_heap)
    = Done (Mem.Ok tt, s1) /\
    Entity.dlite_entity_decref (Some 10%positive) s1
    = Done (Mem.Ok tt, Mem.State [] Examples.ex_heap).
Proof.
  assert (Examples.ex_heap !! 10%positive
          = Some (Mem.BMeta Examples.ex_entity)) as Hl by reflexivity.
  split; [exact Hl|].
  destruct (incref_decref_restores 10%positive Examples.ex_entity
              (Mem.State [] Examples.ex_heap) Hl)
    as (s1 & H1 & _ & _ & _ & H2).
  { vm_compute. split; [discriminate|reflexivity]. }
  exists s1. split; [exact H1|exact H2].
Defined.


(** ** dlite-datamodel.c: what dlite_copy_to_flat copies *)
Section array_facts.
Import Datamodel Arrays.

Lemma product_pos (ds : list Z) :
  Forall (fun d => 1 <= d) ds -> 1 <= product ds.
Proof.
  induction 1 as [|d ds Hd _ IH]; simpl; [lia|].
  change (foldr Z.mul 1 ds) with (product ds). nia.
Qed.

Lemma product_app (a b : list Z) : product (a ++ b) = product a * product b.
Proof.
  unfold product. induction a as [|x a IH]; simpl; [lia|].
  rewrite IH. lia.
Qed.

Lemma product_snoc (a : list Z) (d : Z) : product (a ++ [d]) = product a * d.
Proof. rewrite product_app. unfold product. simpl. lia. Qed.

Lemma length_unrank (ds : list Z) (t : Z) : length (unrank ds t) = length ds.
Proof. induction ds as [|d ds IH]; simpl; [done|]. by rewrite IH. Qed.

(** The last index is [t mod d], the others are those of [t / d] in the
    array without its last dimension. *)
Lemma unrank_snoc (ds : list Z) (d t : Z) :
  Forall (fun d => 1 <= d) ds -> 1 <= d -> 0 <= t ->
  unrank (ds ++ [d]) t = unrank ds (t / d) ++ [t mod d].
Proof.
  intros Hds Hd Ht. induction Hds as [|d0 ds Hd0 Hds IH]; simpl.
  - f_equal. rewrite Z.div_1_r. done.
  - rewrite IH. f_equal. f_equal.
    rewrite product_snoc. pose proof (product_pos ds Hds).
    rewrite Z.div_div by lia. f_equal. lia.
Qed.

Lemma unrank_zero (ds : list Z) :
  Forall (fun d => 1 <= d) ds -> unrank ds 0 = replicate (length ds) 0.
Proof.
  induction 1 as [|d ds Hd Hds IH]; simpl; [done|].
  rewrite IH, Z.div_0_l, Z.mod_0_l; [done|lia|].
  pose proof (product_pos ds Hds). lia.
Qed.

Lemma at_index_Done (l : list Z) (i : nat) (x : Z) :
  l !! i = Some x -> at_index l (Z.of_nat i) = Done x.
Proof.
  intros Hl. unfold at_index.
  destruct (Z.ltb_spec (Z.of_nat i) 0); [lia|].
  by rewrite Nat2Z.id, Hl.
Qed.

(** The carry loop moves the leading indices to those of the next
    position, wrapping at the end of the array. *)
Lemma carry_unrank (ds0 : list Z) :
  Forall (fun d => 1 <= d) ds0 ->
  forall (dims tl : list Z) (u : Z),
    0 <= u < product ds0 ->
    (forall (i : nat) d, ds0 !! i = Some d -> dims !! i = Some d) ->
    carry (Some dims) (length ds0) (unrank ds0 u ++ tl)
    = Done (unrank ds0 ((u + 1) mod product ds0) ++ tl).
Proof.
  induction ds0 as [|d ds0 IH] using rev_ind; intros Hpos dims tl u Hu Hdims.
  - simpl. done.
  - apply Forall_app in Hpos as [Hpos Hd].
    apply Forall_inv in Hd.
    pose proof (product_pos ds0 Hpos) as HP.
    rewrite product_snoc in *.
    rewrite length_app, Nat.add_1_r. simpl.
    rewrite unrank_snoc by (done || lia).
    assert (length (unrank ds0 (u / d)) = length ds0) as Hlen
      by apply length_unrank.
    rewrite (at_index_Done (_ ++ tl) _ (u mod d)); last first.
    { rewrite <- app_assoc, lookup_app_r by lia.
      by rewrite Hlen, Nat.sub_diag. }
    simpl. rewrite (at_index_Done dims _ d); last first.
    { apply Hdims. rewrite lookup_app_r by lia. by rewrite Nat.sub_diag. }
    simpl.
    pose proof (Z.mod_pos_bound u d ltac:(lia)) as Hm.
    pose proof (Z.div_mod u d ltac:(lia)) as Hdm.
    assert (0 <= u / d < product ds0) as Hq.
    { split; [apply Z.div_pos; lia|]. apply Z.div_lt_upper_bound; lia. }
    assert (forall x, <[length ds0 := x]> ((unrank ds0 (u / d) ++ [u mod d]) ++ tl)
                      = unrank ds0 (u / d) ++ x :: tl) as Hins.
    { intros x. rewrite <- app_assoc.
      rewrite insert_app_r_alt by lia. by rewrite Hlen, Nat.sub_diag. }
    rewrite !Hins.
    destruct (Z.ltb_spec (u mod d + 1) d) as [Hlt|Hge].
    + f_equal.
      assert (d * (u / d + 1) <= d * product ds0) as Hle
        by (apply Z.mul_le_mono_nonneg_l; lia).
      assert (u + 1 < product ds0 * d) as Hlt2.
      { revert Hle Hdm Hlt. generalize (u / d) (u mod d) (product ds0).
        intros; lia. }
      rewrite (Z.mod_small (u + 1)) by lia.
      rewrite unrank_snoc by (done || lia).
      rewrite <- app_assoc. simpl.
      assert ((u + 1) / d = u / d) as ->.
      { symmetry. apply (Z.div_unique (u + 1) d (u / d) (u mod d + 1)); lia. }
      assert ((u + 1) mod d = u mod d + 1) as ->.
      { symmetry. apply (Z.mod_unique (u + 1) d (u / d) (u mod d + 1)); lia. }
      done.
    + rewrite (IH Hpos dims (0 :: tl) (u / d) Hq); last first.
      { intros i x Hi. apply Hdims. by apply lookup_app_l_Some. }
      f_equal.
      assert (u + 1 = d * (u / d + 1)) as -> by lia.
      rewrite (Z.mul_comm (product ds0) d).
      rewrite Z.mul_mod_distr_l by lia.
      rewrite unrank_snoc; [|done|lia|].
      2:{ pose proof (Z.mod_pos_bound (u / d + 1) (product ds0) ltac:(lia)). nia. }
      rewrite <- app_assoc. simpl.
      rewrite (Z.mul_comm d), Z.div_mul, Z.mod_mul by lia. done.
Qed.

Lemma follow_app (m : mem) (a b : list Z) (p : vptr) :
  follow m (a ++ b) p = (q ← follow m a p; follow m b q).
Proof.
  revert p. induction a as [|i a IH]; intros p; simpl; [done|].
  destruct (read_ptr m p i); simpl; [apply IH|done].
Qed.

Lemma follow_snoc (m : mem) (a : list Z) (i : Z) (p : vptr) :
  follow m (a ++ [i]) p = (q ← follow m a p; read_ptr m q i).
Proof.
  rewrite follow_app. destruct (follow m a p) as [q|]; simpl; [|done].
  by destruct (read_ptr m q i).
Qed.

(** The descent of the copy loops follows the leading indices. *)
Lemma descend_follow (m : mem) (ind : list Z) :
  forall (k i : nat) (p : vptr),
    (i + k <= length ind)%nat ->
    descend m ind k (Z.of_nat i) p = follow m (take k (drop i ind)) p.
Proof.
  induction k as [|k IH]; intros i p Hlen; simpl; [done|].
  destruct (lookup_lt_is_Some_2 ind i ltac:(lia)) as [x Hx].
  rewrite (at_index_Done _ _ _ Hx). simpl.
  rewrite (drop_S _ _ _ Hx). simpl.
  destruct (read_ptr m p x) as [q|]; simpl; [|done].
  replace (Z.of_nat i + 1) with (Z.of_nat (S i)) by lia.
  rewrite IH by lia. done.
Qed.

Lemma padd_0 (p : vptr) : padd p 0 = p.
Proof. destruct p as [[l o]|]; simpl; [|done]. by rewrite Z.add_0_r. Qed.

Lemma padd_padd (p : vptr) (a b : Z) : padd (padd p a) b = padd p (a + b).
Proof. destruct p as [[l o]|]; simpl; [|done]. by rewrite Z.add_assoc. Qed.

Lemma read_ptr_padd (m : mem) (p : vptr) (a : Z) :
  read_ptr m (padd p a) 0 = read_ptr m p a.
Proof. destruct p as [[l o]|]; simpl; [|done]. by rewrite Z.add_0_r. Qed.

(** Writing bytes into a byte buffer changes no pointer. *)
Lemma read_ptr_frame (m : mem) (lf : loc) (bs bs' : list Z) (p : vptr) (i : Z) :
  m !! lf = Some (DBytes bs) ->
  read_ptr (<[lf := DBytes bs']> m) p i = read_ptr m p i.
Proof.
  intros Hlf. destruct p as [[l o]|]; simpl; [|done].
  destruct (decide (l = lf)) as [->|Hne].
  - by rewrite lookup_insert_eq, Hlf.
  - by rewrite lookup_insert_ne.
Qed.

Lemma follow_frame (m : mem) (lf : loc) (bs bs' : list Z) (idx : list Z) :
  m !! lf = Some (DBytes bs) ->
  forall p, follow (<[lf := DBytes bs']> m) idx p = follow m idx p.
Proof.
  intros Hlf. induction idx as [|i idx IH]; intros p; simpl; [done|].
  rewrite (read_ptr_frame _ _ _ _ _ _ Hlf).
  destruct (read_ptr m p i); simpl; [apply IH|done].
Qed.

Lemma read_bytes_frame (m : mem) (lf l : loc) (b : dblock) (o size : Z) :
  l <> lf ->
  read_bytes (<[lf := b]> m) (Some (l, o)) size = read_bytes m (Some (l, o)) size.
Proof. intros Hne. simpl. by rewrite lookup_insert_ne. Qed.

Lemma read_bytes_length (m : mem) (p : vptr) (size : Z) (b : list Z) :
  0 <= size -> read_bytes m p size = Done b -> length b = Z.to_nat size.
Proof.
  intros Hsize. destruct p as [[l o]|]; simpl; [|done].
  destruct (m !! l) as [[ps|bs]|]; try done.
  destruct (Z.ltb_spec o 0); [done|].
  unfold Zlen. destruct (Z.ltb_spec (Z.of_nat (length bs)) (o + size)); [done|].
  simpl. intros [= <-]. rewrite length_take, length_drop. lia.
Qed.

(** The product of the extents, when it fits an [int]. *)
Lemma total_value (ds : list Z) :
  Forall (fun d => 1 <= d) ds ->
  forall (k i : nat) (acc : Z),
    (i + k <= length ds)%nat ->
    1 <= acc ->
    acc * product (take k (drop i ds)) <= INT_MAX ->
    total (Some ds) k (Z.of_nat i) acc
    = Done (acc * product (take k (drop i ds))).
Proof.
  intros Hpos. induction k as [|k IH]; intros i acc Hlen Hacc Hfit; simpl.
  - f_equal. unfold product. simpl. lia.
  - destruct (lookup_lt_is_Some_2 ds i ltac:(lia)) as [d Hd].
    rewrite (at_index_Done _ _ _ Hd). simpl.
    rewrite (drop_S _ _ _ Hd) in *. simpl in *.
    change (foldr Z.mul 1 (take k (drop (S i) ds)))
      with (product (take k (drop (S i) ds))) in *.
    assert (1 <= d) as Hd1.
    { rewrite Forall_lookup in Hpos. by apply (Hpos i). }
    assert (1 <= product (take k (drop (S i) ds))) as HP.
    { apply product_pos. apply Forall_take, Forall_drop, Hpos. }
    destruct (Z.gtb_spec (acc * d) INT_MAX); [unfold INT_MAX in *; nia|].
    destruct (Z.ltb_spec (acc * d) (- INT_MAX - 1));
      [unfold INT_MAX in *; nia|].
    simpl. replace (Z.of_nat i + 1) with (Z.of_nat (S i)) by lia.
    rewrite IH; [f_equal; lia|lia|nia|].
    rewrite <- Z.mul_assoc. done.
Qed.

Lemma concat_length_const (n : nat) (l : list (list Z)) :
  Forall (fun b => length b = n) l -> length (concat l) = (length l * n)%nat.
Proof.
  induction 1 as [|b l Hb _ IH]; simpl; [done|].
  rewrite length_app, IH, Hb. done.
Qed.

(** Overwriting the bytes that follow an already written stretch [c]
    lengthens the stretch. *)
Lemma overwrite_next (bs c b : list Z) (no : nat) :
  (no + length c + length b <= length bs)%nat ->
  take (no + length c) (take no bs ++ c ++ drop (no + length c) bs)
    ++ b
    ++ drop (no + length c + length b)
         (take no bs ++ c ++ drop (no + length c) bs)
  = take no bs ++ (c ++ b) ++ drop (no + length (c ++ b)) bs.
Proof.
  intros Hlen.
  assert (length (take no bs) = no) as Hno by (rewrite length_take; lia).
  rewrite (app_assoc (take no bs) c).
  assert (length (take no bs ++ c) = (no + length c)%nat) as Hpre
    by (rewrite length_app; lia).
  rewrite <- Hpre at 1. rewrite take_app_length.
  rewrite (drop_app_add' _ _ (no + length c)%nat (length b)) by done.
  rewrite drop_drop, length_app.
  rewrite Nat.add_assoc, <- !app_assoc. done.
Qed.

End array_facts.


Section flat_copy.
Import Datamodel Arrays.
Context (m : mem) (lf : loc) (bs : list Z) (off size : Z) (src : vptr)
        (ds0 : list Z) (dl : Z) (es : list (loc * list Z)).
Hypothesis Hds0 : Forall (fun d => 1 <= d) ds0.
Hypothesis Hdl : 1 <= dl.
Hypothesis Hlf : m !! lf = Some (DBytes bs).
Hypothesis Hoff : 0 <= off.
Hypothesis Hsize : 0 <= size.
Hypothesis Hfit : off + product (ds0 ++ [dl]) * size <= Zlen bs.
Hypothesis Hes : elements m size (ds0 ++ [dl]) src = Some es.
Hypothesis Haway : Forall (fun e => e.1 <> lf) es.

Local Abbreviation ds := (ds0 ++ [dl]).
Local Abbreviation N := (Z.to_nat (product (ds0 ++ [dl]))).
Local Abbreviation written t :=
  (take (Z.to_nat off) bs ++ concat (take t (es.*2))
   ++ drop (Z.to_nat off + length (concat (take t (es.*2)))) bs).

Lemma elements_lookup :
  Forall2 (fun t e => element m size src (unrank ds (Z.of_nat t)) = Some e)
          (seq 0 N) es.
Proof. by apply mapM_Some. Qed.

Lemma elements_length : length es = N.
Proof.
  pose proof (Forall2_length _ _ _ elements_lookup) as Hl.
  by rewrite length_seq in Hl.
Qed.

Lemma element_inv (idx : list Z) (e : loc * list Z) :
  element m size src idx = Some e ->
  exists o, follow m idx src = Done (Some (e.1, o)) /\
            read_bytes m (Some (e.1, o)) size = Done e.2.
Proof.
  unfold element. destruct (follow m idx src) as [[[l o]|]|]; try done.
  destruct (read_bytes m (Some (l, o)) size) as [b|] eqn:Hb; [|done].
  intros [= <-]. by exists o.
Qed.

Lemma data_lengths :
  Forall (fun b : list Z => length b = Z.to_nat size) (es.*2).
Proof.
  apply Forall_lookup. intros i b Hb.
  rewrite list_lookup_fmap in Hb.
  destruct (es !! i) as [e|] eqn:He; [|done]. injection Hb as <-.
  destruct (Forall2_lookup_r _ _ _ _ _ elements_lookup He) as (t & _ & Ht).
  apply element_inv in Ht as (o & _ & Hr).
  by apply (read_bytes_length _ _ _ _ Hsize Hr).
Qed.

Lemma written_length (t : nat) :
  (t <= N)%nat -> length (concat (take t (es.*2))) = (t * Z.to_nat size)%nat.
Proof.
  intros Ht. rewrite (concat_length_const (Z.to_nat size)).
  - by rewrite length_take, length_fmap, elements_length, Nat.min_l by lia.
  - apply Forall_take, data_lengths.
Qed.

Lemma element_at (t : nat) :
  (t < N)%nat ->
  exists r l o b,
    follow m (unrank ds0 (Z.of_nat t / dl)) src = Done r /\
    read_ptr m r (Z.of_nat t mod dl) = Done (Some (l, o)) /\
    read_bytes m (Some (l, o)) size = Done b /\
    es !! t = Some (l, b) /\ l <> lf.
Proof.
  intros Ht.
  assert (seq 0 N !! t = Some t) as Hseq by (by apply lookup_seq_lt).
  destruct (Forall2_lookup_l _ _ _ _ _ elements_lookup Hseq) as (e & He & Hel).
  apply element_inv in Hel as (o & Hf & Hr).
  rewrite unrank_snoc, follow_snoc in Hf by (done || lia).
  destruct (follow m (unrank ds0 (Z.of_nat t / dl)) src) as [r|]; [|done].
  simpl in Hf. exists r, e.1, o, e.2. repeat split; try done.
  - by destruct e.
  - rewrite Forall_lookup in Haway. by apply (Haway t).
Qed.

Lemma row_at (u : Z) :
  0 <= u < product ds0 ->
  exists r, follow m (unrank ds0 u) src = Done r.
Proof.
  intros Hu.
  destruct (element_at (Z.to_nat (u * dl))) as (r & _ & _ & _ & Hr & _).
  { rewrite product_snoc. apply Z2Nat.inj_lt; nia. }
  rewrite Z2Nat.id, Z.div_mul in Hr by nia. by exists r.
Qed.

(** The index bookkeeping after element [t]: the indices and the
    pointer of element [t + 1]. *)
Lemma advance_step (t : nat) (r : vptr) (bs' : list Z) :
  (t < N)%nat ->
  follow m (unrank ds0 (Z.of_nat t / dl)) src = Done r ->
  exists ind' p',
    advance (<[lf := DBytes bs']> m) src (Zlen ds) (Some ds)
            (unrank ds (Z.of_nat t)) (padd (padd r (Z.of_nat t mod dl)) 1)
    = Done (ind', p') /\
    ((S t < N)%nat ->
     ind' = unrank ds (Z.of_nat (S t)) /\
     exists r', follow m (unrank ds0 (Z.of_nat (S t) / dl)) src = Done r' /\
                p' = padd r' (Z.of_nat (S t) mod dl)).
Proof.
  intros Ht Hr. unfold advance.
  pose proof (product_pos ds0 Hds0) as HP.
  assert (Zlen ds - 1 = Z.of_nat (length ds0)) as ->
    by (unfold Zlen; rewrite length_app; simpl; lia).
  rewrite Nat2Z.id.
  rewrite !unrank_snoc by (done || lia).
  assert (length (unrank ds0 (Z.of_nat t / dl)) = length ds0) as Hlen
    by apply length_unrank.
  rewrite (at_index_Done _ _ (Z.of_nat t mod dl)); last first.
  { rewrite lookup_app_r by lia. by rewrite Hlen, Nat.sub_diag. }
  simpl. rewrite (at_index_Done ds _ dl); last first.
  { rewrite lookup_app_r by lia. by rewrite Nat.sub_diag. }
  simpl.
  assert (forall x, <[length ds0 := x]>
                      (unrank ds0 (Z.of_nat t / dl) ++ [Z.of_nat t mod dl])
                    = unrank ds0 (Z.of_nat t / dl) ++ [x]) as Hins.
  { intros x. rewrite insert_app_r_alt by lia.
    by rewrite Hlen, Nat.sub_diag. }
  rewrite !Hins.
  pose proof (Z.mod_pos_bound (Z.of_nat t) dl ltac:(lia)) as Hm.
  pose proof (Z.div_mod (Z.of_nat t) dl ltac:(lia)) as Hdm.
  assert (Z.of_nat t < product ds0 * dl) as HtN.
  { rewrite product_snoc in Ht. lia. }
  assert (0 <= Z.of_nat t / dl < product ds0) as Hq.
  { split; [apply Z.div_pos; lia|]. apply Z.div_lt_upper_bound; lia. }
  destruct (Z.geb_spec (Z.of_nat t mod dl + 1) dl) as [Hge|Hlt].
  - rewrite (carry_unrank ds0 Hds0 ds [0] _ Hq); last first.
    { intros i x Hi. by apply lookup_app_l_Some. }
    simpl.
    assert (0 <= (Z.of_nat t / dl + 1) mod product ds0 < product ds0) as Hu'
      by (apply Z.mod_pos_bound; lia).
    destruct (row_at _ Hu') as [r' Hr'].
    rewrite (descend_follow _ _ (length ds0) 0) by
      (rewrite length_app, length_unrank; simpl; lia).
    rewrite drop_0, take_app_length' by (by rewrite length_unrank).
    rewrite (follow_frame _ _ _ _ _ Hlf), Hr'. simpl.
    eexists _, _. split; [done|]. intros HSt.
    assert (Z.of_nat (S t) = dl * (Z.of_nat t / dl + 1)) as HS by lia.
    assert (Z.of_nat (S t) < product ds0 * dl) as HStN.
    { rewrite product_snoc in HSt. lia. }
    assert (Z.of_nat t / dl + 1 < product ds0) as Hsmall.
    { revert HS HStN HP Hdl. generalize (Z.of_nat t / dl) (product ds0)
        (Z.of_nat (S t)). intros; nia. }
    rewrite Z.mod_small in Hr' |- * by lia.
    rewrite HS, (Z.mul_comm dl), Z.div_mul, Z.mod_mul by lia.
    split; [done|]. exists r'. split; [done|]. by rewrite padd_0.
  - eexists _, _. split; [done|]. intros _.
    assert (Z.of_nat (S t) / dl = Z.of_nat t / dl) as ->.
    { symmetry.
      apply (Z.div_unique _ dl _ (Z.of_nat t mod dl + 1)); lia. }
    assert (Z.of_nat (S t) mod dl = Z.of_nat t mod dl + 1) as ->.
    { symmetry.
      apply (Z.mod_unique _ dl (Z.of_nat t / dl) (Z.of_nat t mod dl + 1)); lia. }
    split; [done|]. exists r. split; [done|]. by rewrite padd_padd.
Qed.

Lemma flat_loop_spec :
  forall (k t : nat) (ind : list Z) (p : vptr),
    (t + k = N)%nat ->
    (k <> 0%nat ->
     ind = unrank ds (Z.of_nat t) /\
     exists r, follow m (unrank ds0 (Z.of_nat t / dl)) src = Done r /\
               p = padd r (Z.of_nat t mod dl)) ->
    flat_loop src size (Zlen ds) (Some ds) k
              (<[lf := DBytes (written t)]> m) ind p
              (Some (lf, off + Z.of_nat t * size))
    = Done (<[lf := DBytes (written N)]> m).
Proof.
  induction k as [|k IH]; intros t ind p Htk Hst.
  - simpl. by replace t with N by lia.
  - destruct Hst as (-> & r & Hr & ->); [done|].
    destruct (element_at t ltac:(lia)) as (r0 & l & o & b & Hr0 & Hp & Hb & He & Hne).
    assert (r0 = r) as -> by congruence.
    cbn [flat_loop].
    rewrite read_ptr_padd, (read_ptr_frame _ _ _ _ _ _ Hlf), Hp.
    cbn [mbind outcome_bind].
    rewrite (read_bytes_frame _ _ _ _ _ _ Hne), Hb.
    cbn [mbind outcome_bind].
    unfold write_bytes. rewrite lookup_insert_eq.
    pose proof (read_bytes_length _ _ _ _ Hsize Hb) as Hbl.
    pose proof (written_length t ltac:(lia)) as Hwl.
    assert (Z.to_nat (off + Z.of_nat t * size)
            = (Z.to_nat off + length (concat (take t (es.*2))))%nat) as Hq.
    { rewrite Hwl, Z2Nat.inj_add, Z2Nat.inj_mul, Nat2Z.id by lia. done. }
    assert ((Z.to_nat off + length (concat (take t (es.*2))) + length b
             <= length bs)%nat) as Hroom.
    { rewrite Hwl, Hbl. unfold Zlen in Hfit.
      assert (Z.of_nat (S t) <= product ds) as HtN by lia.
      assert (Z.of_nat (S t) * size <= product ds * size)
        by (apply Z.mul_le_mono_nonneg_r; lia).
      apply Nat2Z.inj_le.
      rewrite !Nat2Z.inj_add, Nat2Z.inj_mul, !Z2Nat.id by lia. lia. }
    assert (Zlen (written t) = Zlen bs) as Hlw.
    { unfold Zlen. rewrite !length_app, length_take, length_drop. lia. }
    destruct (Z.ltb_spec (off + Z.of_nat t * size) 0); [lia|].
    rewrite Hlw.
    destruct (Z.ltb_spec (Zlen bs) (off + Z.of_nat t * size + Zlen b)).
    { unfold Zlen in *. lia. }
    cbn [orb mbind outcome_bind].
    rewrite insert_insert_eq, Hq, overwrite_next by done.
    assert (take (S t) (es.*2) = take t (es.*2) ++ [b]) as HS.
    { apply take_S_r. by rewrite list_lookup_fmap, He. }
    assert (concat (take t (es.*2)) ++ b = concat (take (S t) (es.*2))) as ->.
    { rewrite HS, concat_app. simpl. by rewrite app_nil_r. }
    destruct (advance_step t r (written (S t)) ltac:(lia) Hr)
      as (ind' & p' & Hadv & Hnext).
    cbn [padd]. rewrite Hadv. cbn [mbind outcome_bind].
    replace (off + Z.of_nat t * size + size)
      with (off + Z.of_nat (S t) * size) by lia.
    apply IH; [lia|]. intros Hk. apply Hnext. lia.
Qed.

End flat_copy.


Section flat_copy_result.
Import Datamodel Arrays.

Lemma copy_to_flat_post (m : mem) (lf : loc) (bs : list Z)
    (off size ndims : Z) (src : vptr) (ds : list Z)
    (es : list (loc * list Z)) :
  1 <= ndims ->
  Zlen ds = ndims ->
  Forall (fun d => 1 <= d) ds ->
  product ds <= INT_MAX ->
  m !! lf = Some (DBytes bs) ->
  0 <= off ->
  0 <= size ->
  off + product ds * size <= Zlen bs ->
  elements m size ds src = Some es ->
  Forall (fun e => e.1 <> lf) es ->
  dlite_copy_to_flat true m (Some (lf, off)) src size ndims (Some ds)
  = Done (0, <[lf := DBytes (take (Z.to_nat off) bs ++ concat (es.*2)
                             ++ drop (Z.to_nat (off + product ds * size)) bs)]>
              m).
Proof.
  intros Hrank Hlen Hpos Hint Hlf Hoff Hsize Hfit Hes Haway.
  destruct ds as [|dl ds0 _] using rev_ind.
  { unfold Zlen in Hlen. simpl in Hlen. lia. }
  apply Forall_app in Hpos as [Hds0 Hdl]. apply Forall_inv in Hdl.
  pose proof (product_pos ds0 Hds0) as HP.
  assert (Z.to_nat ndims = S (length ds0)) as Hn.
  { unfold Zlen in Hlen. rewrite length_app in Hlen. simpl in Hlen. lia. }
  assert (Z.to_nat (ndims - 1) = length ds0) as Hn1 by lia.
  unfold dlite_copy_to_flat.
  destruct (Z.ltb_spec ndims 0); [lia|]. cbn [negb orb].
  rewrite Hn1.
  assert (replicate (Z.to_nat ndims) 0 = unrank (ds0 ++ [dl]) (Z.of_nat 0))
    as ->.
  { rewrite unrank_zero by (apply Forall_app; split; [done|by constructor]).
    rewrite Hn, length_app. f_equal. simpl. lia. }
  rewrite unrank_snoc by (done || lia).
  rewrite (descend_follow _ _ (length ds0) 0) by
    (rewrite length_app, length_unrank; simpl; lia).
  rewrite drop_0, take_app_length' by (by rewrite length_unrank).
  destruct (row_at m lf size src ds0 dl es Hds0 Hdl Hes Haway
              (Z.of_nat 0 / dl)) as [r Hr].
  { rewrite Z.div_0_l by lia. lia. }
  rewrite Hr. cbn [mbind outcome_bind].
  rewrite Hn, <- Hlen.
  assert (Forall (fun d => 1 <= d) (ds0 ++ [dl])) as Hpos
    by (apply Forall_app; split; [done|by constructor]).
  pose proof (total_value _ Hpos (length (ds0 ++ [dl])) 0 1) as Htot.
  rewrite drop_0, firstn_all, Z.mul_1_l in Htot.
  rewrite length_app in Htot. simpl length in Htot.
  rewrite Nat.add_1_r in Htot. change (Z.of_nat 0) with 0 in Htot.
  rewrite Htot by lia. clear Htot. cbn [mbind outcome_bind].
  pose proof (flat_loop_spec m lf bs off size src ds0 dl es Hds0 Hdl Hlf Hoff
                Hsize Hfit Hes Haway
                (Z.to_nat (product (ds0 ++ [dl]))) 0
                (unrank ds0 (Z.of_nat 0 / dl) ++ [Z.of_nat 0 mod dl]) r
                eq_refl) as Hloop.
  rewrite take_0 in Hloop. simpl concat in Hloop. simpl length in Hloop.
  rewrite Nat.add_0_r, app_nil_l, take_drop, (insert_id m lf) in Hloop by done.
  rewrite Z.mul_0_l, Z.add_0_r in Hloop. simpl Z.of_nat in *.
  rewrite Hloop; last first.
  { intros _. split; [by rewrite unrank_snoc by (done || lia)|].
    exists r. split; [done|]. by rewrite Z.mod_0_l, padd_0 by lia. }
  cbn [mbind outcome_bind]. do 4 f_equal.
  pose proof (elements_length m size src ds0 dl es Hes) as Hel.
  rewrite (take_ge (es.*2)) by (rewrite length_fmap; lia).
  do 2 f_equal.
  rewrite (concat_length_const (Z.to_nat size)); last first.
  { by apply (data_lengths m size src ds0 dl es Hsize Hes). }
  rewrite length_fmap, Hel.
  assert (0 <= product (ds0 ++ [dl])) as HPn by (rewrite product_snoc; nia).
  assert (0 <= product (ds0 ++ [dl]) * size) as HPs
    by (by apply Z.mul_nonneg_nonneg).
  by rewrite Z2Nat.inj_add, Z2Nat.inj_mul by done.
Qed.


End flat_copy_result.



Section copy_rank.
Import Datamodel.


End copy_rank.



(** ** dlite-datamodel.c: what dlite_copy_to_nested copies at rank one *)
Section buffer_facts.
Import Datamodel Arrays.

Lemma splice_lookup (B data : list Z) (o j : nat) :
  (o + length data <= length B)%nat ->
  (j < o \/ o + length data <= j)%nat ->
  (take o B ++ data ++ drop (o + length data) B) !! j = B !! j.
Proof.
  intros Hlen [Hj|Hj].
  - rewrite lookup_app_l by (rewrite length_take; lia).
    rewrite lookup_take. by rewrite decide_True by lia.
  - rewrite lookup_app_r by (rewrite length_take; lia).
    rewrite length_take, lookup_app_r by lia.
    rewrite lookup_drop. f_equal. lia.
Qed.

Lemma splice_length (B data : list Z) (o : nat) :
  (o + length data <= length B)%nat ->
  length (take o B ++ data ++ drop (o + length data) B) = length B.
Proof. intros Hlen. rewrite !length_app, length_take, length_drop. lia. Qed.

Lemma take_drop_ext (A B : list Z) (o s : nat) :
  (forall j, (o <= j < o + s)%nat -> A !! j = B !! j) ->
  take s (drop o A) = take s (drop o B).
Proof.
  intros H. apply list_eq. intros i. rewrite !lookup_take, !lookup_drop.
  destruct (decide (i < s)%nat); [apply H; lia|done].
Qed.

Lemma write_bytes_inv (m m' : mem) (l : loc) (o : Z) (data : list Z) :
  write_bytes m (Some (l, o)) data = Done m' ->
  exists B, m !! l = Some (DBytes B) /\ 0 <= o /\ o + Zlen data <= Zlen B /\
            m' = <[l := DBytes (take (Z.to_nat o) B ++ data
                                ++ drop (Z.to_nat o + length data) B)]> m.
Proof.
  unfold write_bytes. destruct (m !! l) as [[|B]|]; try done.
  destruct (Z.ltb_spec o 0); [done|].
  destruct (Z.ltb_spec (Zlen B) (o + Zlen data)); [done|].
  simpl. intros [= <-]. by exists B.
Qed.

Lemma write_bytes_ok (m : mem) (size : Z) (lo : loc * Z) (data : list Z) :
  in_buffer m size lo = true -> Zlen data = size ->
  exists m', write_bytes m (Some lo) data = Done m'.
Proof.
  destruct lo as [l o]. unfold in_buffer, write_bytes. simpl.
  destruct (m !! l) as [[|B]|]; try done.
  intros [Ho Hlen]%andb_true_iff <-.
  apply Z.leb_le in Ho, Hlen.
  destruct (Z.ltb_spec o 0); [lia|].
  destruct (Z.ltb_spec (Zlen B) (o + Zlen data)); [lia|].
  by eexists.
Qed.

(** The bytes just written are the bytes read back. *)
Lemma write_read_same (m m' : mem) (lo : loc * Z) (data : list Z) :
  write_bytes m (Some lo) data = Done m' ->
  read_bytes m' (Some lo) (Zlen data) = Done data.
Proof.
  destruct lo as [l o]. intros (B & HB & Ho & Hlen & ->)%write_bytes_inv.
  unfold read_bytes. rewrite lookup_insert_eq.
  assert ((Z.to_nat o + length data <= length B)%nat) as Hlen'
    by (unfold Zlen in Hlen; lia).
  unfold Zlen at 1. rewrite splice_length by done.
  destruct (Z.ltb_spec o 0); [lia|].
  destruct (Z.ltb_spec (Z.of_nat (length B)) (o + Zlen data)).
  { unfold Zlen in *. lia. }
  simpl. f_equal.
  rewrite drop_app_length' by (rewrite length_take; lia).
  unfold Zlen. rewrite Nat2Z.id. by rewrite take_app_length.
Qed.

(** Writing one region leaves a region apart from it as it was. *)
Lemma write_read_apart (m m' : mem) (a b : loc * Z) (data : list Z) :
  write_bytes m (Some a) data = Done m' ->
  apart (Zlen data) a b = true ->
  read_bytes m' (Some b) (Zlen data) = read_bytes m (Some b) (Zlen data).
Proof.
  destruct a as [la oa], b as [lb ob].
  intros (B & HB & Ho & Hlen & ->)%write_bytes_inv Hap.
  unfold read_bytes.
  destruct (decide (lb = la)) as [->|Hne]; [|by rewrite lookup_insert_ne].
  rewrite lookup_insert_eq, HB.
  unfold apart in Hap. simpl in Hap.
  rewrite bool_decide_eq_true_2 in Hap by done. simpl in Hap.
  assert ((Z.to_nat oa + length data <= length B)%nat) as Hlen'
    by (unfold Zlen in Hlen; lia).
  unfold Zlen at 1. rewrite splice_length by done.
  fold (Zlen B).
  destruct (Z.ltb_spec ob 0); [done|].
  destruct (Z.ltb_spec (Zlen B) (ob + Zlen data)); [done|].
  simpl. f_equal. apply take_drop_ext. intros j Hj.
  apply splice_lookup; [done|].
  apply orb_true_iff in Hap as [Hap|Hap]; apply Z.leb_le in Hap;
    unfold Zlen in *; lia.
Qed.

Lemma write_bytes_buffer (m m' : mem) (size : Z) (a b : loc * Z)
    (data : list Z) :
  write_bytes m (Some a) data = Done m' ->
  in_buffer m' size b = in_buffer m size b.
Proof.
  destruct a as [la oa], b as [lb ob].
  intros (B & HB & Ho & Hlen & ->)%write_bytes_inv.
  unfold in_buffer. simpl.
  destruct (decide (lb = la)) as [->|Hne]; [|by rewrite lookup_insert_ne].
  rewrite lookup_insert_eq, HB. unfold Zlen.
  rewrite splice_length; [done|]. unfold Zlen in Hlen. lia.
Qed.

Lemma apart_sym (size : Z) (a b : loc * Z) :
  apart size a b = apart size b a.
Proof.
  unfold apart.
  destruct (decide (a.1 = b.1)) as [E|E].
  - rewrite !bool_decide_eq_true_2 by done. simpl. apply orb_comm.
  - rewrite !bool_decide_eq_false_2 by done. done.
Qed.

Lemma all_apart_lookup (size : Z) (l : list (loc * Z)) :
  all_apart size l = true ->
  forall (i j : nat) a b,
    i <> j -> l !! i = Some a -> l !! j = Some b -> apart size a b = true.
Proof.
  induction l as [|x l IH]; intros Hall i j a b Hij Ha Hb; [done|].
  simpl in Hall. apply andb_true_iff in Hall as [Hx Hall].
  rewrite forallb_forall in Hx.
  destruct i as [|i], j as [|j]; simpl in *; try done.
  - injection Ha as <-. apply Hx. apply list_elem_of_In.
    by eapply list_elem_of_lookup_2.
  - injection Hb as <-. rewrite apart_sym. apply Hx. apply list_elem_of_In.
    by eapply list_elem_of_lookup_2.
  - apply (IH Hall i j); [lia|done|done].
Qed.

Lemma chunk_length (bs : list Z) (off size : Z) (t : nat) :
  0 <= off -> 0 <= size -> off + Z.of_nat (S t) * size <= Zlen bs ->
  Zlen (chunk bs off size t) = size.
Proof.
  intros Hoff Hsize Hfit. unfold chunk, Zlen in *.
  rewrite length_take, length_drop. nia.
Qed.

Lemma read_ptr_same (m mt : mem) (p : vptr) (i : Z) :
  (forall l o, p = Some (l, o) -> mt !! l = m !! l) ->
  read_ptr mt p i = read_ptr m p i.
Proof.
  intros H. destruct p as [[l o]|]; [|done]. simpl.
  by rewrite (H l o eq_refl).
Qed.

Lemma read_ptr_block (m : mem) (p : vptr) (i : Z) (v : vptr) :
  read_ptr m p i = Done v ->
  exists l o ps, p = Some (l, o) /\ m !! l = Some (DPtrs ps).
Proof.
  destruct p as [[l o]|]; [|done]. simpl.
  destruct (m !! l) as [[ps|]|] eqn:E; try done. intros _. by exists l, o, ps.
Qed.

End buffer_facts.


Section nested_rank1.
Import Datamodel Arrays.
Context (m : mem) (dst : vptr) (lq : loc) (bq : list Z) (oq size n : Z)
        (sl : list (loc * Z)).
Hypothesis Hn : 1 <= n.
Hypothesis Hsize : 0 <= size.
Hypothesis Hsl : slots m dst n = Some sl.
Hypothesis Hbuf : forallb (in_buffer m size) sl = true.
Hypothesis Hapart : all_apart size sl = true.
Hypothesis Hlq : m !! lq = Some (DBytes bq).
Hypothesis Hoq : 0 <= oq.
Hypothesis Hfit : oq + n * size <= Zlen bq.
Hypothesis Haway : Forall (fun lo => lo.1 <> lq) sl.

Local Abbreviation N := (Z.to_nat n).
Local Abbreviation inv t mt :=
  ((forall l, l ∉ sl.*1 -> mt !! l = m !! l) /\
   (forall lo, lo ∈ sl -> in_buffer mt size lo = true) /\
   (forall (t' : nat) lo, (t' < t)%nat -> sl !! t' = Some lo ->
      read_bytes mt (Some lo) size = Done (chunk bq oq size t'))).

Lemma slots_lookup :
  Forall2 (fun t lo => read_ptr m dst (Z.of_nat t) = Done (Some lo))
          (seq 0 N) sl.
Proof.
  pose proof Hsl as H. apply mapM_Some in H.
  eapply Forall2_impl; [exact H|].
  intros t lo. simpl.
  by destruct (read_ptr m dst (Z.of_nat t)) as [[lo'|]|]; intros [= ->].
Qed.

Lemma slots_length : length sl = N.
Proof.
  pose proof (Forall2_length _ _ _ slots_lookup) as Hl.
  by rewrite length_seq in Hl.
Qed.

Lemma slot_at (t : nat) :
  (t < N)%nat ->
  exists lo, sl !! t = Some lo /\ read_ptr m dst (Z.of_nat t) = Done (Some lo).
Proof.
  intros Ht.
  assert (seq 0 N !! t = Some t) as Hseq by (by apply lookup_seq_lt).
  destruct (Forall2_lookup_l _ _ _ _ _ slots_lookup Hseq) as (lo & Hlo & Hr).
  by exists lo.
Qed.

Lemma slot_buffer (lo : loc * Z) : lo ∈ sl -> in_buffer m size lo = true.
Proof.
  intros Hin. rewrite forallb_forall in Hbuf. apply Hbuf.
  by apply list_elem_of_In.
Qed.

(** The array of pointers is none of the buffers it points to. *)
Lemma read_ptr_kept (mt : mem) (i : Z) :
  (forall l, l ∉ sl.*1 -> mt !! l = m !! l) ->
  read_ptr mt dst i = read_ptr m dst i.
Proof.
  intros Hframe. apply read_ptr_same. intros lp po Hdst. apply Hframe.
  intros (lo & -> & Hlo)%list_elem_of_fmap.
  destruct (slot_at 0 ltac:(lia)) as (lo0 & _ & Hr).
  apply read_ptr_block in Hr as (l' & o' & ps & Hdst' & Hps).
  assert (l' = lo.1) as -> by congruence.
  pose proof (slot_buffer _ Hlo) as Hb. unfold in_buffer in Hb.
  by rewrite Hps in Hb.
Qed.

Lemma nested_step (t : nat) (mt : mem) :
  (t < N)%nat -> inv t mt ->
  exists lo mt',
    read_ptr mt (padd dst (Z.of_nat t)) 0 = Done (Some lo) /\
    read_bytes mt (Some (lq, oq + Z.of_nat t * size)) size
    = Done (chunk bq oq size t) /\
    write_bytes mt (Some lo) (chunk bq oq size t) = Done mt' /\
    inv (S t) mt'.
Proof.
  intros Ht (Hframe & Hbufs & Hreads).
  destruct (slot_at t Ht) as (lo & Hlo & Hr).
  assert (lo ∈ sl) as Hin by (by eapply list_elem_of_lookup_2).
  assert (Z.of_nat (S t) * size <= n * size) as Hmul
    by (apply Z.mul_le_mono_nonneg_r; lia).
  assert (Zlen (chunk bq oq size t) = size) as Hcl
    by (apply chunk_length; lia).
  destruct (write_bytes_ok mt size lo (chunk bq oq size t) (Hbufs _ Hin) Hcl)
    as [mt' Hw].
  exists lo, mt'. split; [|split; [|split; [done|]]].
  - rewrite read_ptr_padd. by rewrite read_ptr_kept.
  - unfold read_bytes. rewrite Hframe, Hlq; last first.
    { intros (lo' & E & Hlo')%list_elem_of_fmap.
      rewrite Forall_forall in Haway. by apply (Haway lo'). }
    destruct (Z.ltb_spec (oq + Z.of_nat t * size) 0); [lia|].
    destruct (Z.ltb_spec (Zlen bq) (oq + Z.of_nat t * size + size)); [lia|].
    done.
  - split; [|split].
    + intros l Hl. destruct lo as [l0 o0].
      apply write_bytes_inv in Hw as (B & _ & _ & _ & ->).
      rewrite lookup_insert_ne; [by apply Hframe|].
      intros E. apply Hl. apply list_elem_of_fmap. exists (l0, o0).
      by split.
    + intros lo' Hlo'. rewrite (write_bytes_buffer _ _ _ _ _ _ Hw).
      by apply Hbufs.
    + intros t' lo' Ht' Hlo'. rewrite <- Hcl at 1.
      destruct (decide (t' = t)) as [->|Hne].
      * assert (lo' = lo) as -> by congruence.
        exact (write_read_same _ _ _ _ Hw).
      * rewrite (write_read_apart _ _ _ _ _ Hw).
        -- rewrite Hcl. apply Hreads; [lia|done].
        -- rewrite Hcl. by apply (all_apart_lookup _ _ Hapart t t').
Qed.

Lemma nested_loop_rank1 :
  forall (k t : nat) (ind : list Z) (p : vptr) (mt : mem),
    (t + k = N)%nat ->
    inv t mt ->
    (k <> 0%nat -> ind = [Z.of_nat t] /\ p = padd dst (Z.of_nat t)) ->
    exists m',
      nested_loop (Some (lq, oq)) size 1 (Some [n]) k mt ind p
                  (Some (lq, oq + Z.of_nat t * size))
      = Done m' /\ inv N m'.
Proof.
  induction k as [|k IH]; intros t ind p mt Htk Hinv Hst.
  - exists mt. split; [done|]. by replace N with t by lia.
  - destruct Hst as [-> ->]; [done|].
    destruct (nested_step t mt ltac:(lia) Hinv)
      as (lo & mt' & Hp & Hq & Hw & Hinv').
    cbn [nested_loop]. rewrite Hp. cbn [mbind outcome_bind].
    rewrite Hq. cbn [mbind outcome_bind].
    rewrite Hw. cbn [mbind outcome_bind padd].
    replace (oq + Z.of_nat t * size + size)
      with (oq + Z.of_nat (S t) * size) by lia.
    unfold advance. change (1 - 1) with 0. cbn [dim_or]. unfold at_index.
    change (0 <? 0) with false. change (Z.to_nat 0) with 0%nat.
    cbn [lookup list_lookup mbind outcome_bind dim_or carry descend
         insert list_insert].
    destruct (Z.geb_spec (Z.of_nat t + 1) n) as [Hge|Hlt];
      cbn [mbind outcome_bind].
    + apply IH; [lia|done|]. intros Hk. lia.
    + apply IH; [lia|done|]. intros _.
      rewrite padd_padd. split; do 2 f_equal; lia.
Qed.

End nested_rank1.


Section nested_copy_result.
Import Datamodel Arrays.

Lemma copy_to_nested_rank1_post (m : mem) (dst : vptr) (lq : loc)
    (bq : list Z) (oq size n : Z) (sl : list (loc * Z)) :
  1 <= n <= INT_MAX ->
  0 <= size ->
  slots m dst n = Some sl ->
  forallb (in_buffer m size) sl = true ->
  all_apart size sl = true ->
  m !! lq = Some (DBytes bq) ->
  0 <= oq ->
  oq + n * size <= Zlen bq ->
  Forall (fun lo => lo.1 <> lq) sl ->
  exists m',
    dlite_copy_to_nested true m dst (Some (lq, oq)) size 1 (Some [n])
    = Done (0, m') /\
    (forall (t : nat) lo, sl !! t = Some lo ->
       read_bytes m' (Some lo) size = Done (chunk bq oq size t)) /\
    (forall l, l ∉ sl.*1 -> m' !! l = m !! l).
Proof.
  intros [Hn Hint] Hsize Hsl Hbuf Hapart Hlq Hoq Hfit Haway.
  unfold dlite_copy_to_nested. cbn [negb orb Z.ltb Z.compare].
  change (Z.to_nat (1 - 1)) with 0%nat. change (Z.to_nat 1) with 1%nat.
  cbn [descend mbind outcome_bind total dim_or replicate].
  unfold at_index. change (0 <? 0) with false.
  change (Z.to_nat 0) with 0%nat.
  cbn [lookup list_lookup mbind outcome_bind].
  rewrite Z.mul_1_l.
  destruct (Z.gtb_spec n INT_MAX); [lia|].
  destruct (Z.ltb_spec n (- INT_MAX - 1)); [unfold INT_MAX in *; lia|].
  cbn [orb mbind outcome_bind].
  destruct (nested_loop_rank1 m dst lq bq oq size n sl Hn Hsize Hsl Hbuf Hapart
              Hlq Hoq Hfit Haway (Z.to_nat n) 0 [0] dst m eq_refl)
    as (m' & Hloop & Hframe & _ & Hreads).
  { split; [done|]. split; [|intros; lia].
    by apply slot_buffer. }
  { intros _. split; [done|]. by rewrite padd_0. }
  change (Z.of_nat 0) with 0 in Hloop.
  rewrite Z.mul_0_l, Z.add_0_r in Hloop.
  rewrite Hloop. cbn [mbind outcome_bind].
  exists m'. split; [done|]. split; [|done].
  intros t lo Hlo. apply Hreads; [|done].
  apply lookup_lt_Some in Hlo.
  by rewrite (slots_length m dst n sl Hsl) in Hlo.
Qed.


Lemma Forall2_fmap_eq {A B C} (f : A -> C) (g : B -> C) (l : list A)
    (k : list B) :
  Forall2 (fun x y => g y = f x) l k -> g <$> k = f <$> l.
Proof.
  induction 1 as [|x y l k E _ IH]; [done|].
  rewrite !fmap_cons. by rewrite E, IH.
Qed.

Lemma concat_chunks (bs : list Z) (off size : Z) (k : nat) :
  0 <= off -> 0 <= size ->
  concat (chunk bs off size <$> seq 0 k)
  = take (k * Z.to_nat size) (drop (Z.to_nat off) bs).
Proof.
  intros Hoff Hsize. induction k as [|k IH]; [done|].
  rewrite seq_S, fmap_app, concat_app, IH. simpl.
  rewrite app_nil_r. unfold chunk.
  assert (Z.to_nat (off + Z.of_nat k * size)
          = (Z.to_nat off + k * Z.to_nat size)%nat) as ->.
  { rewrite Z2Nat.inj_add, Z2Nat.inj_mul, Nat2Z.id by lia. done. }
  rewrite <- drop_drop, take_take_drop. f_equal. lia.
Qed.


End nested_copy_result.





(** ** dlite-entity.c: dlite_instance_free gives back what
    dlite_instance_create took *)
Section instance_lifecycle.
Import Uuid Mem Entity.

(** The free loop on the slots dlite_instance_create left: it returns,
    and its whole effect on the heap is to release the arrays the slots
    point to. *)
Lemma free_properties_exact (m : DLiteMeta) (x : DLiteInstance) (k : nat) :
  forall (i : Z) (s : state) (pre cells : list cell),
    0 <= i ->
    i_properties x = pre ++ cells ->
    length pre = Z.to_nat i ->
    length cells = k ->
    (forall (j : nat) c, cells !! j = Some c ->
       slot_ready m (i_dimensions x) s (i + Z.of_nat j) c) ->
    NoDup (cell_locs cells) ->
    exists s',
      free_properties m x k i s = Done (Ok tt, s') /\
      (forall l, st_heap s' !! l
                 = if decide (l ∈ cell_locs cells) then None
                   else st_heap s !! l).
Proof.
  induction k as [|k IH]; intros i s pre cells Hi Hprops Hpre Hlen Hready Hnd.
  { exists s. split; [done|]. intros l.
    destruct cells; [|done].
    destruct (decide _) as [Hin|]; [by apply elem_of_nil in Hin|done]. }
  destruct cells as [|c cells]; [done|].
  destruct (Hready O c eq_refl) as (p & off & Hp & Hoff & Hcnt & Hsl).
  rewrite Z.add_0_r in Hp, Hoff.
  assert (index (i_properties x) i s = Done (Ok c, s)) as Hslot.
  { apply index_ok; [done|]. rewrite Hprops, lookup_app_r by lia.
    by replace (Z.to_nat i - length pre)%nat with O by lia. }
  (* the body of this iteration *)
  assert (exists s1,
            (if DLiteType_eqb (p_type p) dliteStringPtr then
               _ ← meta_propoffset m i;
               slot ← index (i_properties x) i;
               cells ← (if is_array p then
                          a ← cell_ptr slot; b ← load_array a; mret (snd b)
                        else mret [slot]);
               nmemb ← (match p_dims p with
                        | Some _ => count_members (i_dimensions x) p
                        | None => mret 1
                        end);
               _ ← free_strings nmemb cells;
               if is_array p then a ← cell_ptr slot; free a else mret tt
             else if is_array p then
               _ ← meta_propoffset m i;
               slot ← index (i_properties x) i;
               a ← cell_ptr slot; free a
             else mret tt) s = Done (Ok tt, s1) /\
            (forall l, st_heap s1 !! l
                       = if decide (l ∈ cell_locs [c]) then None
                         else st_heap s !! l))
    as (s1 & Hbody & Hframe1).
  { unfold slot_spec in Hsl. destruct (is_array p) eqn:Harr.
    - destruct Hsl as (a & ld & pd & -> & Hld & Hpd & Ha).
      destruct (Hcnt eq_refl) as [n Hn].
      pose proof (count_members_value _ _ _ _ _ _ _ Hld Hpd Hn) as Hnv.
      assert (0 <= n) as Hn0.
      { rewrite Hnv. apply Z.mod_pos_bound. done. }
      assert ((a0 ← cell_ptr (CPtr a); b ← load_array a0; mret b.2) s
              = Done (Ok (replicate
                            (Z.to_nat (product (prop_shape (i_dimensions x)
                                                  pd (p_ndims p))
                                       mod SIZE_MOD)) CZero), s)) as Hcells.
      { rewrite (bind_Ok _ _ s s (Some a)) by done.
        by rewrite (bind_Ok _ _ _ _ _ (load_array_ok _ _ _ _ Ha)). }
      assert ((a0 ← cell_ptr (CPtr a); free a0) s
              = Done (Ok tt, State (st_oracle s) (delete a (st_heap s))))
        as Hfree.
      { rewrite (bind_Ok _ _ s s (Some a)) by done.
        by apply (free_ok _ _ _ Ha). }
      exists (State (st_oracle s) (delete a (st_heap s))).
      split.
      + destruct (DLiteType_eqb (p_type p) dliteStringPtr).
        * rewrite (bind_Ok _ _ _ _ _ Hoff), (bind_Ok _ _ _ _ _ Hslot).
          rewrite (bind_Ok _ _ _ _ _ Hcells).
          rewrite Hld, (bind_Ok _ _ _ _ _ Hn).
          rewrite <- Hnv.
          rewrite (bind_Ok _ _ _ _ _ (free_strings_zero n s Hn0)).
          exact Hfree.
        * rewrite (bind_Ok _ _ _ _ _ Hoff), (bind_Ok _ _ _ _ _ Hslot).
          exact Hfree.
      + intros l. simpl.
        destruct (decide (l ∈ [a])) as [Hin|Hnin].
        * apply list_elem_of_singleton in Hin as ->.
          by rewrite lookup_delete_eq.
        * rewrite lookup_delete_ne; [done|]. intros ->. apply Hnin. by left.
    - subst c. exists s. split.
      2:{ intros l. by rewrite decide_False by apply not_elem_of_nil. }
      destruct (DLiteType_eqb (p_type p) dliteStringPtr); [|done].
      rewrite (bind_Ok _ _ _ _ _ Hoff), (bind_Ok _ _ _ _ _ Hslot).
      unfold mbind at 1. unfold M_bind. simpl.
      destruct (p_dims p) as [ld|] eqn:Hld.
      + rewrite (bind_Ok _ _ _ _ _ (not_array_count _ _ _ s Harr Hld)).
        by rewrite (bind_Ok _ _ _ _ _ (free_strings_scalar s)).
      + unfold mbind at 1. unfold M_bind. simpl.
        by rewrite (bind_Ok _ _ _ _ _ (free_strings_scalar s)). }
  assert (NoDup (cell_locs cells) /\
          forall a, c = CPtr a -> a ∉ cell_locs cells) as [Hnd' Hca].
  { destruct c as [|a|]; try (split; [exact Hnd|done]).
    rewrite cell_locs_cons_ptr in Hnd. apply NoDup_cons in Hnd as [? ?].
    split; [done|]. by intros ? [= <-]. }
  assert (forall l b, st_heap s !! l = Some b -> l ∉ cell_locs [c] ->
                      st_heap s1 !! l = Some b) as Hkeep1.
  { intros l b Hl Hnin. by rewrite Hframe1, decide_False. }
  destruct (IH (i + 1) s1 (pre ++ [c]) cells) as (s' & Hrest & Hframe);
    try done.
  { lia. }
  { by rewrite <- app_assoc. }
  { rewrite length_app. simpl. lia. }
  { simpl in Hlen. lia. }
  { intros j c' Hc'.
    replace (i + 1 + Z.of_nat j) with (i + Z.of_nat (S j)) by lia.
    eapply slot_ready_mono; [by apply (Hready (S j))| |].
    - intros l b Hl Hb. apply Hkeep1; [done|].
      destruct c as [|a|]; try apply not_elem_of_nil.
      rewrite cell_locs_cons_ptr. intros Hin.
      apply list_elem_of_singleton in Hin as ->.
      unfold slot_spec in Hsl. destruct (is_array p); [|done].
      destruct Hsl as (a' & ld & pd & [= <-] & _ & _ & Ha').
      rewrite Ha' in Hl. by injection Hl as <-.
    - intros a b -> Ha. apply Hkeep1; [done|].
      destruct c as [|a'|]; try apply not_elem_of_nil.
      rewrite cell_locs_cons_ptr. intros Hin.
      apply list_elem_of_singleton in Hin as ->.
      apply (Hca a' eq_refl). apply elem_of_cell_locs. by exists j. }
  exists s'. split.
  { simpl. rewrite (bind_Ok _ _ _ _ _ Hp).
    by rewrite (bind_Ok _ _ _ _ _ Hbody). }
  intros l. rewrite Hframe, Hframe1.
  assert (l ∈ cell_locs (c :: cells)
          <-> l ∈ cell_locs [c] \/ l ∈ cell_locs cells) as Hiff.
  { unfold cell_locs. destruct c as [|a|]; simpl.
    - split; [by right|]. intros [Hin|Hin]; [by apply elem_of_nil in Hin|done].
    - rewrite elem_of_cons, list_elem_of_singleton. tauto.
    - split; [by right|]. intros [Hin|Hin]; [by apply elem_of_nil in Hin|done]. }
  destruct (decide (l ∈ cell_locs cells)),
           (decide (l ∈ cell_locs [c])),
           (decide (l ∈ cell_locs (c :: cells))); try done; tauto.
Qed.

(** The array loop of dlite_instance_create allocates nothing but the
    arrays it stores in the slots, and leaves the [uri] and the slots
    before [i] alone. *)
Lemma alloc_arrays_dom (meta : ptr) (li : loc) (dims : list Z) (k : nat) :
  forall (i : Z) (s s' : state),
    alloc_arrays meta li dims k i s = Done (Ok tt, s') ->
    0 <= i ->
    (forall x, st_heap s !! li = Some (BInst x) ->
       exists x', st_heap s' !! li = Some (BInst x') /\
                  i_uri x' = i_uri x /\
                  forall (j : nat) c, (j < Z.to_nat i)%nat ->
                    i_properties x !! j = Some c ->
                    i_properties x' !! j = Some c) /\
    (forall l, is_Some (st_heap s' !! l) ->
       is_Some (st_heap s !! l) \/
       exists x', st_heap s' !! li = Some (BInst x') /\
                  l ∈ cell_locs (i_properties x')).
Proof.
  induction k as [|k IH]; intros i s s' Hrun Hi.
  { simpl in Hrun. injection Hrun as <-. split.
    - intros x Hx. by exists x.
    - intros l Hl. by left. }
  simpl in Hrun.
  apply bind_inv in Hrun as (m & s1 & Hm & Hrun).
  apply load_meta_inv in Hm as (-> & lm & -> & Hlm).
  apply bind_inv in Hrun as (p & s1 & Hp & Hrun).
  destruct (reads_inv _ _ _ _ _ (reads_meta_property _ m i static_K) Hp)
    as [-> _].
  apply bind_inv in Hrun as (off & s1 & Hoff & Hrun).
  destruct (reads_inv _ _ _ _ _ (reads_meta_propoffset _ m i static_K) Hoff)
    as [-> _].
  apply bind_inv in Hrun as ([] & s1 & Hbody & Hrun).
  destruct (IH (i + 1) s1 s' Hrun ltac:(lia)) as [IH2 IH1].
  assert ((forall x, st_heap s !! li = Some (BInst x) ->
             exists x1, st_heap s1 !! li = Some (BInst x1) /\
                        i_uri x1 = i_uri x /\
                        forall (j : nat) c, j <> Z.to_nat i ->
                          i_properties x !! j = Some c ->
                          i_properties x1 !! j = Some c) /\
          (forall l, is_Some (st_heap s1 !! l) ->
             is_Some (st_heap s !! l) \/
             exists x1, st_heap s1 !! li = Some (BInst x1) /\
                        i_properties x1 !! Z.to_nat i = Some (CPtr l)))
    as [Hb2 Hb1].
  { destruct (is_array p).
    - apply bind_inv in Hbody as (n & s2 & Hn & Hbody).
      destruct (reads_inv _ _ _ _ _ (reads_count_members _ dims p static_K) Hn)
        as [-> _].
      apply bind_inv in Hbody as (a & s2 & Ha & Hbody).
      destruct a as [a|]; [|done].
      unfold calloc_array in Ha.
      destruct (n * p_size p >=? SIZE_MOD); [done|].
      apply malloc_inv in Ha as [[[=] _]|(a' & [= <-] & Hfresh & Hs2)].
      apply set_slot_inv in Hbody as (x2 & _ & Hx2 & _ & Hlen & ->).
      rewrite Hs2 in Hx2. simpl. rewrite Hs2.
      assert (li <> a) as Hne.
      { intros ->. by rewrite lookup_insert_eq in Hx2. }
      rewrite lookup_insert_ne in Hx2 by done.
      split.
      + intros x Hx. rewrite Hx in Hx2. injection Hx2 as <-.
        eexists. split; [by rewrite lookup_insert_eq|]. split; [done|].
        intros j c Hj Hc. simpl. by rewrite list_lookup_insert_ne.
      + intros l Hl.
        destruct (decide (l = li)) as [->|Hl1]; [left; by eexists|].
        destruct (decide (l = a)) as [->|Hl2].
        * right. eexists. split; [by rewrite lookup_insert_eq|]. simpl.
          by apply list_lookup_insert_eq.
        * left. by rewrite !lookup_insert_ne in Hl.
    - apply mret_inv in Hbody as [_ <-]. split.
      + intros x Hx. by exists x.
      + intros l Hl. by left. }
  split.
  - intros x Hx. destruct (Hb2 x Hx) as (x1 & Hx1 & Hu1 & Hs1).
    destruct (IH2 x1 Hx1) as (x' & Hx' & Hu' & Hs').
    exists x'. split; [done|]. split; [congruence|].
    intros j c Hj Hc. apply Hs'; [lia|]. apply Hs1; [lia|done].
  - intros l Hl. destruct (IH1 l Hl) as [Hl1|Hl1]; [|by right].
    destruct (Hb1 l Hl1) as [Hl0|(x1 & Hx1 & Hs1)]; [by left|].
    right. destruct (IH2 x1 Hx1) as (x' & Hx' & _ & Hs').
    exists x'. split; [done|]. apply elem_of_cell_locs.
    exists (Z.to_nat i). apply Hs'; [lia|done].
Qed.

Section lifecycle_create.
Context `{UuidLib}.

(** dlite_instance_create allocates the instance, a copy of the id and
    the arrays of the slots, and nothing else. *)
Lemma create_dom (r : rng) (meta : ptr) (dims : list Z) (id : option cstr)
    (s s' : state) (li : loc) :
  dlite_instance_create r meta dims id s = Done (Ok (Some li), s') ->
  exists x,
    st_heap s' !! li = Some (BInst x) /\
    forall l, is_Some (st_heap s' !! l) ->
      is_Some (st_heap s !! l) \/ l = li \/ i_uri x = Some l \/
      l ∈ cell_locs (i_properties x).
Proof.
  unfold dlite_instance_create. intros Hrun.
  apply bind_inv in Hrun as (m & s1 & Hm & Hrun).
  apply load_meta_inv in Hm as (-> & lm & -> & Hlm).
  apply bind_inv in Hrun as (inst & s1 & Hinst & Hrun).
  destruct inst as [l0|]; [|by apply mret_inv in Hrun as [[=] _]].
  apply malloc_step in Hinst as (Hfresh & Hl0 & Hframe1).
  apply catch_inv in Hrun as [Hrun|(s2 & _ & Hrun)].
  2:{ apply bind_inv in Hrun as (? & ? & _ & Hrun).
      by apply mret_inv in Hrun as [[=] _]. }
  destruct (dlite_get_uuid r id) as [ver uuid] eqn:Euuid.
  destruct (ver <? 0); [done|].
  apply bind_inv in Hrun as ([] & s2 & Hst & Hrun).
  destruct (modify_inst_step _ _ _ _ _ _ Hl0 Hst) as (_ & Hl2 & Hframe2).
  clear Hst.
  apply bind_inv in Hrun as ([] & s3 & Hst & Hrun).
  assert (exists x3,
            st_heap s3 !! l0 = Some (BInst x3) /\
            forall l, is_Some (st_heap s3 !! l) ->
              is_Some (st_heap s2 !! l) \/ i_uri x3 = Some l)
    as (x3 & Hl3 & Hdom3).
  { destruct (ver =? 5).
    - destruct id as [sid|]; [|done].
      apply bind_inv in Hst as (u & s4 & Hdup & Hst).
      destruct u as [lu|].
      + apply malloc_step in Hdup as (Hfu & Hlu & Hframeu).
        assert (lu <> l0) by (intros ->; congruence).
        assert (st_heap s4 !! l0
                = Some (BInst (set_i_uuid uuid (zero_inst m)))) as Hl4
          by by rewrite Hframeu.
        destruct (modify_inst_step _ _ _ _ _ _ Hl4 Hst) as (_ & Hl3 & Hframe3).
        eexists. split; [exact Hl3|]. intros l Hl. simpl.
        destruct (decide (l = l0)) as [->|Hne]; [left; by eexists|].
        destruct (decide (l = lu)) as [->|Hne']; [by right|].
        left. by rewrite Hframe3, Hframeu in Hl.
      + apply malloc_null in Hdup.
        assert (st_heap s4 !! l0
                = Some (BInst (set_i_uuid uuid (zero_inst m)))) as Hl4
          by by rewrite Hdup.
        destruct (modify_inst_step _ _ _ _ _ _ Hl4 Hst) as (_ & Hl3 & Hframe3).
        eexists. split; [exact Hl3|]. intros l Hl. left.
        destruct (decide (l = l0)) as [->|Hne]; [by eexists|].
        by rewrite Hframe3, Hdup in Hl.
    - apply mret_inv in Hst as [_ <-]. eexists. split; [exact Hl2|].
      intros l Hl. by left. }
  clear Hst.
  apply bind_inv in Hrun as ([] & s4 & Hst & Hrun).
  destruct (modify_inst_step _ _ _ _ _ _ Hl3 Hst) as (_ & Hl4 & Hframe4).
  clear Hst.
  apply bind_inv in Hrun as ([] & s5 & Hst & Hrun).
  assert (exists x5,
            st_heap s5 !! l0 = Some (BInst x5) /\ i_uri x5 = i_uri x3 /\
            forall l, l <> l0 -> st_heap s5 !! l = st_heap s4 !! l)
    as (x5 & Hl5 & Hu5 & Hframe5).
  { destruct (m_ndimensions m =? 0).
    - apply mret_inv in Hst as [_ <-]. eexists. by split.
    - destruct (Zlen dims <? m_ndimensions m); [done|].
      destruct (modify_inst_step _ _ _ _ _ _ Hl4 Hst) as (_ & Hl5 & Hframe5).
      eexists. by split. }
  clear Hst.
  apply bind_inv in Hrun as ([] & s6 & Hloop & Hrun).
  destruct (alloc_arrays_dom _ _ _ _ _ _ _ Hloop ltac:(lia)) as [Hkeep Hdom6].
  destruct (Hkeep x5 Hl5) as (x6 & Hl6 & Hu6 & _).
  apply bind_inv in Hrun as ([] & s7 & Hinc & Hrun).
  apply mret_inv in Hrun as [[= ->] ->].
  apply dlite_meta_incref_inv in Hinc as (m' & _ & Hm' & Hlt & ->).
  assert (lm <> li) as Hne by (intros ->; congruence).
  exists x6. simpl. split; [by rewrite lookup_insert_ne|].
  intros l Hl.
  assert (is_Some (st_heap s6 !! l)) as Hl6'.
  { destruct (decide (l = lm)) as [->|Hlne]; [by eexists|].
    by rewrite lookup_insert_ne in Hl. }
  destruct (decide (l = li)) as [->|Hlli]; [by right; left|].
  destruct (Hdom6 l Hl6') as [Hl5'|(x' & Hx' & Hin)].
  - rewrite Hframe5, Hframe4 in Hl5' by done.
    destruct (Hdom3 l Hl5') as [Hl2'|Hu].
    + left. by rewrite Hframe2, Hframe1 in Hl2'.
    + right; right; left. congruence.
  - right; right; right. congruence.
Qed.

(** A successful dlite_instance_create on a live entity followed by
    dlite_instance_free of the new instance: the free returns and the
    heap is the heap before the create. *)
Lemma create_free_post (r : rng) (lm : loc) (m : DLiteMeta)
    (dims : list Z) (id : option cstr) (s s' : state) (li : loc) :
  st_heap s !! lm = Some (BMeta m) ->
  1 <= m_refcount m ->
  Zlen dims = m_ndimensions m ->
  dlite_instance_create r (Some lm) dims id s = Done (Ok (Some li), s') ->
  exists s'',
    dlite_instance_free (Some li) s' = Done (Ok tt, s'') /\
    st_heap s'' = st_heap s.
Proof.
  intros Hlm0 Hlive Hdims Hrun.
  destruct (create_dom _ _ _ _ _ _ _ Hrun) as (x0 & Hx0 & Hdom).
  destruct (create_post _ _ _ _ _ _ _ Hrun)
    as (lm' & m' & cells & u & [= <-] & Hlm & Hfresh & Hlen & Hli & Hlm' & Hframe
        & Hu5 & Hu & Hslots & Hnd & Hnew).
  rewrite Hlm0 in Hlm. injection Hlm as <-.
  rewrite take_ge in Hli by (unfold Zlen in Hdims; lia).
  rewrite Hli in Hx0. injection Hx0 as <-. simpl in Hdom.
  set (x := mkInst (snd (dlite_get_uuid r id)) u (Some lm) dims cells) in *.
  set (m1 := set_m_refcount (m_refcount m + 1) m) in *.
  assert (lm <> li) as Hne by (intros ->; congruence).
  assert (forall a, a ∈ cell_locs cells -> a <> lm /\ a <> li) as Hkinds.
  { intros a Ha. split; [intros ->; apply Hnew in Ha; congruence|].
    intros ->. apply elem_of_cell_locs in Ha as [j Hj].
    destruct (Hslots _ _ Hj) as (p & _ & _ & _ & _ & Hsl).
    unfold slot_spec in Hsl. destruct (is_array p); [|done].
    destruct Hsl as (a & ld & pd & [= <-] & _ & _ & Ha). congruence. }
  (* free(inst->uri) *)
  assert (exists s1,
            free u s' = Done (Ok tt, s1) /\
            (forall l, st_heap s1 !! l
                       = if decide (u = Some l) then None
                         else st_heap s' !! l) /\
            forall (j : nat) c, cells !! j = Some c ->
              slot_ready m dims s1 (Z.of_nat j) c)
    as (s1 & Hfu & Hh1 & Hready).
  { destruct u as [lu|].
    - destruct (Hu lu eq_refl) as (sid & _ & Hlu0 & Hlu).
      exists (State (st_oracle s') (delete lu (st_heap s'))).
      split; [by apply (free_ok _ _ _ Hlu)|]. simpl.
      split.
      { intros l. destruct (decide (Some lu = Some l)) as [[= ->]|Hl].
        - by rewrite lookup_delete_eq.
        - rewrite lookup_delete_ne; [done|]. by intros ->. }
      intros j c Hc. eapply slot_ready_mono; [by apply Hslots| |].
      + intros l b Hl Hb. simpl. rewrite lookup_delete_ne; [done|].
        intros E. subst l. rewrite Hlu in Hl. by injection Hl as <-.
      + intros a b -> Ha. simpl. rewrite lookup_delete_ne; [done|].
        intros E. subst a. destruct (Hslots _ _ Hc) as (p & _ & _ & _ & _ & Hsl).
        unfold slot_spec in Hsl. destruct (is_array p); [|done].
        destruct Hsl as (a & ld & pd & [= <-] & _ & _ & Ha'). congruence.
    - exists s'. split; [done|]. split; [done|].
      intros j c Hc. by apply Hslots. }
  assert (u <> Some li /\ u <> Some lm) as [Huli Hulm].
  { split; intros ->; destruct (Hu _ eq_refl) as (? & _ & ? & ?); congruence. }
  (* the loop over the properties *)
  assert (exists s2,
            match m_properties m1 with
            | Some _ => free_properties m1 x (Z.to_nat (m_nproperties m1)) 0
            | None => mret tt
            end s1 = Done (Ok tt, s2) /\
            (forall l, st_heap s2 !! l
                       = if decide (l ∈ cell_locs cells) then None
                         else st_heap s1 !! l))
    as (s2 & Hloop & Hh2).
  { destruct (m_properties m1) eqn:Hprops.
    - by apply (free_properties_exact m1 x (Z.to_nat (m_nproperties m1)) 0 s1
                  [] cells).
    - exists s1. split; [done|]. intros l.
      destruct (decide (l ∈ cell_locs cells)) as [Hin|]; [|done].
      exfalso. apply elem_of_cell_locs in Hin as [j Hj].
      destruct (Hready _ _ Hj) as (p & off & Hp & _).
      unfold meta_property in Hp. change (m_properties m) with
        (m_properties m1) in Hp. by rewrite Hprops in Hp. }
  assert (st_heap s2 !! li = Some (BInst x)) as Hli2.
  { rewrite Hh2, decide_False by (intros Hin; by destruct (Hkinds _ Hin)).
    by rewrite Hh1, decide_False. }
  assert (st_heap s2 !! lm = Some (BMeta m1)) as Hlm2.
  { rewrite Hh2, decide_False by (intros Hin; by destruct (Hkinds _ Hin)).
    by rewrite Hh1, decide_False. }
  exists (State (st_oracle s2)
            (<[lm:=BMeta m]> (delete li (st_heap s2)))).
  split.
  { unfold dlite_instance_free.
    rewrite (bind_Ok _ _ _ _ _ (load_inst_ok _ _ _ Hli)).
    change (i_meta x) with (Some lm).
    rewrite (bind_Ok _ _ _ _ _ (load_meta_ok _ _ _ Hlm')).
    change (i_uri x) with u.
    rewrite (bind_Ok _ _ _ _ _ Hfu).
    rewrite (bind_Ok _ _ _ _ _ Hloop).
    rewrite (bind_Ok _ _ _ _ _ (free_ok _ _ _ Hli2)).
    rewrite (decref_live lm m1).
    - simpl. do 3 f_equal. unfold m1.
      by rewrite set_m_refcount_back.
    - simpl. by rewrite lookup_delete_ne.
    - unfold m1. simpl. lia. }
  simpl. apply map_eq. intros l.
  destruct (decide (l = lm)) as [->|Hllm]; [by rewrite lookup_insert_eq|].
  rewrite lookup_insert_ne by done.
  destruct (decide (l = li)) as [->|Hlli]; [by rewrite lookup_delete_eq|].
  rewrite lookup_delete_ne, Hh2, Hh1 by done.
  destruct (st_heap s !! l) as [b|] eqn:Hl.
  - rewrite !decide_False; [by apply Hframe| |].
    + intros ->. destruct (Hu _ eq_refl) as (? & _ & ? & _). congruence.
    + intros Hin. apply Hnew in Hin. congruence.
  - destruct (decide (l ∈ cell_locs cells)); [done|].
    destruct (decide (u = Some l)); [done|].
    destruct (st_heap s' !! l) as [b|] eqn:Hl'; [|done].
    destruct (Hdom l ltac:(by eexists)) as [[? ?]|[?|[?|?]]]; congruence.
Qed.


End lifecycle_create.

End instance_lifecycle.




(** ** dlite-entity.c: dlite_instance_create when an allocation fails *)
Section create_failure.
Import Uuid Mem Entity.

(** A bind that returns or jumps to [fail]. *)
Lemma bind_inv_res {A B} (x : M A) (f : A -> M B) (s s2 : state)
    (r : res B) :
  (x ≫= f) s = Done (r, s2) ->
  (exists a s1, x s = Done (Ok a, s1) /\ f a s1 = Done (r, s2)) \/
  (r = Fail /\ x s = Done (Fail, s2)).
Proof.
  unfold mbind, M_bind. destruct (x s) as [[[a|] s1]|]; try done.
  - intros Hf. left. by exists a, s1.
  - intros [= <- <-]. by right.
Qed.

Lemma cell_locs_zeros (n : nat) : cell_locs (replicate n CZero) = [].
Proof. induction n as [|n IH]; [done|]. simpl. exact IH. Qed.

Lemma calloc_array_inv (n sz : Z) (s s' : state) (r : res ptr) :
  calloc_array n sz s = Done (r, s') ->
  (r = Ok None /\ st_heap s' = st_heap s) \/
  (exists a, r = Ok (Some a) /\ st_heap s !! a = None /\
             st_heap s'
             = <[a:=BArray sz (replicate (Z.to_nat n) CZero)]> (st_heap s)).
Proof.
  unfold calloc_array. destruct (n * sz >=? SIZE_MOD).
  - intros [= <- <-]. by left.
  - apply malloc_inv.
Qed.

(** The array loop of dlite_instance_create, whether it returns or
    jumps to [fail]: it fills some of the slots with fresh zeroed arrays
    of array properties, leaves the other slots zero, and changes no
    other block. *)
Lemma alloc_arrays_any (lm li : loc) (m : DLiteMeta) (dims : list Z)
    (k : nat) :
  forall (i : Z) (s s' : state) (r : res unit) (x : DLiteInstance)
         (pre : list cell),
    alloc_arrays (Some lm) li dims k i s = Done (r, s') ->
    0 <= i ->
    st_heap s !! lm = Some (BMeta m) ->
    st_heap s !! li = Some (BInst x) ->
    length pre = Z.to_nat i ->
    i_properties x = pre ++ replicate k CZero ->
    exists cells,
      length cells = k /\
      st_heap s' !! li = Some (BInst (set_i_properties (pre ++ cells) x)) /\
      (forall l b, st_heap s !! l = Some b -> l <> li ->
                   st_heap s' !! l = Some b) /\
      (forall l, is_Some (st_heap s' !! l) ->
                 is_Some (st_heap s !! l) \/ l ∈ cell_locs cells) /\
      NoDup (cell_locs cells) /\
      (forall (j : nat) c, cells !! j = Some c ->
         c = CZero \/
         exists a sz n p,
           c = CPtr a /\ st_heap s !! a = None /\
           st_heap s' !! a = Some (BArray sz (replicate n CZero)) /\
           meta_property m (i + Z.of_nat j) s' = Done (Ok p, s') /\
           is_array p = true).
Proof.
  induction k as [|k IH]; intros i s s' r x pre Hrun Hi Hlm Hli Hpre Hprops.
  { simpl in Hrun. injection Hrun as <- <-. exists [].
    split; [done|]. split.
    { rewrite app_nil_r. simpl in Hprops. rewrite app_nil_r in Hprops.
      by rewrite <- Hprops, set_i_properties_id. }
    split; [done|]. split; [by left|]. split; [constructor|]. by intros j c. }
  simpl in Hrun.
  assert (lm <> li) as Hne by (intros ->; congruence).
  apply bind_inv_res in Hrun as [(m' & s1 & Hm' & Hrun)|[_ Hm']].
  2:{ by destruct (reads_inv (fun _ => True) _ _ _ _
                     (reads_load_meta _ _ (fun _ => I)) Hm') as (_ & ? & [=]). }
  apply load_meta_inv in Hm' as (-> & l' & [= <-] & Hm').
  rewrite Hlm in Hm'. injection Hm' as <-.
  apply bind_inv_res in Hrun as [(p & s1 & Hp & Hrun)|[_ Hp]].
  2:{ by destruct (reads_inv _ _ _ _ _ (reads_meta_property _ m i static_K) Hp)
        as (_ & ? & [=]). }
  destruct (reads_inv _ _ _ _ _ (reads_meta_property _ m i static_K) Hp)
    as [-> _].
  apply bind_inv_res in Hrun as [(off & s1 & Hoff & Hrun)|[_ Hoff]].
  2:{ by destruct (reads_inv _ _ _ _ _
                     (reads_meta_propoffset _ m i static_K) Hoff)
        as (_ & ? & [=]). }
  destruct (reads_inv _ _ _ _ _ (reads_meta_propoffset _ m i static_K) Hoff)
    as [-> _].
  (* the slots when nothing more is allocated *)
  assert (st_heap s' = st_heap s ->
          exists cells,
            length cells = S k /\
            st_heap s' !! li
            = Some (BInst (set_i_properties (pre ++ cells) x)) /\
            (forall l b, st_heap s !! l = Some b -> l <> li ->
                         st_heap s' !! l = Some b) /\
            (forall l, is_Some (st_heap s' !! l) ->
                       is_Some (st_heap s !! l) \/ l ∈ cell_locs cells) /\
            NoDup (cell_locs cells) /\
            (forall (j : nat) c, cells !! j = Some c ->
               c = CZero \/
               exists a sz n p,
                 c = CPtr a /\ st_heap s !! a = None /\
                 st_heap s' !! a = Some (BArray sz (replicate n CZero)) /\
                 meta_property m (i + Z.of_nat j) s' = Done (Ok p, s') /\
                 is_array p = true)) as Hsame.
  { intros E. exists (replicate (S k) CZero).
    split; [by rewrite length_replicate|]. rewrite E. split.
    { by rewrite <- Hprops, set_i_properties_id. }
    split; [done|]. split; [by left|].
    rewrite cell_locs_zeros. split; [constructor|].
    intros j c Hc. apply lookup_replicate in Hc as [-> _]. by left. }
  apply bind_inv_res in Hrun as [([] & s1 & Hbody & Hrun)|[-> Hbody]].
  2:{ (* the allocation of this array is refused *)
      apply Hsame. destruct (is_array p); [|done].
      apply bind_inv_res in Hbody as [(n & s2 & Hn & Hbody)|[_ Hn]].
      2:{ by destruct (reads_inv _ _ _ _ _
                         (reads_count_members _ dims p static_K) Hn)
            as (_ & ? & [=]). }
      destruct (reads_inv _ _ _ _ _ (reads_count_members _ dims p static_K) Hn)
        as [-> _].
      apply bind_inv_res in Hbody as [(a & s2 & Ha & Hbody)|[_ Ha]].
      2:{ by apply calloc_array_inv in Ha as [[[=] _]|(? & [=] & _)]. }
      destruct a as [a|].
      - by apply set_slot_inv in Hbody as (? & [=] & _).
      - injection Hbody as <-.
        by apply calloc_array_inv in Ha as [[_ ?]|(? & [=] & _)]. }
  (* the body of this iteration returned *)
  assert (exists c,
            st_heap s1 !! li
            = Some (BInst (set_i_properties
                             ((pre ++ [c]) ++ replicate k CZero) x)) /\
            (forall l b, st_heap s !! l = Some b -> l <> li ->
                         st_heap s1 !! l = Some b) /\
            (forall l, is_Some (st_heap s1 !! l) ->
                       is_Some (st_heap s !! l) \/ l ∈ cell_locs [c]) /\
            (c = CZero \/
             exists a sz n,
               c = CPtr a /\ st_heap s !! a = None /\
               st_heap s1 !! a = Some (BArray sz (replicate n CZero)) /\
               is_array p = true))
    as (c & Hli1 & Hframe1 & Hdom1 & Hc).
  { destruct (is_array p) eqn:Harr.
    - apply bind_inv in Hbody as (n & s2 & Hn & Hbody).
      destruct (reads_inv _ _ _ _ _ (reads_count_members _ dims p static_K) Hn)
        as [-> _].
      apply bind_inv in Hbody as (a & s2 & Ha & Hbody).
      destruct a as [a|]; [|done].
      apply calloc_array_inv in Ha as [[[=] _]|(a' & [= <-] & Hfresh & Hs2)].
      apply set_slot_inv in Hbody as (x2 & _ & Hx2 & _ & Hlen & ->).
      assert (a <> li) as Hali by (intros ->; congruence).
      rewrite Hs2, lookup_insert_ne in Hx2 by done.
      rewrite Hli in Hx2. injection Hx2 as <-.
      exists (CPtr a). simpl. rewrite Hs2. split.
      { rewrite lookup_insert_eq. do 2 f_equal. rewrite Hprops.
        rewrite <- app_assoc. simpl. rewrite <- Hpre.
        by rewrite insert_app_r_alt, Nat.sub_diag by lia. }
      split.
      { intros l b Hl Hlne. rewrite !lookup_insert_ne; try done.
        intros ->. congruence. }
      split.
      { intros l Hl. destruct (decide (l = a)) as [->|Hla].
        - right. by left.
        - left. destruct (decide (l = li)) as [->|Hlli]; [by eexists|].
          by rewrite !lookup_insert_ne in Hl. }
      right. eexists a, _, _. split; [done|]. split; [done|].
      split; [|done]. by rewrite lookup_insert_ne, lookup_insert_eq.
    - apply mret_inv in Hbody as [_ <-]. exists CZero.
      split.
      { rewrite Hli. do 2 f_equal. rewrite <- app_assoc. simpl.
        change (CZero :: replicate k CZero) with (replicate (S k) CZero).
        by rewrite <- Hprops, set_i_properties_id. }
      split; [done|]. split; [by left|]. by left. }
  destruct (IH (i + 1) s1 s' r
              (set_i_properties ((pre ++ [c]) ++ replicate k CZero) x)
              (pre ++ [c]) Hrun) as (cells & Hlen & Hli' & Hframe & Hdom
                                    & Hnd & Hslots); try done.
  { lia. }
  { by apply Hframe1. }
  { rewrite length_app. simpl. lia. }
  assert (forall l b, st_heap s !! l = Some b -> l <> li ->
                      st_heap s' !! l = Some b) as Hframe'.
  { intros l b Hl Hlne. apply Hframe; [|done]. by apply Hframe1. }
  assert (forall l b, st_heap s !! l = Some b -> static_block b ->
                      st_heap s' !! l = Some b) as Hstat.
  { intros l b Hl Hb. apply Hframe'; [done|]. intros ->.
    rewrite Hli in Hl. by injection Hl as <-. }
  assert (forall a, a ∈ cell_locs cells -> st_heap s1 !! a = None) as Hnew.
  { intros a [j Hj]%elem_of_cell_locs.
    destruct (Hslots j _ Hj) as [[=]|(a' & ? & ? & ? & [= <-] & Ha & _)].
    done. }
  exists (c :: cells).
  split; [simpl; by rewrite Hlen|].
  split.
  { rewrite Hli'. do 2 f_equal. rewrite <- app_assoc. done. }
  split; [done|]. split.
  { intros l Hl. destruct (Hdom l Hl) as [Hl1|Hin].
    - destruct (Hdom1 l Hl1) as [?|Hin]; [by left|]. right.
      destruct c as [|a|]; try by apply elem_of_nil in Hin.
      rewrite cell_locs_cons_ptr in *.
      apply list_elem_of_singleton in Hin as ->. by left.
    - right. destruct c as [|a|]; try done.
      rewrite cell_locs_cons_ptr. by right. }
  split.
  { destruct c as [|a|]; [exact Hnd| |exact Hnd].
    rewrite cell_locs_cons_ptr. apply NoDup_cons. split; [|done].
    intros Hin. apply Hnew in Hin.
    destruct Hc as [[=]|(a' & ? & ? & [= <-] & _ & Ha & _)]. congruence. }
  intros [|j] c0 Hc0.
  - injection Hc0 as <-. rewrite Z.add_0_r.
    destruct Hc as [->|(a & sz & n & -> & Hfresh & Ha & Harr)]; [by left|].
    right. exists a, sz, n, p. split; [done|]. split; [done|].
    split.
    { apply Hframe; [done|]. intros ->. congruence. }
    split; [|done].
    by eapply reads_mono; [apply (reads_meta_property static_block)| |].
  - simpl in Hc0.
    destruct (Hslots j c0 Hc0) as [->|(a & sz & n & p' & -> & Hfresh & Ha & Hp' & Harr)];
      [by left|].
    right. exists a, sz, n, p'. split; [done|]. split.
    { destruct (st_heap s !! a) as [b|] eqn:E; [|done].
      assert (a <> li) by (intros ->; congruence).
      apply Hframe1 in E; [congruence|done]. }
    split; [done|]. split; [|done].
    by replace (i + Z.of_nat (S j)) with (i + 1 + Z.of_nat j) by lia.
Qed.

Lemma free_strings_zeros_inv (n : Z) (k : nat) (s s' : state)
    (r : res unit) :
  free_strings n (replicate k CZero) s = Done (r, s') -> r = Ok tt /\ s' = s.
Proof.
  unfold free_strings. destruct (_ <? n); [done|].
  rewrite take_replicate. generalize (Z.to_nat n `min` k)%nat. intros k'.
  induction k' as [|k' IH]; simpl.
  - by intros [= <- <-].
  - unfold mbind at 1. unfold M_bind. simpl. exact IH.
Qed.

(** The free loop on slots that are zero or point to zeroed arrays of
    array properties: if it has a defined result at all, it returns, and
    its whole effect on the heap is to release those arrays. *)
Lemma free_properties_inv (m : DLiteMeta) (x : DLiteInstance) (k : nat) :
  forall (i : Z) (s s' : state) (r : res unit) (pre cells : list cell),
    free_properties m x k i s = Done (r, s') ->
    0 <= i ->
    i_properties x = pre ++ cells ->
    length pre = Z.to_nat i ->
    length cells = k ->
    NoDup (cell_locs cells) ->
    (forall (j : nat) c, cells !! j = Some c ->
       c = CZero \/
       exists a sz n p,
         c = CPtr a /\
         st_heap s !! a = Some (BArray sz (replicate n CZero)) /\
         meta_property m (i + Z.of_nat j) s = Done (Ok p, s) /\
         is_array p = true) ->
    r = Ok tt /\
    forall l, st_heap s' !! l
              = if decide (l ∈ cell_locs cells) then None
                else st_heap s !! l.
Proof.
  induction k as [|k IH];
    intros i s s' r pre cells Hrun Hi Hprops Hpre Hlen Hnd Hslots.
  { simpl in Hrun. injection Hrun as <- <-. split; [done|]. intros l.
    destruct cells; [|done].
    destruct (decide _) as [Hin|]; [by apply elem_of_nil in Hin|done]. }
  destruct cells as [|c cells]; [done|].
  simpl in Hrun.
  apply bind_inv_res in Hrun as [(p & s1 & Hp & Hrun)|[_ Hp]].
  2:{ by destruct (reads_inv _ _ _ _ _ (reads_meta_property _ m i static_K) Hp)
        as (_ & ? & [=]). }
  destruct (reads_inv _ _ _ _ _ (reads_meta_property _ m i static_K) Hp)
    as [-> _].
  assert (index (i_properties x) i s = Done (Ok c, s)) as Hslot.
  { apply index_ok; [done|]. rewrite Hprops, lookup_app_r by lia.
    by replace (Z.to_nat i - length pre)%nat with O by lia. }
  assert (c = CZero \/
          exists a sz n,
            c = CPtr a /\
            st_heap s !! a = Some (BArray sz (replicate n CZero)) /\
            is_array p = true) as Hc.
  { destruct (Hslots O c eq_refl) as [->|(a & sz & n & p' & -> & Ha & Hp' & Harr)];
      [by left|].
    rewrite Z.add_0_r, Hp in Hp'. injection Hp' as <-.
    right. by exists a, sz, n. }
  (* the body of this iteration *)
  assert (forall rb s1,
            (if DLiteType_eqb (p_type p) dliteStringPtr then
               _ ← meta_propoffset m i;
               slot ← index (i_properties x) i;
               cells ← (if is_array p then
                          a ← cell_ptr slot; b ← load_array a; mret (snd b)
                        else mret [slot]);
               nmemb ← (match p_dims p with
                        | Some _ => count_members (i_dimensions x) p
                        | None => mret 1
                        end);
               _ ← free_strings nmemb cells;
               if is_array p then a ← cell_ptr slot; free a else mret tt
             else if is_array p then
               _ ← meta_propoffset m i;
               slot ← index (i_properties x) i;
               a ← cell_ptr slot; free a
             else mret tt) s = Done (rb, s1) ->
            rb = Ok tt /\
            forall l, st_heap s1 !! l
                      = if decide (l ∈ cell_locs [c]) then None
                        else st_heap s !! l) as Hbody.
  { intros rb s1 Hb.
    assert (forall s0 : state, forall l,
              st_heap s0 !! l
              = if decide (l ∈ cell_locs [CZero]) then None
                else st_heap s0 !! l) as Hzero.
    { intros s0 l. destruct (decide _) as [Hin|]; [|done].
      by apply elem_of_nil in Hin. }
    assert (forall a l,
              delete a (st_heap s) !! l
              = if decide (l ∈ cell_locs [CPtr a]) then None
                else st_heap s !! l) as Hdel.
    { intros a l. change (cell_locs [CPtr a]) with [a].
      destruct (decide (l ∈ [a])) as [Hin|Hnin].
      - apply list_elem_of_singleton in Hin as ->.
        by rewrite lookup_delete_eq.
      - rewrite lookup_delete_ne; [done|]. intros ->. apply Hnin. by left. }
    destruct (DLiteType_eqb (p_type p) dliteStringPtr).
    - apply bind_inv_res in Hb as [(off & s2 & Hoff & Hb)|[_ Hoff]].
      2:{ by destruct (reads_inv _ _ _ _ _
                         (reads_meta_propoffset _ m i static_K) Hoff)
            as (_ & ? & [=]). }
      destruct (reads_inv _ _ _ _ _ (reads_meta_propoffset _ m i static_K) Hoff)
        as [-> _].
      rewrite (bind_Ok _ _ _ _ _ Hslot) in Hb.
      destruct Hc as [->|(a & sz & n & -> & Ha & Harr)].
      + destruct (is_array p) eqn:Harr.
        { unfold mbind, M_bind in Hb. simpl in Hb. done. }
        rewrite (bind_Ok _ _ s s [CZero]) in Hb by done.
        assert (exists nmemb,
                  (_ ← free_strings nmemb [CZero]; mret tt) s = Done (rb, s1))
          as [nmemb Hb'].
        { destruct (p_dims p).
          - apply bind_inv_res in Hb as [(nmemb & s2 & Hn & Hb)|[_ Hn]].
            2:{ by destruct (reads_inv _ _ _ _ _
                               (reads_count_members _ (i_dimensions x) p
                                  static_K) Hn) as (_ & ? & [=]). }
            destruct (reads_inv _ _ _ _ _
                        (reads_count_members _ (i_dimensions x) p static_K) Hn)
              as [-> _].
            by exists nmemb.
          - rewrite (bind_Ok _ _ s s 1) in Hb by done. by exists 1. }
        apply bind_inv_res in Hb' as [([] & s2 & Hfs & Hb')|[_ Hfs]].
        * apply (free_strings_zeros_inv nmemb 1) in Hfs as [_ ->].
          injection Hb' as <- <-. split; [done|]. apply Hzero.
        * by apply (free_strings_zeros_inv nmemb 1) in Hfs as [[=] _].
      + rewrite Harr in Hb.
        assert ((a0 ← cell_ptr (CPtr a); b ← load_array a0; mret b.2) s
                = Done (Ok (replicate n CZero), s)) as Hcells.
        { rewrite (bind_Ok _ _ s s (Some a)) by done.
          by rewrite (bind_Ok _ _ _ _ _ (load_array_ok _ _ _ _ Ha)). }
        rewrite (bind_Ok _ _ _ _ _ Hcells) in Hb.
        destruct (is_array_dims p Harr) as (_ & ld & Hld).
        rewrite Hld in Hb.
        apply bind_inv_res in Hb as [(nmemb & s2 & Hn & Hb)|[_ Hn]].
        2:{ by destruct (reads_inv _ _ _ _ _
                           (reads_count_members _ (i_dimensions x) p
                              static_K) Hn) as (_ & ? & [=]). }
        destruct (reads_inv _ _ _ _ _
                    (reads_count_members _ (i_dimensions x) p static_K) Hn)
          as [-> _].
        apply bind_inv_res in Hb as [([] & s2 & Hfs & Hb)|[_ Hfs]].
        2:{ by apply free_strings_zeros_inv in Hfs as [[=] _]. }
        apply free_strings_zeros_inv in Hfs as [_ ->].
        rewrite (bind_Ok _ _ s s (Some a)) in Hb by done.
        rewrite (free_ok _ _ _ Ha) in Hb. injection Hb as <- <-.
        split; [done|]. simpl. apply Hdel.
    - destruct Hc as [->|(a & sz & n & -> & Ha & Harr)].
      + destruct (is_array p).
        * apply bind_inv_res in Hb as [(off & s2 & Hoff & Hb)|[_ Hoff]].
          2:{ by destruct (reads_inv _ _ _ _ _
                             (reads_meta_propoffset _ m i static_K) Hoff)
                as (_ & ? & [=]). }
          destruct (reads_inv _ _ _ _ _
                      (reads_meta_propoffset _ m i static_K) Hoff) as [-> _].
          rewrite (bind_Ok _ _ _ _ _ Hslot) in Hb.
          rewrite (bind_Ok _ _ s s None) in Hb by done.
          injection Hb as <- <-. split; [done|]. apply Hzero.
        * injection Hb as <- <-. split; [done|]. apply Hzero.
      + rewrite Harr in Hb.
        apply bind_inv_res in Hb as [(off & s2 & Hoff & Hb)|[_ Hoff]].
        2:{ by destruct (reads_inv _ _ _ _ _
                           (reads_meta_propoffset _ m i static_K) Hoff)
              as (_ & ? & [=]). }
        destruct (reads_inv _ _ _ _ _
                    (reads_meta_propoffset _ m i static_K) Hoff) as [-> _].
        rewrite (bind_Ok _ _ _ _ _ Hslot) in Hb.
        rewrite (bind_Ok _ _ s s (Some a)) in Hb by done.
        rewrite (free_ok _ _ _ Ha) in Hb. injection Hb as <- <-.
        split; [done|]. simpl. apply Hdel. }
  apply bind_inv_res in Hrun as [([] & s1 & Hb & Hrun)|[_ Hb]].
  2:{ by destruct (Hbody _ _ Hb) as [[=] _]. }
  destruct (Hbody _ _ Hb) as [_ Hframe1].
  assert (NoDup (cell_locs cells) /\
          forall a, c = CPtr a -> a ∉ cell_locs cells) as [Hnd' Hca].
  { destruct c as [|a|]; try (split; [exact Hnd|done]).
    rewrite cell_locs_cons_ptr in Hnd. apply NoDup_cons in Hnd as [? ?].
    split; [done|]. by intros ? [= <-]. }
  assert (forall l b, st_heap s !! l = Some b -> l ∉ cell_locs [c] ->
                      st_heap s1 !! l = Some b) as Hkeep1.
  { intros l b Hl Hnin. by rewrite Hframe1, decide_False. }
  destruct (IH (i + 1) s1 s' r (pre ++ [c]) cells Hrun) as [-> Hframe];
    try done.
  { lia. }
  { by rewrite <- app_assoc. }
  { rewrite length_app. simpl. lia. }
  { simpl in Hlen. lia. }
  { intros j c' Hc'.
    destruct (Hslots (S j) c' Hc')
      as [->|(a & sz & n & p' & -> & Ha & Hp' & Harr)]; [by left|].
    right. exists a, sz, n, p'. split; [done|].
    split.
    { apply Hkeep1; [done|].
      destruct c as [|a'|]; try apply not_elem_of_nil.
      rewrite cell_locs_cons_ptr. intros Hin.
      apply list_elem_of_singleton in Hin as ->.
      apply (Hca a' eq_refl). apply elem_of_cell_locs. by exists j. }
    split; [|done].
    replace (i + 1 + Z.of_nat j) with (i + Z.of_nat (S j)) by lia.
    eapply reads_mono; [apply (reads_meta_property static_block), static_K
                       |exact Hp'|].
    intros l b Hl Hb'. apply Hkeep1; [done|].
    destruct c as [|a'|]; try apply not_elem_of_nil.
    rewrite cell_locs_cons_ptr. intros Hin.
    apply list_elem_of_singleton in Hin as ->.
    destruct Hc as [[=]|(a0 & ? & ? & [= <-] & Ha0 & _)].
    rewrite Ha0 in Hl. by injection Hl as <-. }
  split; [done|].
  intros l. rewrite Hframe, Hframe1.
  assert (l ∈ cell_locs (c :: cells)
          <-> l ∈ cell_locs [c] \/ l ∈ cell_locs cells) as Hiff.
  { unfold cell_locs. destruct c as [|a|]; simpl.
    - split; [by right|]. intros [Hin|Hin]; [by apply elem_of_nil in Hin|done].
    - rewrite elem_of_cons, list_elem_of_singleton. tauto.
    - split; [by right|]. intros [Hin|Hin]; [by apply elem_of_nil in Hin|done]. }
  destruct (decide (l ∈ cell_locs cells)),
           (decide (l ∈ cell_locs [c])),
           (decide (l ∈ cell_locs (c :: cells))); try done; tauto.
Qed.

Lemma malloc_granted (b : block) (s s' : state) (a : ptr) :
  fst (alloc_ok (st_oracle s)) = true ->
  malloc b s = Done (Ok a, s') ->
  exists l, a = Some l /\ st_heap s !! l = None /\
            st_heap s' !! l = Some b /\
            forall l', l' <> l -> st_heap s' !! l' = st_heap s !! l'.
Proof.
  unfold malloc. destruct (alloc_ok (st_oracle s)) as [ok o]. simpl.
  intros ->. intros [= <- <-]. eexists. split; [done|]. simpl.
  split; [apply not_elem_of_dom, is_fresh|].
  split; [by rewrite lookup_insert_eq|].
  intros l' Hl'. by rewrite lookup_insert_ne.
Qed.

(** The array loop cannot jump to [fail] without a [properties] array. *)
Lemma alloc_arrays_fail_props (lm li : loc) (m : DLiteMeta) (dims : list Z)
    (k : nat) (i : Z) (s s' : state) :
  st_heap s !! lm = Some (BMeta m) ->
  alloc_arrays (Some lm) li dims k i s = Done (Fail, s') ->
  is_Some (m_properties m).
Proof.
  intros Hlm Hrun. destruct k as [|k]; [done|]. simpl in Hrun.
  apply bind_inv_res in Hrun as [(m' & s1 & Hm' & Hrun)|[_ Hm']].
  2:{ by destruct (reads_inv (fun _ => True) _ _ _ _
                     (reads_load_meta _ _ (fun _ => I)) Hm') as (_ & ? & [=]). }
  apply load_meta_inv in Hm' as (-> & l' & [= <-] & Hm').
  rewrite Hlm in Hm'. injection Hm' as <-.
  apply bind_inv_res in Hrun as [(p & s1 & Hp & Hrun)|[_ Hp]].
  2:{ by destruct (reads_inv _ _ _ _ _ (reads_meta_property _ m i static_K) Hp)
        as (_ & ? & [=]). }
  unfold meta_property in Hp. destruct (m_properties m); [by eexists|done].
Qed.

Section failure.
Context `{UuidLib}.

(** When dlite_instance_create returns NULL although the instance itself
    was allocated, every block it allocated has been released and the
    entity has one reference less than before the call. *)
Lemma create_failure_post (r : rng) (lm : loc) (m : DLiteMeta)
    (dims : list Z) (id : option cstr) (s s' : state) :
  st_heap s !! lm = Some (BMeta m) ->
  2 <= m_refcount m ->
  fst (alloc_ok (st_oracle s)) = true ->
  dlite_instance_create r (Some lm) dims id s = Done (Ok None, s') ->
  st_heap s'
  = <[lm:=BMeta (set_m_refcount (m_refcount m - 1) m)]> (st_heap s).
Proof.
  intros Hlm0 Hlive Hgrant Hrun. unfold dlite_instance_create in Hrun.
  apply bind_inv in Hrun as (m' & s1 & Hm & Hrun).
  apply load_meta_inv in Hm as (-> & ? & [= <-] & Hlm).
  rewrite Hlm0 in Hlm. injection Hlm as <-.
  apply bind_inv in Hrun as (inst & s1 & Hinst & Hrun).
  apply (malloc_granted _ _ _ _ Hgrant) in Hinst
    as (li & -> & Hfresh & Hl0 & Hframe1).
  assert (lm <> li) as Hne by (intros ->; congruence).
  destruct (dlite_get_uuid r id) as [ver uuid] eqn:Euuid.
  apply catch_inv in Hrun as [Hrun|(s2 & Hrun & Hhandler)].
  { (* the body returns the instance, never NULL *)
    exfalso. destruct (ver <? 0); [done|].
    apply bind_inv in Hrun as ([] & ? & _ & Hrun).
    apply bind_inv in Hrun as ([] & ? & _ & Hrun).
    apply bind_inv in Hrun as ([] & ? & _ & Hrun).
    apply bind_inv in Hrun as ([] & ? & _ & Hrun).
    apply bind_inv in Hrun as ([] & ? & _ & Hrun).
    apply bind_inv in Hrun as ([] & ? & _ & Hrun).
    by apply mret_inv in Hrun as [[=] _]. }
  apply bind_inv in Hhandler as ([] & s3 & Hfree & Hret).
  apply mret_inv in Hret as [_ <-].
  destruct (ver <? 0).
  { (* no uuid: the instance has no meta yet *)
    exfalso. injection Hrun as <-. unfold dlite_instance_free in Hfree.
    rewrite (bind_Ok _ _ _ _ _ (load_inst_ok _ _ _ Hl0)) in Hfree.
    apply bind_inv in Hfree as (? & ? & Hm & _).
    by apply load_meta_inv in Hm as (_ & ? & [=] & _). }
  apply bind_inv_res in Hrun as [([] & s4 & Hst & Hrun)|[_ Hst]].
  2:{ by apply modify_inst_inv in Hst as (? & [=] & _). }
  destruct (modify_inst_step _ _ _ _ _ _ Hl0 Hst) as (_ & Hl2 & Hframe2).
  clear Hst.
  apply bind_inv_res in Hrun as [([] & s5 & Hst & Hrun)|[_ Hst]].
  2:{ destruct (ver =? 5); [|done]. destruct id as [sid|]; [|done].
      apply bind_inv_res in Hst as [(u & s6 & Hdup & Hst)|[_ Hdup]].
      - by apply modify_inst_inv in Hst as (? & [=] & _).
      - by apply malloc_inv in Hdup as [[[=] _]|(? & [=] & _)]. }
  assert (exists u,
            st_heap s5 !! li
            = Some (BInst (set_i_uri u (set_i_uuid uuid (zero_inst m)))) /\
            (forall l b, st_heap s !! l = Some b -> st_heap s5 !! l = Some b) /\
            (forall l, is_Some (st_heap s5 !! l) ->
               is_Some (st_heap s !! l) \/ l = li \/ u = Some l) /\
            (forall lu, u = Some lu ->
               st_heap s !! lu = None /\
               exists sid, st_heap s5 !! lu = Some (BString sid)))
    as (u & Hl3 & Hframe3 & Hdom3 & Hu).
  { assert (forall l b, st_heap s !! l = Some b -> st_heap s4 !! l = Some b)
      as Hf2.
    { intros l b Hl. assert (l <> li) by (intros ->; congruence).
      by rewrite Hframe2, Hframe1. }
    assert (forall l, is_Some (st_heap s4 !! l) ->
              is_Some (st_heap s !! l) \/ l = li) as Hd2.
    { intros l Hl. destruct (decide (l = li)) as [->|Hlli]; [by right|].
      left. by rewrite Hframe2, Hframe1 in Hl. }
    destruct (ver =? 5).
    - destruct id as [sid|]; [|done].
      apply bind_inv in Hst as (u & s6 & Hdup & Hst).
      destruct u as [lu|].
      + apply malloc_step in Hdup as (Hfu & Hlu & Hframeu).
        assert (lu <> li) by (intros ->; congruence).
        assert (st_heap s6 !! li
                = Some (BInst (set_i_uuid uuid (zero_inst m)))) as Hl4
          by by rewrite Hframeu.
        destruct (modify_inst_step _ _ _ _ _ _ Hl4 Hst) as (_ & Hl3 & Hframe3).
        exists (Some lu). split; [done|]. split.
        { intros l b Hl. assert (l <> li) by (intros ->; congruence).
          assert (l <> lu).
          { intros ->. apply Hf2 in Hl. congruence. }
          rewrite Hframe3, Hframeu by done. by apply Hf2. }
        split.
        { intros l Hl. destruct (decide (l = li)) as [->|Hlli];
            [by right; left|].
          destruct (decide (l = lu)) as [->|Hllu]; [by right; right|].
          rewrite Hframe3, Hframeu in Hl by done.
          destruct (Hd2 l Hl) as [?|?]; [by left|by right; left]. }
        intros ? [= <-]. split.
        { destruct (st_heap s !! lu) eqn:E; [|done].
          apply Hf2 in E. congruence. }
        exists sid. by rewrite Hframe3.
      + apply malloc_null in Hdup.
        assert (st_heap s6 !! li
                = Some (BInst (set_i_uuid uuid (zero_inst m)))) as Hl4
          by by rewrite Hdup.
        destruct (modify_inst_step _ _ _ _ _ _ Hl4 Hst) as (_ & Hl3 & Hframe3).
        exists None. split; [done|]. split.
        { intros l b Hl. assert (l <> li) by (intros ->; congruence).
          rewrite Hframe3, Hdup by done. by apply Hf2. }
        split; [|by intros ? [=]].
        intros l Hl. destruct (decide (l = li)) as [->|Hlli];
          [by right; left|].
        rewrite Hframe3, Hdup in Hl by done.
        destruct (Hd2 l Hl) as [?|?]; [by left|by right; left].
    - apply mret_inv in Hst as [_ <-]. exists None.
      split; [rewrite Hl2; reflexivity|]. split; [done|].
      split; [|by intros ? [=]].
      intros l Hl. destruct (Hd2 l Hl) as [?|?]; [by left|by right; left]. }
  clear Hst.
  apply bind_inv_res in Hrun as [([] & s6 & Hst & Hrun)|[_ Hst]].
  2:{ by apply modify_inst_inv in Hst as (? & [=] & _). }
  destruct (modify_inst_step _ _ _ _ _ _ Hl3 Hst) as (_ & Hl4 & Hframe4).
  clear Hst.
  apply bind_inv_res in Hrun as [([] & s7 & Hst & Hrun)|[_ Hst]].
  2:{ destruct (m_ndimensions m =? 0); [done|].
      destruct (Zlen dims <? m_ndimensions m); [done|].
      by apply modify_inst_inv in Hst as (? & [=] & _). }
  assert (st_heap s7 !! li
          = Some (BInst (mkInst uuid u (Some lm)
                           (take (Z.to_nat (m_ndimensions m)) dims)
                           (replicate (Z.to_nat (m_nproperties m)) CZero))) /\
          (forall l, l <> li -> st_heap s7 !! l = st_heap s6 !! l))
    as [Hl5 Hframe5].
  { destruct (Z.eqb_spec (m_ndimensions m) 0) as [E|_].
    - apply mret_inv in Hst as [_ <-]. split; [|done].
      rewrite Hl4. unfold zero_inst. simpl. by rewrite E.
    - destruct (Zlen dims <? m_ndimensions m); [done|].
      destruct (modify_inst_step _ _ _ _ _ _ Hl4 Hst) as (_ & Hl5 & Hframe5).
      done. }
  clear Hst.
  assert (forall l b, st_heap s !! l = Some b -> st_heap s7 !! l = Some b)
    as Hf5.
  { intros l b Hl. assert (l <> li) by (intros ->; congruence).
    rewrite Hframe5, Hframe4 by done. by apply Hframe3. }
  assert (forall l, is_Some (st_heap s7 !! l) ->
            is_Some (st_heap s !! l) \/ l = li \/ u = Some l) as Hd5.
  { intros l Hl. destruct (decide (l = li)) as [->|Hlli]; [by right; left|].
    rewrite Hframe5, Hframe4 in Hl by done. by apply Hdom3. }
  apply bind_inv_res in Hrun as [([] & s8 & Hloop & Hrun)|[_ Hloop]].
  { exfalso.
    apply bind_inv_res in Hrun as [([] & s9 & Hinc & Hrun)|[_ Hinc]]; [done|].
    by apply dlite_meta_incref_inv in Hinc as (? & [=] & _). }
  set (x5 := mkInst uuid u (Some lm) (take (Z.to_nat (m_ndimensions m)) dims)
               (replicate (Z.to_nat (m_nproperties m)) CZero)) in *.
  destruct (alloc_arrays_any lm li m dims _ 0 s7 s2 Fail x5 [] Hloop)
    as (cells & Hlen & Hl6 & Hframe6 & Hdom6 & Hnd & Hslots); try done.
  { by apply Hf5. }
  destruct (alloc_arrays_fail_props lm li m dims _ 0 s7 s2 (Hf5 _ _ Hlm0) Hloop)
    as [lpp Hlpp].
  assert (st_heap s2 !! lm = Some (BMeta m)) as Hlm2.
  { apply Hframe6; [by apply Hf5|done]. }
  assert (forall a, a ∈ cell_locs cells ->
            st_heap s7 !! a = None /\ a <> li /\ a <> lm /\ u <> Some a /\
            st_heap s !! a = None) as Hnew.
  { intros a [j Hj]%elem_of_cell_locs.
    destruct (Hslots j _ Hj) as [[=]|(a' & ? & ? & ? & [= <-] & Ha & _)].
    split; [done|]. split; [intros ->; congruence|].
    split; [intros ->; apply Hf5 in Hlm0; congruence|].
    split.
    { intros ->. destruct (Hu _ eq_refl) as (_ & sid & Hlu).
      assert (a <> li) by (intros ->; congruence).
      rewrite <- Hframe4, <- Hframe5 in Hlu by done. congruence. }
    destruct (st_heap s !! a) eqn:E; [|done]. apply Hf5 in E. congruence. }
  assert (u <> Some li /\ u <> Some lm) as [Huli Hulm].
  { split; intros ->; destruct (Hu _ eq_refl) as (? & ? & ?); congruence. }
  (* dlite_instance_free in the fail handler *)
  unfold dlite_instance_free in Hfree.
  rewrite (bind_Ok _ _ _ _ _ (load_inst_ok _ _ _ Hl6)) in Hfree.
  change (i_meta (set_i_properties ([] ++ cells) x5)) with (Some lm) in Hfree.
  rewrite (bind_Ok _ _ _ _ _ (load_meta_ok _ _ _ Hlm2)) in Hfree.
  change (i_uri (set_i_properties ([] ++ cells) x5)) with u in Hfree.
  assert (exists s3u,
            free u s2 = Done (Ok tt, s3u) /\
            forall l, st_heap s3u !! l
                      = if decide (u = Some l) then None
                        else st_heap s2 !! l) as (s3u & Hfu & Hh3).
  { destruct u as [lu|].
    - destruct (Hu lu eq_refl) as (_ & sid & Hlu).
      assert (lu <> li) by (intros ->; congruence).
      assert (st_heap s2 !! lu = Some (BString sid)) as Hlu2.
      { apply Hframe6; [|done]. by rewrite Hframe5, Hframe4. }
      eexists. split; [by apply (free_ok _ _ _ Hlu2)|]. simpl.
      intros l. destruct (decide (Some lu = Some l)) as [[= ->]|Hl].
      + by rewrite lookup_delete_eq.
      + rewrite lookup_delete_ne; [done|]. by intros ->.
    - exists s2. by split. }
  rewrite (bind_Ok _ _ _ _ _ Hfu) in Hfree.
  rewrite Hlpp in Hfree.
  apply bind_inv in Hfree as ([] & s4f & Hloop2 & Hfree).
  destruct (free_properties_inv m _ _ 0 s3u s4f (Ok tt) [] cells Hloop2)
    as [_ Hh4]; try done.
  { intros j c Hc.
    destruct (Hslots j c Hc) as [->|(a & sz & n & p & -> & Hfa & Ha & Hp & Harr)];
      [by left|].
    right. exists a, sz, n, p. split; [done|].
    assert (a ∈ cell_locs cells) as Hin
      by (apply elem_of_cell_locs; by exists j).
    destruct (Hnew a Hin) as (_ & _ & _ & Hua & _).
    split; [by rewrite Hh3, decide_False|]. split; [|done].
    eapply reads_mono; [apply (reads_meta_property static_block), static_K
                       |exact Hp|].
    intros l b Hl Hb. rewrite Hh3, decide_False; [done|].
    intros ->. destruct (Hu _ eq_refl) as (_ & sid & Hlu).
    assert (l <> li) by (intros ->; congruence).
    rewrite <- Hframe4, <- Hframe5 in Hlu by done.
    apply Hframe6 in Hlu; [|done]. rewrite Hlu in Hl. by injection Hl as <-. }
  assert (st_heap s4f !! li
          = Some (BInst (set_i_properties ([] ++ cells) x5))) as Hli4.
  { rewrite Hh4, decide_False by (intros Hin; by destruct (Hnew _ Hin) as (_ & ? & _)).
    by rewrite Hh3, decide_False. }
  rewrite (bind_Ok _ _ _ _ _ (free_ok _ _ _ Hli4)) in Hfree.
  rewrite (decref_live lm m) in Hfree; [|simpl|done].
  2:{ rewrite lookup_delete_ne by done.
      rewrite Hh4, decide_False
        by (intros Hin; by destruct (Hnew _ Hin) as (_ & _ & ? & _)).
      by rewrite Hh3, decide_False. }
  injection Hfree as <-. simpl. apply map_eq. intros l.
  destruct (decide (l = lm)) as [->|Hllm]; [by rewrite !lookup_insert_eq|].
  rewrite !lookup_insert_ne by done.
  destruct (decide (l = li)) as [->|Hlli]; [by rewrite lookup_delete_eq|].
  rewrite lookup_delete_ne, Hh4, Hh3 by done.
  destruct (decide (l ∈ cell_locs cells)) as [Hin|Hnin].
  { by destruct (Hnew _ Hin) as (_ & _ & _ & _ & ->). }
  destruct (decide (u = Some l)) as [Hul|Hul].
  { by destruct (Hu _ Hul) as [-> _]. }
  destruct (st_heap s !! l) as [b|] eqn:Hl.
  - apply Hframe6; [by apply Hf5|done].
  - destruct (st_heap s2 !! l) as [b|] eqn:Hls2; [|done].
    destruct (Hdom6 l ltac:(by eexists)) as [Hl7|?]; [|done].
    destruct (Hd5 l Hl7) as [[? ?]|[?|?]]; congruence.
Qed.


(** The cleanup before the header is set: when the uuid cannot be
    generated (the random source fails on a NULL or empty id) although the
    instance was allocated, dlite_instance_create jumps to [fail] and
    calls dlite_instance_free on an instance whose [meta] is still NULL,
    which reads [meta->nproperties]: the call has no defined result. *)
Theorem create_without_uuid_undefined (r : rng) (lm : loc) (m : DLiteMeta)
    (dims : list Z) (id : option cstr) (s : state) :
  st_heap s !! lm = Some (BMeta m) ->
  fst (dlite_get_uuid r id) < 0 ->
  fst (alloc_ok (st_oracle s)) = true ->
  dlite_instance_create r (Some lm) dims id s = Undefined.
Proof.
  intros Hlm Hver Hgrant. unfold dlite_instance_create.
  rewrite (bind_Ok _ _ _ _ _ (load_meta_ok _ _ _ Hlm)).
  assert (exists li s1,
            malloc (BInst (zero_inst m)) s = Done (Ok (Some li), s1) /\
            st_heap s1 !! li = Some (BInst (zero_inst m)))
    as (li & s1 & Hmalloc & Hli).
  { unfold malloc. destruct (alloc_ok (st_oracle s)) as [ok o].
    simpl in Hgrant. subst ok. eexists _, _. split; [done|]. simpl.
    by rewrite lookup_insert_eq. }
  rewrite (bind_Ok _ _ _ _ _ Hmalloc).
  destruct (dlite_get_uuid r id) as [ver uuid]. simpl in Hver.
  destruct (Z.ltb_spec ver 0); [|lia].
  unfold catch, FAIL, dlite_instance_free.
  apply bind_Undefined.
  rewrite (bind_Ok _ _ _ _ _ (load_inst_ok _ _ _ Hli)).
  done.
Qed.

End failure.

End create_failure.




Lemma create_without_uuid_undefined_witness :
  @Entity.dlite_instance_create Uuid.toy_lib (1, cs "no-random-source")
    (Some 10%positive) [3; 2] None (Mem.State [] Examples.ex_heap)
  = Undefined.
Proof.
  apply (@create_without_uuid_undefined Uuid.toy_lib
           (1, cs "no-random-source") 10%positive Examples.ex_entity
           [3; 2] None (Mem.State [] Examples.ex_heap)).
  - reflexivity.
  - vm_compute. reflexivity.
  - reflexivity.
Defined.


(** ** dlite-entity.c: the accessors of an instance by property name *)
Section by_name_facts.
Import Mem Entity Lookup.

Lemma property_names_length (h : heap) (m : DLiteMeta) (names : list cstr) :
  property_names h m = Some names ->
  length names = Z.to_nat (m_nproperties m).
Proof.
  unfold property_names.
  destruct (properties_of h m) as [qs|] eqn:Eqs; [|done]. simpl.
  intros HF%mapM_Some. apply Forall2_length in HF.
  destruct (properties_of_inv _ _ _ Eqs) as [Hlen _]. lia.
Qed.

(** The by-name accessors of an instance resolve the name to the index
    of the first property that has it and then do what the by-index
    accessors do: for a name no property has, dlite_instance_get_property
    returns NULL, dlite_instance_get_property_ndims returns -1 and
    dlite_instance_get_property_dimssize returns [(size_t)-1]; otherwise
    each gives the result of its by-index counterpart at that index
    (dlite_instance_get_property_dimssize converted to [size_t]). *)
Theorem instance_accessors_by_name (li lm : loc) (x : DLiteInstance)
    (m : DLiteMeta) (names : list cstr) (name : cstr) (s : state) :
  st_heap s !! li = Some (BInst x) ->
  i_meta x = Some lm ->
  st_heap s !! lm = Some (BMeta m) ->
  property_names (st_heap s) m = Some names ->
  m_nproperties m <= INT_MAX ->
  ((name ∉ names) /\
   dlite_instance_get_property (Some li) name s = Done (Ok None, s) /\
   dlite_instance_get_property_ndims (Some li) name s = Done (Ok (-1), s) /\
   forall j, dlite_instance_get_property_dimssize (Some li) name j s
             = Done (Ok (SIZE_MOD - 1), s)) \/
  (exists i : nat,
     names !! i = Some name /\
     (forall j, (j < i)%nat -> names !! j <> Some name) /\
     dlite_instance_get_property (Some li) name s
     = dlite_instance_get_property_by_index (Some li) (Z.of_nat i) s /\
     dlite_instance_get_property_ndims (Some li) name s
     = dlite_instance_get_property_ndims_by_index (Some li) (Z.of_nat i) s /\
     forall j, dlite_instance_get_property_dimssize (Some li) name j s
               = (r ← dlite_instance_get_property_dimsize_by_index
                        (Some li) (Z.of_nat i) j;
                  mret (r mod SIZE_MOD)) s).
Proof.
  intros Hli Hmeta Hlm Hnames Hmax.
  pose proof (property_index_run lm m names name s Hlm Hnames Hmax) as Hidx.
  pose proof (property_names_length _ _ _ Hnames) as Hlen.
  destruct (first_index_spec name names) as [[E Hno]|(i & E & Hi & Hfirst)];
    rewrite E in Hidx.
  - left. split; [done|].
    assert (dlite_entity_get_property (Some lm) name s = Done (Ok None, s))
      as Hent.
    { unfold dlite_entity_get_property. by rewrite (bind_Ok _ _ _ _ _ Hidx). }
    split; [|split].
    + unfold dlite_instance_get_property.
      rewrite (bind_Ok _ _ _ _ _ (load_inst_ok _ _ _ Hli)), Hmeta.
      by rewrite (bind_Ok _ _ _ _ _ Hidx).
    + unfold dlite_instance_get_property_ndims.
      rewrite (bind_Ok _ _ _ _ _ (load_inst_ok _ _ _ Hli)), Hmeta.
      by rewrite (bind_Ok _ _ _ _ _ Hent).
    + intros j. unfold dlite_instance_get_property_dimssize.
      rewrite (bind_Ok _ _ _ _ _ (load_inst_ok _ _ _ Hli)), Hmeta.
      by rewrite (bind_Ok _ _ _ _ _ Hidx).
  - right. exists i. split; [done|]. split; [done|].
    apply lookup_lt_Some in Hi.
    assert (dlite_entity_get_property (Some lm) name s
            = dlite_entity_get_property_by_index (Some lm) (Z.of_nat i) s)
      as Hent.
    { unfold dlite_entity_get_property, dlite_entity_get_property_by_index.
      rewrite (bind_Ok _ _ _ _ _ Hidx).
      destruct (Z.ltb_spec (Z.of_nat i) 0); [lia|].
      rewrite !(bind_Ok _ _ _ _ _ (load_meta_ok _ _ _ Hlm)).
      by destruct (Z.geb_spec (Z.of_nat i) (m_nproperties m)); [lia|]. }
    split; [|split].
    + unfold dlite_instance_get_property,
        dlite_instance_get_property_by_index.
      rewrite !(bind_Ok _ _ _ _ _ (load_inst_ok _ _ _ Hli)), Hmeta.
      rewrite (bind_Ok _ _ _ _ _ Hidx).
      destruct (Z.ltb_spec (Z.of_nat i) 0); [lia|].
      rewrite !(bind_Ok _ _ _ _ _ (load_meta_ok _ _ _ Hlm)).
      by destruct (Z.geb_spec (Z.of_nat i) (m_nproperties m)); [lia|].
    + unfold dlite_instance_get_property_ndims,
        dlite_instance_get_property_ndims_by_index.
      rewrite !(bind_Ok _ _ _ _ _ (load_inst_ok _ _ _ Hli)), Hmeta.
      unfold mbind, M_bind. by rewrite Hent.
    + intros j. unfold dlite_instance_get_property_dimssize.
      rewrite (bind_Ok _ _ _ _ _ (load_inst_ok _ _ _ Hli)), Hmeta.
      rewrite (bind_Ok _ _ _ _ _ Hidx).
      by destruct (Z.ltb_spec (Z.of_nat i) 0); [lia|].
Qed.

End by_name_facts.


Lemma instance_accessors_by_name_witness :
  exists i : nat,
    [cs "x"] !! i = Some (cs "x") /\
    Lookup.dlite_instance_get_property (Some 30%positive) (cs "x")
      (Mem.State [] Examples.ex_coll_heap)
    = Lookup.dlite_instance_get_property_by_index (Some 30%positive)
        (Z.of_nat i) (Mem.State [] Examples.ex_coll_heap) /\
    Lookup.dlite_instance_get_property_ndims (Some 30%positive) (cs "x")
      (Mem.State [] Examples.ex_coll_heap)
    = Lookup.dlite_instance_get_property_ndims_by_index (Some 30%positive)
        (Z.of_nat i) (Mem.State [] Examples.ex_coll_heap).
Proof.
  destruct (instance_accessors_by_name 30%positive 10%positive
              Examples.ex_inst1 Examples.ex_entity [cs "x"] (cs "x")
              (Mem.State [] Examples.ex_coll_heap))
    as [(Hno & _)|(i & Hi & _ & Hp & Hn & _)].
  - reflexivity.
  - reflexivity.
  - reflexivity.
  - vm_compute. reflexivity.
  - vm_compute. discriminate.
  - exfalso. apply Hno. by left.
  - exists i. split; [exact Hi|]. split; [exact Hp|exact Hn].
Defined.


(** ** dlite-entity.c: destroying an entity *)
Section ownership_facts.
Import Mem Entity Ownership.

Ltac in_list :=
  repeat first [apply list_elem_of_here | apply list_elem_of_further].

Lemma store_ok (l : loc) (b b0 : block) (s : state) :
  st_heap s !! l = Some b0 ->
  store l b s = Done (Ok tt, State (st_oracle s) (<[l:=b]> (st_heap s))).
Proof. unfold store. by intros ->. Qed.

Lemma ptr_locs_cons (p : ptr) (l : list ptr) :
  ptr_locs (p :: l) = ptr_locs [p] ++ ptr_locs l.
Proof. by destruct p. Qed.

Lemma elem_of_ptr_locs (l : list ptr) (x : loc) :
  x ∈ ptr_locs l <-> Some x ∈ l.
Proof.
  unfold ptr_locs. rewrite list_elem_of_omap. split.
  - intros (p & Hp & E). simpl in E. by subst p.
  - intros Hin. by exists (Some x).
Qed.

Lemma property_blocks_inv (h : heap) (p : ptr) (b : list loc) :
  property_blocks h p = Some b ->
  exists lp q, p = Some lp /\ h !! lp = Some (BProps [q]) /\
               b = ptr_locs [p_unit q] ++ struct_blocks (Some lp) q.
Proof.
  unfold property_blocks. destruct p as [lp|]; [|done]. simpl.
  destruct (h !! lp) as [[| | | |[|q [|]]| | | | |]|] eqn:E; try done.
  intros [= <-]. by exists lp, q.
Qed.

Lemma property_blocks_stable (h h' : heap) (p : ptr) (b : list loc) :
  property_blocks h p = Some b ->
  (forall x, x ∈ b -> h' !! x = h !! x) ->
  property_blocks h' p = Some b.
Proof.
  intros (lp & q & -> & Hlp & ->)%property_blocks_inv Hsame.
  unfold property_blocks. simpl. rewrite Hsame, Hlp; [done|].
  apply elem_of_app. right. unfold struct_blocks.
  apply elem_of_ptr_locs. in_list.
Qed.

Lemma blocks_stable (h h' : heap) (ps : list ptr) :
  forall bls,
    mapM (property_blocks h) ps = Some bls ->
    (forall x, x ∈ concat bls -> h' !! x = h !! x) ->
    mapM (property_blocks h') ps = Some bls.
Proof.
  induction ps as [|p ps IH]; intros bls Hm Hsame; [done|].
  apply mapM_Some in Hm.
  apply Forall2_cons_inv_l in Hm as (b & bls' & Hb & Hbls & ->).
  apply mapM_Some. constructor.
  - apply (property_blocks_stable h); [done|]. intros x Hx. apply Hsame.
    simpl. apply elem_of_app. by left.
  - apply mapM_Some. apply IH; [by apply mapM_Some|].
    intros x Hx. apply Hsame. simpl. apply elem_of_app. by right.
Qed.

(** The loop of dlite_entity_clear over the properties in [sfx], which
    are those from index [i] on: it releases their units and resets the
    [unit] fields, and touches nothing else. *)
Lemma clear_units_run (le lpp : loc) (m0 : DLiteMeta) (l : list ptr) :
  m_properties m0 = Some lpp ->
  forall (sfx : list ptr) (i : nat) (s : state) (bls : list (list loc)),
    (forall (j : nat) p, sfx !! j = Some p -> l !! (i + j)%nat = Some p) ->
    st_heap s !! le = Some (BMeta m0) ->
    st_heap s !! lpp = Some (BPropPtrs l) ->
    mapM (property_blocks (st_heap s)) sfx = Some bls ->
    NoDup (le :: lpp :: concat bls) ->
    Forall (fun x => is_Some (st_heap s !! x)) (concat bls) ->
    exists s' bss,
      clear_units le (length sfx) (Z.of_nat i) s = Done (Ok tt, s') /\
      mapM (struct_of (st_heap s')) sfx = Some bss /\
      (forall x, x ∈ concat bss -> x ∈ concat bls) /\
      Forall (fun x => is_Some (st_heap s' !! x)) (concat bss) /\
      NoDup (concat bss) /\
      (forall x, x ∈ concat bls -> x ∉ concat bss ->
                 st_heap s' !! x = None) /\
      (forall x, x ∉ concat bls -> st_heap s' !! x = st_heap s !! x).
Proof.
  intros Hpp. induction sfx as [|p sfx IH];
    intros i s bls Hpos Hle Hlpp Hm Hnd Hall.
  { apply mapM_Some in Hm. apply Forall2_nil_inv_l in Hm as ->.
    exists s, []. repeat split; try done. constructor. }
  pose proof Hm as Hm0.
  apply mapM_Some in Hm.
  apply Forall2_cons_inv_l in Hm as (b & bls' & Hb & Hbls & ->).
  apply mapM_Some in Hbls.
  apply property_blocks_inv in Hb as (lp & q & -> & Hlp & ->).
  cbn [concat] in Hnd, Hall.
  apply NoDup_cons in Hnd as [Hle_nin0 Hnd].
  assert (le ∉ (ptr_locs [p_unit q] ++ struct_blocks (Some lp) q)
               ++ concat bls') as Hle_nin.
  { intros Hin. apply Hle_nin0. by right. }
  assert (le <> lpp) as Hlelpp.
  { intros ->. apply Hle_nin0. by left. }
  apply NoDup_cons in Hnd as [Hlpp_nin Hnd].
  apply NoDup_app in Hnd as (Hndb & Hdisj & Hnd').
  apply Forall_app in Hall as [Hallb Hall'].
  assert (lp ∈ ptr_locs [p_unit q] ++ struct_blocks (Some lp) q) as Hlp_in.
  { apply elem_of_app. right. apply elem_of_ptr_locs. in_list. }
  assert (forall u, p_unit q = Some u ->
            u ∈ ptr_locs [p_unit q] ++ struct_blocks (Some lp) q) as Hu_in.
  { intros u Hu. apply elem_of_app. left. rewrite Hu. by left. }
  assert (lp <> le /\ lp <> lpp) as [Hlple Hlplpp].
  { split; intros E; [apply Hle_nin|apply Hlpp_nin];
      rewrite <- E; apply elem_of_app; by left. }
  (* the body of this iteration *)
  assert (exists s1,
            (match Some lp, p_unit q with
             | Some lp, Some _ =>
                 _ ← free (p_unit q);
                 store lp (BProps (<[O:=set_p_unit None q]> [q]))
             | _, _ => mret tt
             end) s = Done (Ok tt, s1) /\
            st_heap s1 !! lp = Some (BProps [set_p_unit None q]) /\
            (forall u, p_unit q = Some u -> st_heap s1 !! u = None) /\
            (forall x, x <> lp -> p_unit q <> Some x ->
                       st_heap s1 !! x = st_heap s !! x))
    as (s1 & Hbody & Hlp1 & Hu1 & Hframe1).
  { destruct (p_unit q) as [u|] eqn:Hu.
    - assert (u <> lp) as Hulp.
      { intros ->. simpl in Hndb.
        apply NoDup_cons in Hndb as [Hnin _].
        apply Hnin. apply elem_of_ptr_locs. in_list. }
      assert (is_Some (st_heap s !! u)) as [bu Hbu].
      { rewrite Forall_forall in Hallb. by apply Hallb, Hu_in. }
      eexists. split.
      { rewrite (bind_Ok _ _ _ _ _ (free_ok _ _ _ Hbu)).
        apply (store_ok _ _ (BProps [q])). simpl.
        by rewrite lookup_delete_ne. }
      simpl. split; [by rewrite lookup_insert_eq|]. split.
      + intros ? [= <-]. by rewrite lookup_insert_ne, lookup_delete_eq.
      + intros x Hx Hxu. rewrite lookup_insert_ne, lookup_delete_ne; try done.
        intros ->. done.
    - exists s. split; [done|]. split.
      { rewrite Hlp. do 3 f_equal. destruct q. simpl in *. by subst. }
      split; done. }
  assert (forall x, x ∈ concat bls' -> st_heap s1 !! x = st_heap s !! x)
    as Hsame.
  { intros x Hx. apply Hframe1.
    - intros ->. by apply (Hdisj lp).
    - intros Hxu. apply (Hdisj x); [|done]. by apply Hu_in. }
  destruct (IH (S i) s1 bls') as (s' & bss' & Hrun & Hm' & Hsub' & Hall'' & Hnd'' & Hnone' & Hframe').
  { intros j p Hj. replace (S i + j)%nat with (i + S j)%nat by lia.
    by apply Hpos. }
  { rewrite Hframe1; [done|by intros ->|].
    intros Hxu. apply Hle_nin. apply elem_of_app. left. by apply Hu_in. }
  { rewrite Hframe1; [done|by intros ->|].
    intros Hxu. apply Hlpp_nin. apply elem_of_app. left. by apply Hu_in. }
  { by apply (blocks_stable (st_heap s)). }
  { apply NoDup_cons. split.
    { intros [Hin|Hin]%elem_of_cons; [done|].
      apply Hle_nin. apply elem_of_app. by right. }
    apply NoDup_cons. split; [|done].
    intros Hin. apply Hlpp_nin. apply elem_of_app. by right. }
  { rewrite Forall_forall in Hall' |- *. intros x Hx.
    rewrite Hsame by done. by apply Hall'. }
  assert (struct_blocks (Some lp) (set_p_unit None q)
          = struct_blocks (Some lp) q) as Hsb by (by destruct q).
  assert (forall x, x ∈ ptr_locs [p_unit q] ++ struct_blocks (Some lp) q ->
            st_heap s' !! x = st_heap s1 !! x) as Hkeep.
  { intros x Hx. apply Hframe'. by apply Hdisj. }
  apply NoDup_app in Hndb as (Hndu & Hdisju & Hnds).
  exists s', (struct_blocks (Some lp) q :: bss'). split.
  { simpl length. cbn [clear_units].
    rewrite (bind_Ok _ _ _ _ _ (load_meta_ok _ _ _ Hle)), Hpp.
    rewrite (bind_Ok _ _ _ _ _ (load_propptrs_ok _ _ _ Hlpp)).
    rewrite (bind_Ok _ _ s s (Some lp)).
    2:{ apply index_ok; [lia|]. rewrite Nat2Z.id.
        rewrite <- (Nat.add_0_r i). by apply Hpos. }
    rewrite (bind_Ok _ _ _ _ _ (load_props_ok _ _ _ Hlp)).
    rewrite (bind_Ok _ _ s s q) by done.
    rewrite (bind_Ok _ _ _ _ _ Hbody).
    replace (Z.of_nat i + 1) with (Z.of_nat (S i)) by lia. exact Hrun. }
  cbn [concat]. split.
  { apply mapM_Some. constructor; [|by apply mapM_Some].
    simpl. by rewrite Hkeep, Hlp1, Hsb. }
  split.
  { intros x [Hx|Hx]%elem_of_app; apply elem_of_app.
    - left. apply elem_of_app. by right.
    - right. by apply Hsub'. }
  split.
  { apply Forall_app. split; [|done].
    apply Forall_forall. intros x Hx.
    rewrite Hkeep by (apply elem_of_app; by right).
    destruct (decide (x = lp)) as [->|Hxlp]; [by rewrite Hlp1|].
    rewrite Hframe1; [|done|].
    - rewrite Forall_forall in Hallb. apply Hallb.
      apply elem_of_app. by right.
    - intros Hxu. apply (Hdisju x); [|done]. rewrite Hxu. by left. }
  split.
  { apply NoDup_app. split; [done|]. split; [|done].
    intros x Hx Hx'. apply (Hdisj x); [|by apply Hsub'].
    apply elem_of_app. by right. }
  split.
  { intros x Hx Hnin.
    apply elem_of_app in Hx as [Hx|Hx].
    - rewrite Hkeep by done.
      apply elem_of_app in Hx as [Hx|Hx].
      + apply Hu1. destruct (p_unit q) as [u|]; simpl in Hx.
        * by apply list_elem_of_singleton in Hx as ->.
        * by apply elem_of_nil in Hx.
      + exfalso. apply Hnin. apply elem_of_app. by left.
    - apply Hnone'; [done|]. intros Hx'. apply Hnin.
      apply elem_of_app. by right. }
  intros x Hx. rewrite Hframe'.
  2:{ intros Hx'. apply Hx. apply elem_of_app. by right. }
  apply Hframe1.
  - intros ->. apply Hx. apply elem_of_app. by left.
  - intros Hxu. apply Hx. apply elem_of_app. left. by apply Hu_in.
Qed.


Local Abbreviation released L h h' :=
  (forall x : loc, h' !! x = if decide (x ∈ L) then None else h !! x).

Local Abbreviation allocated h :=
  (Forall (fun x : loc => is_Some (h !! x))).

(** One [free] in a run of them: [L] are the blocks already released
    from [h0], [rest] and [R] those still to come. *)
Lemma free_chain (p : ptr) (rest : list ptr) (R L : list loc) (h0 : heap)
    (s : state) :
  released L h0 (st_heap s) ->
  NoDup (L ++ ptr_locs (p :: rest) ++ R) ->
  allocated h0 (ptr_locs (p :: rest) ++ R) ->
  exists s1,
    free p s = Done (Ok tt, s1) /\
    released (L ++ ptr_locs [p]) h0 (st_heap s1) /\
    NoDup ((L ++ ptr_locs [p]) ++ ptr_locs rest ++ R) /\
    allocated h0 (ptr_locs rest ++ R).
Proof.
  intros Hrel Hnd Hall.
  rewrite ptr_locs_cons, <- app_assoc in Hnd, Hall.
  apply Forall_app in Hall as [Hp Hall].
  rewrite app_assoc in Hnd.
  destruct p as [l|].
  - change (ptr_locs [Some l]) with [l] in *.
    apply Forall_inv in Hp as [b Hb].
    assert (l ∉ L) as Hnin.
    { apply NoDup_app in Hnd as [Hnd _].
      apply NoDup_app in Hnd as (_ & Hd & _). intros Hin.
      apply (Hd l Hin). by left. }
    assert (st_heap s !! l = Some b) as Hl.
    { rewrite Hrel. by rewrite decide_False. }
    eexists. split; [by apply (free_ok _ _ _ Hl)|]. simpl.
    split; [|done]. intros x.
    destruct (decide (x = l)) as [->|Hx].
    + rewrite lookup_delete_eq, decide_True; [done|].
      apply elem_of_app. right. by left.
    + rewrite lookup_delete_ne, Hrel by done.
      destruct (decide (x ∈ L)) as [Hin|Hin].
      * rewrite decide_True; [done|]. apply elem_of_app. by left.
      * rewrite decide_False; [done|].
        intros [?|?%list_elem_of_singleton]%elem_of_app; done.
  - change (ptr_locs [None]) with (@nil loc) in *.
    rewrite app_nil_r in *. by exists s.
Qed.

Lemma free_step {B} (p : ptr) (rest : list ptr) (R L : list loc)
    (h0 : heap) (k : M B) (s : state) :
  released L h0 (st_heap s) ->
  NoDup (L ++ ptr_locs (p :: rest) ++ R) ->
  allocated h0 (ptr_locs (p :: rest) ++ R) ->
  exists s1,
    (_ ← free p; k) s = k s1 /\
    released (L ++ ptr_locs [p]) h0 (st_heap s1) /\
    NoDup ((L ++ ptr_locs [p]) ++ ptr_locs rest ++ R) /\
    allocated h0 (ptr_locs rest ++ R).
Proof.
  intros Hrel Hnd Hall.
  destruct (free_chain p rest R L h0 s Hrel Hnd Hall)
    as (s1 & Hrun & Hrest).
  exists s1. split; [|done]. by rewrite (bind_Ok _ _ _ _ _ Hrun).
Qed.

(** The loop of dlite_meta_clear over the entries [sfx] of
    [meta->properties] releases the blocks of their structs. *)
Lemma clear_properties_run (l : list ptr) (h0 : heap) (R : list loc) :
  forall (sfx : list ptr) (i : nat) (s : state) (bls : list (list loc))
         (L : list loc),
    (forall (j : nat) p, sfx !! j = Some p -> l !! (i + j)%nat = Some p) ->
    mapM (struct_of h0) sfx = Some bls ->
    released L h0 (st_heap s) ->
    NoDup (L ++ concat bls ++ R) ->
    allocated h0 (concat bls ++ R) ->
    exists s',
      clear_properties l (length sfx) (Z.of_nat i) s = Done (Ok tt, s') /\
      released (L ++ concat bls) h0 (st_heap s').
Proof.
  induction sfx as [|p sfx IH]; intros i s bls L Hpos Hm Hrel Hnd Hall.
  { apply mapM_Some in Hm. apply Forall2_nil_inv_l in Hm as ->.
    exists s. split; [done|]. simpl. by rewrite app_nil_r. }
  apply mapM_Some in Hm.
  apply Forall2_cons_inv_l in Hm as (b & bls' & Hb & Hbls & ->).
  apply mapM_Some in Hbls.
  cbn [concat] in Hnd, Hall |- *. rewrite <- app_assoc in Hnd, Hall.
  assert (l !! i = Some p) as Hi.
  { rewrite <- (Nat.add_0_r i). by apply Hpos. }
  assert (forall (j : nat) p, sfx !! j = Some p ->
            l !! (S i + j)%nat = Some p) as Hpos'.
  { intros j p' Hj. replace (S i + j)%nat with (i + S j)%nat by lia.
    by apply Hpos. }
  assert (exists s1,
            (match p with
             | None => mret tt
             | Some _ =>
                 ps ← load_props p;
                 q ← index ps 0;
                 _ ← free (p_name q);
                 _ ← free (p_dims q);
                 _ ← free (p_description q);
                 free p
             end) s = Done (Ok tt, s1) /\
            released (L ++ b) h0 (st_heap s1)) as (s1 & Hbody & Hrel1).
  { destruct p as [lp|]; simpl in Hb.
    - destruct (h0 !! lp) as [[| | | |[|q [|]]| | | | |]|] eqn:Hlp;
        try done.
      injection Hb as <-. unfold struct_blocks in *.
      assert (st_heap s !! lp = Some (BProps [q])) as Hlp'.
      { rewrite Hrel, decide_False; [done|]. intros Hin.
        apply NoDup_app in Hnd as (_ & Hd & _). apply (Hd lp Hin).
        apply elem_of_app. left. apply elem_of_ptr_locs. in_list. }
      rewrite (bind_Ok _ _ _ _ _ (load_props_ok _ _ _ Hlp')).
      rewrite (bind_Ok _ _ s s q) by done.
      destruct (free_step (p_name q) _ _ L h0
                  (_ ← free (p_dims q); _ ← free (p_description q);
                   free (Some lp)) s Hrel Hnd Hall)
        as (s1 & -> & Hrel1 & Hnd1 & Hall1).
      destruct (free_step (p_dims q) _ _ _ h0
                  (_ ← free (p_description q); free (Some lp))
                  s1 Hrel1 Hnd1 Hall1)
        as (s2 & -> & Hrel2 & Hnd2 & Hall2).
      destruct (free_step (p_description q) _ _ _ h0
                  (free (Some lp)) s2 Hrel2 Hnd2 Hall2)
        as (s3 & -> & Hrel3 & Hnd3 & Hall3).
      destruct (free_chain (Some lp) _ _ _ h0 s3 Hrel3 Hnd3 Hall3)
        as (s4 & Hrun4 & Hrel4 & _).
      exists s4. split; [done|].
      rewrite (ptr_locs_cons (p_name q)), (ptr_locs_cons (p_dims q)),
        (ptr_locs_cons (p_description q)), !app_assoc.
      exact Hrel4.
    - injection Hb as <-. exists s. split; [done|]. by rewrite app_nil_r. }
  destruct (IH (S i) s1 bls' (L ++ b)) as (s' & Hrun & Hrel');
    try done.
  { by rewrite <- app_assoc. }
  { by apply Forall_app in Hall as [_ ?]. }
  exists s'. split.
  - simpl length. cbn [clear_properties].
    rewrite (bind_Ok _ _ s s p).
    2:{ apply index_ok; [lia|]. by rewrite Nat2Z.id. }
    rewrite (bind_Ok _ _ _ _ _ Hbody).
    replace (Z.of_nat i + 1) with (Z.of_nat (S i)) by lia. exact Hrun.
  - by rewrite app_assoc.
Qed.

(** dlite_meta_clear releases the blocks of the metadata and zeroes the
    struct. *)
Lemma meta_clear_run (le : loc) (m0 : DLiteMeta) (bl : list loc)
    (s : state) :
  st_heap s !! le = Some (BMeta m0) ->
  meta_blocks (st_heap s) m0 = Some bl ->
  NoDup (le :: bl) ->
  allocated (st_heap s) bl ->
  exists s',
    dlite_meta_clear le s = Done (Ok tt, s') /\
    forall x, st_heap s' !! x
              = if decide (x ∈ bl) then None
                else if decide (x = le) then Some (BMeta zero_meta)
                else st_heap s !! x.
Proof.
  intros Hle Hbl Hnd Hall. unfold meta_blocks in Hbl.
  destruct (meta_properties_blocks (st_heap s) m0) as [props|] eqn:Hprops;
    [|done].
  assert (bl = ptr_locs [m_uri m0; m_description m0; m_propoffsets m0;
                         m_dimensions m0]
               ++ props ++ ptr_locs [m_properties m0; m_relations m0])
    as -> by (cbn [mbind option_bind] in Hbl; congruence).
  clear Hbl.
  apply NoDup_cons in Hnd as [Hle_nin Hnd].
  set (h0 := st_heap s) in *.
  assert (released [] h0 (st_heap s)) as Hrel.
  { intros x. rewrite decide_False; [done|]. apply not_elem_of_nil. }
  unfold dlite_meta_clear.
  rewrite (bind_Ok _ _ _ _ _ (load_meta_ok _ _ _ Hle)).
  destruct (free_step (m_uri m0) _ _ [] h0
              (_ ← free (m_description m0);
               _ ← free (m_propoffsets m0);
               _ ← free (m_dimensions m0);
               _ ← (match m_properties m0 with
                    | None => mret tt
                    | Some _ =>
                        l ← load_propptrs (m_properties m0);
                        _ ← clear_properties l
                              (Z.to_nat (m_nproperties m0)) 0;
                        free (m_properties m0)
                    end);
               _ ← free (m_relations m0);
               store le (BMeta zero_meta)) s Hrel Hnd Hall)
    as (s1 & -> & Hrel1 & Hnd1 & Hall1).
  destruct (free_step (m_description m0) _ _ _ h0
              (_ ← free (m_propoffsets m0);
               _ ← free (m_dimensions m0);
               _ ← (match m_properties m0 with
                    | None => mret tt
                    | Some _ =>
                        l ← load_propptrs (m_properties m0);
                        _ ← clear_properties l
                              (Z.to_nat (m_nproperties m0)) 0;
                        free (m_properties m0)
                    end);
               _ ← free (m_relations m0);
               store le (BMeta zero_meta)) s1 Hrel1 Hnd1 Hall1)
    as (s2 & -> & Hrel2 & Hnd2 & Hall2).
  destruct (free_step (m_propoffsets m0) _ _ _ h0
              (_ ← free (m_dimensions m0);
               _ ← (match m_properties m0 with
                    | None => mret tt
                    | Some _ =>
                        l ← load_propptrs (m_properties m0);
                        _ ← clear_properties l
                              (Z.to_nat (m_nproperties m0)) 0;
                        free (m_properties m0)
                    end);
               _ ← free (m_relations m0);
               store le (BMeta zero_meta)) s2 Hrel2 Hnd2 Hall2)
    as (s3 & -> & Hrel3 & Hnd3 & Hall3).
  destruct (free_step (m_dimensions m0) _ _ _ h0
              (_ ← (match m_properties m0 with
                    | None => mret tt
                    | Some _ =>
                        l ← load_propptrs (m_properties m0);
                        _ ← clear_properties l
                              (Z.to_nat (m_nproperties m0)) 0;
                        free (m_properties m0)
                    end);
               _ ← free (m_relations m0);
               store le (BMeta zero_meta)) s3 Hrel3 Hnd3 Hall3)
    as (s4 & -> & Hrel4 & Hnd4 & Hall4).
  set (L4 := (([] ++ ptr_locs [m_uri m0]) ++ ptr_locs [m_description m0])
               ++ ptr_locs [m_propoffsets m0]) in *.
  set (L5 := L4 ++ ptr_locs [m_dimensions m0]) in *.
  change (ptr_locs []) with (@nil loc) in Hnd4, Hall4.
  rewrite app_nil_l in Hnd4, Hall4.
  rewrite (ptr_locs_cons (m_properties m0)) in Hnd4, Hall4.
  assert (exists s5,
            (match m_properties m0 with
             | None => mret tt
             | Some _ =>
                 l ← load_propptrs (m_properties m0);
                 _ ← clear_properties l (Z.to_nat (m_nproperties m0)) 0;
                 free (m_properties m0)
             end) s4 = Done (Ok tt, s5) /\
            released ((L5 ++ props) ++ ptr_locs [m_properties m0]) h0
              (st_heap s5))
    as (s5 & Hblock & Hrel5).
  { unfold meta_properties_blocks in Hprops.
    destruct (m_properties m0) as [lpp|] eqn:Hpp.
    - destruct (h0 !! lpp) as [[| | | | |l| | | |]|] eqn:Hlpp; try done.
      destruct (Z.ltb_spec (Zlen l) (m_nproperties m0)) as [|Hlen];
        [done|].
      destruct (mapM (struct_of h0) (take (Z.to_nat (m_nproperties m0)) l))
        as [bls|] eqn:Hm; [|done].
      simpl in Hprops. injection Hprops as <-.
      assert (st_heap s4 !! lpp = Some (BPropPtrs l)) as Hlpp4.
      { rewrite Hrel4, decide_False; [done|]. intros Hin.
        apply NoDup_app in Hnd4 as (_ & Hd & _). apply (Hd lpp Hin).
        apply elem_of_app. right. apply elem_of_app. left. by left. }
      rewrite (bind_Ok _ _ _ _ _ (load_propptrs_ok _ _ _ Hlpp4)).
      assert (length (take (Z.to_nat (m_nproperties m0)) l)
              = Z.to_nat (m_nproperties m0)) as Hlt.
      { rewrite length_take. unfold Zlen in Hlen. lia. }
      destruct (clear_properties_run l h0
                  (ptr_locs [Some lpp] ++ ptr_locs [m_relations m0])
                  (take (Z.to_nat (m_nproperties m0)) l) 0 s4 bls L5)
        as (s' & Hrun & Hrel'); try done.
      { intros j p Hj. rewrite lookup_take in Hj.
        by destruct (decide _). }
      rewrite Hlt in Hrun. change (Z.of_nat 0) with 0 in Hrun.
      rewrite (bind_Ok _ _ _ _ _ Hrun).
      destruct (free_chain (Some lpp) [m_relations m0] [] (L5 ++ concat bls)
                  h0 s' Hrel')
        as (s5 & Hrun5 & Hrel5 & _).
      { rewrite ptr_locs_cons, app_nil_r, <- app_assoc. exact Hnd4. }
      { rewrite ptr_locs_cons, app_nil_r.
        by apply Forall_app in Hall4 as [_ ?]. }
      by exists s5.
    - injection Hprops as <-. exists s4. split; [done|].
      change (ptr_locs [None]) with (@nil loc). by rewrite !app_nil_r. }
  rewrite (bind_Ok _ _ _ _ _ Hblock).
  destruct (free_step (m_relations m0) [] [] _ h0
              (store le (BMeta zero_meta)) s5 Hrel5)
    as (s6 & -> & Hrel6 & _).
  { rewrite !app_nil_r, <- !app_assoc. exact Hnd4. }
  { rewrite !app_nil_r.
    apply Forall_app in Hall4 as [_ Hall4].
    by apply Forall_app in Hall4 as [_ ?]. }
  assert (((L5 ++ props) ++ ptr_locs [m_properties m0])
            ++ ptr_locs [m_relations m0]
          = ptr_locs [m_uri m0; m_description m0; m_propoffsets m0;
                      m_dimensions m0]
              ++ props ++ ptr_locs [m_properties m0; m_relations m0])
    as HL.
  { unfold L5, L4.
    rewrite (ptr_locs_cons (m_uri m0) (_ :: _)),
      (ptr_locs_cons (m_description m0) (_ :: _)),
      (ptr_locs_cons (m_propoffsets m0) (_ :: _)),
      (ptr_locs_cons (m_properties m0) (_ :: _)).
    rewrite app_nil_l. by rewrite <- !app_assoc. }
  rewrite HL in Hrel6.
  assert (is_Some (st_heap s6 !! le)) as [b6 Hle6].
  { rewrite Hrel6, decide_False by done. by rewrite Hle. }
  eexists. split; [by apply (store_ok _ _ b6)|]. simpl. intros x.
  destruct (decide (x ∈ _)) as [Hin|Hnin].
  - rewrite lookup_insert_ne by (by intros <-).
    by rewrite Hrel6, decide_True.
  - destruct (decide (x = le)) as [->|Hx].
    + by rewrite lookup_insert_eq.
    + rewrite lookup_insert_ne by done. by rewrite Hrel6, decide_False.
Qed.

Lemma decref_live_fuel (fuel : nat) (lm : loc) (m : DLiteMeta) (s : state) :
  st_heap s !! lm = Some (BMeta m) ->
  2 <= m_refcount m ->
  dlite_meta_decref_fuel fuel (Some lm) s
  = Done (Ok tt,
          State (st_oracle s)
            (<[lm:=BMeta (set_m_refcount (m_refcount m - 1) m)]> (st_heap s))).
Proof.
  intros Hlm Hr.
  destruct fuel as [|fuel]; simpl;
    rewrite (bind_Ok _ _ _ _ _ (load_meta_ok _ _ _ Hlm));
    (destruct (Z.leb_spec (m_refcount m) (- INT_MAX - 1));
     [unfold INT_MAX in *; lia|]);
    unfold mbind, M_bind, store; rewrite Hlm;
    (destruct (Z.leb_spec (m_refcount m - 1) 0); [lia|done]).
Qed.

Lemma struct_of_stable (h h' : heap) (p : ptr) (b : list loc) :
  struct_of h p = Some b ->
  (forall x, x ∈ b -> h' !! x = h !! x) ->
  struct_of h' p = Some b.
Proof.
  destruct p as [lp|]; [|done]. simpl. intros Hb Hsame.
  destruct (h !! lp) as [[| | | |[|q [|]]| | | | |]|] eqn:Hlp; try done.
  injection Hb as <-. rewrite Hsame, Hlp; [done|].
  apply elem_of_ptr_locs. in_list.
Qed.

Lemma structs_stable (h h' : heap) (ps : list ptr) :
  forall bls,
    mapM (struct_of h) ps = Some bls ->
    (forall x, x ∈ concat bls -> h' !! x = h !! x) ->
    mapM (struct_of h') ps = Some bls.
Proof.
  induction ps as [|p ps IH]; intros bls Hm Hsame; [done|].
  apply mapM_Some in Hm.
  apply Forall2_cons_inv_l in Hm as (b & bls' & Hb & Hbls & ->).
  apply mapM_Some. constructor.
  - apply (struct_of_stable h); [done|]. intros x Hx. apply Hsame.
    simpl. apply elem_of_app. by left.
  - apply mapM_Some. apply IH; [by apply mapM_Some|].
    intros x Hx. apply Hsame. simpl. apply elem_of_app. by right.
Qed.

(** The blocks of a metadata depend on its pointers and on the heap at
    these blocks only. *)
Lemma meta_blocks_stable (h h' : heap) (m m' : DLiteMeta) (bl : list loc) :
  meta_blocks h m = Some bl ->
  (forall x, x ∈ bl -> h' !! x = h !! x) ->
  m_uri m' = m_uri m -> m_description m' = m_description m ->
  m_propoffsets m' = m_propoffsets m -> m_dimensions m' = m_dimensions m ->
  m_properties m' = m_properties m -> m_relations m' = m_relations m ->
  m_nproperties m' = m_nproperties m ->
  meta_blocks h' m' = Some bl.
Proof.
  intros Hbl Hsame E1 E2 E3 E4 E5 E6 E7. unfold meta_blocks in *.
  rewrite E1, E2, E3, E4, E5, E6.
  destruct (meta_properties_blocks h m) as [props|] eqn:Hprops; [|done].
  assert (bl = ptr_locs [m_uri m; m_description m; m_propoffsets m;
                         m_dimensions m]
               ++ props ++ ptr_locs [m_properties m; m_relations m])
    as -> by (cbn [mbind option_bind] in Hbl; congruence).
  clear Hbl.
  assert (meta_properties_blocks h' m' = Some props) as ->; [|done].
  unfold meta_properties_blocks in *. rewrite E5, E7.
  destruct (m_properties m) as [lpp|] eqn:Hpp; [|done].
  rewrite Hsame.
  2:{ apply elem_of_app. right. apply elem_of_app. right.
      apply elem_of_ptr_locs. by left. }
  destruct (h !! lpp) as [[| | | | |l| | | |]|] eqn:Hlpp; try done.
  destruct (Zlen l <? m_nproperties m); [done|].
  destruct (mapM (struct_of h) (take (Z.to_nat (m_nproperties m)) l))
    as [bls|] eqn:Hm; [|done].
  cbn [mbind option_bind] in Hprops. injection Hprops as <-.
  rewrite (structs_stable h h' _ bls Hm); [done|].
  intros x Hx. apply Hsame. apply elem_of_app. right.
  apply elem_of_app. by left.
Qed.

(** Dropping the last reference to a metadata whose own metadata stays
    alive. *)
Lemma meta_decref_post (le lmeta : loc) (m mm : DLiteMeta) (bl : list loc)
    (s : state) :
  st_heap s !! le = Some (BMeta m) ->
  - INT_MAX - 1 < m_refcount m <= 1 ->
  m_meta m = Some lmeta ->
  st_heap s !! lmeta = Some (BMeta mm) ->
  2 <= m_refcount mm ->
  meta_blocks (st_heap s) m = Some bl ->
  NoDup (le :: lmeta :: bl) ->
  allocated (st_heap s) bl ->
  exists s',
    dlite_meta_decref (Some le) s = Done (Ok tt, s') /\
    forall x, st_heap s' !! x
              = if decide (x ∈ le :: bl) then None
                else if decide (x = lmeta)
                     then Some (BMeta (set_m_refcount (m_refcount mm - 1) mm))
                     else st_heap s !! x.
Proof.
  intros Hle Hr Hmeta Hlmeta Hrr Hbl Hnd Hall.
  apply NoDup_cons in Hnd as [Hle_nin Hnd].
  apply NoDup_cons in Hnd as [Hlmeta_nin Hnd].
  assert (le <> lmeta) as Hne by (intros ->; apply Hle_nin; by left).
  assert (le ∉ bl) as Hle_bl by (intros ?; apply Hle_nin; by right).
  unfold dlite_meta_decref.
  destruct (size (st_heap s)) as [|fuel] eqn:Hsize.
  { apply map_size_empty_iff in Hsize. by rewrite Hsize in Hle. }
  cbn [dlite_meta_decref_fuel].
  rewrite (bind_Ok _ _ _ _ _ (load_meta_ok _ _ _ Hle)).
  destruct (Z.leb_spec (m_refcount m) (- INT_MAX - 1)); [lia|].
  set (m1 := set_m_refcount (m_refcount m - 1) m).
  rewrite (bind_Ok _ _ _ _ _ (store_ok le (BMeta m1) _ s Hle)).
  destruct (Z.leb_spec (m_refcount m - 1) 0); [|lia].
  set (s1 := State (st_oracle s) (<[le:=BMeta m1]> (st_heap s))).
  assert (st_heap s1 !! lmeta = Some (BMeta mm)) as Hlmeta1.
  { simpl. by rewrite lookup_insert_ne. }
  rewrite Hmeta.
  rewrite (bind_Ok _ _ _ _ _ (decref_live_fuel fuel lmeta mm s1 Hlmeta1 Hrr)).
  set (mm1 := set_m_refcount (m_refcount mm - 1) mm).
  set (s2 := State (st_oracle s1) (<[lmeta:=BMeta mm1]> (st_heap s1))).
  assert (forall x, x <> le -> x <> lmeta ->
            st_heap s2 !! x = st_heap s !! x) as Hsame.
  { intros x H1 H2. simpl. by rewrite !lookup_insert_ne. }
  assert (st_heap s2 !! le = Some (BMeta m1)) as Hle2.
  { simpl. by rewrite lookup_insert_ne, lookup_insert_eq. }
  assert (forall x, x ∈ bl -> st_heap s2 !! x = st_heap s !! x) as Hsame_bl.
  { intros x Hx. apply Hsame; by intros ->. }
  destruct (meta_clear_run le m1 bl s2) as (s3 & Hclear & Hh3); try done.
  { by apply (meta_blocks_stable (st_heap s) _ m). }
  { by apply NoDup_cons. }
  { rewrite Forall_forall in Hall |- *. intros x Hx.
    rewrite Hsame_bl by done. by apply Hall. }
  rewrite (bind_Ok _ _ _ _ _ Hclear).
  assert (st_heap s3 !! le = Some (BMeta zero_meta)) as Hle3.
  { rewrite Hh3, decide_False, decide_True; done. }
  eexists. split; [by apply (free_ok _ _ _ Hle3)|]. simpl. intros x.
  destruct (decide (x = le)) as [->|Hx].
  { rewrite lookup_delete_eq, decide_True; [done|by left]. }
  rewrite lookup_delete_ne, Hh3 by done.
  destruct (decide (x ∈ bl)) as [Hin|Hnin].
  { rewrite decide_True; [done|by right]. }
  rewrite (decide_False (P := x = le)) by done.
  rewrite (decide_False (P := x ∈ le :: bl)).
  2:{ intros Hin. by apply elem_of_cons in Hin as [?|?]. }
  unfold s2, s1. simpl.
  destruct (decide (x = lmeta)) as [->|Hxm].
  - by rewrite lookup_insert_eq.
  - by rewrite !lookup_insert_ne.
Qed.

Lemma properties_blocks_stable (h h' : heap) (m m' : DLiteMeta)
    (props : list loc) :
  properties_blocks h m = Some props ->
  (forall x, x ∈ props ++ ptr_locs [m_properties m] -> h' !! x = h !! x) ->
  m_properties m' = m_properties m ->
  m_nproperties m' = m_nproperties m ->
  properties_blocks h' m' = Some props.
Proof.
  intros Hprops Hsame E1 E2. unfold properties_blocks in *.
  rewrite E1, E2.
  destruct (m_properties m) as [lpp|] eqn:Hpp; [|done].
  rewrite Hsame by (apply elem_of_app; right; by left).
  destruct (h !! lpp) as [[| | | | |l| | | |]|] eqn:Hlpp; try done.
  destruct (Zlen l <? m_nproperties m); [done|].
  destruct (mapM (property_blocks h) (take (Z.to_nat (m_nproperties m)) l))
    as [bls|] eqn:Hm; [|done].
  cbn [mbind option_bind] in Hprops. injection Hprops as <-.
  rewrite (blocks_stable h h' _ bls Hm); [done|].
  intros x Hx. apply Hsame. apply elem_of_app. by left.
Qed.

(** The loop of dlite_entity_clear, run over all the properties of the
    entity: what is left are the blocks dlite_meta_clear releases. *)
Lemma entity_units_run (le : loc) (m1 : DLiteMeta) (props : list loc)
    (s : state) :
  st_heap s !! le = Some (BMeta m1) ->
  properties_blocks (st_heap s) m1 = Some props ->
  NoDup (le :: props ++ ptr_locs [m_properties m1]) ->
  allocated (st_heap s) props ->
  exists s3 props_s,
    clear_units le (Z.to_nat (m_nproperties m1)) 0 s = Done (Ok tt, s3) /\
    meta_properties_blocks (st_heap s3) m1 = Some props_s /\
    (forall x, x ∈ props_s -> x ∈ props) /\
    allocated (st_heap s3) props_s /\
    NoDup props_s /\
    (forall x, x ∈ props -> x ∉ props_s -> st_heap s3 !! x = None) /\
    (forall x, x ∉ props -> st_heap s3 !! x = st_heap s !! x).
Proof.
  intros Hle Hprops Hnd Hall.
  unfold properties_blocks in Hprops. unfold meta_properties_blocks.
  destruct (m_properties m1) as [lpp|] eqn:Hpp.
  - destruct (st_heap s !! lpp) as [[| | | | |l| | | |]|] eqn:Hlpp;
      try done.
    destruct (Z.ltb_spec (Zlen l) (m_nproperties m1)) as [|Hlen]; [done|].
    destruct (mapM (property_blocks (st_heap s))
                (take (Z.to_nat (m_nproperties m1)) l))
      as [bls|] eqn:Hm; [|done].
    cbn [mbind option_bind] in Hprops. injection Hprops as <-.
    change (ptr_locs [Some lpp]) with [lpp] in Hnd.
    apply NoDup_cons in Hnd as [Hle_nin Hnd].
    apply NoDup_app in Hnd as (Hndp & Hdisj & _).
    assert (lpp ∉ concat bls) as Hlpp_nin.
    { intros Hin. apply (Hdisj lpp Hin). by left. }
    assert (length (take (Z.to_nat (m_nproperties m1)) l)
            = Z.to_nat (m_nproperties m1)) as Hlt.
    { rewrite length_take. unfold Zlen in Hlen. lia. }
    destruct (clear_units_run le lpp m1 l Hpp
                (take (Z.to_nat (m_nproperties m1)) l) 0 s bls)
      as (s3 & bss & Hrun & Hm3 & Hsub & Hall3 & Hnd3 & Hnone & Hframe);
      try done.
    { intros j p Hj. rewrite lookup_take in Hj. by destruct (decide _). }
    { apply NoDup_cons. split.
      - intros [->|Hin]%elem_of_cons.
        + apply Hle_nin. apply elem_of_app. right. by left.
        + apply Hle_nin. apply elem_of_app. by left.
      - by apply NoDup_cons. }
    rewrite Hlt in Hrun. change (Z.of_nat 0) with 0 in Hrun.
    exists s3, (concat bss). split; [done|].
    rewrite (Hframe lpp Hlpp_nin), Hlpp.
    destruct (Z.ltb_spec (Zlen l) (m_nproperties m1)); [lia|].
    by rewrite Hm3.
  - destruct (m_nproperties m1 <=? 0) eqn:Hn; [|done].
    injection Hprops as <-.
    apply Z.leb_le in Hn.
    replace (Z.to_nat (m_nproperties m1)) with 0%nat by lia.
    exists s, []. repeat split; try done. constructor.
Qed.

Lemma NoDup_middle {A} (l1 l2 l2' l3 : list A) :
  NoDup (l1 ++ l2 ++ l3) ->
  NoDup l2' ->
  (forall x, x ∈ l2' -> x ∈ l2) ->
  NoDup (l1 ++ l2' ++ l3).
Proof.
  intros (H1 & H12 & H23)%NoDup_app H2' Hsub.
  apply NoDup_app in H23 as (H2 & Hd23 & H3).
  apply NoDup_app. split; [done|]. split.
  - intros x Hx [Hin|Hin]%elem_of_app; apply (H12 x Hx), elem_of_app.
    + left. by apply Hsub.
    + by right.
  - apply NoDup_app. split; [done|]. split; [|done].
    intros x Hx. apply Hd23. by apply Hsub.
Qed.

(** Dropping the last reference to an entity whose schema stays
    alive. *)
Lemma entity_decref_post (le lmeta : loc) (m mm : DLiteMeta)
    (bl : list loc) (s : state) :
  st_heap s !! le = Some (BMeta m) ->
  - INT_MAX - 1 < m_refcount m <= 1 ->
  m_meta m = Some lmeta ->
  st_heap s !! lmeta = Some (BMeta mm) ->
  2 <= m_refcount mm ->
  entity_blocks (st_heap s) m = Some bl ->
  NoDup (le :: lmeta :: bl) ->
  allocated (st_heap s) bl ->
  exists s',
    dlite_entity_decref (Some le) s = Done (Ok tt, s') /\
    forall x, st_heap s' !! x
              = if decide (x ∈ le :: bl) then None
                else if decide (x = lmeta)
                     then Some (BMeta (set_m_refcount (m_refcount mm - 1) mm))
                     else st_heap s !! x.
Proof.
  intros Hle Hr Hmeta Hlmeta Hrr Hbl Hnd Hall.
  unfold entity_blocks in Hbl.
  destruct (properties_blocks (st_heap s) m) as [props|] eqn:Hprops;
    [|done].
  set (F1 := ptr_locs [m_uri m; m_description m; m_propoffsets m;
                       m_dimensions m]) in *.
  assert (bl = F1 ++ props ++ ptr_locs [m_properties m; m_relations m])
    as -> by (cbn [mbind option_bind] in Hbl; congruence).
  clear Hbl.
  rewrite (ptr_locs_cons (m_properties m) (_ :: _)) in *.
  set (F2 := ptr_locs [m_relations m]) in *.
  set (bl := F1 ++ props ++ ptr_locs [m_properties m] ++ F2) in *.
  apply NoDup_cons in Hnd as [Hle_nin Hnd].
  apply NoDup_cons in Hnd as [Hlmeta_nin Hnd].
  assert (le <> lmeta) as Hne by (intros ->; apply Hle_nin; by left).
  assert (le ∉ bl) as Hle_bl by (intros ?; apply Hle_nin; by right).
  unfold dlite_entity_decref.
  rewrite (bind_Ok _ _ _ _ _ (load_meta_ok _ _ _ Hle)).
  destruct (Z.leb_spec (m_refcount m) (- INT_MAX - 1)); [lia|].
  set (m1 := set_m_refcount (m_refcount m - 1) m).
  rewrite (bind_Ok _ _ _ _ _ (store_ok le (BMeta m1) _ s Hle)).
  destruct (Z.leb_spec (m_refcount m - 1) 0); [|lia].
  set (s1 := State (st_oracle s) (<[le:=BMeta m1]> (st_heap s))).
  assert (st_heap s1 !! lmeta = Some (BMeta mm)) as Hlmeta1.
  { simpl. by rewrite lookup_insert_ne. }
  rewrite Hmeta.
  rewrite (bind_Ok _ _ _ _ _ (decref_live lmeta mm s1 Hlmeta1 Hrr)).
  set (mm1 := set_m_refcount (m_refcount mm - 1) mm).
  set (s2 := State (st_oracle s1) (<[lmeta:=BMeta mm1]> (st_heap s1))).
  assert (forall x, x <> le -> x <> lmeta ->
            st_heap s2 !! x = st_heap s !! x) as Hsame.
  { intros x H1 H2. simpl. by rewrite !lookup_insert_ne. }
  assert (st_heap s2 !! le = Some (BMeta m1)) as Hle2.
  { simpl. by rewrite lookup_insert_ne, lookup_insert_eq. }
  assert (forall x, x ∈ bl -> st_heap s2 !! x = st_heap s !! x) as Hsame_bl.
  { intros x Hx. apply Hsame; by intros ->. }
  assert (forall x, x ∈ props ++ ptr_locs [m_properties m] -> x ∈ bl)
    as Hmid.
  { intros x Hx. unfold bl. apply elem_of_app. right.
    rewrite app_assoc. apply elem_of_app. by left. }
  pose proof Hnd as Hnd0.
  apply NoDup_app in Hnd as (HndF1 & HdF1 & Hnd).
  rewrite app_assoc in Hnd.
  apply NoDup_app in Hnd as (Hndm & Hdm & HndF2).
  destruct (entity_units_run le m1 props s2)
    as (s3 & props_s & Hunits & Hmp & Hsub & Hall3 & Hnd3 & Hnone & Hframe);
    try done.
  { apply (properties_blocks_stable (st_heap s) _ m); try done.
    intros x Hx. by apply Hsame_bl, Hmid. }
  { apply NoDup_cons. split; [|done]. intros Hin. by apply Hle_bl, Hmid. }
  { rewrite Forall_forall in Hall |- *. intros x Hx.
    assert (x ∈ bl) as Hxbl by (apply Hmid, elem_of_app; by left).
    rewrite Hsame_bl by done. by apply Hall. }
  set (bl_s := F1 ++ props_s ++ ptr_locs [m_properties m] ++ F2).
  assert (forall x, x ∈ bl_s -> x ∈ bl) as Hsub_bl.
  { intros x. unfold bl_s, bl. rewrite !elem_of_app.
    intros [?|[?|?]]; auto. }
  assert (forall x, x ∈ bl -> x ∉ bl_s -> x ∈ props /\ x ∉ props_s)
    as Hdiff.
  { intros x. unfold bl_s, bl. rewrite !elem_of_app.
    intros [?|[?|?]] Hnin; try (exfalso; apply Hnin; by auto).
    split; [done|]. intros ?. apply Hnin. auto. }
  assert (forall x, x ∈ bl_s -> x ∉ props_s ->
            st_heap s3 !! x = st_heap s !! x) as Hkeep.
  { intros x Hx Hnin.
    rewrite Hframe, Hsame_bl; [done|by apply Hsub_bl|].
    intros Hxp. revert Hx. unfold bl_s. rewrite !elem_of_app.
    intros [Hx|[Hx|[Hx|Hx]]]; [|done| |].
    - apply (HdF1 x Hx). apply elem_of_app. by left.
    - apply NoDup_app in Hndm as (_ & Hd & _). by apply (Hd x Hxp).
    - apply (Hdm x); [|done]. apply elem_of_app. by left. }
  destruct (meta_clear_run le m1 bl_s s3) as (s4 & Hclear & Hh4).
  { rewrite Hframe, Hle2; [done|]. intros Hin. apply Hle_bl, Hmid.
    apply elem_of_app. by left. }
  { unfold meta_blocks. rewrite Hmp. cbn [mbind option_bind].
    unfold bl_s, F1, F2. simpl m_uri. simpl m_description.
    simpl m_propoffsets. simpl m_dimensions. simpl m_properties.
    simpl m_relations.
    by rewrite (ptr_locs_cons (m_properties m) (_ :: _)). }
  { apply NoDup_cons. split; [by intros ?%Hsub_bl|].
    unfold bl_s. by apply (NoDup_middle _ props). }
  { apply Forall_forall. intros x Hx.
    destruct (decide (x ∈ props_s)) as [Hin|Hnin].
    - rewrite Forall_forall in Hall3. by apply Hall3.
    - rewrite Hkeep by done. rewrite Forall_forall in Hall.
      by apply Hall, Hsub_bl. }
  assert (dlite_entity_clear le s2 = Done (Ok tt, s4)) as Hec.
  { unfold dlite_entity_clear.
    rewrite (bind_Ok _ _ _ _ _ (load_meta_ok _ _ _ Hle2)).
    by rewrite (bind_Ok _ _ _ _ _ Hunits). }
  rewrite (bind_Ok _ _ _ _ _ Hec).
  assert (st_heap s4 !! le = Some (BMeta zero_meta)) as Hle4.
  { rewrite Hh4, decide_False, decide_True; [done..|].
    by intros ?%Hsub_bl. }
  eexists. split; [by apply (free_ok _ _ _ Hle4)|]. simpl. intros x.
  destruct (decide (x = le)) as [->|Hx].
  { rewrite lookup_delete_eq, decide_True; [done|by left]. }
  rewrite lookup_delete_ne, Hh4 by done.
  rewrite (decide_False (P := x = le)) by done.
  destruct (decide (x ∈ bl)) as [Hin|Hnin].
  - rewrite (decide_True (P := x ∈ le :: bl)) by (by right).
    destruct (decide (x ∈ bl_s)) as [|Hnin_s]; [done|].
    destruct (Hdiff x Hin Hnin_s). by apply Hnone.
  - rewrite (decide_False (P := x ∈ le :: bl)).
    2:{ intros Hin. by apply elem_of_cons in Hin as [?|?]. }
    rewrite (decide_False (P := x ∈ bl_s)) by (by intros ?%Hsub_bl).
    rewrite Hframe.
    2:{ intros Hxp. apply Hnin, Hmid. apply elem_of_app. by left. }
    unfold s2, s1. simpl.
    destruct (decide (x = lmeta)) as [->|Hxm].
    + by rewrite lookup_insert_eq.
    + by rewrite !lookup_insert_ne.
Qed.

(** dlite_entity_decref on the last reference to an entity: when the
    reference count of the entity is at most 1, its schema has another
    reference left, and the blocks the entity points to (uri,
    description, propoffsets, the dimension array, for every property
    its unit, name, dims array, description and struct, the property
    array and the relations) are allocated and pairwise distinct, the
    call returns, releases exactly the entity and these blocks, takes
    one reference from the schema and changes nothing else; the names
    and descriptions of the dimensions, which the entity shares with
    its creator, are among what stays. *)
Theorem entity_decref_releases (le lmeta : loc) (m mm : DLiteMeta)
    (bl : list loc) (s : state) :
  st_heap s !! le = Some (BMeta m) ->
  - INT_MAX - 1 < m_refcount m <= 1 ->
  m_meta m = Some lmeta ->
  st_heap s !! lmeta = Some (BMeta mm) ->
  2 <= m_refcount mm ->
  entity_blocks (st_heap s) m = Some bl ->
  NoDup (le :: lmeta :: bl) ->
  Forall (fun x => is_Some (st_heap s !! x)) bl ->
  exists s',
    dlite_entity_decref (Some le) s = Done (Ok tt, s') /\
    forall x, st_heap s' !! x
              = if decide (x ∈ le :: bl) then None
                else if decide (x = lmeta)
                     then Some (BMeta (set_m_refcount (m_refcount mm - 1) mm))
                     else st_heap s !! x.
Proof. apply entity_decref_post. Qed.

(** dlite_meta_decref on the last reference to a metadata, as
    dlite_instance_free applies it to the entity of an instance: under
    the same conditions the call returns and releases the metadata, its
    uri, description, propoffsets, dimension array, the name, dims
    array, description and struct of every property, the property array
    and the relations, takes one reference from the metadata's own
    metadata and changes nothing else.  The unit strings of the
    properties are not among the released blocks. *)
Theorem meta_decref_releases (le lmeta : loc) (m mm : DLiteMeta)
    (bl : list loc) (s : state) :
  st_heap s !! le = Some (BMeta m) ->
  - INT_MAX - 1 < m_refcount m <= 1 ->
  m_meta m = Some lmeta ->
  st_heap s !! lmeta = Some (BMeta mm) ->
  2 <= m_refcount mm ->
  meta_blocks (st_heap s) m = Some bl ->
  NoDup (le :: lmeta :: bl) ->
  Forall (fun x => is_Some (st_heap s !! x)) bl ->
  exists s',
    dlite_meta_decref (Some le) s = Done (Ok tt, s') /\
    forall x, st_heap s' !! x
              = if decide (x ∈ le :: bl) then None
                else if decide (x = lmeta)
                     then Some (BMeta (set_m_refcount (m_refcount mm - 1) mm))
                     else st_heap s !! x.
Proof. apply meta_decref_post. Qed.

End ownership_facts.


Lemma entity_decref_releases_witness :
  exists s',
    Entity.dlite_entity_decref (Some 48%positive) Examples.ex_entity_state
    = Done (Mem.Ok tt, s') /\
    forall x,
      Mem.st_heap s' !! x
      = if decide (x ∈ [48; 49; 57; 50; 56; 53; 54; 55; 52; 51]%positive)
        then None
        else if decide (x = 1%positive)
             then Some (Mem.BMeta
                          (Entity.set_m_refcount
                             (Mem.m_refcount DestroyExample.ex_schema - 1)
                             DestroyExample.ex_schema))
             else Mem.st_heap Examples.ex_entity_state !! x.
Proof.
  apply (entity_decref_releases 48%positive 1%positive
           DestroyExample.ex_line DestroyExample.ex_schema
           [49; 57; 50; 56; 53; 54; 55; 52; 51]%positive
           Examples.ex_entity_state).
  - by vm_compute.
  - by vm_compute.
  - by vm_compute.
  - by vm_compute.
  - by vm_compute.
  - by vm_compute.
  - apply (bool_decide_unpack _). by vm_compute.
  - apply (bool_decide_unpack _). by vm_compute.
Defined.

Lemma meta_decref_releases_witness :
  exists s',
    Entity.dlite_meta_decref (Some 48%positive) Examples.ex_entity_state
    = Done (Mem.Ok tt, s') /\
    forall x,
      Mem.st_heap s' !! x
      = if decide (x ∈ [48; 49; 57; 50; 53; 54; 55; 52; 51]%positive)
        then None
        else if decide (x = 1%positive)
             then Some (Mem.BMeta
                          (Entity.set_m_refcount
                             (Mem.m_refcount DestroyExample.ex_schema - 1)
                             DestroyExample.ex_schema))
             else Mem.st_heap Examples.ex_entity_state !! x.
Proof.
  apply (meta_decref_releases 48%positive 1%positive
           DestroyExample.ex_line DestroyExample.ex_schema
           [49; 57; 50; 53; 54; 55; 52; 51]%positive
           Examples.ex_entity_state).
  - by vm_compute.
  - by vm_compute.
  - by vm_compute.
  - by vm_compute.
  - by vm_compute.
  - by vm_compute.
  - apply (bool_decide_unpack _). by vm_compute.
  - apply (bool_decide_unpack _). by vm_compute.
Defined.
